(** * Interns-Portal: application eligibility and campaign lifecycle

  A shallow embedding of the route handlers that write to the store
  (apply, status update, cover-letter edit, campaign launch, campaign
  edit, the two sign-ups), of the student internship listing, and of
  the auth guards, the two logins and the detail and list handlers,
  followed by the properties proved about them.

  Conventions.
  - A JavaScript string is its sequence of UTF-16 code units.
  - A [Date] is its time value: milliseconds since the epoch, in [Z].
  - Prisma ids ([TEXT] keys filled in by the client) are opaque keys;
    only equality and freshness are ever used, so they are numbers.
  - A handler runs in a state-and-exception monad over a [World]: the
    store, the clock, and a script of what the environment does at each
    store call (nothing, an outage, a write committed by a concurrent
    request).  The empty script is the isolated, fault-free run.  The
    clock stands still for the length of a request.
  - A handler is taken after the auth guard: it receives the [userId]
    of the verified token, the path parameter and the body.  The body
    of the apply, cover-letter, status, launch and edit requests is
    whatever a client sends: text that is not JSON, [null], or a JSON
    value, with any JSON value under each key.  The sign-ups and the
    logins are taken after [await request.json()], on a body whose
    fields are strings or absent. *)

From Stdlib Require Import ZArith NArith List Bool String Ascii Lia Floats Permutation.
Import ListNotations.

Local Open Scope Z_scope.

(* ================================================================== *)
(** * JavaScript strings and values                                    *)
(* ================================================================== *)

Definition CodeUnit := N.
Definition JsString := list CodeUnit.
Definition DateTime := Z.
Definition Id := N.

Module Js.

(** A literal of the source, as code units. *)
Definition lit (s : string) : JsString :=
  map N_of_ascii (list_ascii_of_string s).

Definition length (s : JsString) : Z := Z.of_nat (List.length s).

Fixpoint eqb (a b : JsString) : bool :=
  match a, b with
  | [], [] => true
  | x :: a', y :: b' => N.eqb x y && eqb a' b'
  | _, _ => false
  end.

(** ECMAScript WhiteSpace and LineTerminator code points, the set
    [String.prototype.trim] strips. *)
Definition isWhiteSpace (c : CodeUnit) : bool :=
  (existsb (N.eqb c)
     [9; 10; 11; 12; 13; 32; 160; 5760; 8232; 8233; 8239; 8287; 12288; 65279]
   || ((8192 <=? c) && (c <=? 8202)))%N.

Fixpoint trimStart (s : JsString) : JsString :=
  match s with
  | [] => []
  | c :: r => if isWhiteSpace c then trimStart r else s
  end.

Definition trimEnd (s : JsString) : JsString := rev (trimStart (rev s)).

Definition trim (s : JsString) : JsString := trimEnd (trimStart s).

(** [Array.prototype.includes] on an array of strings. *)
Definition includes (l : list JsString) (x : JsString) : bool :=
  existsb (eqb x) l.

(** [s.split(',')]: the pieces between the separators; one piece,
    possibly empty, when there is no separator. *)
Fixpoint split (sep : CodeUnit) (s : JsString) : list JsString :=
  match s with
  | [] => [[]]
  | c :: r =>
      if N.eqb c sep then [] :: split sep r
      else match split sep r with
           | piece :: rest => (c :: piece) :: rest
           | [] => [[c]]
           end
  end.

(** The distinct strings of a list, first occurrences kept. *)
Fixpoint distinct (l : list JsString) : list JsString :=
  match l with
  | [] => []
  | x :: r => x :: filter (fun y => negb (eqb x y)) (distinct r)
  end.

(** What a handler finds under a key of a request body: [JsUndefined]
    when the key is absent, and else the JSON value.  An object or an
    array comes with the string it converts to, [[object Object]] for
    an object and the elements joined by commas for an array; an object
    with a [toString] key of its own, whose conversion throws, is left
    out. *)
Inductive JsValue : Type :=
| JsUndefined
| JsNull
| JsBool (b : bool)
| JsNumber (x : float)
| JsStr (s : JsString)
| JsObject (text : JsString).

(** ToBoolean. *)
Definition truthy (v : JsValue) : bool :=
  match v with
  | JsUndefined | JsNull => false
  | JsBool b => b
  | JsNumber x => negb (PrimFloat.eqb x 0%float || PrimFloat.is_nan x)
  | JsStr s => match s with [] => false | _ => true end
  | JsObject _ => true
  end.

(** [l.includes(v)] on an array of strings: only a string is equal to
    one of them. *)
Definition includesValue (l : list JsString) (v : JsValue) : bool :=
  match v with
  | JsStr s => includes l s
  | _ => false
  end.

(** The text of a value that is a string; other values have none, and
    where the handlers read it they have already been turned away. *)
Definition textOf (v : JsValue) : JsString :=
  match v with
  | JsStr s => s
  | _ => []
  end.

(** Truthiness of a field that is a string or absent. *)
Definition truthyStr (v : option JsString) : bool :=
  match v with
  | Some (_ :: _) => true
  | _ => false
  end.

(** Truthiness of a nullable integer column. *)
Definition truthyInt (v : option Z) : bool :=
  match v with
  | Some n => negb (n =? 0)
  | None => false
  end.

End Js.

Definition JsValue := Js.JsValue.

(* ================================================================== *)
(** * The schema (migration.sql)                                       *)
(* ================================================================== *)

Module UserRole.
Inductive t := STUDENT | COMPANY.
End UserRole.

Module InternshipType.
Inductive t := REMOTE | IN_OFFICE | HYBRID.
Definition eqb (a b : t) : bool :=
  match a, b with
  | REMOTE, REMOTE | IN_OFFICE, IN_OFFICE | HYBRID, HYBRID => true
  | _, _ => false
  end.
Definition toString (a : t) : JsString :=
  match a with
  | REMOTE => Js.lit "REMOTE"
  | IN_OFFICE => Js.lit "IN_OFFICE"
  | HYBRID => Js.lit "HYBRID"
  end.
Definition all : list t := [REMOTE; IN_OFFICE; HYBRID].
End InternshipType.

Module ApplicationStatus.
Inductive t := PENDING | SHORTLISTED | ACCEPTED | REJECTED.
Definition eqb (a b : t) : bool :=
  match a, b with
  | PENDING, PENDING | SHORTLISTED, SHORTLISTED
  | ACCEPTED, ACCEPTED | REJECTED, REJECTED => true
  | _, _ => false
  end.
Definition toString (a : t) : JsString :=
  match a with
  | PENDING => Js.lit "PENDING"
  | SHORTLISTED => Js.lit "SHORTLISTED"
  | ACCEPTED => Js.lit "ACCEPTED"
  | REJECTED => Js.lit "REJECTED"
  end.
Definition all : list t := [PENDING; SHORTLISTED; ACCEPTED; REJECTED].
End ApplicationStatus.

Module CampaignStatus.
Inductive t := ACTIVE | PAUSED | COMPLETED | EXPIRED.
Definition eqb (a b : t) : bool :=
  match a, b with
  | ACTIVE, ACTIVE | PAUSED, PAUSED
  | COMPLETED, COMPLETED | EXPIRED, EXPIRED => true
  | _, _ => false
  end.
Definition toString (a : t) : JsString :=
  match a with
  | ACTIVE => Js.lit "ACTIVE"
  | PAUSED => Js.lit "PAUSED"
  | COMPLETED => Js.lit "COMPLETED"
  | EXPIRED => Js.lit "EXPIRED"
  end.
Definition all : list t := [ACTIVE; PAUSED; COMPLETED; EXPIRED].
End CampaignStatus.

Module SubscriptionStatus.
Inductive t := ACTIVE | CANCELED | EXPIRED.
Definition eqb (a b : t) : bool :=
  match a, b with
  | ACTIVE, ACTIVE | CANCELED, CANCELED | EXPIRED, EXPIRED => true
  | _, _ => false
  end.
End SubscriptionStatus.

Module PaymentStatus.
Inductive t := PENDING | COMPLETED | FAILED | REFUNDED.
End PaymentStatus.

Module PlanCycle.
Inductive t := MONTHLY | YEARLY | FREE.
End PlanCycle.

Module User.
Record t := mk {
  id : Id;
  email : JsString;
  password : JsString;
  name : JsString;
  role : UserRole.t;
  createdAt : DateTime;
  updatedAt : DateTime;
  companyId : option Id
}.
End User.

Module Company.
Record t := mk {
  id : Id;
  name : JsString;
  website : option JsString;
  logoUrl : option JsString;
  description : option JsString;
  createdAt : DateTime;
  updatedAt : DateTime
}.
End Company.

Module Campaign.
Record t := mk {
  id : Id;
  title : JsString;
  description : option JsString;
  budget : float;
  status : CampaignStatus.t;
  startDate : DateTime;
  endDate : DateTime;
  maxInternships : Z;
  createdAt : DateTime;
  updatedAt : DateTime;
  companyId : Id
}.
End Campaign.

Module CampaignPayment.
Record t := mk {
  id : Id;
  campaignId : Id;
  amount : float;
  paymentMethod : JsString;
  transactionId : option JsString;
  status : PaymentStatus.t;
  paidAt : option DateTime;
  createdAt : DateTime
}.
End CampaignPayment.

Module Internship.
(** [skills] and [tags] are the names reached through the two
    many-to-many join tables. *)
Record t := mk {
  id : Id;
  title : JsString;
  description : JsString;
  location : JsString;
  type : InternshipType.t;
  stipend : option Z;
  duration : JsString;
  postedAt : DateTime;
  deadline : DateTime;
  isActive : bool;
  companyId : Id;
  campaignId : Id;
  skills : list JsString;
  tags : list JsString
}.
End Internship.

Module Application.
Record t := mk {
  id : Id;
  coverLetter : option JsString;
  status : ApplicationStatus.t;
  createdAt : DateTime;
  updatedAt : DateTime;
  internshipId : Id;
  userId : Id
}.
End Application.

Module StudentSubscription.
Record t := mk {
  id : Id;
  userId : Id;
  planId : Id;
  status : SubscriptionStatus.t;
  startedAt : DateTime;
  endsAt : DateTime;
  createdAt : DateTime;
  updatedAt : DateTime
}.
End StudentSubscription.

Module StudentPlan.
Record t := mk {
  id : Id;
  name : JsString;
  price : float;
  billingCycle : PlanCycle.t;
  features : list JsString;
  maxApplicationsPerMonth : option Z;
  isActive : bool;
  createdAt : DateTime;
  updatedAt : DateTime
}.
End StudentPlan.

(** The relational store: one list of rows per table. *)
Record Store := mkStore {
  users : list User.t;
  companies : list Company.t;
  campaigns : list Campaign.t;
  campaignPayments : list CampaignPayment.t;
  internships : list Internship.t;
  applications : list Application.t;
  studentSubscriptions : list StudentSubscription.t;
  studentPlans : list StudentPlan.t
}.

Definition emptyStore : Store := mkStore [] [] [] [] [] [] [] [].

(* ================================================================== *)
(** * What the handlers take from their platform                       *)
(* ================================================================== *)

(** The JavaScript built-ins the handlers call on untyped request
    values.  [None] stands for [NaN] or for an Invalid Date. *)
Class JsRuntime := {
  (** [parseFloat(v)] *)
  parseFloat : JsValue -> float;
  (** [parseInt(v)] *)
  parseInt : JsValue -> option Z;
  (** [new Date(v)] *)
  dateOf : JsValue -> option DateTime;
  (** [d.setDate(1); d.setHours(0, 0, 0, 0)] in the host's time zone *)
  startOfMonth : DateTime -> DateTime;
  (** [bcrypt.hash(password, 12)] *)
  bcryptHash : JsString -> JsString;
  (** [/^[^\s@]+@[^\s@]+\.[^\s@]+$/.test(s)] *)
  emailRegexTest : JsString -> bool;
  (** [/^https?:\/\/.+\..+$/.test(s)] *)
  urlRegexTest : JsString -> bool;
  (** [jwt.sign(payload, secret, { expiresIn: '7d' })], the payload
      being the user's id, email, role and flag *)
  jwtSign : Id -> JsString -> UserRole.t -> bool -> JsString -> JsString
}.

(** The database's text matching and ordering, as the listing uses
    them.  The order of rows that compare equal is the database's. *)
Class Database := {
  (** [{ contains: needle, mode: 'insensitive' }] *)
  containsInsensitive : JsString -> JsString -> bool;
  (** [{ equals: x, mode: 'insensitive' }] *)
  equalsInsensitive : JsString -> JsString -> bool;
  (** [orderBy: { [sortBy]: sortOrder }]; [None] when Prisma rejects
      the field or the direction *)
  orderInternships :
    JsString -> JsString -> list Internship.t -> option (list Internship.t);
  orderInternships_perm :
    forall k o l l', orderInternships k o l = Some l' -> Permutation l l';
  (** [orderBy: { name: 'asc' }] on a column of text *)
  sortNames : list JsString -> list JsString
}.

(* ================================================================== *)
(** * The world a handler runs in                                      *)
(* ================================================================== *)

(** What can be thrown inside a handler: by a store call, by reading
    the body, or by a method call on a value that has no such method. *)
Inductive Exn : Type :=
| P2002   (* unique constraint failed *)
| P2003   (* foreign key constraint failed *)
| P2025   (* record to update not found *)
| PrismaValidation   (* NaN, Invalid Date or a bad argument *)
| DbUnavailable
| SyntaxError   (* the body is not JSON *)
| TypeError.   (* x.trim is not a function; no key of null can be read *)

(** What the environment does when the handler reaches a store call. *)
Inductive EnvStep : Type :=
| Quiet
| Outage
| Commit (f : Store -> Store).

Record World := mkWorld {
  store : Store;
  clock : DateTime;
  env : list EnvStep
}.

(** The isolated, fault-free world. *)
Definition quiet (s : Store) (now : DateTime) : World := mkWorld s now [].

Definition M (A : Type) : Type := World -> (Exn + A) * World.

Definition ret {A} (a : A) : M A := fun w => (inr a, w).

Definition bind {A B} (m : M A) (k : A -> M B) : M B :=
  fun w =>
    match m w with
    | (inl e, w') => (inl e, w')
    | (inr a, w') => k a w'
    end.

Definition throw {A} (e : Exn) : M A := fun w => (inl e, w).

Declare Scope handler_scope.
Delimit Scope handler_scope with handler.
Notation "x <- m ;; k" := (bind m (fun x => k))
  (at level 100, m at next level, right associativity) : handler_scope.
Notation "m ;;; k" := (bind m (fun _ => k))
  (at level 100, right associativity) : handler_scope.

(** [try { body } catch (error) { return handler(error) }] *)
Definition tryCatch {R} (body : M R) (handler : Exn -> R) : World -> R * World :=
  fun w =>
    match body w with
    | (inl e, w') => (handler e, w')
    | (inr r, w') => (r, w')
    end.

(** [new Date()] *)
Definition newDate : M DateTime := fun w => (inr (clock w), w).

(** The body of a request as the first two statements of a handler
    find it, [const body = await req.json()] and the destructuring of
    [body]: text that is not JSON, on which [req.json()] rejects;
    [null], of which no key can be read; or any other JSON value, with
    what the keys the handler reads hold (every key of a number, a
    string, a boolean or an array is absent). *)
Inductive Body (Fields : Type) : Type :=
| NotJson
| JsonNull
| Json (fields : Fields).

Arguments NotJson {Fields}.
Arguments JsonNull {Fields}.
Arguments Json {Fields} fields.

Definition readBody {Fields} (req : Body Fields) : M Fields :=
  match req with
  | NotJson => throw SyntaxError
  | JsonNull => throw TypeError
  | Json fields => ret fields
  end.

(** A store operation: a query or a write against the store at the
    current time. *)
Definition DbOp (A : Type) : Type := Store -> DateTime -> Exn + (A * Store).

Definition exec {A} (op : DbOp A) : M A :=
  fun w =>
    match op (store w) (clock w) with
    | inl e => (inl e, w)
    | inr (a, s') => (inr a, mkWorld s' (clock w) (env w))
    end.

(** [await prisma.<model>.<op>(...)]: the environment moves first. *)
Definition await {A} (op : DbOp A) : M A :=
  fun w =>
    match env w with
    | [] => exec op w
    | Quiet :: es => exec op (mkWorld (store w) (clock w) es)
    | Outage :: es => (inl DbUnavailable, mkWorld (store w) (clock w) es)
    | Commit f :: es => exec op (mkWorld (f (store w)) (clock w) es)
    end.

(** [await tx.<model>.<op>(...)] inside a transaction: a concurrent
    commit is ordered after the transaction, so it stays in the script. *)
Definition awaitTx {A} (op : DbOp A) : M A :=
  fun w =>
    match env w with
    | Quiet :: es => exec op (mkWorld (store w) (clock w) es)
    | Outage :: es => (inl DbUnavailable, mkWorld (store w) (clock w) es)
    | _ => exec op w
    end.

Definition noop : DbOp unit := fun s _ => inr (tt, s).

(** [await prisma.$transaction(async (tx) => body)]: begin, run the
    body, commit; when anything throws, the writes of the body are
    rolled back and the exception propagates. *)
Definition transaction {A} (body : M A) : M A :=
  fun w =>
    match await noop w with
    | (inl e, w1) => (inl e, w1)
    | (inr _, w1) =>
        match bind body (fun a => bind (awaitTx noop) (fun _ => ret a)) w1 with
        | (inl e, w2) => (inl e, mkWorld (store w1) (clock w2) (env w2))
        | (inr a, w2) => (inr a, w2)
        end
    end.

(** A read-only query. *)
Definition query {A} (f : Store -> A) : DbOp A := fun s _ => inr (f s, s).

(* ================================================================== *)
(** * The Prisma calls the handlers make                               *)
(* ================================================================== *)

Module Prisma.

(** A key no row of the table has: the client-generated [cuid()]. *)
Definition freshId (ids : list Id) : Id := N.succ (fold_right N.max 0%N ids).

Definition withApplications (s : Store) (l : list Application.t) : Store :=
  mkStore (users s) (companies s) (campaigns s) (campaignPayments s)
    (internships s) l (studentSubscriptions s) (studentPlans s).

Definition withCampaigns (s : Store) (l : list Campaign.t) : Store :=
  mkStore (users s) (companies s) l (campaignPayments s)
    (internships s) (applications s) (studentSubscriptions s) (studentPlans s).

Definition withCampaignPayments (s : Store) (l : list CampaignPayment.t) : Store :=
  mkStore (users s) (companies s) (campaigns s) l
    (internships s) (applications s) (studentSubscriptions s) (studentPlans s).

Definition withUsers (s : Store) (l : list User.t) : Store :=
  mkStore l (companies s) (campaigns s) (campaignPayments s)
    (internships s) (applications s) (studentSubscriptions s) (studentPlans s).

Definition withCompanies (s : Store) (l : list Company.t) : Store :=
  mkStore (users s) l (campaigns s) (campaignPayments s)
    (internships s) (applications s) (studentSubscriptions s) (studentPlans s).

Definition userById (s : Store) (uid : Id) : option User.t :=
  find (fun u => N.eqb (User.id u) uid) (users s).

Definition companyById (s : Store) (cid : Id) : option Company.t :=
  find (fun c => N.eqb (Company.id c) cid) (companies s).

Definition campaignById (s : Store) (cid : Id) : option Campaign.t :=
  find (fun c => N.eqb (Campaign.id c) cid) (campaigns s).

Definition internshipById (s : Store) (iid : Id) : option Internship.t :=
  find (fun i => N.eqb (Internship.id i) iid) (internships s).

Definition planById (s : Store) (pid : Id) : option StudentPlan.t :=
  find (fun p => N.eqb (StudentPlan.id p) pid) (studentPlans s).

(** [prisma.user.findUnique({ where: { id }, include: { company: true } })] *)
Definition user_findUnique_company (uid : Id) (s : Store)
  : option (User.t * option Company.t) :=
  match userById s uid with
  | None => None
  | Some u =>
      Some (u, match User.companyId u with
               | None => None
               | Some cid => companyById s cid
               end)
  end.

(** [prisma.internship.findUnique({ where: { id }, include: { company,
    campaign } })].  Both relations are required and guarded by foreign
    keys; a row is returned together with the rows it references. *)
Definition internship_findUnique (iid : Id) (s : Store)
  : option (Internship.t * Company.t * Campaign.t) :=
  match internshipById s iid with
  | None => None
  | Some i =>
      match companyById s (Internship.companyId i),
            campaignById s (Internship.campaignId i) with
      | Some co, Some ca => Some (i, co, ca)
      | _, _ => None
      end
  end.

(** [prisma.application.findUnique({ where: { internshipId_userId } })] *)
Definition application_findUnique (iid uid : Id) (s : Store)
  : option Application.t :=
  find (fun a => N.eqb (Application.internshipId a) iid
                 && N.eqb (Application.userId a) uid) (applications s).

(** Most recently created first, [take: 1]: the first row, in table
    order, among those with the greatest [createdAt]. *)
Fixpoint latest (l : list (StudentSubscription.t * StudentPlan.t))
  : option (StudentSubscription.t * StudentPlan.t) :=
  match l with
  | [] => None
  | x :: r =>
      match latest r with
      | None => Some x
      | Some y =>
          if StudentSubscription.createdAt (fst y)
             >? StudentSubscription.createdAt (fst x)
          then Some y else Some x
      end
  end.

(** The subscriptions of [uid] with [status: 'ACTIVE'] and
    [endsAt: { gte: now }], each with its plan. *)
Definition activeSubscriptions (uid : Id) (now : DateTime) (s : Store)
  : list (StudentSubscription.t * StudentPlan.t) :=
  flat_map
    (fun sub =>
       if N.eqb (StudentSubscription.userId sub) uid
          && SubscriptionStatus.eqb (StudentSubscription.status sub)
               SubscriptionStatus.ACTIVE
          && (StudentSubscription.endsAt sub >=? now)
       then match planById s (StudentSubscription.planId sub) with
            | Some p => [(sub, p)]
            | None => []
            end
       else [])
    (studentSubscriptions s).

(** [prisma.user.findUnique({ where: { id }, include: { subscriptions:
    { where: { status: 'ACTIVE', endsAt: { gte: now } }, include:
    { plan: true }, orderBy: { createdAt: 'desc' }, take: 1 } } })] *)
Definition user_findUnique_subscriptions (uid : Id) (now : DateTime) (s : Store)
  : option (User.t * list (StudentSubscription.t * StudentPlan.t)) :=
  match userById s uid with
  | None => None
  | Some u =>
      Some (u, match latest (activeSubscriptions uid now s) with
               | Some x => [x]
               | None => []
               end)
  end.

(** [prisma.application.count({ where: { userId, createdAt: { gte } } })] *)
Definition application_count (uid : Id) (since : DateTime) (s : Store) : Z :=
  Z.of_nat (List.length
    (filter (fun a => N.eqb (Application.userId a) uid
                      && (Application.createdAt a >=? since))
            (applications s))).

(** [prisma.application.create({ data: { internshipId, userId,
    coverLetter, status } })]: the unique index on
    [(internshipId, userId)] and both foreign keys are enforced;
    [createdAt] defaults to now and [updatedAt] is stamped. *)
Definition application_create
  (iid uid : Id) (coverLetter : JsString) (status : ApplicationStatus.t)
  : DbOp Application.t :=
  fun s now =>
    match application_findUnique iid uid s with
    | Some _ => inl P2002
    | None =>
        match internshipById s iid, userById s uid with
        | Some _, Some _ =>
            let a := Application.mk
                       (freshId (map Application.id (applications s)))
                       (Some coverLetter) status now now iid uid in
            inr (a, withApplications s (applications s ++ [a]))
        | _, _ => inl P2003
        end
    end.

(** [prisma.application.findFirst({ where: { id, userId } })] *)
Definition application_findFirst_ofUser (aid uid : Id) (s : Store)
  : option Application.t :=
  find (fun a => N.eqb (Application.id a) aid
                 && N.eqb (Application.userId a) uid) (applications s).

(** [prisma.application.findFirst({ where: { id, internship:
    { company: { id: companyId } } } })] *)
Definition application_findFirst_ofCompany (aid cid : Id) (s : Store)
  : option Application.t :=
  find (fun a =>
          N.eqb (Application.id a) aid
          && existsb (fun i => N.eqb (Internship.id i) (Application.internshipId a)
                               && N.eqb (Internship.companyId i) cid
                               && existsb (fun c => N.eqb (Company.id c) cid)
                                    (companies s))
               (internships s))
       (applications s).

(** The [data] of an application update: the fields it sets. *)
Record ApplicationUpdateInput := mkApplicationUpdateInput {
  set_status : option ApplicationStatus.t;
  set_coverLetter : option JsString;
  set_updatedAt : option DateTime
}.

Definition orElse {A} (o : option A) (d : A) : A :=
  match o with Some a => a | None => d end.

(** Prisma checks the arguments of a call against the schema before it
    runs the query.  The value given for a [String] column must be a
    string. *)
Definition stringArg (v : JsValue) : option JsString :=
  match v with
  | Js.JsStr text => Some text
  | _ => None
  end.

(** The value given for a [String?] column must be a string or [null];
    a key that is left out is [null]. *)
Definition nullableStringArg (v : JsValue) : option (option JsString) :=
  match v with
  | Js.JsStr text => Some (Some text)
  | Js.JsNull | Js.JsUndefined => Some None
  | _ => None
  end.

(** A key of an update's [data] whose value is [undefined] is no key. *)
Definition given (field : option JsValue) : option JsValue :=
  match field with
  | Some Js.JsUndefined => None
  | _ => field
  end.

(** What a key of an update's [data] sets its column to: [Some None]
    when the key is absent, [None] when its value is rejected. *)
Definition checkedField {A} (check : JsValue -> option A)
  (field : option JsValue) : option (option A) :=
  match given field with
  | None => Some None
  | Some v => option_map Some (check v)
  end.

(** [prisma.application.update({ where: { id }, data })]: the named
    fields are overwritten; [updatedAt] is stamped with the current
    time unless [data] carries one.  Both handlers that update an
    application set a field. *)
Definition application_update (aid : Id) (data : ApplicationUpdateInput)
  : DbOp Application.t :=
  fun s now =>
    match find (fun a => N.eqb (Application.id a) aid) (applications s) with
    | None => inl P2025
    | Some old =>
        let new := Application.mk (Application.id old)
                     (match set_coverLetter data with
                      | Some c => Some c
                      | None => Application.coverLetter old
                      end)
                     (orElse (set_status data) (Application.status old))
                     (Application.createdAt old)
                     (orElse (set_updatedAt data) now)
                     (Application.internshipId old) (Application.userId old) in
        inr (new,
             withApplications s
               (map (fun a => if N.eqb (Application.id a) aid then new else a)
                    (applications s)))
    end.

(** [prisma.campaign.findFirst({ where: { id, companyId } })] *)
Definition campaign_findFirst (cid companyId : Id) (s : Store)
  : option Campaign.t :=
  find (fun c => N.eqb (Campaign.id c) cid
                 && N.eqb (Campaign.companyId c) companyId) (campaigns s).

(** The [updateData] of a campaign edit: the keys it has.  [title]
    and [description] hold the values of the request as they came,
    [endDate] the [Date] made of the request's, [None] for an Invalid
    Date. *)
Record CampaignUpdateInput := mkCampaignUpdateInput {
  set_title : option JsValue;
  set_description : option JsValue;
  set_endDate : option (option DateTime);
  set_campaignStatus : option CampaignStatus.t
}.

(** [data] is [{}]: it sets no field. *)
Definition noCampaignField (data : CampaignUpdateInput) : bool :=
  match given (set_title data), given (set_description data),
        set_endDate data, set_campaignStatus data with
  | None, None, None, None => true
  | _, _, _, _ => false
  end.

(** [prisma.campaign.update({ where: { id }, data })]: an Invalid
    Date, a title that is not a string and a description that is
    neither a string nor [null] are rejected before anything is
    written; [updatedAt] is stamped when [data] sets a field, and with
    an empty [data] the row is returned as it is. *)
Definition campaign_update (cid : Id) (data : CampaignUpdateInput)
  : DbOp Campaign.t :=
  fun s now =>
    match set_endDate data,
          checkedField stringArg (set_title data),
          checkedField nullableStringArg (set_description data) with
    | Some None, _, _ | _, None, _ | _, _, None => inl PrismaValidation
    | endDate, Some title, Some description =>
        match campaignById s cid with
        | None => inl P2025
        | Some old =>
            let new := Campaign.mk (Campaign.id old)
                         (orElse title (Campaign.title old))
                         (orElse description (Campaign.description old))
                         (Campaign.budget old)
                         (orElse (set_campaignStatus data) (Campaign.status old))
                         (Campaign.startDate old)
                         (match endDate with
                          | Some (Some d) => d
                          | _ => Campaign.endDate old
                          end)
                         (Campaign.maxInternships old)
                         (Campaign.createdAt old)
                         (if noCampaignField data then Campaign.updatedAt old
                          else now)
                         (Campaign.companyId old) in
            inr (new,
                 withCampaigns s
                   (map (fun c => if N.eqb (Campaign.id c) cid then new else c)
                        (campaigns s)))
        end
    end.

Definition int32 (n : Z) : bool := (-2147483648 <=? n) && (n <=? 2147483647).

(** [tx.campaign.create({ data: { title, description, budget, endDate,
    maxInternships, companyId, status } })]: a title that is not a
    string, a description that is neither a string nor [null], [NaN]
    for the integer column, a value outside 32 bits and an Invalid Date
    are rejected, the company must exist; [startDate] and [createdAt]
    default to now. *)
Definition campaign_create
  (title description : JsValue) (budget : float)
  (endDate : option DateTime) (maxInternships : option Z) (companyId : Id)
  (status : CampaignStatus.t) : DbOp Campaign.t :=
  fun s now =>
    match stringArg title, nullableStringArg description,
          endDate, maxInternships with
    | Some title, Some description, Some d, Some n =>
        if int32 n then
          match companyById s companyId with
          | None => inl P2003
          | Some _ =>
              let c := Campaign.mk (freshId (map Campaign.id (campaigns s)))
                         title description budget status now d n now now
                         companyId in
              inr (c, withCampaigns s (campaigns s ++ [c]))
          end
        else inl PrismaValidation
    | _, _, _, _ => inl PrismaValidation
    end.

(** [tx.campaignPayment.create({ data: { campaignId, amount,
    paymentMethod, transactionId, status } })]: a payment method that
    is not a string and a transaction id that is neither a string nor
    [null] are rejected; [campaignId] is unique and references a
    campaign. *)
Definition campaignPayment_create
  (campaignId : Id) (amount : float) (paymentMethod transactionId : JsValue)
  (status : PaymentStatus.t) : DbOp CampaignPayment.t :=
  fun s now =>
    match stringArg paymentMethod, nullableStringArg transactionId with
    | Some paymentMethod, Some transactionId =>
        if existsb (fun p => N.eqb (CampaignPayment.campaignId p) campaignId)
             (campaignPayments s)
        then inl P2002
        else
          match campaignById s campaignId with
          | None => inl P2003
          | Some _ =>
              let p := CampaignPayment.mk
                         (freshId (map CampaignPayment.id (campaignPayments s)))
                         campaignId amount paymentMethod transactionId status
                         None now in
              inr (p, withCampaignPayments s (campaignPayments s ++ [p]))
          end
    | _, _ => inl PrismaValidation
    end.

(** [prisma.user.findUnique({ where: { email } })] *)
Definition user_findUnique_email (email : JsString) (s : Store) : option User.t :=
  find (fun u => Js.eqb (User.email u) email) (users s).

(** [prisma.user.create({ data: { name, email, password, role,
    companyId } })]: [email] is unique, [companyId] references a
    company. *)
Definition user_create
  (name email password : JsString) (role : UserRole.t) (companyId : option Id)
  : DbOp User.t :=
  fun s now =>
    match user_findUnique_email email s with
    | Some _ => inl P2002
    | None =>
        let u := User.mk (freshId (map User.id (users s))) email password name
                   role now now companyId in
        match companyId with
        | None => inr (u, withUsers s (users s ++ [u]))
        | Some cid =>
            match companyById s cid with
            | Some _ => inr (u, withUsers s (users s ++ [u]))
            | None => inl P2003
            end
        end
    end.

(** [tx.company.create({ data: { name, website, description, logoUrl } })] *)
Definition company_create
  (name : JsString) (website description logoUrl : option JsString)
  : DbOp Company.t :=
  fun s now =>
    let c := Company.mk (freshId (map Company.id (companies s))) name website
               logoUrl description now now in
    inr (c, withCompanies s (companies s ++ [c])).

End Prisma.

(* ================================================================== *)
(** * The error taxonomy of the specification                          *)
(* ================================================================== *)

Inductive Outcome : Type :=
| Success
| ValidationError
| NotFound
| Closed
| CampaignInactive
| DeadlinePassed
| DuplicateApplication
| SubscriptionRequired
| QuotaExceeded
| InvalidTransition
| Forbidden
| Conflict
| InternalError.

(* ================================================================== *)
(** * POST /student/internships/{internshipId}: applyToInternship      *)
(* ================================================================== *)

(** One constructor per [return NextResponse.json(...)] of the handler. *)
Inductive ApplyResponse : Type :=
| ApplyTooShort
| ApplyTooLong
| ApplyInternshipNotFound
| ApplyNotAccepting
| ApplyCampaignNotActive
| ApplyDeadlinePassed
| ApplyAlreadyApplied
| ApplySubscriptionRequired
| ApplyLimitReached (currentPlan : JsString) (applicationsUsed applicationLimit : Z)
| ApplySubmitted (application : Application.t)
| ApplyFailed.

Definition applyHttpStatus (r : ApplyResponse) : Z :=
  match r with
  | ApplyTooShort | ApplyTooLong => 400
  | ApplyInternshipNotFound => 404
  | ApplyNotAccepting | ApplyCampaignNotActive | ApplyDeadlinePassed
  | ApplyAlreadyApplied => 400
  | ApplySubscriptionRequired | ApplyLimitReached _ _ _ => 403
  | ApplySubmitted _ => 200
  | ApplyFailed => 500
  end.

Definition applyMessage (r : ApplyResponse) : string :=
  match r with
  | ApplyTooShort => "Cover letter must be at least 50 characters long"
  | ApplyTooLong => "Cover letter must be less than 2000 characters"
  | ApplyInternshipNotFound => "Internship not found"
  | ApplyNotAccepting => "This internship is no longer accepting applications"
  | ApplyCampaignNotActive => "This internship campaign is no longer active"
  | ApplyDeadlinePassed => "Application deadline has passed"
  | ApplyAlreadyApplied => "You have already applied to this internship"
  | ApplySubscriptionRequired =>
      "Active subscription required to apply for internships"
  | ApplyLimitReached _ _ _ => "You have reached your monthly application limit"
  | ApplySubmitted _ => "Application submitted successfully!"
  | ApplyFailed => "Failed to submit application"
  end.

Definition applyOutcome (r : ApplyResponse) : Outcome :=
  match r with
  | ApplyTooShort | ApplyTooLong => ValidationError
  | ApplyInternshipNotFound => NotFound
  | ApplyNotAccepting => Closed
  | ApplyCampaignNotActive => CampaignInactive
  | ApplyDeadlinePassed => DeadlinePassed
  | ApplyAlreadyApplied => DuplicateApplication
  | ApplySubscriptionRequired => SubscriptionRequired
  | ApplyLimitReached _ _ _ => QuotaExceeded
  | ApplySubmitted _ => Success
  | ApplyFailed => InternalError
  end.

(* ================================================================== *)
(** * Request bodies and query strings                                 *)
(* ================================================================== *)

(** The body of a campaign launch: what the handler finds under each
    of the seven keys. *)
Module LaunchBody.
Record t := mk {
  title : JsValue;
  description : JsValue;
  budget : JsValue;
  endDate : JsValue;
  maxInternships : JsValue;
  paymentMethod : JsValue;
  transactionId : JsValue
}.
End LaunchBody.

(** The body of a campaign edit. *)
Module EditBody.
Record t := mk {
  title : JsValue;
  description : JsValue;
  endDate : JsValue;
  status : JsValue
}.
End EditBody.

(** The query string of the listing: [searchParams.get(name)]. *)
Module ListQuery.
Record t := mk {
  type : option JsString;
  location : option JsString;
  minStipend : option JsString;
  maxStipend : option JsString;
  skills : option JsString;
  tags : option JsString;
  search : option JsString;
  page : option JsString;
  limit : option JsString;
  sortBy : option JsString;
  sortOrder : option JsString
}.
End ListQuery.

Module StudentSignupBody.
Record t := mk {
  name : option JsString;
  email : option JsString;
  password : option JsString
}.
End StudentSignupBody.

Module CompanySignupBody.
Record t := mk {
  name : option JsString;
  email : option JsString;
  password : option JsString;
  companyName : option JsString;
  companyWebsite : option JsString;
  companyDescription : option JsString;
  companyLogo : option JsString
}.
End CompanySignupBody.

Section Handlers.

Context {rt : JsRuntime} {db : Database}.

Local Open Scope handler_scope.

(** [coverLetter.trim()]: [trim] is a method of strings.  No other JSON
    value has it, and the call throws a TypeError. *)
Definition callTrim (coverLetter : JsValue) : M JsString :=
  match coverLetter with
  | Js.JsStr text => ret (Js.trim text)
  | _ => throw TypeError
  end.

(** [!coverLetter || coverLetter.trim().length < 50]: a falsy value
    does not reach [trim]. *)
Definition coverLetterTooShort (coverLetter : JsValue) : M bool :=
  if negb (Js.truthy coverLetter) then ret true
  else
    trimmed <- callTrim coverLetter ;;
    ret (Js.length trimmed <? 50).

(** The monthly limit block of the handler: [Some r] when it returns
    the response [r], [None] when control falls through to the create. *)
Definition monthlyLimit (userId : Id) (activePlan : StudentPlan.t)
  : M (option ApplyResponse) :=
  if Js.truthyInt (StudentPlan.maxApplicationsPerMonth activePlan) then
    now <- newDate ;;
    applicationsThisMonth <-
      await (query (Prisma.application_count userId (startOfMonth now))) ;;
    match StudentPlan.maxApplicationsPerMonth activePlan with
    | Some limit =>
        if applicationsThisMonth >=? limit
        then ret (Some (ApplyLimitReached (StudentPlan.name activePlan)
                          applicationsThisMonth limit))
        else ret None
    | None => ret None
    end
  else ret None.

Definition applyToInternship
  (userId internshipId : Id) (req : Body JsValue)
  : World -> ApplyResponse * World :=
  tryCatch
    (coverLetter <- readBody req ;;
     tooShort <- coverLetterTooShort coverLetter ;;
     if tooShort then ret ApplyTooShort
     else
       if Js.length (Js.textOf coverLetter) >? 2000 then ret ApplyTooLong
       else
         found <- await (query (Prisma.internship_findUnique internshipId)) ;;
         match found with
         | None => ret ApplyInternshipNotFound
         | Some (internship, _, campaign) =>
             if negb (Internship.isActive internship) then ret ApplyNotAccepting
             else if negb (CampaignStatus.eqb (Campaign.status campaign)
                             CampaignStatus.ACTIVE)
             then ret ApplyCampaignNotActive
             else
               now <- newDate ;;
               if now >? Internship.deadline internship
               then ret ApplyDeadlinePassed
               else
                 existingApplication <-
                   await (query (Prisma.application_findUnique
                                   internshipId userId)) ;;
                 match existingApplication with
                 | Some _ => ret ApplyAlreadyApplied
                 | None =>
                     now' <- newDate ;;
                     user <- await (query (Prisma.user_findUnique_subscriptions
                                             userId now')) ;;
                     match user with
                     | Some (_, (_, activePlan) :: _) =>
                         stop <- monthlyLimit userId activePlan ;;
                         match stop with
                         | Some response => ret response
                         | None =>
                             trimmed <- callTrim coverLetter ;;
                             application <-
                               await (Prisma.application_create internshipId
                                        userId trimmed
                                        ApplicationStatus.PENDING) ;;
                             ret (ApplySubmitted application)
                         end
                     | _ => ret ApplySubscriptionRequired
                     end
                 end
         end)
    (fun _ => ApplyFailed).

(* ------------------------------------------------------------------ *)
(** ** POST /company/applications/{applicationId}: updateApplicationStatus *)
(* ------------------------------------------------------------------ *)

Inductive StatusResponse : Type :=
| StatusInvalid
| StatusCompanyNotFound
| StatusApplicationNotFound
| StatusCannotChangeAccepted
| StatusUpdated (application : Application.t)
| StatusFailed.

Definition statusHttpStatus (r : StatusResponse) : Z :=
  match r with
  | StatusInvalid => 400
  | StatusCompanyNotFound | StatusApplicationNotFound => 404
  | StatusCannotChangeAccepted => 400
  | StatusUpdated _ => 200
  | StatusFailed => 500
  end.

Definition statusMessage (r : StatusResponse) : string :=
  match r with
  | StatusInvalid => "Invalid status. Must be one of: PENDING, SHORTLISTED, ACCEPTED, REJECTED"
  | StatusCompanyNotFound => "Company not found"
  | StatusApplicationNotFound => "Application not found or access denied"
  | StatusCannotChangeAccepted => "Cannot change status of accepted application"
  | StatusUpdated _ => "Application status updated"
  | StatusFailed => "Failed to update application status"
  end.

Definition statusOutcome (r : StatusResponse) : Outcome :=
  match r with
  | StatusInvalid => ValidationError
  | StatusCompanyNotFound | StatusApplicationNotFound => NotFound
  | StatusCannotChangeAccepted => InvalidTransition
  | StatusUpdated _ => Success
  | StatusFailed => InternalError
  end.

(** [const validStatuses = ['PENDING', 'SHORTLISTED', 'ACCEPTED', 'REJECTED']] *)
Definition validStatuses : list JsString :=
  [Js.lit "PENDING"; Js.lit "SHORTLISTED"; Js.lit "ACCEPTED"; Js.lit "REJECTED"].

(** The enum value Prisma reads from a status string. *)
Definition applicationStatusOf (s : JsString) : option ApplicationStatus.t :=
  find (fun a => Js.eqb s (ApplicationStatus.toString a)) ApplicationStatus.all.

Definition updateApplicationStatus
  (userId applicationId : Id) (req : Body JsValue)
  : World -> StatusResponse * World :=
  tryCatch
    (status <- readBody req ;;
     if negb (Js.truthy status)
        || negb (Js.includesValue validStatuses status)
     then ret StatusInvalid
     else
       user <- await (query (Prisma.user_findUnique_company userId)) ;;
       match user with
       | Some (_, Some company) =>
           found <- await (query (Prisma.application_findFirst_ofCompany
                                    applicationId (Company.id company))) ;;
           match found with
           | None => ret StatusApplicationNotFound
           | Some application =>
               match applicationStatusOf (Js.textOf status) with
               | None => throw PrismaValidation
               | Some target =>
                   if ApplicationStatus.eqb (Application.status application)
                        ApplicationStatus.ACCEPTED
                      && negb (ApplicationStatus.eqb target
                                 ApplicationStatus.ACCEPTED)
                   then ret StatusCannotChangeAccepted
                   else
                     now <- newDate ;;
                     updatedApplication <-
                       await (Prisma.application_update applicationId
                                (Prisma.mkApplicationUpdateInput
                                   (Some target) None (Some now))) ;;
                     ret (StatusUpdated updatedApplication)
               end
           end
       | _ => ret StatusCompanyNotFound
       end)
    (fun _ => StatusFailed).

(* ------------------------------------------------------------------ *)
(** ** PUT /student/applications/{applicationId}: updateApplication    *)
(* ------------------------------------------------------------------ *)

Inductive EditResponse : Type :=
| EditTooShort
| EditApplicationNotFound
| EditNotPending
| EditUpdated (application : Application.t)
| EditFailed.

Definition editHttpStatus (r : EditResponse) : Z :=
  match r with
  | EditTooShort => 400
  | EditApplicationNotFound => 404
  | EditNotPending => 403
  | EditUpdated _ => 200
  | EditFailed => 500
  end.

Definition editMessage (r : EditResponse) : string :=
  match r with
  | EditTooShort => "Cover letter must be at least 50 characters long"
  | EditApplicationNotFound => "Application not found"
  | EditNotPending => "Only applications with PENDING status can be updated"
  | EditUpdated _ => "Application updated successfully"
  | EditFailed => "Failed to update application"
  end.

Definition editOutcome (r : EditResponse) : Outcome :=
  match r with
  | EditTooShort => ValidationError
  | EditApplicationNotFound => NotFound
  | EditNotPending => Forbidden
  | EditUpdated _ => Success
  | EditFailed => InternalError
  end.

Definition updateApplication
  (userId applicationId : Id) (req : Body JsValue)
  : World -> EditResponse * World :=
  tryCatch
    (coverLetter <- readBody req ;;
     tooShort <- coverLetterTooShort coverLetter ;;
     if tooShort then ret EditTooShort
     else
       found <- await (query (Prisma.application_findFirst_ofUser
                                applicationId userId)) ;;
       match found with
       | None => ret EditApplicationNotFound
       | Some application =>
           if negb (ApplicationStatus.eqb (Application.status application)
                      ApplicationStatus.PENDING)
           then ret EditNotPending
           else
             trimmed <- callTrim coverLetter ;;
             updatedApplication <-
               await (Prisma.application_update applicationId
                        (Prisma.mkApplicationUpdateInput None (Some trimmed)
                           None)) ;;
             ret (EditUpdated updatedApplication)
       end)
    (fun _ => EditFailed).

(* ------------------------------------------------------------------ *)
(** ** POST /company/campaigns: launchCampaign                         *)
(* ------------------------------------------------------------------ *)

Inductive LaunchResponse : Type :=
| LaunchMissingFields
| LaunchCompanyNotFound
| LaunchLaunched (campaign : Campaign.t)
| LaunchFailed.


Definition launchMessage (r : LaunchResponse) : string :=
  match r with
  | LaunchMissingFields => "Missing required fields"
  | LaunchCompanyNotFound => "Company not found"
  | LaunchLaunched _ => "Campaign launched successfully"
  | LaunchFailed => "Failed to launch campaign"
  end.

Definition launchOutcome (r : LaunchResponse) : Outcome :=
  match r with
  | LaunchMissingFields => ValidationError
  | LaunchCompanyNotFound => NotFound
  | LaunchLaunched _ => Success
  | LaunchFailed => InternalError
  end.

(** [transactionId ? 'COMPLETED' : 'PENDING'] *)
Definition paymentStatusFor (transactionId : JsValue) : PaymentStatus.t :=
  if Js.truthy transactionId then PaymentStatus.COMPLETED
  else PaymentStatus.PENDING.

Definition launchCampaign (userId : Id) (req : Body LaunchBody.t)
  : World -> LaunchResponse * World :=
  tryCatch
    (body <- readBody req ;;
     if negb (Js.truthy (LaunchBody.title body))
        || negb (Js.truthy (LaunchBody.budget body))
        || negb (Js.truthy (LaunchBody.endDate body))
        || negb (Js.truthy (LaunchBody.maxInternships body))
        || negb (Js.truthy (LaunchBody.paymentMethod body))
     then ret LaunchMissingFields
     else
       user <- await (query (Prisma.user_findUnique_company userId)) ;;
       match user with
       | Some (_, Some company) =>
           campaign <-
             transaction
               (newCampaign <-
                  awaitTx (Prisma.campaign_create
                             (LaunchBody.title body)
                             (LaunchBody.description body)
                             (parseFloat (LaunchBody.budget body))
                             (dateOf (LaunchBody.endDate body))
                             (parseInt (LaunchBody.maxInternships body))
                             (Company.id company)
                             CampaignStatus.ACTIVE) ;;
                awaitTx (Prisma.campaignPayment_create
                           (Campaign.id newCampaign)
                           (parseFloat (LaunchBody.budget body))
                           (LaunchBody.paymentMethod body)
                           (LaunchBody.transactionId body)
                           (paymentStatusFor (LaunchBody.transactionId body))) ;;;
                ret newCampaign) ;;
           ret (LaunchLaunched campaign)
       | _ => ret LaunchCompanyNotFound
       end)
    (fun _ => LaunchFailed).

(* ------------------------------------------------------------------ *)
(** ** PUT /company/campaigns/{campaignId}: editCampaign               *)
(* ------------------------------------------------------------------ *)

Inductive EditCampaignResponse : Type :=
| EditCampaignCompanyNotFound
| EditCampaignNotFound
| EditCampaignUpdated (campaign : Campaign.t)
| EditCampaignFailed.

Definition editCampaignHttpStatus (r : EditCampaignResponse) : Z :=
  match r with
  | EditCampaignCompanyNotFound | EditCampaignNotFound => 404
  | EditCampaignUpdated _ => 200
  | EditCampaignFailed => 500
  end.

Definition editCampaignMessage (r : EditCampaignResponse) : string :=
  match r with
  | EditCampaignCompanyNotFound => "Company not found"
  | EditCampaignNotFound => "Campaign not found"
  | EditCampaignUpdated _ => "Campaign updated successfully"
  | EditCampaignFailed => "Failed to update campaign"
  end.

(** The enum value Prisma reads from a status string. *)
Definition campaignStatusOf (s : JsString) : option CampaignStatus.t :=
  find (fun a => Js.eqb s (CampaignStatus.toString a)) CampaignStatus.all.

(** [const updateData: any = {}] and the four conditional assignments
    that follow it. *)
Definition updateData (body : EditBody.t) : Prisma.CampaignUpdateInput :=
  Prisma.mkCampaignUpdateInput
    (if Js.truthy (EditBody.title body) then Some (EditBody.title body)
     else None)
    (match EditBody.description body with
     | Js.JsUndefined => None
     | description => Some description
     end)
    (if Js.truthy (EditBody.endDate body)
     then Some (dateOf (EditBody.endDate body)) else None)
    (if Js.truthy (EditBody.status body)
        && Js.includesValue
             [Js.lit "ACTIVE"; Js.lit "PAUSED"; Js.lit "COMPLETED"]
             (EditBody.status body)
     then campaignStatusOf (Js.textOf (EditBody.status body))
     else None).

Definition editCampaign (userId campaignId : Id) (req : Body EditBody.t)
  : World -> EditCampaignResponse * World :=
  tryCatch
    (body <- readBody req ;;
     user <- await (query (Prisma.user_findUnique_company userId)) ;;
     match user with
     | Some (_, Some company) =>
         existingCampaign <-
           await (query (Prisma.campaign_findFirst campaignId
                           (Company.id company))) ;;
         match existingCampaign with
         | None => ret EditCampaignNotFound
         | Some _ =>
             updatedCampaign <-
               await (Prisma.campaign_update campaignId (updateData body)) ;;
             ret (EditCampaignUpdated updatedCampaign)
         end
     | _ => ret EditCampaignCompanyNotFound
     end)
    (fun _ => EditCampaignFailed).

(* ------------------------------------------------------------------ *)
(** ** GET /student/internships: getInternships                        *)
(* ------------------------------------------------------------------ *)

(** One entry of [formattedInternships]. *)
Record ListItem := mkListItem {
  item : Internship.t;
  applicationCount : Z;
  hasApplied : bool
}.

Inductive ListResponse : Type :=
| Listed (items : list ListItem) (currentPage : Z) (totalPages : option Z)
    (totalInternships : Z) (hasNext hasPrev : bool)
    (skillOptions tagOptions locationOptions : list JsString)
| ListFailed.

(** [searchParams.get(name) || fallback] *)
Definition orDefault (v : option JsString) (fallback : JsString) : JsString :=
  if Js.truthyStr v then Prisma.orElse v [] else fallback.

(** [whereClause.stipend.gte] and [.lte]: [None] when the bound is not
    set, [Some None] when it is set to [NaN]. *)
Definition stipendBound (v : option JsString) : option (option Z) :=
  if Js.truthyStr v then Some (parseInt (Js.JsStr (Prisma.orElse v [])))
  else None.

Definition boundHolds (cmp : Z -> Z -> bool) (bound : option (option Z))
  (stipend : option Z) : bool :=
  match bound with
  | None => true
  | Some None => false
  | Some (Some b) => match stipend with Some v => cmp v b | None => false end
  end.

(** Whether Prisma accepts the [whereClause] built from the query. *)
Definition whereClauseValid (q : ListQuery.t) : bool :=
  match stipendBound (ListQuery.minStipend q), stipendBound (ListQuery.maxStipend q) with
  | Some None, _ | _, Some None => false
  | _, _ => true
  end.

(** [whereClause], as a predicate on an internship joined with its
    company and campaign: the three fixed conditions, then one conjunct
    per filter present in the query. *)
Definition whereClause (q : ListQuery.t) (now : DateTime)
  (row : Internship.t * Company.t * Campaign.t) : bool :=
  let '(i, co, ca) := row in
  Internship.isActive i
  && (Internship.deadline i >=? now)
  && CampaignStatus.eqb (Campaign.status ca) CampaignStatus.ACTIVE
  && (if Js.truthyStr (ListQuery.type q)
         && Js.includes (map InternshipType.toString InternshipType.all)
              (Prisma.orElse (ListQuery.type q) [])
      then Js.eqb (InternshipType.toString (Internship.type i))
             (Prisma.orElse (ListQuery.type q) [])
      else true)
  && (if Js.truthyStr (ListQuery.location q)
      then containsInsensitive (Internship.location i)
             (Prisma.orElse (ListQuery.location q) [])
      else true)
  && boundHolds Z.geb (stipendBound (ListQuery.minStipend q)) (Internship.stipend i)
  && boundHolds Z.leb (stipendBound (ListQuery.maxStipend q)) (Internship.stipend i)
  && match ListQuery.skills q with
     | Some names =>
         existsb (fun n => existsb (equalsInsensitive n) (Js.split 44%N names))
           (Internship.skills i)
     | None => true
     end
  && match ListQuery.tags q with
     | Some names =>
         existsb (fun n => existsb (equalsInsensitive n) (Js.split 44%N names))
           (Internship.tags i)
     | None => true
     end
  && (if Js.truthyStr (ListQuery.search q)
      then let needle := Prisma.orElse (ListQuery.search q) [] in
           containsInsensitive (Internship.title i) needle
           || containsInsensitive (Internship.description i) needle
           || containsInsensitive (Company.name co) needle
      else true).

(** The internships with the rows their foreign keys reference. *)
Definition joined (s : Store) : list (Internship.t * Company.t * Campaign.t) :=
  flat_map
    (fun i =>
       match Prisma.companyById s (Internship.companyId i),
             Prisma.campaignById s (Internship.campaignId i) with
       | Some co, Some ca => [(i, co, ca)]
       | _, _ => []
       end)
    (internships s).

Definition matching (q : ListQuery.t) (now : DateTime) (s : Store)
  : list Internship.t :=
  map (fun row => fst (fst row)) (filter (whereClause q now) (joined s)).

(** [prisma.internship.count({ where: whereClause })] *)
Definition internship_count (q : ListQuery.t) : DbOp Z :=
  fun s now =>
    if whereClauseValid q
    then inr (Z.of_nat (List.length (matching q now s)), s)
    else inl PrismaValidation.

(** [skip] and [take]: a [NaN] or a negative [skip] is rejected; a
    negative [take] pages backwards from the end. *)
Definition paginate {A} (skip take : option Z) (l : list A) : option (list A) :=
  match skip, take with
  | Some sk, Some tk =>
      if sk <? 0 then None
      else if 0 <=? tk
      then Some (firstn (Z.to_nat tk) (skipn (Z.to_nat sk) l))
      else Some (rev (firstn (Z.to_nat (- tk)) (skipn (Z.to_nat sk) (rev l))))
  | _, _ => None
  end.

(** [prisma.internship.findMany({ where: whereClause, include: ...,
    orderBy: { [sortBy]: sortOrder }, skip: (page - 1) * limit,
    take: limit })] *)
Definition internship_findMany (q : ListQuery.t) (userId : Id)
  (page limit : option Z) : DbOp (list ListItem) :=
  fun s now =>
    if whereClauseValid q then
      match orderInternships (orDefault (ListQuery.sortBy q) (Js.lit "postedAt"))
              (orDefault (ListQuery.sortOrder q) (Js.lit "desc"))
              (matching q now s) with
      | None => inl PrismaValidation
      | Some sorted =>
          match paginate
                  (match page, limit with
                   | Some p, Some l => Some ((p - 1) * l)
                   | _, _ => None
                   end) limit sorted with
          | None => inl PrismaValidation
          | Some rows =>
              inr (map (fun i =>
                          let mine := filter
                                        (fun a => N.eqb (Application.internshipId a)
                                                    (Internship.id i))
                                        (applications s) in
                          mkListItem i (Z.of_nat (List.length mine))
                            (existsb (fun a => N.eqb (Application.userId a) userId)
                               mine))
                       rows, s)
          end
      end
    else inl PrismaValidation.

(** The three option queries of the [Promise.all]. *)
Definition skill_findMany (q : ListQuery.t) : DbOp (list JsString) :=
  fun s now =>
    inr (sortNames (Js.distinct (flat_map Internship.skills (matching q now s))), s).

Definition tag_findMany (q : ListQuery.t) : DbOp (list JsString) :=
  fun s now =>
    inr (sortNames (Js.distinct (flat_map Internship.tags (matching q now s))), s).

Definition location_findMany (q : ListQuery.t) : DbOp (list JsString) :=
  fun s now =>
    inr (sortNames (Js.distinct (map Internship.location (matching q now s))), s).

Definition getInternships (userId : Id) (q : ListQuery.t)
  : World -> ListResponse * World :=
  tryCatch
    (let page := parseInt (Js.JsStr (orDefault (ListQuery.page q) (Js.lit "1"))) in
     let limit := parseInt (Js.JsStr (orDefault (ListQuery.limit q) (Js.lit "20"))) in
     totalInternships <- await (internship_count q) ;;
     internships <- await (internship_findMany q userId page limit) ;;
     skillOptions <- await (skill_findMany q) ;;
     tagOptions <- await (tag_findMany q) ;;
     locationOptions <- await (location_findMany q) ;;
     match page, limit with
     | Some p, Some l =>
         ret (Listed internships p
                (if l =? 0 then None else Some (- ((- totalInternships) / l)))
                totalInternships (p * l <? totalInternships) (p >? 1)
                skillOptions tagOptions locationOptions)
     | _, _ => throw PrismaValidation
     end)
    (fun _ => ListFailed).

(* ------------------------------------------------------------------ *)
(** ** POST /student/signup and POST /company/signup                   *)
(* ------------------------------------------------------------------ *)

Inductive SignupResponse : Type :=
| SignupMissingFields
| SignupBadEmail
| SignupShortPassword
| SignupBadWebsite
| SignupEmailTaken
| SignupCompanyNameTaken
| SignupMisconfigured
| SignupRegistered (user : User.t) (token : JsString)
| SignupFailed.

Definition signupHttpStatus (r : SignupResponse) : Z :=
  match r with
  | SignupMissingFields | SignupBadEmail | SignupShortPassword
  | SignupBadWebsite => 400
  | SignupEmailTaken | SignupCompanyNameTaken => 409
  | SignupMisconfigured => 500
  | SignupRegistered _ _ => 200
  | SignupFailed => 500
  end.

Definition signupOutcome (r : SignupResponse) : Outcome :=
  match r with
  | SignupMissingFields | SignupBadEmail | SignupShortPassword
  | SignupBadWebsite => ValidationError
  | SignupEmailTaken | SignupCompanyNameTaken => Conflict
  | SignupMisconfigured | SignupFailed => InternalError
  | SignupRegistered _ _ => Success
  end.

(** [catch (error: any) { if (error.code === 'P2002') ... 409; ... 500 }] *)
Definition signupCatch (e : Exn) : SignupResponse :=
  match e with
  | P2002 => SignupEmailTaken
  | _ => SignupFailed
  end.

(** [jwtSecret] is [process.env.JWT_SECRET].  The
    [finally { await prisma.$disconnect() }] of the two sign-ups closes
    the connection and touches no row. *)
Definition studentSignup (jwtSecret : option JsString) (body : StudentSignupBody.t)
  : World -> SignupResponse * World :=
  tryCatch
    (match StudentSignupBody.name body, StudentSignupBody.email body,
           StudentSignupBody.password body with
     | Some ((_ :: _) as name), Some ((_ :: _) as email),
       Some ((_ :: _) as password) =>
         if negb (emailRegexTest email) then ret SignupBadEmail
         else if Js.length password <? 6 then ret SignupShortPassword
         else
           existingUser <- await (query (Prisma.user_findUnique_email email)) ;;
           match existingUser with
           | Some _ => ret SignupEmailTaken
           | None =>
               newUser <- await (Prisma.user_create name email
                                   (bcryptHash password) UserRole.STUDENT None) ;;
               match jwtSecret with
               | Some ((_ :: _) as secret) =>
                   ret (SignupRegistered newUser
                          (jwtSign (User.id newUser) (User.email newUser)
                             (User.role newUser) false secret))
               | _ => ret SignupMisconfigured
               end
           end
     | _, _, _ => ret SignupMissingFields
     end)
    signupCatch.

(** [prisma.company.findFirst({ where: { name: { equals: companyName,
    mode: 'insensitive' } } })] *)
Definition company_findFirst_name (companyName : JsString) (s : Store)
  : option Company.t :=
  find (fun c => equalsInsensitive (Company.name c) companyName) (companies s).

(** [value || null] *)
Definition orNull (v : option JsString) : option JsString :=
  if Js.truthyStr v then v else None.

Definition companySignup (jwtSecret : option JsString) (body : CompanySignupBody.t)
  : World -> SignupResponse * World :=
  tryCatch
    (match CompanySignupBody.name body, CompanySignupBody.email body,
           CompanySignupBody.password body, CompanySignupBody.companyName body with
     | Some ((_ :: _) as name), Some ((_ :: _) as email),
       Some ((_ :: _) as password), Some ((_ :: _) as companyName) =>
         if negb (emailRegexTest email) then ret SignupBadEmail
         else if Js.length password <? 6 then ret SignupShortPassword
         else if Js.truthyStr (CompanySignupBody.companyWebsite body)
                 && negb (urlRegexTest
                            (Prisma.orElse (CompanySignupBody.companyWebsite body) []))
         then ret SignupBadWebsite
         else
           existingUser <- await (query (Prisma.user_findUnique_email email)) ;;
           match existingUser with
           | Some _ => ret SignupEmailTaken
           | None =>
               existingCompany <- await (query (company_findFirst_name companyName)) ;;
               match existingCompany with
               | Some _ => ret SignupCompanyNameTaken
               | None =>
                   result <-
                     transaction
                       (company <-
                          awaitTx (Prisma.company_create companyName
                                     (orNull (CompanySignupBody.companyWebsite body))
                                     (orNull (CompanySignupBody.companyDescription body))
                                     (orNull (CompanySignupBody.companyLogo body))) ;;
                        awaitTx (Prisma.user_create name email
                                   (bcryptHash password) UserRole.COMPANY
                                   (Some (Company.id company)))) ;;
                   match jwtSecret with
                   | Some ((_ :: _) as secret) =>
                       ret (SignupRegistered result
                              (jwtSign (User.id result) (User.email result)
                                 (User.role result) false secret))
                   | _ => ret SignupMisconfigured
                   end
               end
           end
     | _, _, _, _ => ret SignupMissingFields
     end)
    signupCatch.

End Handlers.

(* ================================================================== *)
(** * The operations that write to the store                           *)
(* ================================================================== *)

(** A request to one of the handlers, as the auth guard hands it over:
    the [userId] of the verified token, the path parameter, the body.
    The handlers of the repository that are not listed here (the
    detail and list GETs, the two logins) issue find and count queries
    only. *)
Inductive Operation : Type :=
| OpApply (userId internshipId : Id) (req : Body JsValue)
| OpUpdateApplicationStatus (userId applicationId : Id) (req : Body JsValue)
| OpUpdateApplication (userId applicationId : Id) (req : Body JsValue)
| OpLaunchCampaign (userId : Id) (req : Body LaunchBody.t)
| OpEditCampaign (userId campaignId : Id) (req : Body EditBody.t)
| OpGetInternships (userId : Id) (q : ListQuery.t)
| OpStudentSignup (jwtSecret : option JsString) (body : StudentSignupBody.t)
| OpCompanySignup (jwtSecret : option JsString) (body : CompanySignupBody.t).

(** The world after the operation. *)
Definition perform {rt : JsRuntime} {db : Database} (op : Operation) (w : World)
  : World :=
  match op with
  | OpApply u i c => snd (applyToInternship u i c w)
  | OpUpdateApplicationStatus u a st => snd (updateApplicationStatus u a st w)
  | OpUpdateApplication u a c => snd (updateApplication u a c w)
  | OpLaunchCampaign u b => snd (launchCampaign u b w)
  | OpEditCampaign u c b => snd (editCampaign u c b w)
  | OpGetInternships u q => snd (getInternships u q w)
  | OpStudentSignup k b => snd (studentSignup k b w)
  | OpCompanySignup k b => snd (companySignup k b w)
  end.

(* ================================================================== *)
(** * The auth guards, the logins and the read handlers                *)
(* ================================================================== *)

(** The payload of a verified token as the guards read it.
    [hasActiveSubscription] is the truthiness of the field: false on a
    token that does not carry it. *)
Module TokenPayload.
Record t := mk {
  userId : Id;
  email : JsString;
  role : JsString;
  hasActiveSubscription : bool
}.
End TokenPayload.

(** What the guards and the logins take from [jsonwebtoken] and
    [bcryptjs]. *)
Class Credentials := {
  (** [jwt.verify(token, secret)] at the time of the call; [None] when
      it throws *)
  jwtVerify : JsString -> JsString -> DateTime -> option TokenPayload.t;
  (** [bcrypt.compare(password, hash)] *)
  bcryptCompare : JsString -> JsString -> bool
}.

(** The order in which the database returns the rows of the list
    handlers.  The order of rows that compare equal is the database's. *)
Class Ordering := {
  (** [orderBy: { [sortBy]: sortOrder }] on applications; [None] when
      Prisma rejects the field or the direction *)
  orderApplications :
    JsString -> JsString -> list Application.t -> option (list Application.t);
  orderApplications_perm :
    forall k o l l', orderApplications k o l = Some l' -> Permutation l l';
  (** [orderBy: { createdAt: 'desc' }] on campaigns *)
  orderCampaigns : list Campaign.t -> list Campaign.t;
  orderCampaigns_perm : forall l, Permutation l (orderCampaigns l)
}.

Definition roleEqb (a b : UserRole.t) : bool :=
  match a, b with
  | UserRole.STUDENT, UserRole.STUDENT | UserRole.COMPANY, UserRole.COMPANY => true
  | _, _ => false
  end.

(** [payment?.status === 'COMPLETED'] *)
Definition paymentCompleted (p : option CampaignPayment.t) : bool :=
  match p with
  | Some p =>
      match CampaignPayment.status p with
      | PaymentStatus.COMPLETED => true
      | _ => false
      end
  | None => false
  end.

(* ------------------------------------------------------------------ *)
(** ** middleware: withCompanyAuth, withStudentAuth, withPaidStudentAuth *)
(* ------------------------------------------------------------------ *)

(** The answer of a guarded route: one of the guard's own, or the
    handler's. *)
Inductive Guarded (R : Type) : Type :=
| AuthenticationRequired
| ServerConfigurationError
| InvalidOrExpiredToken
| AccessDenied
| Handled (response : R).

Arguments AuthenticationRequired {R}.
Arguments ServerConfigurationError {R}.
Arguments InvalidOrExpiredToken {R}.
Arguments AccessDenied {R}.
Arguments Handled {R} response.

Definition guardedHttpStatus {R} (status : R -> Z) (g : Guarded R) : Z :=
  match g with
  | AuthenticationRequired | InvalidOrExpiredToken => 401
  | ServerConfigurationError => 500
  | AccessDenied => 403
  | Handled r => status r
  end.

(** The answer of the handler [withPaidStudentAuth] passes to
    [withStudentAuth]. *)
Inductive Paid (R : Type) : Type :=
| PaidSubscriptionRequired
| PaidServed (response : R).

Arguments PaidSubscriptionRequired {R}.
Arguments PaidServed {R} response.

Definition paidHttpStatus {R} (status : R -> Z) (p : Paid R) : Z :=
  match p with
  | PaidSubscriptionRequired => 403
  | PaidServed r => status r
  end.

Section Guards.

Context {cr : Credentials}.

(** [companyToken] is [req.cookies.get('companyToken')?.value] and
    [jwtSecret] is [process.env.JWT_SECRET]. *)
Definition withCompanyAuth {R} (handler : TokenPayload.t -> World -> R * World)
  (companyToken jwtSecret : option JsString) : World -> Guarded R * World :=
  fun w =>
    if negb (Js.truthyStr companyToken) then (AuthenticationRequired, w)
    else if negb (Js.truthyStr jwtSecret) then (ServerConfigurationError, w)
    else
      match jwtVerify (Prisma.orElse companyToken []) (Prisma.orElse jwtSecret [])
              (clock w) with
      | None => (InvalidOrExpiredToken, w)
      | Some decoded =>
          if negb (Js.eqb (TokenPayload.role decoded) (Js.lit "COMPANY"))
          then (AccessDenied, w)
          else let (r, w') := handler decoded w in (Handled r, w')
      end.

(** [studentToken] is [req.cookies.get('studentToken')?.value]. *)
Definition withStudentAuth {R} (handler : TokenPayload.t -> World -> R * World)
  (studentToken jwtSecret : option JsString) : World -> Guarded R * World :=
  fun w =>
    if negb (Js.truthyStr studentToken) then (AuthenticationRequired, w)
    else if negb (Js.truthyStr jwtSecret) then (ServerConfigurationError, w)
    else
      match jwtVerify (Prisma.orElse studentToken []) (Prisma.orElse jwtSecret [])
              (clock w) with
      | None => (InvalidOrExpiredToken, w)
      | Some decoded =>
          if negb (Js.eqb (TokenPayload.role decoded) (Js.lit "STUDENT"))
          then (AccessDenied, w)
          else let (r, w') := handler decoded w in (Handled r, w')
      end.

Definition withPaidStudentAuth {R} (handler : TokenPayload.t -> World -> R * World)
  : option JsString -> option JsString -> World -> Guarded (Paid R) * World :=
  withStudentAuth
    (fun user w =>
       if negb (TokenPayload.hasActiveSubscription user)
       then (PaidSubscriptionRequired, w)
       else let (r, w') := handler user w in (PaidServed r, w')).

End Guards.

(* ------------------------------------------------------------------ *)
(** ** POST /student/login and POST /company/login                     *)
(* ------------------------------------------------------------------ *)

Module LoginBody.
Record t := mk {
  email : option JsString;
  password : option JsString
}.
End LoginBody.

Inductive StudentLoginResponse : Type :=
| StudentLoginMissingFields
| StudentLoginInvalid
| StudentLoginMisconfigured
| StudentLoggedIn (user : User.t)
    (activeSubscription : option (StudentSubscription.t * StudentPlan.t))
    (token : JsString)
| StudentLoginFailed.

Definition studentLoginHttpStatus (r : StudentLoginResponse) : Z :=
  match r with
  | StudentLoginMissingFields => 400
  | StudentLoginInvalid => 401
  | StudentLoginMisconfigured => 500
  | StudentLoggedIn _ _ _ => 200
  | StudentLoginFailed => 500
  end.

Inductive CompanyLoginResponse : Type :=
| CompanyLoginMissingFields
| CompanyLoginInvalid
| CompanyLoginMisconfigured
| CompanyLoggedIn (user : User.t) (company : Company.t)
    (activeCampaigns totalCampaigns : Z) (token : JsString)
| CompanyLoginFailed.

Definition companyLoginHttpStatus (r : CompanyLoginResponse) : Z :=
  match r with
  | CompanyLoginMissingFields => 400
  | CompanyLoginInvalid => 401
  | CompanyLoginMisconfigured => 500
  | CompanyLoggedIn _ _ _ _ _ => 200
  | CompanyLoginFailed => 500
  end.

(** [prisma.user.findFirst({ where: { email, role } })] *)
Definition user_findFirst_role (email : JsString) (role : UserRole.t) (s : Store)
  : option User.t :=
  find (fun u => Js.eqb (User.email u) email && roleEqb (User.role u) role)
       (users s).

(** [prisma.studentSubscription.findFirst({ where: { userId,
    status: 'ACTIVE', endsAt: { gt: now } }, include: { plan } })] *)
Definition studentSubscription_findFirst (uid : Id) (now : DateTime) (s : Store)
  : option (StudentSubscription.t * StudentPlan.t) :=
  hd_error
    (flat_map
       (fun sub =>
          if N.eqb (StudentSubscription.userId sub) uid
             && SubscriptionStatus.eqb (StudentSubscription.status sub)
                  SubscriptionStatus.ACTIVE
             && (StudentSubscription.endsAt sub >? now)
          then match Prisma.planById s (StudentSubscription.planId sub) with
               | Some p => [(sub, p)]
               | None => []
               end
          else [])
       (studentSubscriptions s)).

(** [payment] of a campaign: the relation is one-to-one and optional
    on the campaign's side. *)
Definition campaign_payment (s : Store) (c : Campaign.t)
  : option CampaignPayment.t :=
  find (fun p => N.eqb (CampaignPayment.campaignId p) (Campaign.id c))
       (campaignPayments s).

(** [campaigns: { where: { status: 'ACTIVE', endDate: { gt: now } },
    include: { payment: { select: { status } } } }] of a company *)
Definition company_campaigns_running (companyId : Id) (now : DateTime) (s : Store)
  : list (Campaign.t * option CampaignPayment.t) :=
  map (fun c => (c, campaign_payment s c))
      (filter (fun c => N.eqb (Campaign.companyId c) companyId
                        && CampaignStatus.eqb (Campaign.status c)
                             CampaignStatus.ACTIVE
                        && (Campaign.endDate c >? now))
              (campaigns s)).

(** [prisma.user.findFirst({ where: { email, role: 'COMPANY' },
    include: { company: { include: { campaigns: ... } } } })] *)
Definition user_findFirst_campaigns (email : JsString) (now : DateTime) (s : Store)
  : option (User.t
            * option (Company.t * list (Campaign.t * option CampaignPayment.t))) :=
  match user_findFirst_role email UserRole.COMPANY s with
  | None => None
  | Some u =>
      Some (u, match User.companyId u with
               | None => None
               | Some cid =>
                   match Prisma.companyById s cid with
                   | None => None
                   | Some co =>
                       Some (co, company_campaigns_running (Company.id co) now s)
                   end
               end)
  end.

Section Logins.

Context {rt : JsRuntime} {cr : Credentials}.

Local Open Scope handler_scope.

(** [!!activeSubscription] *)
Definition isSome {A} (o : option A) : bool :=
  match o with Some _ => true | None => false end.

(** The [finally { await prisma.$disconnect() }] of the two logins
    closes the connection and touches no row. *)
Definition studentLogin (jwtSecret : option JsString) (body : LoginBody.t)
  : World -> StudentLoginResponse * World :=
  tryCatch
    (match LoginBody.email body, LoginBody.password body with
     | Some ((_ :: _) as email), Some ((_ :: _) as password) =>
         user <- await (query (user_findFirst_role email UserRole.STUDENT)) ;;
         match user with
         | None => ret StudentLoginInvalid
         | Some user =>
             if negb (bcryptCompare password (User.password user))
             then ret StudentLoginInvalid
             else
               now <- newDate ;;
               activeSubscription <-
                 await (query (studentSubscription_findFirst (User.id user) now)) ;;
               match jwtSecret with
               | Some ((_ :: _) as secret) =>
                   ret (StudentLoggedIn user activeSubscription
                          (jwtSign (User.id user) (User.email user)
                             (User.role user) (isSome activeSubscription) secret))
               | _ => ret StudentLoginMisconfigured
               end
         end
     | _, _ => ret StudentLoginMissingFields
     end)
    (fun _ => StudentLoginFailed).

Definition companyLogin (jwtSecret : option JsString) (body : LoginBody.t)
  : World -> CompanyLoginResponse * World :=
  tryCatch
    (match LoginBody.email body, LoginBody.password body with
     | Some ((_ :: _) as email), Some ((_ :: _) as password) =>
         now <- newDate ;;
         user <- await (query (user_findFirst_campaigns email now)) ;;
         match user with
         | Some (user, Some (company, campaigns)) =>
             if negb (bcryptCompare password (User.password user))
             then ret CompanyLoginInvalid
             else
               let activePaidCampaigns :=
                 filter (fun campaign => paymentCompleted (snd campaign)) campaigns in
               match jwtSecret with
               | Some ((_ :: _) as secret) =>
                   ret (CompanyLoggedIn user company
                          (Z.of_nat (List.length activePaidCampaigns))
                          (Z.of_nat (List.length campaigns))
                          (jwtSign (User.id user) (User.email user)
                             (User.role user)
                             (Z.of_nat (List.length activePaidCampaigns) >? 0)
                             secret))
               | _ => ret CompanyLoginMisconfigured
               end
         | _ => ret CompanyLoginInvalid
         end
     | _, _ => ret CompanyLoginMissingFields
     end)
    (fun _ => CompanyLoginFailed).

End Logins.

(* ------------------------------------------------------------------ *)
(** ** GET /student/internships/{internshipId}: getInternshipDetails   *)
(* ------------------------------------------------------------------ *)

Module Details.
Record t := mk {
  internship : Internship.t;
  company : Company.t;
  campaign : Campaign.t;
  applicationCount : Z;
  userApplication : option Application.t;
  hasApplied : bool;
  canApply : bool;
  similarInternships : list (Internship.t * Company.t)
}.
End Details.

Inductive DetailsResponse : Type :=
| DetailsNotFound
| DetailsNotAccepting
| DetailsShown (details : Details.t)
| DetailsFailed.

Definition detailsHttpStatus (r : DetailsResponse) : Z :=
  match r with
  | DetailsNotFound => 404
  | DetailsNotAccepting => 400
  | DetailsShown _ => 200
  | DetailsFailed => 500
  end.

(** [prisma.internship.findUnique({ where: { id, isActive: true,
    deadline: { gte: now } }, include: { company, campaign, skills,
    tags, applications: { where: { userId } }, _count: { select:
    { applications: true } } } })]: the row with its company and
    campaign, the caller's applications to it and the number of all
    applications to it. *)
Definition internship_findUnique_open (iid uid : Id) (now : DateTime) (s : Store)
  : option (Internship.t * Company.t * Campaign.t * list Application.t * Z) :=
  match Prisma.internship_findUnique iid s with
  | Some (i, co, ca) =>
      if Internship.isActive i && (Internship.deadline i >=? now)
      then
        let all := filter (fun a => N.eqb (Application.internshipId a)
                                      (Internship.id i)) (applications s) in
        Some (i, co, ca,
              filter (fun a => N.eqb (Application.userId a) uid) all,
              Z.of_nat (List.length all))
      else None
  | None => None
  end.

(** The [where] of the similar internships: another internship, active,
    not past its deadline, of the same company or sharing a skill. *)
Definition similarTo (internshipId : Id) (internship : Internship.t)
  (now : DateTime) (j : Internship.t) : bool :=
  negb (N.eqb (Internship.id j) internshipId)
  && Internship.isActive j
  && (Internship.deadline j >=? now)
  && (N.eqb (Internship.companyId j) (Internship.companyId internship)
      || existsb (fun name => existsb (Js.eqb name) (Internship.skills internship))
           (Internship.skills j)).

Section InternshipDetails.

Context {db : Database}.

Local Open Scope handler_scope.

(** [prisma.internship.findMany({ where: ..., include: { company,
    skills }, take: 5, orderBy: { postedAt: 'desc' } })] *)
Definition internship_findMany_similar (internshipId : Id)
  (internship : Internship.t) : DbOp (list (Internship.t * Company.t)) :=
  fun s now =>
    match orderInternships (Js.lit "postedAt") (Js.lit "desc")
            (filter (similarTo internshipId internship now) (internships s)) with
    | None => inl PrismaValidation
    | Some sorted =>
        inr (firstn 5
               (flat_map (fun j =>
                            match Prisma.companyById s (Internship.companyId j) with
                            | Some co => [(j, co)]
                            | None => []
                            end) sorted), s)
    end.

Definition getInternshipDetails (userId internshipId : Id)
  : World -> DetailsResponse * World :=
  tryCatch
    (now <- newDate ;;
     found <- await (query (internship_findUnique_open internshipId userId now)) ;;
     match found with
     | None => ret DetailsNotFound
     | Some (internship, company, campaign, applications, count) =>
         if negb (CampaignStatus.eqb (Campaign.status campaign)
                    CampaignStatus.ACTIVE)
         then ret DetailsNotAccepting
         else
           similarInternships <-
             await (internship_findMany_similar internshipId internship) ;;
           now' <- newDate ;;
           ret (DetailsShown
                  (Details.mk internship company campaign count
                     (hd_error applications)
                     (Z.of_nat (List.length applications) >? 0)
                     ((Z.of_nat (List.length applications) =? 0)
                      && (now' <? Internship.deadline internship))
                     similarInternships))
     end)
    (fun _ => DetailsFailed).

End InternshipDetails.

(* ------------------------------------------------------------------ *)
(** ** GET /student/applications/{applicationId}: getApplicationDetails *)
(* ------------------------------------------------------------------ *)

(** An application with the internship it is for, and that
    internship's company and campaign. *)
Definition ApplicationRow : Type :=
  (Application.t * (Internship.t * Company.t * Campaign.t))%type.

(** [include: { internship: { include: { company, campaign } } }] *)
Definition withInternship (s : Store) (a : Application.t) : option ApplicationRow :=
  match Prisma.internship_findUnique (Application.internshipId a) s with
  | Some row => Some (a, row)
  | None => None
  end.

Inductive ApplicationDetailsResponse : Type :=
| ApplicationDetailsCompanyNotFound
| ApplicationDetailsNotFound
| ApplicationDetailsShown (application : ApplicationRow) (student : option User.t)
| ApplicationDetailsFailed.

Definition applicationDetailsHttpStatus (r : ApplicationDetailsResponse) : Z :=
  match r with
  | ApplicationDetailsCompanyNotFound | ApplicationDetailsNotFound => 404
  | ApplicationDetailsShown _ _ => 200
  | ApplicationDetailsFailed => 500
  end.

Module StudentApplication.

Local Open Scope handler_scope.

(** [prisma.application.findFirst({ where: { id, userId }, include:
    { internship: ... } })] *)
Definition application_findFirst (aid uid : Id) (s : Store)
  : option ApplicationRow :=
  match Prisma.application_findFirst_ofUser aid uid s with
  | Some a => withInternship s a
  | None => None
  end.

Definition getApplicationDetails (userId applicationId : Id)
  : World -> ApplicationDetailsResponse * World :=
  tryCatch
    (application <- await (query (application_findFirst applicationId userId)) ;;
     match application with
     | None => ret ApplicationDetailsNotFound
     | Some application => ret (ApplicationDetailsShown application None)
     end)
    (fun _ => ApplicationDetailsFailed).

End StudentApplication.

(* ------------------------------------------------------------------ *)
(** ** GET /company/applications/{applicationId}: getApplicationDetails *)
(* ------------------------------------------------------------------ *)

Module CompanyApplication.

Local Open Scope handler_scope.

(** [prisma.application.findFirst({ where: { id, internship:
    { company: { id } } }, include: { user, internship } })] *)
Definition application_findFirst (aid cid : Id) (s : Store)
  : option (ApplicationRow * User.t) :=
  match Prisma.application_findFirst_ofCompany aid cid s with
  | Some a =>
      match withInternship s a, Prisma.userById s (Application.userId a) with
      | Some row, Some u => Some (row, u)
      | _, _ => None
      end
  | None => None
  end.

Definition getApplicationDetails (userId applicationId : Id)
  : World -> ApplicationDetailsResponse * World :=
  tryCatch
    (user <- await (query (Prisma.user_findUnique_company userId)) ;;
     match user with
     | Some (_, Some company) =>
         application <-
           await (query (application_findFirst applicationId (Company.id company))) ;;
         match application with
         | None => ret ApplicationDetailsNotFound
         | Some (application, student) =>
             ret (ApplicationDetailsShown application (Some student))
         end
     | _ => ret ApplicationDetailsCompanyNotFound
     end)
    (fun _ => ApplicationDetailsFailed).

End CompanyApplication.

(* ------------------------------------------------------------------ *)
(** ** GET /student/applications: getMyApplications                    *)
(* ------------------------------------------------------------------ *)

(** The query string of the two application lists. *)
Module ApplicationsQuery.
Record t := mk {
  status : option JsString;
  internshipId : option Id;
  page : option JsString;
  limit : option JsString;
  sortBy : option JsString;
  sortOrder : option JsString
}.
End ApplicationsQuery.

(** [summary] of the two application lists: the four counts read from
    the [groupBy]. *)
Record StatusSummary := mkStatusSummary {
  pending : Z;
  shortlisted : Z;
  accepted : Z;
  rejected : Z
}.

Inductive ApplicationsResponse (Row : Type) : Type :=
| ApplicationsCompanyNotFound
| ApplicationsCampaignNotFound
| ApplicationsListed (applications : list Row) (currentPage : Z)
    (totalPages : option Z) (totalApplications : Z) (hasNext hasPrev : bool)
    (summary : StatusSummary)
| ApplicationsFailed.

Arguments ApplicationsCompanyNotFound {Row}.
Arguments ApplicationsCampaignNotFound {Row}.
Arguments ApplicationsListed {Row} applications currentPage totalPages
  totalApplications hasNext hasPrev summary.
Arguments ApplicationsFailed {Row}.

Definition applicationsHttpStatus {Row} (r : ApplicationsResponse Row) : Z :=
  match r with
  | ApplicationsCompanyNotFound | ApplicationsCampaignNotFound => 404
  | ApplicationsListed _ _ _ _ _ _ _ => 200
  | ApplicationsFailed => 500
  end.

(** [statusCounts.X || 0] for the four statuses, from
    [prisma.application.groupBy({ by: ['status'], where, _count })]. *)
Definition application_groupBy_status (clause : Application.t -> bool) (s : Store)
  : StatusSummary :=
  let count st :=
    Z.of_nat (List.length
                (filter (fun a => clause a
                                  && ApplicationStatus.eqb (Application.status a) st)
                        (applications s))) in
  mkStatusSummary (count ApplicationStatus.PENDING)
    (count ApplicationStatus.SHORTLISTED) (count ApplicationStatus.ACCEPTED)
    (count ApplicationStatus.REJECTED).

(** [prisma.application.count({ where })] *)
Definition application_count_where (clause : Application.t -> bool) (s : Store) : Z :=
  Z.of_nat (List.length (filter clause (applications s))).

Section ApplicationLists.

Context {rt : JsRuntime} {ord : Ordering}.

Local Open Scope handler_scope.

(** [prisma.application.findMany({ where, include, orderBy:
    { [sortBy]: sortOrder }, skip: (page - 1) * limit, take: limit })],
    each row with what [include] joins to it. *)
Definition application_findMany {Row} (clause : Application.t -> bool)
  (joinOf : Store -> Application.t -> option Row)
  (q : ApplicationsQuery.t) (page limit : option Z) : DbOp (list Row) :=
  fun s now =>
    match orderApplications
            (orDefault (ApplicationsQuery.sortBy q) (Js.lit "createdAt"))
            (orDefault (ApplicationsQuery.sortOrder q) (Js.lit "desc"))
            (filter (fun a => clause a && isSome (joinOf s a)) (applications s)) with
    | None => inl PrismaValidation
    | Some sorted =>
        match paginate
                (match page, limit with
                 | Some p, Some l => Some ((p - 1) * l)
                 | _, _ => None
                 end) limit sorted with
        | None => inl PrismaValidation
        | Some rows =>
            inr (flat_map (fun a => match joinOf s a with
                                    | Some row => [row]
                                    | None => []
                                    end) rows, s)
        end
    end.

(** The [whereClause] of [getMyApplications]: the caller's
    applications, of the given status when it is one of the four. *)
Definition myWhereClause (userId : Id) (q : ApplicationsQuery.t)
  (a : Application.t) : bool :=
  N.eqb (Application.userId a) userId
  && (if Js.truthyStr (ApplicationsQuery.status q)
         && Js.includes validStatuses (Prisma.orElse (ApplicationsQuery.status q) [])
      then Js.eqb (ApplicationStatus.toString (Application.status a))
             (Prisma.orElse (ApplicationsQuery.status q) [])
      else true).

Definition getMyApplications (userId : Id) (q : ApplicationsQuery.t)
  : World -> ApplicationsResponse ApplicationRow * World :=
  tryCatch
    (let page := parseInt (Js.JsStr (orDefault (ApplicationsQuery.page q)
                                       (Js.lit "1"))) in
     let limit := parseInt (Js.JsStr (orDefault (ApplicationsQuery.limit q)
                                        (Js.lit "20"))) in
     totalApplications <-
       await (query (application_count_where (myWhereClause userId q))) ;;
     applications <-
       await (application_findMany (myWhereClause userId q) withInternship
                q page limit) ;;
     statusSummary <-
       await (query (application_groupBy_status
                       (fun a => N.eqb (Application.userId a) userId))) ;;
     match page, limit with
     | Some p, Some l =>
         ret (ApplicationsListed applications p
                (if l =? 0 then None else Some (- ((- totalApplications) / l)))
                totalApplications (p * l <? totalApplications) (p >? 1)
                statusSummary)
     | _, _ => throw PrismaValidation
     end)
    (fun _ => ApplicationsFailed).

(* ------------------------------------------------------------------ *)
(** ** GET /company/campaigns/{campaignId}/applications:
       getCampaignApplications                                         *)
(* ------------------------------------------------------------------ *)

(** [{ internship: { campaignId } }] *)
Definition ofCampaign (s : Store) (campaignId : Id) (a : Application.t) : bool :=
  existsb (fun i => N.eqb (Internship.id i) (Application.internshipId a)
                    && N.eqb (Internship.campaignId i) campaignId)
          (internships s).

(** The [whereClause] of [getCampaignApplications]: [status] and
    [internshipId] are taken as they come when they are set. *)
Definition campaignWhereClause (s : Store) (campaignId : Id)
  (q : ApplicationsQuery.t) (a : Application.t) : bool :=
  ofCampaign s campaignId a
  && (if Js.truthyStr (ApplicationsQuery.status q)
      then Js.eqb (ApplicationStatus.toString (Application.status a))
             (Prisma.orElse (ApplicationsQuery.status q) [])
      else true)
  && match ApplicationsQuery.internshipId q with
     | Some iid => N.eqb (Application.internshipId a) iid
     | None => true
     end.

(** Whether Prisma accepts that [whereClause]: a [status] that is set
    has to be a value of the enum. *)
Definition campaignWhereClauseValid (q : ApplicationsQuery.t) : bool :=
  if Js.truthyStr (ApplicationsQuery.status q)
  then isSome (applicationStatusOf (Prisma.orElse (ApplicationsQuery.status q) []))
  else true.

(** [include: { user, internship }] *)
Definition withStudent (s : Store) (a : Application.t)
  : option (Application.t * User.t * Internship.t) :=
  match Prisma.userById s (Application.userId a),
        Prisma.internshipById s (Application.internshipId a) with
  | Some u, Some i => Some (a, u, i)
  | _, _ => None
  end.

Definition getCampaignApplications (userId campaignId : Id)
  (q : ApplicationsQuery.t)
  : World -> ApplicationsResponse (Application.t * User.t * Internship.t) * World :=
  tryCatch
    (let page := parseInt (Js.JsStr (orDefault (ApplicationsQuery.page q)
                                       (Js.lit "1"))) in
     let limit := parseInt (Js.JsStr (orDefault (ApplicationsQuery.limit q)
                                        (Js.lit "20"))) in
     user <- await (query (Prisma.user_findUnique_company userId)) ;;
     match user with
     | Some (_, Some company) =>
         campaign <- await (query (Prisma.campaign_findFirst campaignId
                                     (Company.id company))) ;;
         match campaign with
         | None => ret ApplicationsCampaignNotFound
         | Some _ =>
             totalApplications <-
               await (fun s now =>
                        if campaignWhereClauseValid q
                        then inr (application_count_where
                                    (campaignWhereClause s campaignId q) s, s)
                        else inl PrismaValidation) ;;
             applications <-
               await (fun s now =>
                        if campaignWhereClauseValid q
                        then application_findMany
                               (campaignWhereClause s campaignId q) withStudent
                               q page limit s now
                        else inl PrismaValidation) ;;
             statusSummary <-
               await (query (fun s => application_groupBy_status
                                        (ofCampaign s campaignId) s)) ;;
             match page, limit with
             | Some p, Some l =>
                 ret (ApplicationsListed applications p
                        (if l =? 0 then None
                         else Some (- ((- totalApplications) / l)))
                        totalApplications (p * l <? totalApplications) (p >? 1)
                        statusSummary)
             | _, _ => throw PrismaValidation
             end
         end
     | _ => ret ApplicationsCompanyNotFound
     end)
    (fun _ => ApplicationsFailed).

End ApplicationLists.

(* ------------------------------------------------------------------ *)
(** ** GET /company/campaigns and GET /company/campaigns/{campaignId}  *)
(* ------------------------------------------------------------------ *)

(** [include: { payment: true, internships: { select: { id, title,
    isActive } }, _count: { select: { internships: true } } }] *)
Module CampaignSummary.
Record t := mk {
  campaign : Campaign.t;
  payment : option CampaignPayment.t;
  internships : list Internship.t;
  currentInternships : Z
}.
End CampaignSummary.

(** [include: { payment: true, internships: { include: { applications:
    { include: { user } }, skills, tags, _count: { select:
    { applications: true } } } }, _count: { select: { internships:
    true } } }], as [formattedCampaign] keeps it: each internship with
    its [applicationCount]. *)
Module CampaignView.
Record t := mk {
  campaign : Campaign.t;
  payment : option CampaignPayment.t;
  internships : list (Internship.t * Z);
  currentInternships : Z
}.
End CampaignView.

Inductive CampaignsResponse : Type :=
| CampaignsCompanyNotFound
| CampaignsListed (campaigns : list CampaignSummary.t)
| CampaignsFailed.

Inductive CampaignResponse : Type :=
| CampaignCompanyNotFound
| CampaignNotFound
| CampaignShown (campaign : CampaignView.t)
| CampaignFailed.

Section Campaigns.

Context {ord : Ordering}.

Local Open Scope handler_scope.

(** The internships of a campaign. *)
Definition internshipsOf (s : Store) (c : Campaign.t) : list Internship.t :=
  filter (fun i => N.eqb (Internship.campaignId i) (Campaign.id c)) (internships s).

(** [_count.applications] of an internship. *)
Definition applicationsTo (s : Store) (i : Internship.t) : Z :=
  Z.of_nat (List.length
              (filter (fun a => N.eqb (Application.internshipId a)
                                  (Internship.id i)) (applications s))).

Definition campaignSummary (s : Store) (c : Campaign.t) : CampaignSummary.t :=
  CampaignSummary.mk c (campaign_payment s c) (internshipsOf s c)
    (Z.of_nat (List.length (internshipsOf s c))).

Definition campaignView (s : Store) (c : Campaign.t) : CampaignView.t :=
  CampaignView.mk c (campaign_payment s c)
    (map (fun i => (i, applicationsTo s i)) (internshipsOf s c))
    (Z.of_nat (List.length (internshipsOf s c))).

(** [prisma.campaign.findMany({ where: { companyId }, include: ...,
    orderBy: { createdAt: 'desc' } })] *)
Definition campaign_findMany (companyId : Id) (s : Store)
  : list CampaignSummary.t :=
  map (campaignSummary s)
      (orderCampaigns
         (filter (fun c => N.eqb (Campaign.companyId c) companyId) (campaigns s))).

Definition getCampaigns (userId : Id) : World -> CampaignsResponse * World :=
  tryCatch
    (user <- await (query (Prisma.user_findUnique_company userId)) ;;
     match user with
     | Some (_, Some company) =>
         campaigns <- await (query (campaign_findMany (Company.id company))) ;;
         ret (CampaignsListed campaigns)
     | _ => ret CampaignsCompanyNotFound
     end)
    (fun _ => CampaignsFailed).

Definition getCampaign (userId campaignId : Id)
  : World -> CampaignResponse * World :=
  tryCatch
    (user <- await (query (Prisma.user_findUnique_company userId)) ;;
     match user with
     | Some (_, Some company) =>
         campaign <-
           await (query (fun s =>
                           match Prisma.campaign_findFirst campaignId
                                   (Company.id company) s with
                           | Some c => Some (campaignView s c)
                           | None => None
                           end)) ;;
         match campaign with
         | None => ret CampaignNotFound
         | Some campaign => ret (CampaignShown campaign)
         end
     | _ => ret CampaignCompanyNotFound
     end)
    (fun _ => CampaignFailed).

End Campaigns.

(* ================================================================== *)
(** * A platform and a store to run the handlers on                    *)
(* ================================================================== *)

Module Sample.

(** The first instant of the UTC month of [t]: days since the epoch,
    then the day of the month by the civil-calendar computation. *)
Definition utcStartOfMonth (t : DateTime) : DateTime :=
  let day := t / 86400000 in
  let z := day + 719468 in
  let era := z / 146097 in
  let doe := z - era * 146097 in
  let yoe := (doe - doe / 1460 + doe / 36524 - doe / 146096) / 365 in
  let doy := doe - (365 * yoe + yoe / 4 - yoe / 100) in
  let mp := (5 * doy + 2) / 153 in
  let dom := doy - (153 * mp + 2) / 5 + 1 in
  (day - (dom - 1)) * 86400000.

(** A finite double as [m * 2^e]; [None] for NaN and the infinities. *)
Definition finite (x : float) : option (Z * Z) :=
  match Prim2SF x with
  | S754_zero _ => Some (0, 0)
  | S754_finite s m e => Some (if s then Z.neg m else Z.pos m, e)
  | _ => None
  end.

(** [m * 2^e] rounded toward zero. *)
Definition truncate (m e : Z) : Z :=
  if 0 <=? e then m * 2 ^ e else Z.quot m (2 ^ (- e)).

(** The double nearest to an integer, ties to even; [None] when that
    is an infinity. *)
Definition nearestDouble (n : Z) : option Z :=
  match binary_normalize prec emax n 0 false with
  | S754_zero _ => Some 0
  | S754_finite s m e => Some (truncate (if s then Z.neg m else Z.pos m) e)
  | _ => None
  end.

(** [a * 2^e] against [d * 10^p]. *)
Definition compareScaled (a e d p : Z) : comparison :=
  (a * 2 ^ Z.max 0 e * 10 ^ Z.max 0 (- p))
  ?= (d * 10 ^ Z.max 0 p * 2 ^ Z.max 0 (- e)).

Fixpoint log10 (fuel : nat) (y : Z) : Z :=
  match fuel with
  | O => 0
  | S f => if y <? 10 then 0 else 1 + log10 f (y / 10)
  end.

(** The leading decimal digit of a positive [m * 2^e] and the power of
    ten it stands for. *)
Definition leading (m e : Z) : Z * Z :=
  let y := (m * 2 ^ Z.max 0 e * 10 ^ 400) / 2 ^ Z.max 0 (- e) in
  let k := log10 1200 y in
  (y / 10 ^ k, k - 400).

(** The leading digit, and its power of ten, of the shortest decimal
    that reads back as the positive double [m * 2^e]
    (Number::toString): a decimal of one digit when one lies between
    the midpoints to the neighbouring doubles, the nearer one when two
    do, and the leading digit of the double itself otherwise. *)
Definition shortestLeading (m e : Z) : Z * Z :=
  let '(d0, p) := leading m e in
  let '(d1, p1) := if d0 =? 9 then (1, p + 1) else (d0 + 1, p) in
  let low := if (m =? 2 ^ 52) && (-1074 <? e) then 4 * m - 1 else 4 * m - 2 in
  let high := 4 * m + 2 in
  let below := match compareScaled low (e - 2) d0 p with
               | Lt => true
               | Eq => Z.even m
               | Gt => false
               end in
  let above := match compareScaled high (e - 2) d1 p1 with
               | Gt => true
               | Eq => Z.even m
               | Lt => false
               end in
  match below, above with
  | true, true =>
      match compareScaled (8 * m) (e - 2) (2 * d0 + 1) p with
      | Lt => (d0, p)
      | Gt => (d1, p1)
      | Eq => if Z.even d0 then (d0, p) else (d1, p1)
      end
  | true, false => (d0, p)
  | false, true => (d1, p1)
  | false, false => (d0, p)
  end.

(** [parseInt] of a number reads the digits before the first character
    of its decimal form that is not one: the whole part when the form
    is positional, the leading digit when it is exponential. *)
Definition parseIntNumber (x : float) : option Z :=
  match finite x with
  | None => None
  | Some (m, e) =>
      if m =? 0 then Some 0
      else
        let '(d, p) := shortestLeading (Z.abs m) e in
        if (-6 <? p + 1) && (p + 1 <=? 21) then nearestDouble (truncate m e)
        else Some (Z.sgn m * d)
  end.

Definition digitValue (radix : Z) (c : CodeUnit) : option Z :=
  let v := if ((48 <=? c) && (c <=? 57))%N then Z.of_N c - 48
           else if ((97 <=? c) && (c <=? 122))%N then Z.of_N c - 87
           else if ((65 <=? c) && (c <=? 90))%N then Z.of_N c - 55
           else 36 in
  if v <? radix then Some v else None.

(** The value of the longest run of digits at the head of a string. *)
Fixpoint readDigits (radix acc : Z) (s : JsString) : Z :=
  match s with
  | [] => acc
  | c :: r =>
      match digitValue radix c with
      | Some v => readDigits radix (radix * acc + v) r
      | None => acc
      end
  end.

(** [parseInt(s)] without a radix: leading white space, a sign, [0x]
    or [0X] for base 16, then the digits up to the first character that
    is not one; [NaN] when there is none. *)
Definition parseIntText (s : JsString) : option Z :=
  let s1 := Js.trimStart s in
  let '(negative, s2) := match s1 with
                         | 45%N :: r => (true, r)
                         | 43%N :: r => (false, r)
                         | _ => (false, s1)
                         end in
  let '(radix, s3) := match s2 with
                      | 48%N :: 120%N :: r | 48%N :: 88%N :: r => (16, r)
                      | _ => (10, s2)
                      end in
  match s3 with
  | c :: _ =>
      match digitValue radix c with
      | Some _ =>
          nearestDouble (if negative then - readDigits radix 0 s3
                         else readDigits radix 0 s3)
      | None => None
      end
  | [] => None
  end.

(** [parseInt(v)] reads the string [v] converts to. *)
Definition intOf (v : JsValue) : option Z :=
  match v with
  | Js.JsStr s | Js.JsObject s => parseIntText s
  | Js.JsNumber x => parseIntNumber x
  | _ => None
  end.


(** The decimal digits at the head of a string: their value, their
    number, and what follows them. *)
Fixpoint readDecimal (acc : Z) (n : Z) (s : JsString) : Z * Z * JsString :=
  match s with
  | c :: r =>
      if ((48 <=? c) && (c <=? 57))%N
      then readDecimal (10 * acc + (Z.of_N c - 48)) (n + 1) r
      else (acc, n, s)
  | [] => (acc, n, s)
  end.

Fixpoint startsWith (p s : JsString) : bool :=
  match p, s with
  | [], _ => true
  | x :: p', y :: s' => N.eqb x y && startsWith p' s'
  | _ :: _, [] => false
  end.

(** The double nearest to [m * 10^e], ties to even. *)
Definition nearestDecimal (negative : bool) (m e : Z) : float :=
  match m with
  | Z.pos p =>
      SF2Prim
        (if 0 <=? e
         then binary_normalize prec emax
                (if negative then - (m * 10 ^ e) else m * 10 ^ e) 0 false
         else SFdiv prec emax (S754_finite negative p 0)
                (S754_finite false (Z.to_pos (10 ^ (- e))) 0))
  | _ => if negative then neg_zero else zero
  end.

(** [parseFloat(s)]: leading white space, then the longest prefix that
    is a decimal literal (a sign, [Infinity] or digits with an optional
    fraction and exponent); [NaN] when there is none. *)
Definition parseFloatText (s : JsString) : float :=
  let s1 := Js.trimStart s in
  let '(negative, s2) := match s1 with
                         | 45%N :: r => (true, r)
                         | 43%N :: r => (false, r)
                         | _ => (false, s1)
                         end in
  if startsWith (Js.lit "Infinity") s2
  then (if negative then neg_infinity else infinity)
  else
    let '(whole, nwhole, s3) := readDecimal 0 0 s2 in
    let '(mantissa, nfraction, s4) :=
      match s3 with
      | 46%N :: r => let '(m, n, r') := readDecimal whole 0 r in (m, n, r')
      | _ => (whole, 0, s3)
      end in
    if (nwhole =? 0) && (nfraction =? 0) then nan
    else
      let exponent :=
        match s4 with
        | 101%N :: r | 69%N :: r =>
            let '(minus, r1) := match r with
                                | 45%N :: t => (true, t)
                                | 43%N :: t => (false, t)
                                | _ => (false, r)
                                end in
            let '(x, n, _) := readDecimal 0 0 r1 in
            if n =? 0 then 0 else if minus then - x else x
        | _ => 0
        end in
      nearestDecimal negative mantissa (exponent - nfraction).

(** [parseFloat(v)] reads the string [v] converts to; a number reads
    back as itself, [-0] as [0]. *)
Definition floatOf (v : JsValue) : float :=
  match v with
  | Js.JsStr s | Js.JsObject s => parseFloatText s
  | Js.JsNumber x => if PrimFloat.eqb x 0 then zero else x
  | _ => nan
  end.

(** Days from 1970-01-01 to the first of a month of the proleptic
    Gregorian calendar. *)
Definition daysToMonth (year month : Z) : Z :=
  let y := if month <=? 2 then year - 1 else year in
  let era := y / 400 in
  let yoe := y - era * 400 in
  let mp := (month + 9) mod 12 in
  let doy := (153 * mp + 2) / 5 in
  era * 146097 + (yoe * 365 + yoe / 4 - yoe / 100 + doy) - 719468.

(** TimeClip. *)
Definition timeClip (t : Z) : option DateTime :=
  if Z.abs t <=? 8640000000000000 then Some t else None.

(** [n] decimal digits at the head of a string. *)
Fixpoint readFixed (n : nat) (acc : Z) (s : JsString) : option (Z * JsString) :=
  match n with
  | O => Some (acc, s)
  | S k =>
      match s with
      | c :: r =>
          if ((48 <=? c) && (c <=? 57))%N
          then readFixed k (10 * acc + (Z.of_N c - 48)) r
          else None
      | [] => None
      end
  end.

(** The UTC offset that ends a date-time string, in minutes: [Z],
    [+HH:mm], [-HH:mm] or nothing. *)
Definition readOffset (s : JsString) : option Z :=
  match s with
  | [] => Some 0
  | [90%N] => Some 0
  | sign :: r =>
      if N.eqb sign 43 || N.eqb sign 45 then
        match readFixed 2 0 r with
        | Some (h, 58%N :: r1) =>
            match readFixed 2 0 r1 with
            | Some (m, []) =>
                if (h <=? 23) && (m <=? 59)
                then Some (if N.eqb sign 45 then - (60 * h + m) else 60 * h + m)
                else None
            | _ => None
            end
        | _ => None
        end
      else None
  end.

(** The time of day of a date-time string, less its UTC offset, in
    milliseconds: [HH:mm], [HH:mm:ss] or [HH:mm:ss.sss], then the
    offset.  Without an offset the time is local, and the host is in
    UTC. *)
Definition readTime (s : JsString) : option Z :=
  match readFixed 2 0 s with
  | Some (h, 58%N :: r) =>
      match readFixed 2 0 r with
      | Some (m, r1) =>
          let '(seconds, r2) :=
            match r1 with
            | 58%N :: t =>
                match readFixed 2 0 t with
                | Some (sec, 46%N :: t1) =>
                    match readFixed 3 0 t1 with
                    | Some (ms, t2) => (Some (1000 * sec + ms, sec), t2)
                    | None => (None, t1)
                    end
                | Some (sec, t1) => (Some (1000 * sec, sec), t1)
                | None => (None, t)
                end
            | _ => (Some (0, 0), r1)
            end in
          match seconds, readOffset r2 with
          | Some (ms, sec), Some offset =>
              if ((h <=? 23) && (m <=? 59) && (sec <=? 59))
                 || ((h =? 24) && (m =? 0) && (ms =? 0))
              then Some (3600000 * h + 60000 * m + ms - 60000 * offset)
              else None
          | _, _ => None
          end
      | None => None
      end
  | _ => None
  end.

(** [Date.parse(s)] for the date-time string format of the standard:
    [YYYY], [YYYY-MM] or [YYYY-MM-DD], the year of four digits or of
    six with a sign, optionally followed by [T] and a time.  A day up
    to 31 is counted on from the first of the month.  Any other string
    is not recognised. *)
Definition dateParse (s : JsString) : option DateTime :=
  let year :=
    match s with
    | 43%N :: r => readFixed 6 0 r
    | 45%N :: r =>
        match readFixed 6 0 r with
        | Some (y, r') => if y =? 0 then None else Some (- y, r')
        | None => None
        end
    | _ => readFixed 4 0 s
    end in
  match year with
  | None => None
  | Some (y, r) =>
      let month :=
        match r with
        | 45%N :: r1 => readFixed 2 0 r1
        | _ => Some (1, r)
        end in
      match month with
      | None => None
      | Some (m, r1) =>
          let day :=
            match r, r1 with
            | 45%N :: _, 45%N :: r2 => readFixed 2 0 r2
            | _, _ => Some (1, r1)
            end in
          match day with
          | None => None
          | Some (d, r2) =>
              if (1 <=? m) && (m <=? 12) && (1 <=? d) && (d <=? 31) then
                let midnight := 86400000 * (daysToMonth y m + d - 1) in
                match r2 with
                | [] => timeClip midnight
                | 84%N :: r3 =>
                    match readTime r3 with
                    | Some t => timeClip (midnight + t)
                    | None => None
                    end
                | _ => None
                end
              else None
          end
      end
  end.

(** [new Date(v)]: a string is parsed, any other primitive is the
    number of milliseconds [ToNumber] makes of it, and an object is
    parsed as the string it converts to. *)
Definition dateFrom (v : JsValue) : option DateTime :=
  match v with
  | Js.JsUndefined => None
  | Js.JsNull => Some 0
  | Js.JsBool b => Some (if b then 1 else 0)
  | Js.JsNumber x =>
      match finite x with
      | Some (m, e) => timeClip (truncate m e)
      | None => None
      end
  | Js.JsStr s | Js.JsObject s => dateParse s
  end.

(** [/^[^\s@]+@[^\s@]+\.[^\s@]+$/]: no white space, exactly one [@], not
    at the head, and after it a dot that is neither the first nor the
    last character. *)
Definition emailMatches (s : JsString) : bool :=
  let plain c := negb (Js.isWhiteSpace c) && negb (N.eqb c 64) in
  let fix local (s : JsString) : option JsString :=
    match s with
    | [] => None
    | c :: r => if N.eqb c 64 then Some r
                else if Js.isWhiteSpace c then None else local r
    end in
  match s with
  | [] => false
  | c :: _ =>
      negb (N.eqb c 64)
      && match local s with
         | Some domain =>
             forallb plain domain
             && existsb (N.eqb 46) (removelast (tl domain))
         | None => false
         end
  end.

(** [/^https?:\/\/.+\..+$/]: [http://] or [https://], then, without a
    line terminator, a dot that is neither the first nor the last
    character. *)
Definition urlMatches (s : JsString) : bool :=
  let rest := if startsWith (Js.lit "http://") s then Some (skipn 7 s)
              else if startsWith (Js.lit "https://") s then Some (skipn 8 s)
              else None in
  match rest with
  | Some r =>
      forallb (fun c => negb (existsb (N.eqb c) [10; 13; 8232; 8233]%N)) r
      && existsb (N.eqb 46) (removelast (tl r))
  | None => false
  end.

Definition lower (c : CodeUnit) : CodeUnit :=
  if ((65 <=? c) && (c <=? 90))%N then (c + 32)%N else c.

Fixpoint isPrefix (p s : JsString) : bool :=
  match p, s with
  | [], _ => true
  | x :: p', y :: s' => N.eqb (lower x) (lower y) && isPrefix p' s'
  | _ :: _, [] => false
  end.

Fixpoint contains (s needle : JsString) : bool :=
  isPrefix needle s
  || match s with
     | [] => false
     | _ :: r => contains r needle
     end.

(** A host in UTC that follows the standard: [parseInt], [parseFloat],
    [new Date] and the two regular expressions as ECMA-262 defines
    them.  [Date.parse] reads the date-time string format of the
    standard; the other formats, which the standard leaves to the
    implementation, are Invalid Dates on this host.  The hash and the
    token are stand-ins for the two cryptographic functions. *)
Definition runtime : JsRuntime := {|
  parseFloat := floatOf;
  parseInt := intOf;
  dateOf := dateFrom;
  startOfMonth := utcStartOfMonth;
  bcryptHash := fun p => Js.lit "$2a$12$" ++ p;
  emailRegexTest := emailMatches;
  urlRegexTest := urlMatches;
  jwtSign := fun _ email _ _ secret => secret ++ email
|}.

(** A database that compares text without case on A-Z and returns rows
    in table order. *)
Definition database : Database := {|
  containsInsensitive := contains;
  equalsInsensitive := fun a b => Js.eqb (map lower a) (map lower b);
  orderInternships := fun _ _ l => Some l;
  orderInternships_perm := fun _ _ l l' H =>
    eq_ind l (fun x => Permutation l x) (Permutation_refl l) l'
      (f_equal (fun o => match o with Some x => x | None => l end) H);
  sortNames := fun l => l
|}.

(** 2023-11-14T22:13:20Z *)
Definition now : DateTime := 1700000000000.
Definition later : DateTime := 1800000000000.
Definition earlier : DateTime := 1600000000000.

Definition acme : Company.t :=
  Company.mk 1%N (Js.lit "Acme") None None None earlier earlier.

Definition student : User.t :=
  User.mk 1%N (Js.lit "ana@example.org") (Js.lit "hash") (Js.lit "Ana")
    UserRole.STUDENT earlier earlier None.

Definition recruiter : User.t :=
  User.mk 2%N (Js.lit "hr@acme.example") (Js.lit "hash") (Js.lit "Rui")
    UserRole.COMPANY earlier earlier (Some 1%N).

(** A student whose plan has a monthly limit of zero. *)
Definition capped : User.t :=
  User.mk 3%N (Js.lit "bo@example.org") (Js.lit "hash") (Js.lit "Bo")
    UserRole.STUDENT earlier earlier None.

Definition campaign (id : Id) (status : CampaignStatus.t) : Campaign.t :=
  Campaign.mk id (Js.lit "Summer") None 5000%float status earlier later 10
    earlier earlier 1%N.

Definition payment (id : Id) : CampaignPayment.t :=
  CampaignPayment.mk id id 5000%float (Js.lit "card") None
    PaymentStatus.PENDING None earlier.

Definition internship (id campaignId : Id) (isActive : bool) : Internship.t :=
  Internship.mk id (Js.lit "Backend intern") (Js.lit "APIs") (Js.lit "Lisbon")
    InternshipType.REMOTE (Some 800) (Js.lit "3 months") earlier later isActive
    1%N campaignId [Js.lit "Rust"] [Js.lit "backend"].

Definition application (id internshipId : Id) (status : ApplicationStatus.t)
  : Application.t :=
  Application.mk id (Some (Js.lit "Dear team")) status earlier earlier
    internshipId 1%N.

Definition plan (id : Id) (cap : option Z) : StudentPlan.t :=
  StudentPlan.mk id (Js.lit "Plan") 9%float PlanCycle.MONTHLY [] cap true
    earlier earlier.

Definition subscription (id userId planId : Id) : StudentSubscription.t :=
  StudentSubscription.mk id userId planId SubscriptionStatus.ACTIVE earlier
    later earlier earlier.

(** Campaign 1 is ACTIVE, 2 is PAUSED, 3 is EXPIRED.  Internship 1 is
    open, 2 sits under the paused campaign, 3 and 4 are open and already
    applied to by the student: application 1 is ACCEPTED, 2 is PENDING. *)
Definition store : Store :=
  mkStore
    [student; recruiter; capped]
    [acme]
    [campaign 1%N CampaignStatus.ACTIVE; campaign 2%N CampaignStatus.PAUSED;
     campaign 3%N CampaignStatus.EXPIRED]
    [payment 1%N; payment 2%N; payment 3%N]
    [internship 1%N 1%N true; internship 2%N 2%N true; internship 3%N 1%N true;
     internship 4%N 1%N true]
    [application 1%N 3%N ApplicationStatus.ACCEPTED;
     application 2%N 4%N ApplicationStatus.PENDING]
    [subscription 1%N 1%N 1%N; subscription 2%N 3%N 2%N]
    [plan 1%N (Some 5); plan 2%N (Some 0)].

(** A cover letter of [n] letters followed by [pad] spaces. *)
Definition letter (n pad : nat) : JsString := repeat 97%N n ++ repeat 32%N pad.

End Sample.

(** [Sample.store] with cover letters as the handlers store them. *)
Module Seeded.

Definition application (id internshipId : Id) (status : ApplicationStatus.t)
  : Application.t :=
  Application.mk id (Some (Sample.letter 60 0)) status Sample.earlier
    Sample.earlier internshipId 1%N.

Definition store : Store :=
  Prisma.withApplications Sample.store
    [application 1%N 3%N ApplicationStatus.ACCEPTED;
     application 2%N 4%N ApplicationStatus.PENDING].

End Seeded.

(** A platform for the guards, the logins and the lists: tokens that
    carry their payload in clear after the secret, a database that
    returns rows in table order, and [Sample.store] with accounts whose
    password is "hunter22". *)
Module Platform.

Definition sign (id : Id) (email : JsString) (role : UserRole.t) (flag : bool)
  (secret : JsString) : JsString :=
  secret
  ++ [46%N; id;
      match role with UserRole.STUDENT => 83%N | UserRole.COMPANY => 67%N end;
      if flag then 49%N else 48%N]
  ++ email.

Fixpoint afterPrefix (p s : JsString) : option JsString :=
  match p, s with
  | [], _ => Some s
  | x :: p', y :: s' => if N.eqb x y then afterPrefix p' s' else None
  | _ :: _, [] => None
  end.

Definition verify (token secret : JsString) (now : DateTime)
  : option TokenPayload.t :=
  match afterPrefix secret token with
  | Some (_ :: id :: r :: f :: email) =>
      Some (TokenPayload.mk id email
              (if N.eqb r 83 then Js.lit "STUDENT" else Js.lit "COMPANY")
              (N.eqb f 49))
  | _ => None
  end.

Definition runtime : JsRuntime := {|
  parseFloat := @parseFloat Sample.runtime;
  parseInt := @parseInt Sample.runtime;
  dateOf := @dateOf Sample.runtime;
  startOfMonth := @startOfMonth Sample.runtime;
  bcryptHash := @bcryptHash Sample.runtime;
  emailRegexTest := @emailRegexTest Sample.runtime;
  urlRegexTest := @urlRegexTest Sample.runtime;
  jwtSign := sign
|}.

Definition credentials : Credentials := {|
  jwtVerify := verify;
  bcryptCompare := fun password hash =>
                     Js.eqb hash (@bcryptHash Sample.runtime password)
|}.

Definition ordering : Ordering := {|
  orderApplications := fun _ _ l => Some l;
  orderApplications_perm := fun _ _ l l' H =>
    eq_ind l (fun x => Permutation l x) (Permutation_refl l) l'
      (f_equal (fun o => match o with Some x => x | None => l end) H);
  orderCampaigns := fun l => l;
  orderCampaigns_perm := fun l => Permutation_refl l
|}.

Definition secret : JsString := Js.lit "s3cret".

Definition withPassword (u : User.t) : User.t :=
  User.mk (User.id u) (User.email u)
    (@bcryptHash Sample.runtime (Js.lit "hunter22")) (User.name u) (User.role u)
    (User.createdAt u) (User.updatedAt u) (User.companyId u).

Definition store : Store :=
  Prisma.withUsers Sample.store (map withPassword (users Sample.store)).

End Platform.

(* ================================================================== *)
(** * Vocabulary of the properties                                     *)
(* ================================================================== *)

(** [trim] throws on the cover letter: a truthy value that is not a
    string. *)
Definition coverLetterThrows (coverLetter : JsValue) : bool :=
  match coverLetter with
  | Js.JsStr _ => false
  | _ => Js.truthy coverLetter
  end.

(** The first cover-letter guard stops the request: it returns its 400
    for a falsy value and for a string whose trimmed length is below
    50, and [trim] throws on every other value that is not a string. *)
Definition coverLetterStopped (coverLetter : JsValue) : bool :=
  match coverLetter with
  | Js.JsStr text => negb (Js.truthy coverLetter) || (Js.length (Js.trim text) <? 50)
  | _ => true
  end.

(** Neither cover-letter guard of [applyToInternship] fires. *)
Definition coverLetterAccepted (coverLetter : JsValue) : bool :=
  negb (coverLetterStopped coverLetter)
  && negb (Js.length (Js.textOf coverLetter) >? 2000).

(** [user.subscriptions[0].plan], when [user?.subscriptions[0]] is set. *)
Definition activePlan (userId : Id) (now : DateTime) (s : Store)
  : option StudentPlan.t :=
  match Prisma.user_findUnique_subscriptions userId now s with
  | Some (_, (_, plan) :: _) => Some plan
  | _ => None
  end.

(** The monthly limit block stops the request. *)
Definition limitReached {rt : JsRuntime} (userId : Id) (now : DateTime)
  (s : Store) (plan : StudentPlan.t) : bool :=
  match StudentPlan.maxApplicationsPerMonth plan with
  | Some limit =>
      negb (limit =? 0)
      && (Prisma.application_count userId (startOfMonth now) s >=? limit)
  | None => false
  end.




(** The values Prisma rejects in a campaign edit: an end date that is
    no date, a title that is no string, a description that is neither
    a string nor [null]. *)
Definition editRejected {rt : JsRuntime} (body : EditBody.t) : bool :=
  (Js.truthy (EditBody.endDate body)
   && match dateOf (EditBody.endDate body) with
      | None => true
      | Some _ => false
      end)
  || (Js.truthy (EditBody.title body)
      && match EditBody.title body with
         | Js.JsStr _ => false
         | _ => true
         end)
  || match EditBody.description body with
     | Js.JsUndefined | Js.JsNull | Js.JsStr _ => false
     | _ => true
     end.

(** What Prisma takes of a launch: a title and a payment method that
    are strings, a description and a transaction id that are strings,
    [null] or absent, an end date that is a date and a number of
    internships that fits the integer column. *)
Definition launchData {rt : JsRuntime} (body : LaunchBody.t)
  (title : JsString) (description : option JsString) (method : JsString)
  (transactionId : option JsString) (d : DateTime) (n : Z) : Prop :=
  Prisma.stringArg (LaunchBody.title body) = Some title
  /\ Prisma.nullableStringArg (LaunchBody.description body) = Some description
  /\ Prisma.stringArg (LaunchBody.paymentMethod body) = Some method
  /\ Prisma.nullableStringArg (LaunchBody.transactionId body)
     = Some transactionId
  /\ dateOf (LaunchBody.endDate body) = Some d
  /\ parseInt (LaunchBody.maxInternships body) = Some n
  /\ Prisma.int32 n = true.

(** The keys of the application rows, in table order. *)
Definition applicationIds (s : Store) : list Id :=
  map Application.id (applications s).

(** The row [applyToInternship] inserts. *)
Definition submitted (s : Store) (now : DateTime) (uid iid : Id)
  (coverLetter : JsValue) : Application.t :=
  Application.mk (Prisma.freshId (applicationIds s))
    (Some (Js.trim (Js.textOf coverLetter))) ApplicationStatus.PENDING
    now now iid uid.

(** [keeps R m]: run in the isolated world, [m] ends in an isolated
    world whose store is related to the initial one by [R]. *)
Definition keeps (R : Store -> Store -> Prop) {A} (m : M A) : Prop :=
  forall s now, exists s', snd (m (quiet s now)) = quiet s' now /\ R s s'.

(** [opKeeps R op]: when [op] succeeds, the store it returns is
    related to the one it was given by [R]. *)
Definition opKeeps (R : Store -> Store -> Prop) {A} (op : DbOp A) : Prop :=
  forall s now a s', op s now = inr (a, s') -> R s s'.

(** The relation "no application row was created or removed". *)
Definition sameApplicationIds (s s' : Store) : Prop :=
  applicationIds s' = applicationIds s.

(** The unique index on [(internshipId, userId)]. *)
Definition uniquePairs (s : Store) : Prop :=
  NoDup (map (fun a => (Application.internshipId a, Application.userId a))
             (applications s)).

(** The application rows of a pair. *)
Definition rowsOf (iid uid : Id) (s : Store) : list Application.t :=
  filter (fun a => N.eqb (Application.internshipId a) iid
                   && N.eqb (Application.userId a) uid) (applications s).

(** The store after the concurrent commits of a stretch of the script. *)
Definition commits (es : list EnvStep) (s : Store) : Store :=
  fold_left (fun s e => match e with Commit f => f s | _ => s end) es s.

(** The world once the environment has made its next move. *)
Definition envStep (w : World) : World :=
  mkWorld (commits (firstn 1 (env w)) (store w)) (clock w) (tl (env w)).

(** The query string of a listing without any optional filter. *)
Definition unfiltered (q : ListQuery.t) : Prop :=
  ListQuery.type q = None /\ ListQuery.location q = None
  /\ ListQuery.minStipend q = None /\ ListQuery.maxStipend q = None
  /\ ListQuery.skills q = None /\ ListQuery.tags q = None
  /\ ListQuery.search q = None.

(** [q] with another [page] parameter. *)
Definition withPage (q : ListQuery.t) (page : JsString) : ListQuery.t :=
  ListQuery.mk (ListQuery.type q) (ListQuery.location q) (ListQuery.minStipend q)
    (ListQuery.maxStipend q) (ListQuery.skills q) (ListQuery.tags q)
    (ListQuery.search q) (Some page) (ListQuery.limit q) (ListQuery.sortBy q)
    (ListQuery.sortOrder q).

(** The three conditions of the specification on an internship of the
    store. *)
Definition visible (s : Store) (now : DateTime) (i : Internship.t) : Prop :=
  In i (internships s)
  /\ Internship.isActive i = true
  /\ now <= Internship.deadline i
  /\ exists ca, Prisma.campaignById s (Internship.campaignId i) = Some ca
                /\ Campaign.status ca = CampaignStatus.ACTIVE.

(** Every application row carries a cover letter of at least 50
    characters. *)
Definition lettersOk (s : Store) : Prop :=
  forall a, In a (applications s) ->
    exists c, Application.coverLetter a = Some c /\ 50 <= Js.length c.

(** The [(internshipId, userId)] pairs of the application rows. *)
Definition applicationPairs (s : Store) : list (Id * Id) :=
  map (fun a => (Application.internshipId a, Application.userId a))
      (applications s).

(** The application rows were neither created nor removed and, under a
    primary key, kept their pairs. *)
Definition keysKept (s s' : Store) : Prop :=
  applicationIds s' = applicationIds s
  /\ (NoDup (applicationIds s) -> applicationPairs s' = applicationPairs s).

(** The primary key and the unique index of the application table. *)
Definition applicationKeys (s : Store) : Prop :=
  NoDup (applicationIds s) /\ uniquePairs s.

(** The unique index on [User.email]. *)
Definition uniqueEmails (s : Store) : Prop :=
  NoDup (map User.email (users s)).

(** Campaigns have a primary key, and the campaigns and the payments
    are in one-to-one correspondence through [campaignId]. *)
Definition paymentsMatch (s : Store) : Prop :=
  NoDup (map Campaign.id (campaigns s))
  /\ Permutation (map Campaign.id (campaigns s))
       (map CampaignPayment.campaignId (campaignPayments s)).

(** [preserves I]: the relation between a store on which [I] holds and
    a store on which it still does. *)
Definition preserves (I : Store -> Prop) (s s' : Store) : Prop := I s -> I s'.

(** At most the application table differs. *)
Definition onlyApplications (s s' : Store) : Prop :=
  users s' = users s /\ companies s' = companies s
  /\ campaigns s' = campaigns s /\ campaignPayments s' = campaignPayments s
  /\ internships s' = internships s
  /\ studentSubscriptions s' = studentSubscriptions s
  /\ studentPlans s' = studentPlans s.

(** At most the campaign and campaign payment tables differ. *)
Definition onlyCampaigns (s s' : Store) : Prop :=
  users s' = users s /\ companies s' = companies s
  /\ internships s' = internships s /\ applications s' = applications s
  /\ studentSubscriptions s' = studentSubscriptions s
  /\ studentPlans s' = studentPlans s.

(** At most the user and company tables differ. *)
Definition onlyUsers (s s' : Store) : Prop :=
  campaigns s' = campaigns s /\ campaignPayments s' = campaignPayments s
  /\ internships s' = internships s /\ applications s' = applications s
  /\ studentSubscriptions s' = studentSubscriptions s
  /\ studentPlans s' = studentPlans s.

(** The internship an application is for was posted by company [cid]. *)
Definition postedBy (s : Store) (cid : Id) (a : Application.t) : Prop :=
  exists i, In i (internships s)
            /\ Internship.id i = Application.internshipId a
            /\ Internship.companyId i = cid.

(** The entry of the listing for internship [i], as student [uid] sees
    it on the store [s]. *)
Definition listItemOf (s : Store) (uid : Id) (i : Internship.t) : ListItem :=
  let mine := filter (fun a => N.eqb (Application.internshipId a) (Internship.id i))
                (applications s) in
  mkListItem i (Z.of_nat (List.length mine))
    (existsb (fun a => N.eqb (Application.userId a) uid) mine).

(* ================================================================== *)
(** * Properties                                                       *)
(* ================================================================== *)

(** ** Running a handler in the isolated world *)

Lemma await_quiet {A} (op : DbOp A) (s : Store) (now : DateTime) :
  await op (quiet s now)
  = match op s now with
    | inl e => (inl e, quiet s now)
    | inr (a, s') => (inr a, quiet s' now)
    end.
Proof. reflexivity. Qed.

Lemma awaitTx_quiet {A} (op : DbOp A) (s : Store) (now : DateTime) :
  awaitTx op (quiet s now) = await op (quiet s now).
Proof. reflexivity. Qed.

Lemma await_query_quiet {A} (f : Store -> A) (s : Store) (now : DateTime) :
  await (query f) (quiet s now) = (inr (f s), quiet s now).
Proof. reflexivity. Qed.

Ltac run_quiet :=
  cbv beta iota zeta delta
    [tryCatch bind await awaitTx exec query ret throw newDate quiet
     env store clock transaction noop].

(** ** Lookups *)

Lemma internship_findUnique_row iid s i co ca :
  Prisma.internship_findUnique iid s = Some (i, co, ca) ->
  Prisma.internshipById s iid = Some i.
Proof.
  unfold Prisma.internship_findUnique.
  destruct (Prisma.internshipById s iid) as [i'|]; [|discriminate].
  destruct (Prisma.companyById s (Internship.companyId i'));
    destruct (Prisma.campaignById s (Internship.campaignId i'));
    intros H; inversion H; reflexivity.
Qed.

Lemma activePlan_user uid now s plan :
  activePlan uid now s = Some plan ->
  exists u sub,
    Prisma.userById s uid = Some u
    /\ Prisma.latest (Prisma.activeSubscriptions uid now s) = Some (sub, plan).
Proof.
  unfold activePlan, Prisma.user_findUnique_subscriptions.
  destruct (Prisma.userById s uid) as [u|]; [|discriminate].
  destruct (Prisma.latest (Prisma.activeSubscriptions uid now s)) as [[sub p]|];
    [|discriminate].
  intros H; inversion H; subst. exists u, sub. split; reflexivity.
Qed.

Lemma find_some_id {A} (key : A -> Id) (k : Id) (l : list A) (x : A) :
  find (fun a => N.eqb (key a) k) l = Some x -> key x = k.
Proof.
  intros H. apply find_some in H. destruct H as [_ H].
  apply N.eqb_eq in H. exact H.
Qed.

(** Replacing the rows keyed [k] by a row keyed [k] keeps the keys. *)
Lemma map_replace_key {A} (key : A -> Id) (k : Id) (new : A) (l : list A) :
  key new = k ->
  map key (map (fun a => if N.eqb (key a) k then new else a) l) = map key l.
Proof.
  intros Hk. induction l as [|a l IH]; simpl; [reflexivity|].
  rewrite IH. destruct (N.eqb (key a) k) eqn:E.
  - apply N.eqb_eq in E. congruence.
  - reflexivity.
Qed.

Section ApplyProperties.

Context {rt : JsRuntime}.

(** When the handler gets as far as the monthly limit block. *)
Lemma monthlyLimit_quiet uid plan s now :
  monthlyLimit uid plan (quiet s now)
  = (inr (if limitReached uid now s plan
          then Some (ApplyLimitReached (StudentPlan.name plan)
                       (Prisma.application_count uid (startOfMonth now) s)
                       (Prisma.orElse (StudentPlan.maxApplicationsPerMonth plan) 0))
          else None),
     quiet s now).
Proof.
  unfold monthlyLimit, limitReached, Js.truthyInt.
  destruct (StudentPlan.maxApplicationsPerMonth plan) as [limit|]; [|reflexivity].
  destruct (limit =? 0); [reflexivity|].
  run_quiet. simpl.
  destruct (Prisma.application_count uid (startOfMonth now) s >=? limit);
    reflexivity.
Qed.

(** A body that can be read is handed to the rest of the handler. *)
Lemma readBody_json {Fields B} (fields : Fields) (k : Fields -> M B) :
  bind (readBody (Json fields)) k = k fields.
Proof. reflexivity. Qed.

(** A body that cannot be read ends the handler in its [catch], in
    whatever world: nothing has been asked of the store. *)
Lemma applyToInternship_unreadable uid iid req w :
  (forall c, req <> Json c) ->
  applyToInternship uid iid req w = (ApplyFailed, w).
Proof.
  intros H. destruct req as [| |fields]; [reflexivity|reflexivity|].
  exfalso. exact (H fields eq_refl).
Qed.

Lemma updateApplicationStatus_unreadable uid aid req w :
  (forall status, req <> Json status) ->
  updateApplicationStatus uid aid req w = (StatusFailed, w).
Proof.
  intros H. destruct req as [| |fields]; [reflexivity|reflexivity|].
  exfalso. exact (H fields eq_refl).
Qed.

Lemma updateApplication_unreadable uid aid req w :
  (forall c, req <> Json c) ->
  updateApplication uid aid req w = (EditFailed, w).
Proof.
  intros H. destruct req as [| |fields]; [reflexivity|reflexivity|].
  exfalso. exact (H fields eq_refl).
Qed.



(** The first guard on any world: it throws, or it returns its verdict,
    and the world is as it was. *)
Lemma coverLetterTooShort_run c w :
  coverLetterTooShort c w
  = if coverLetterThrows c then (inl TypeError, w)
    else (inr (coverLetterStopped c), w).
Proof.
  unfold coverLetterTooShort, coverLetterThrows, coverLetterStopped.
  destruct c as [| |b|x|text|]; cbn [Js.truthy negb]; try reflexivity.
  - destruct b; reflexivity.
  - destruct (PrimFloat.eqb x 0 || PrimFloat.is_nan x); reflexivity.
  - destruct text; reflexivity.
Qed.

Lemma coverLetter_passed c :
  coverLetterStopped c = false -> coverLetterThrows c = false.
Proof. destruct c; try discriminate. reflexivity. Qed.

(** [trim] returns on a cover letter that got past the first guard. *)
Lemma callTrim_run c w :
  coverLetterStopped c = false ->
  callTrim c w = (inr (Js.trim (Js.textOf c)), w).
Proof. destruct c; try discriminate. reflexivity. Qed.

(** The handler in the isolated world, as one cascade. *)
Lemma applyToInternship_quiet uid iid c s now :
  applyToInternship uid iid (Json c) (quiet s now)
  = if coverLetterStopped c
    then (if coverLetterThrows c then ApplyFailed else ApplyTooShort, quiet s now)
    else if Js.length (Js.textOf c) >? 2000 then (ApplyTooLong, quiet s now)
    else
      match Prisma.internship_findUnique iid s with
      | None => (ApplyInternshipNotFound, quiet s now)
      | Some (i, _, ca) =>
          if negb (Internship.isActive i) then (ApplyNotAccepting, quiet s now)
          else if negb (CampaignStatus.eqb (Campaign.status ca) CampaignStatus.ACTIVE)
          then (ApplyCampaignNotActive, quiet s now)
          else if now >? Internship.deadline i then (ApplyDeadlinePassed, quiet s now)
          else
            match Prisma.application_findUnique iid uid s with
            | Some _ => (ApplyAlreadyApplied, quiet s now)
            | None =>
                match activePlan uid now s with
                | None => (ApplySubscriptionRequired, quiet s now)
                | Some plan =>
                    if limitReached uid now s plan
                    then (ApplyLimitReached (StudentPlan.name plan)
                            (Prisma.application_count uid (startOfMonth now) s)
                            (Prisma.orElse
                               (StudentPlan.maxApplicationsPerMonth plan) 0),
                          quiet s now)
                    else (ApplySubmitted (submitted s now uid iid c),
                          quiet (Prisma.withApplications s
                                   (applications s ++ [submitted s now uid iid c]))
                                now)
                end
            end
      end.
Proof.
  unfold applyToInternship. rewrite readBody_json. unfold tryCatch.
  unfold bind at 1. rewrite coverLetterTooShort_run.
  destruct (coverLetterThrows c) eqn:Hthrows.
  { destruct c; try discriminate; reflexivity. }
  destruct (coverLetterStopped c) eqn:Hstop; [reflexivity|].
  destruct (Js.length (Js.textOf c) >? 2000); [reflexivity|].
  unfold bind at 1. rewrite await_query_quiet.
  destruct (Prisma.internship_findUnique iid s) as [[[i co] ca]|] eqn:Hi;
    [|reflexivity].
  destruct (negb (Internship.isActive i)); [reflexivity|].
  destruct (negb (CampaignStatus.eqb (Campaign.status ca) CampaignStatus.ACTIVE));
    [reflexivity|].
  unfold bind at 1, newDate at 1. cbn [clock quiet].
  destruct (now >? Internship.deadline i); [reflexivity|].
  unfold bind at 1. rewrite await_query_quiet.
  destruct (Prisma.application_findUnique iid uid s) eqn:Ha; [reflexivity|].
  unfold bind at 1, newDate at 1. cbn [clock quiet].
  unfold bind at 1. rewrite await_query_quiet.
  unfold activePlan.
  destruct (Prisma.user_findUnique_subscriptions uid now s)
    as [[u [|[sub plan] rest]]|] eqn:Hu; try reflexivity.
  unfold bind at 1. rewrite monthlyLimit_quiet.
  destruct (limitReached uid now s plan); [reflexivity|].
  unfold bind at 1. rewrite (callTrim_run _ _ Hstop).
  unfold bind at 1. rewrite await_quiet.
  unfold Prisma.application_create. rewrite Ha.
  rewrite (internship_findUnique_row _ _ _ _ _ Hi).
  assert (Hp : activePlan uid now s = Some plan)
    by (unfold activePlan; rewrite Hu; reflexivity).
  destruct (activePlan_user _ _ _ _ Hp) as (u' & sub' & Hu' & _).
  rewrite Hu'. reflexivity.
Qed.

End ApplyProperties.

(** ** The two application updates in the isolated world *)

Lemma find_and_left {A} (p q : A -> bool) (l : list A) (x : A) :
  find (fun a => p a && q a) l = Some x ->
  exists y, find p l = Some y.
Proof.
  induction l as [|a l IH]; simpl; [discriminate|].
  destruct (p a); simpl.
  - intros _. exists a. reflexivity.
  - exact IH.
Qed.

(** An update of a row that is there succeeds, and the new row keeps
    everything the data does not name. *)
Lemma application_update_found aid data s now old :
  find (fun a => N.eqb (Application.id a) aid) (applications s) = Some old ->
  exists new,
    Prisma.application_update aid data s now
    = inr (new,
           Prisma.withApplications s
             (map (fun a => if N.eqb (Application.id a) aid then new else a)
                  (applications s)))
    /\ Application.id new = aid
    /\ Application.status new
       = Prisma.orElse (Prisma.set_status data) (Application.status old)
    /\ Application.updatedAt new = Prisma.orElse (Prisma.set_updatedAt data) now
    /\ Application.coverLetter new
       = match Prisma.set_coverLetter data with
         | Some c => Some c
         | None => Application.coverLetter old
         end
    /\ Application.createdAt new = Application.createdAt old
    /\ Application.internshipId new = Application.internshipId old
    /\ Application.userId new = Application.userId old.
Proof.
  intros H. unfold Prisma.application_update. rewrite H.
  eexists. split; [reflexivity|].
  cbn. repeat split; try reflexivity.
  exact (find_some_id Application.id aid _ _ H).
Qed.

Lemma updateApplicationStatus_quiet uid aid status s now :
  updateApplicationStatus uid aid (Json status) (quiet s now)
  = if negb (Js.truthy status)
       || negb (Js.includesValue validStatuses status)
    then (StatusInvalid, quiet s now)
    else
      match Prisma.user_findUnique_company uid s with
      | Some (_, Some company) =>
          match Prisma.application_findFirst_ofCompany aid (Company.id company) s with
          | None => (StatusApplicationNotFound, quiet s now)
          | Some application =>
              match applicationStatusOf (Js.textOf status) with
              | None => (StatusFailed, quiet s now)
              | Some target =>
                  if ApplicationStatus.eqb (Application.status application)
                       ApplicationStatus.ACCEPTED
                     && negb (ApplicationStatus.eqb target ApplicationStatus.ACCEPTED)
                  then (StatusCannotChangeAccepted, quiet s now)
                  else
                    match Prisma.application_update aid
                            (Prisma.mkApplicationUpdateInput (Some target) None
                               (Some now)) s now with
                    | inl _ => (StatusFailed, quiet s now)
                    | inr (a, s') => (StatusUpdated a, quiet s' now)
                    end
              end
          end
      | _ => (StatusCompanyNotFound, quiet s now)
      end.
Proof.
  unfold updateApplicationStatus. rewrite readBody_json.
  destruct (negb (Js.truthy status)
            || negb (Js.includesValue validStatuses status));
    [reflexivity|].
  unfold tryCatch, bind at 1. rewrite await_query_quiet.
  destruct (Prisma.user_findUnique_company uid s) as [[u [company|]]|];
    try reflexivity.
  unfold bind at 1. rewrite await_query_quiet.
  destruct (Prisma.application_findFirst_ofCompany aid (Company.id company) s);
    [|reflexivity].
  destruct (applicationStatusOf (Js.textOf status)); [|reflexivity].
  destruct (ApplicationStatus.eqb (Application.status t) ApplicationStatus.ACCEPTED
            && negb (ApplicationStatus.eqb t0 ApplicationStatus.ACCEPTED));
    [reflexivity|].
  unfold bind at 1, newDate at 1. cbn [clock quiet].
  unfold bind at 1. rewrite await_quiet.
  destruct (Prisma.application_update aid _ s now) as [e|[a s']]; reflexivity.
Qed.

Lemma updateApplication_quiet uid aid c s now :
  updateApplication uid aid (Json c) (quiet s now)
  = if coverLetterStopped c
    then (if coverLetterThrows c then EditFailed else EditTooShort, quiet s now)
    else
      match Prisma.application_findFirst_ofUser aid uid s with
      | None => (EditApplicationNotFound, quiet s now)
      | Some application =>
          if negb (ApplicationStatus.eqb (Application.status application)
                     ApplicationStatus.PENDING)
          then (EditNotPending, quiet s now)
          else
            match Prisma.application_update aid
                    (Prisma.mkApplicationUpdateInput None
                       (Some (Js.trim (Js.textOf c))) None) s now with
            | inl _ => (EditFailed, quiet s now)
            | inr (a, s') => (EditUpdated a, quiet s' now)
            end
      end.
Proof.
  unfold updateApplication. rewrite readBody_json. unfold tryCatch.
  unfold bind at 1. rewrite coverLetterTooShort_run.
  destruct (coverLetterThrows c) eqn:Hthrows.
  { destruct c; try discriminate; reflexivity. }
  destruct (coverLetterStopped c) eqn:Hstop; [reflexivity|].
  unfold bind at 1. rewrite await_query_quiet.
  destruct (Prisma.application_findFirst_ofUser aid uid s); [|reflexivity].
  destruct (negb (ApplicationStatus.eqb (Application.status t)
                    ApplicationStatus.PENDING)); [reflexivity|].
  unfold bind at 1. rewrite (callTrim_run _ _ Hstop).
  unfold bind at 1. rewrite await_quiet.
  destruct (Prisma.application_update aid _ s now) as [e|[a s']]; reflexivity.
Qed.

Lemma Js_eqb_eq (a b : JsString) : Js.eqb a b = true <-> a = b.
Proof.
  revert b. induction a as [|x a IH]; destruct b as [|y b]; simpl;
    try (split; [discriminate|discriminate]); [split; reflexivity|].
  rewrite andb_true_iff, N.eqb_eq, IH. split.
  - intros [-> ->]. reflexivity.
  - intros H. inversion H. split; reflexivity.
Qed.

Lemma applicationStatusOf_toString (t : ApplicationStatus.t) :
  applicationStatusOf (ApplicationStatus.toString t) = Some t.
Proof. destruct t; reflexivity. Qed.

Lemma applicationStatusOf_inv (x : JsString) (t : ApplicationStatus.t) :
  applicationStatusOf x = Some t -> x = ApplicationStatus.toString t.
Proof.
  unfold applicationStatusOf. intros H. apply find_some in H.
  destruct H as [_ H]. apply Js_eqb_eq in H. exact H.
Qed.

Lemma validStatuses_toString (t : ApplicationStatus.t) :
  Js.includes validStatuses (ApplicationStatus.toString t) = true.
Proof. destruct t; reflexivity. Qed.

Lemma truthy_toString (t : ApplicationStatus.t) :
  Js.truthy (Js.JsStr (ApplicationStatus.toString t)) = true.
Proof. destruct t; reflexivity. Qed.

Lemma truthyStr_toString (t : ApplicationStatus.t) :
  Js.truthyStr (Some (ApplicationStatus.toString t)) = true.
Proof. destruct t; reflexivity. Qed.

(** With a primary key, a row is determined by its id. *)
Lemma nodup_key_inj {A} (key : A -> Id) (l : list A) (a b : A) :
  NoDup (map key l) -> In a l -> In b l -> key a = key b -> a = b.
Proof.
  induction l as [|x l IH]; simpl; [contradiction|].
  intros Hnd Ha Hb Hk. inversion Hnd as [|? ? Hnot Hrest]; subst.
  destruct Ha as [->|Ha]; destruct Hb as [->|Hb]; try reflexivity.
  - exfalso. apply Hnot. rewrite Hk. apply in_map. exact Hb.
  - exfalso. apply Hnot. rewrite <- Hk. apply in_map. exact Ha.
  - apply IH; assumption.
Qed.

Lemma in_map_replace_other {A} (key : A -> Id) (k : Id) (new a : A) (l : list A) :
  In a l -> key a <> k ->
  In a (map (fun x => if N.eqb (key x) k then new else x) l).
Proof.
  intros Hin Hne. apply in_map_iff. exists a. split; [|exact Hin].
  destruct (N.eqb (key a) k) eqn:E; [|reflexivity].
  apply N.eqb_eq in E. contradiction.
Qed.

(** C2. Once an application is ACCEPTED the company status update cannot
    move it.  (1) When the calling company owns the application, a call
    whose target is PENDING, SHORTLISTED or REJECTED is answered with
    "Cannot change status of accepted application" (InvalidTransition)
    and the world is left exactly as it was.  (2) Whoever calls, on
    whichever application id and with whatever body, readable or not,
    other than one whose status is ACCEPTED, every ACCEPTED row of a
    store with a primary key is still there, unchanged, afterwards. *)
Theorem accepted_application_is_immutable :
  forall (s : Store) (now : DateTime),
    (forall uid aid u company application target,
        Prisma.user_findUnique_company uid s = Some (u, Some company) ->
        Prisma.application_findFirst_ofCompany aid (Company.id company) s
        = Some application ->
        Application.status application = ApplicationStatus.ACCEPTED ->
        In target [ApplicationStatus.PENDING; ApplicationStatus.SHORTLISTED;
                   ApplicationStatus.REJECTED] ->
        let r := updateApplicationStatus uid aid
                   (Json (Js.JsStr (ApplicationStatus.toString target)))
                   (quiet s now) in
        fst r = StatusCannotChangeAccepted
        /\ statusOutcome (fst r) = InvalidTransition
        /\ snd r = quiet s now)
    /\ (forall uid aid (req : Body JsValue) a,
        NoDup (applicationIds s) ->
        In a (applications s) ->
        Application.status a = ApplicationStatus.ACCEPTED ->
        req
        <> Json (Js.JsStr (ApplicationStatus.toString
                             ApplicationStatus.ACCEPTED)) ->
        In a (applications
                (store (snd (updateApplicationStatus uid aid req
                               (quiet s now)))))).
Proof.
  intros s now. split.
  - intros uid aid u company application target Hu Ha Hst Ht r.
    subst r. rewrite updateApplicationStatus_quiet.
    rewrite truthy_toString. cbn [Js.includesValue Js.textOf].
    rewrite validStatuses_toString. cbn [negb orb].
    rewrite Hu, Ha, applicationStatusOf_toString, Hst.
    destruct Ht as [<-|[<-|[<-|[]]]]; cbn; repeat split; reflexivity.
  - intros uid aid req a Hnd Hin Hacc Hreq.
    destruct req as [| |status]; try exact Hin.
    assert (Hne : status
                  <> Js.JsStr (ApplicationStatus.toString
                                 ApplicationStatus.ACCEPTED))
      by (intros ->; apply Hreq; reflexivity).
    rewrite updateApplicationStatus_quiet.
    destruct (negb (Js.truthy status)
              || negb (Js.includesValue validStatuses status))
      eqn:Hvalid; [exact Hin|].
    destruct (Prisma.user_findUnique_company uid s) as [[u [company|]]|];
      try exact Hin.
    destruct (Prisma.application_findFirst_ofCompany aid (Company.id company) s)
      as [application|] eqn:Hfound; [|exact Hin].
    destruct (applicationStatusOf (Js.textOf status)) as [target|] eqn:Ht;
      [|exact Hin].
    destruct (ApplicationStatus.eqb (Application.status application)
                ApplicationStatus.ACCEPTED
              && negb (ApplicationStatus.eqb target ApplicationStatus.ACCEPTED))
      eqn:Hguard; [exact Hin|].
    assert (Htarget : target <> ApplicationStatus.ACCEPTED).
    { intros ->. apply applicationStatusOf_inv in Ht.
      apply orb_false_iff in Hvalid. destruct Hvalid as [_ Hincluded].
      destruct status as [| |b|x|x|o]; try discriminate Hincluded.
      cbn [Js.textOf] in Ht. subst x. apply Hne. reflexivity. }
    assert (Hother : Application.status application <> ApplicationStatus.ACCEPTED).
    { intros E. rewrite E in Hguard. destruct target; try discriminate.
      apply Htarget. reflexivity. }
    pose proof Hfound as Hrow. apply find_some in Hrow.
    destruct Hrow as [Happ Hkey]. apply andb_true_iff in Hkey.
    destruct Hkey as [Hkey _]. apply N.eqb_eq in Hkey.
    destruct (find_and_left _ _ _ _ Hfound) as [old Hold].
    destruct (application_update_found aid
                (Prisma.mkApplicationUpdateInput (Some target) None (Some now))
                s now old Hold) as (new & Hupd & _).
    rewrite Hupd. cbn [snd store quiet applications Prisma.withApplications].
    apply in_map_replace_other; [exact Hin|].
    intros Hida. apply Hother.
    rewrite <- (nodup_key_inj Application.id (applications s) a application
                  Hnd Hin Happ); [exact Hacc|congruence].
Qed.

(** C9. A status update whose target is ACCEPTED, on an application of
    the calling company that is already ACCEPTED, is not refused: it
    answers with success, the row is written again with status ACCEPTED
    and its [updatedAt] is stamped with the time of the request. *)
Theorem accepted_to_accepted_succeeds :
  forall (s : Store) (now : DateTime) uid aid u company application,
    Prisma.user_findUnique_company uid s = Some (u, Some company) ->
    Prisma.application_findFirst_ofCompany aid (Company.id company) s
    = Some application ->
    Application.status application = ApplicationStatus.ACCEPTED ->
    let r := updateApplicationStatus uid aid
               (Json (Js.JsStr
                        (ApplicationStatus.toString ApplicationStatus.ACCEPTED)))
               (quiet s now) in
    exists updated,
      fst r = StatusUpdated updated
      /\ statusOutcome (fst r) = Success
      /\ statusOutcome (fst r) <> InvalidTransition
      /\ Application.id updated = aid
      /\ Application.status updated = ApplicationStatus.ACCEPTED
      /\ Application.updatedAt updated = now
      /\ applications (store (snd r))
         = map (fun a => if N.eqb (Application.id a) aid then updated else a)
               (applications s).
Proof.
  intros s now uid aid u company application Hu Ha Hst r. subst r.
  rewrite updateApplicationStatus_quiet. cbn [Js.includesValue Js.textOf].
  replace (negb (Js.truthy (Js.JsStr (ApplicationStatus.toString
                                        ApplicationStatus.ACCEPTED)))
           || negb (Js.includes validStatuses
                      (ApplicationStatus.toString ApplicationStatus.ACCEPTED)))
    with false by reflexivity.
  rewrite Hu, Ha, applicationStatusOf_toString, Hst. cbn [ApplicationStatus.eqb negb andb].
  destruct (find_and_left _ _ _ _ Ha) as [old Hold].
  destruct (application_update_found aid
              (Prisma.mkApplicationUpdateInput
                 (Some ApplicationStatus.ACCEPTED) None (Some now))
              s now old Hold)
    as (new & Hupd & Hid & Hstatus & Hstamp & _).
  rewrite Hupd. exists new. cbn [fst snd statusOutcome store quiet].
  repeat split; try assumption; try reflexivity; discriminate.
Qed.

(** C10. The student cover-letter edit checks the 50-character minimum
    on the trimmed text and nothing else: whenever the application
    belongs to the caller, is PENDING, and the trimmed cover letter has
    at least 50 characters, the edit succeeds and stores the trimmed
    text, however long it is. *)
Theorem cover_letter_edit_has_no_upper_bound :
  forall (s : Store) (now : DateTime) uid aid application (coverLetter : JsString),
    Prisma.application_findFirst_ofUser aid uid s = Some application ->
    Application.status application = ApplicationStatus.PENDING ->
    50 <= Js.length (Js.trim coverLetter) ->
    let r := updateApplication uid aid (Json (Js.JsStr coverLetter))
                                       (quiet s now) in
    exists updated,
      fst r = EditUpdated updated
      /\ editOutcome (fst r) = Success
      /\ Application.id updated = aid
      /\ Application.coverLetter updated = Some (Js.trim coverLetter)
      /\ applications (store (snd r))
         = map (fun a => if N.eqb (Application.id a) aid then updated else a)
               (applications s).
Proof.
  intros s now uid aid application coverLetter Ha Hst Hlen r. subst r.
  rewrite updateApplication_quiet.
  assert (Hshort : coverLetterStopped (Js.JsStr coverLetter) = false).
  { unfold coverLetterStopped.
    assert (Hlt : (Js.length (Js.trim coverLetter) <? 50) = false)
      by (apply Z.ltb_ge; exact Hlen).
    rewrite Hlt. destruct coverLetter as [|c rest]; [|reflexivity].
    exfalso. cbn in Hlen. lia. }
  rewrite Hshort, Ha, Hst. cbn [ApplicationStatus.eqb negb Js.textOf].
  destruct (find_and_left _ _ _ _ Ha) as [old Hold].
  destruct (application_update_found aid
              (Prisma.mkApplicationUpdateInput None
                 (Some (Js.trim coverLetter)) None)
              s now old Hold)
    as (new & Hupd & Hid & _ & _ & Hcl & _).
  rewrite Hupd. exists new. cbn [fst snd editOutcome store quiet].
  repeat split; try assumption; reflexivity.
Qed.

(** ** What a handler leaves untouched *)

Section Frame.

Variable R : Store -> Store -> Prop.
Hypothesis R_refl : forall s, R s s.
Hypothesis R_trans : forall a b c, R a b -> R b c -> R a c.

Lemma keeps_ret {A} (a : A) : keeps R (ret a).
Proof. intros s now. exists s. split; [reflexivity|apply R_refl]. Qed.

Lemma keeps_throw {A} (e : Exn) : keeps R (@throw A e).
Proof. intros s now. exists s. split; [reflexivity|apply R_refl]. Qed.

Lemma keeps_newDate : keeps R newDate.
Proof. intros s now. exists s. split; [reflexivity|apply R_refl]. Qed.

Lemma keeps_bind {A B} (m : M A) (k : A -> M B) :
  keeps R m -> (forall a, keeps R (k a)) -> keeps R (bind m k).
Proof.
  intros Hm Hk s now. unfold bind.
  destruct (Hm s now) as (s1 & E1 & R1).
  destruct (m (quiet s now)) as [[e|a] w1]; cbn [snd] in E1; subst w1.
  - exists s1. split; [reflexivity|exact R1].
  - destruct (Hk a s1 now) as (s2 & E2 & R2).
    exists s2. split; [exact E2|]. eapply R_trans; eassumption.
Qed.

Lemma keeps_await {A} (op : DbOp A) : opKeeps R op -> keeps R (await op).
Proof.
  intros Hop s now. rewrite await_quiet.
  destruct (op s now) as [e|[a s']] eqn:E.
  - exists s. split; [reflexivity|apply R_refl].
  - exists s'. split; [reflexivity|]. eapply Hop; eassumption.
Qed.

Lemma keeps_awaitTx {A} (op : DbOp A) : opKeeps R op -> keeps R (awaitTx op).
Proof. intros Hop s now. rewrite awaitTx_quiet. apply keeps_await. exact Hop. Qed.

Lemma opKeeps_query {A} (f : Store -> A) : opKeeps R (query f).
Proof. intros s now a s' H. inversion H; subst. apply R_refl. Qed.

Lemma opKeeps_noop : opKeeps R noop.
Proof. intros s now a s' H. inversion H; subst. apply R_refl. Qed.

Lemma keeps_transaction {A} (body : M A) :
  keeps R body -> keeps R (transaction body).
Proof.
  intros Hb s now. unfold transaction. rewrite await_quiet. cbn [noop].
  assert (Hfull : keeps R (bind body (fun a => bind (awaitTx noop) (fun _ => ret a)))).
  { apply keeps_bind; [exact Hb|]. intros a. apply keeps_bind.
    - apply keeps_awaitTx, opKeeps_noop.
    - intros _. apply keeps_ret. }
  destruct (Hfull s now) as (s' & E & HR).
  destruct (bind body _ (quiet s now)) as [[e|a] w2]; cbn [snd] in E; subst w2.
  - exists s. split; [reflexivity|apply R_refl].
  - exists s'. split; [reflexivity|exact HR].
Qed.

Lemma keeps_tryCatch {A} (m : M A) (h : Exn -> A) :
  keeps R m ->
  forall s now, exists s', snd (tryCatch m h (quiet s now)) = quiet s' now /\ R s s'.
Proof.
  intros Hm s now. unfold tryCatch.
  destruct (Hm s now) as (s' & E & HR).
  destruct (m (quiet s now)) as [[e|a] w']; cbn [snd] in *; subst w';
    exists s'; split; try reflexivity; exact HR.
Qed.

End Frame.

Lemma sameApplicationIds_refl s : sameApplicationIds s s.
Proof. reflexivity. Qed.

Lemma sameApplicationIds_trans a b c :
  sameApplicationIds a b -> sameApplicationIds b c -> sameApplicationIds a c.
Proof. unfold sameApplicationIds. congruence. Qed.

Lemma application_update_sameIds aid data :
  opKeeps sameApplicationIds (Prisma.application_update aid data).
Proof.
  intros s now a s'. unfold Prisma.application_update.
  destruct (find _ (applications s)) as [old|] eqn:Hold; [|discriminate].
  intros H. inversion H; subst. unfold sameApplicationIds, applicationIds.
  cbn [applications Prisma.withApplications].
  apply map_replace_key. cbn. exact (find_some_id Application.id aid _ _ Hold).
Qed.

(** Case analysis on the outcome of a store operation. *)
Ltac op_cases :=
  intros ? ? ? ?;
  repeat match goal with
         | |- context [match ?x with _ => _ end] => destruct x eqn:?
         | |- context [if ?b then _ else _] => destruct b eqn:?
         end;
  let H := fresh "Hop" in
  intros H; try discriminate H; inversion H; subst; clear H.

Lemma campaign_update_sameIds cid data :
  opKeeps sameApplicationIds (Prisma.campaign_update cid data).
Proof. unfold Prisma.campaign_update. op_cases; reflexivity. Qed.

Lemma campaign_create_sameIds t d b e m c st :
  opKeeps sameApplicationIds (Prisma.campaign_create t d b e m c st).
Proof. unfold Prisma.campaign_create. op_cases; reflexivity. Qed.

Lemma campaignPayment_create_sameIds c a m t st :
  opKeeps sameApplicationIds (Prisma.campaignPayment_create c a m t st).
Proof. unfold Prisma.campaignPayment_create. op_cases; reflexivity. Qed.

Lemma user_create_sameIds n e p r c :
  opKeeps sameApplicationIds (Prisma.user_create n e p r c).
Proof.
  intros s now x s'. unfold Prisma.user_create.
  destruct (Prisma.user_findUnique_email e s); [discriminate|].
  destruct c as [cid|].
  - destruct (Prisma.companyById s cid); [|discriminate].
    intros H; inversion H; reflexivity.
  - intros H; inversion H; reflexivity.
Qed.

Lemma company_create_sameIds n w d l :
  opKeeps sameApplicationIds (Prisma.company_create n w d l).
Proof. intros s now x s' H. inversion H; reflexivity. Qed.

Create HintDb frame.
#[local] Hint Resolve sameApplicationIds_refl application_update_sameIds
  campaign_update_sameIds campaign_create_sameIds campaignPayment_create_sameIds
  user_create_sameIds company_create_sameIds : frame.

(** Walk the syntax of a handler body. *)
Ltac frame_side refl trans := try exact refl; try exact trans.

Ltac frame_op refl :=
  first [ apply opKeeps_query; exact refl
        | apply opKeeps_noop; exact refl
        | solve [auto with frame] ].

Ltac frame_walk refl trans :=
  repeat first
    [ apply keeps_ret; exact refl
    | apply keeps_throw; exact refl
    | apply keeps_newDate; exact refl
    | apply keeps_bind; frame_side refl trans; [|intros]
    | apply keeps_transaction; frame_side refl trans
    | apply keeps_await; frame_side refl trans; frame_op refl
    | apply keeps_awaitTx; frame_side refl trans; frame_op refl
    | match goal with
      | |- keeps _ (match ?x with _ => _ end) => destruct x
      | |- keeps _ (if ?b then _ else _) => destruct b
      | |- keeps _ (let _ := _ in _) => cbv zeta
      | |- keeps _ (monthlyLimit _ _) => unfold monthlyLimit
      | |- keeps _ (coverLetterTooShort _) => unfold coverLetterTooShort
      | |- keeps _ (callTrim _) => unfold callTrim
      | |- keeps _ (readBody _) => unfold readBody
      end ].

Section SoleCreationPath.

Context {rt : JsRuntime} {db : Database}.

Lemma internship_count_sameIds q : opKeeps sameApplicationIds (internship_count q).
Proof.
  intros s now a s'. unfold internship_count.
  destruct (whereClauseValid q); [|discriminate].
  intros H; inversion H; reflexivity.
Qed.

Lemma internship_findMany_sameIds q u p l :
  opKeeps sameApplicationIds (internship_findMany q u p l).
Proof.
  intros s now a s'. unfold internship_findMany.
  destruct (whereClauseValid q); [|discriminate].
  destruct (orderInternships _ _ _); [|discriminate].
  destruct (paginate _ _ _); [|discriminate].
  intros H; inversion H; reflexivity.
Qed.

Lemma options_sameIds q :
  opKeeps sameApplicationIds (skill_findMany q)
  /\ opKeeps sameApplicationIds (tag_findMany q)
  /\ opKeeps sameApplicationIds (location_findMany q).
Proof.
  repeat split; intros s now a s' H; inversion H; reflexivity.
Qed.

(** Every operation but the apply ends with the application rows it
    started with, key for key. *)
Lemma other_operations_create_no_application (op : Operation) s now :
  match op with
  | OpApply _ _ _ => True
  | _ => applicationIds (store (perform op (quiet s now))) = applicationIds s
  end.
Proof.
  pose proof sameApplicationIds_refl as refl.
  pose proof sameApplicationIds_trans as trans.
  pose proof internship_count_sameIds as Hc.
  pose proof internship_findMany_sameIds as Hf.
  destruct op as [u i c|u a st|u a c|u b|u c b|u q|k b|k b];
    [exact I|..]; cbn [perform];
    match goal with
    | |- applicationIds (store (snd (?h _))) = _ =>
        assert (Hk : exists s', snd (h (quiet s now)) = quiet s' now
                                /\ sameApplicationIds s s');
        [|destruct Hk as (s' & -> & Hs); exact Hs]
    end.
  - unfold updateApplicationStatus.
    apply keeps_tryCatch. frame_walk refl trans.
  - unfold updateApplication.
    apply keeps_tryCatch. frame_walk refl trans.
  - unfold launchCampaign.
    apply keeps_tryCatch. frame_walk refl trans.
  - unfold editCampaign.
    apply keeps_tryCatch. frame_walk refl trans.
  - unfold getInternships.
    apply keeps_tryCatch. cbv zeta.
    destruct (options_sameIds q) as (H1 & H2 & H3).
    repeat (apply keeps_bind; frame_side refl trans;
            [apply keeps_await; frame_side refl trans; auto|intros]).
    frame_walk refl trans.
  - unfold studentSignup.
    apply keeps_tryCatch. frame_walk refl trans.
  - unfold companySignup.
    apply keeps_tryCatch. frame_walk refl trans.
Qed.

End SoleCreationPath.

Section ApplyOrder.

Context {rt : JsRuntime} {db : Database}.

(** C1, as the handler has it.  The apply operation makes its checks
    in the order of the specification and stops at the first that
    fails, leaving the world as it was.  The cover letter comes first:
    a falsy value (absent, null, false, 0, the empty string) and a
    string whose trimmed length is below 50 or whose length is above
    2000 are a ValidationError; any other value that is not a string
    makes [trim] throw, which the catch-all answers as an
    InternalError.  Then: the internship exists (NotFound), it is
    active (Closed), its campaign is ACTIVE (CampaignInactive), the
    deadline has not passed (DeadlinePassed), the student has not
    applied yet (DuplicateApplication), the student has an active
    subscription (SubscriptionRequired), and, for a plan whose cap is
    neither null nor 0, the month's count has not reached the cap
    (QuotaExceeded).  When all pass, exactly one application row is
    appended, with status PENDING.  No other operation creates or
    removes an application row.  A request whose body cannot be read
    (it is not JSON, or it is null) is an InternalError before any
    check. *)
Theorem apply_checks_preconditions_in_order :
  forall (s : Store) (now : DateTime) (uid iid : Id) (c : JsValue),
    let r := applyToInternship uid iid (Json c) (quiet s now) in
    let stops (o : Outcome) := applyOutcome (fst r) = o /\ snd r = quiet s now in
    (Js.truthy c = false -> stops ValidationError)
    /\ (Js.truthy c = true -> (forall text, c <> Js.JsStr text) ->
        stops InternalError)
    /\ (forall text, c = Js.JsStr text ->
        (Js.length (Js.trim text) < 50 \/ 2000 < Js.length text ->
         stops ValidationError)
        /\ (50 <= Js.length (Js.trim text) -> Js.length text <= 2000 ->
            (Prisma.internship_findUnique iid s = None -> stops NotFound)
            /\ (forall i co ca,
                Prisma.internship_findUnique iid s = Some (i, co, ca) ->
                (Internship.isActive i = false -> stops Closed)
                /\ (Internship.isActive i = true ->
                    (Campaign.status ca <> CampaignStatus.ACTIVE ->
                     stops CampaignInactive)
                    /\ (Campaign.status ca = CampaignStatus.ACTIVE ->
                        (Internship.deadline i < now -> stops DeadlinePassed)
                        /\ (now <= Internship.deadline i ->
                            (Prisma.application_findUnique iid uid s <> None ->
                             stops DuplicateApplication)
                            /\ (Prisma.application_findUnique iid uid s = None ->
                                (activePlan uid now s = None ->
                                 stops SubscriptionRequired)
                                /\ (forall plan,
                                    activePlan uid now s = Some plan ->
                                    let used :=
                                      Prisma.application_count uid
                                        (startOfMonth now) s in
                                    (forall cap,
                                        StudentPlan.maxApplicationsPerMonth plan
                                        = Some cap ->
                                        cap <> 0 -> cap <= used ->
                                        stops QuotaExceeded)
                                    /\ (StudentPlan.maxApplicationsPerMonth plan
                                        = None
                                        \/ (exists cap,
                                               StudentPlan.maxApplicationsPerMonth
                                                 plan = Some cap
                                               /\ cap <> 0 /\ used < cap) ->
                                        exists a,
                                          fst r = ApplySubmitted a
                                          /\ Application.status a
                                             = ApplicationStatus.PENDING
                                          /\ Application.internshipId a = iid
                                          /\ Application.userId a = uid
                                          /\ ~ In (Application.id a)
                                                 (applicationIds s)
                                          /\ store (snd r)
                                             = Prisma.withApplications s
                                                 (applications s ++ [a]))))))))))
    /\ (forall op : Operation,
        match op with
        | OpApply _ _ _ => True
        | _ => applicationIds (store (perform op (quiet s now)))
               = applicationIds s
        end)
    /\ (forall req : Body JsValue,
        (forall coverLetter, req <> Json coverLetter) ->
        applyOutcome (fst (applyToInternship uid iid req (quiet s now)))
        = InternalError
        /\ snd (applyToInternship uid iid req (quiet s now)) = quiet s now).
Proof.
  intros s now uid iid c r stops. subst r stops. cbv beta.
  rewrite applyToInternship_quiet.
  split; [|split; [|split; [|split]]].
  5:{ intros req Hreq. rewrite (applyToInternship_unreadable _ _ _ _ Hreq).
      split; reflexivity. }
  - intros Hf.
    assert (E : coverLetterStopped c = true /\ coverLetterThrows c = false).
    { unfold coverLetterStopped, coverLetterThrows. rewrite Hf.
      destruct c; split; reflexivity. }
    destruct E as [-> ->]. split; reflexivity.
  - intros Ht Hns.
    assert (E : coverLetterStopped c = true /\ coverLetterThrows c = true).
    { unfold coverLetterStopped, coverLetterThrows. rewrite Ht.
      destruct c as [| |b|x|text|]; try (split; reflexivity).
      exfalso. apply (Hns text). reflexivity. }
    destruct E as [-> ->]. split; reflexivity.
  - intros text ->.
    cbn [coverLetterStopped coverLetterThrows Js.textOf]. split.
    + intros [Hshort|Hlong].
      * replace (Js.length (Js.trim text) <? 50) with true
          by (symmetry; apply Z.ltb_lt; exact Hshort).
        rewrite orb_true_r. split; reflexivity.
      * destruct (negb (Js.truthy (Js.JsStr text))
                  || (Js.length (Js.trim text) <? 50)); [split; reflexivity|].
        replace (Js.length text >? 2000) with true
          by (symmetry; apply Z.gtb_lt; exact Hlong).
        split; reflexivity.
    + intros Hmin Hmax.
      replace (Js.length (Js.trim text) <? 50) with false
        by (symmetry; apply Z.ltb_ge; exact Hmin).
      assert (Htruthy : Js.truthy (Js.JsStr text) = true).
      { destruct text; [cbn in Hmin; lia|reflexivity]. }
      rewrite Htruthy. cbn [negb orb].
      replace (Js.length text >? 2000) with false
        by (symmetry; rewrite Z.gtb_ltb; apply Z.ltb_ge; exact Hmax).
      split; [intros ->; split; reflexivity|].
      intros i co ca ->.
      split; [intros ->; split; reflexivity|]. intros ->. cbn [negb].
      split.
      { intros Hs. destruct (Campaign.status ca); try (split; reflexivity).
        exfalso. apply Hs. reflexivity. }
      intros ->. cbn [CampaignStatus.eqb negb].
      split.
      { intros Hd. apply Z.gtb_lt in Hd. rewrite Hd. split; reflexivity. }
      intros Hd. assert (Hd' : (now >? Internship.deadline i) = false).
      { destruct (now >? Internship.deadline i) eqn:E; [|reflexivity].
        apply Z.gtb_lt in E. lia. }
      rewrite Hd'. split.
      { intros Ha. destruct (Prisma.application_findUnique iid uid s);
          [split; reflexivity|]. exfalso. apply Ha. reflexivity. }
      intros ->. split; [intros ->; split; reflexivity|].
      intros plan ->. cbv zeta. unfold limitReached. split.
      { intros cap -> Hnz Hcap. cbn [Prisma.orElse].
        replace (cap =? 0) with false by (symmetry; apply Z.eqb_neq; exact Hnz).
        replace (_ >=? cap) with true
          by (symmetry; rewrite Z.geb_leb; apply Z.leb_le; exact Hcap).
        split; reflexivity. }
      intros Hcap.
      assert (Hpass : match StudentPlan.maxApplicationsPerMonth plan with
                      | Some limit =>
                          negb (limit =? 0)
                          && (Prisma.application_count uid (startOfMonth now) s
                              >=? limit)
                      | None => false
                      end = false).
      { destruct Hcap as [->|(cap & -> & Hnz & Hlt)]; [reflexivity|].
        replace (_ >=? cap) with false
          by (symmetry; rewrite Z.geb_leb; apply Z.leb_gt; exact Hlt).
        apply andb_false_r. }
      rewrite Hpass.
      exists (submitted s now uid iid (Js.JsStr text)).
      cbn [fst snd store quiet submitted Application.status
           Application.internshipId Application.userId Application.id].
      repeat split; try reflexivity.
      unfold Prisma.freshId. intros Hin.
      assert (Hle : forall l x, In x l -> (x <= fold_right N.max 0 l)%N).
      { induction l as [|y l IH]; simpl; [contradiction|].
        intros x [->|Hx]; [lia|]. specialize (IH x Hx). lia. }
      specialize (Hle _ _ Hin). lia.
  - intros op. apply other_operations_create_no_application.
Qed.

End ApplyOrder.

(** C1, as the specification words it, fails: student 1 applies to the
    open internship 1 with the number 12345 in place of the cover
    letter.  The request stops at the cover letter, but not with a
    ValidationError: [trim] throws, and the answer is the 500 of the
    catch-all, an InternalError. *)
Lemma numeric_cover_letter_is_an_internal_error :
  let r := applyToInternship (rt := Sample.runtime) 1%N 1%N
             (Json (Js.JsNumber 12345%float)) (quiet Sample.store Sample.now) in
  fst r = ApplyFailed
  /\ applyHttpStatus (fst r) = 500
  /\ applyOutcome (fst r) = InternalError
  /\ applyOutcome (fst r) <> ValidationError
  /\ snd r = quiet Sample.store Sample.now.
Proof. vm_compute. repeat split; discriminate. Qed.

(** ** The cover letter *)

Lemma trimStart_length (s : JsString) :
  (List.length (Js.trimStart s) <= List.length s)%nat.
Proof.
  induction s as [|c r IH]; simpl; [lia|].
  destruct (Js.isWhiteSpace c); simpl; lia.
Qed.

Lemma trim_length (s : JsString) : Js.length (Js.trim s) <= Js.length s.
Proof.
  unfold Js.length, Js.trim, Js.trimEnd.
  rewrite length_rev.
  pose proof (trimStart_length (rev (Js.trimStart s))) as H1.
  rewrite length_rev in H1.
  pose proof (trimStart_length s) as H2. lia.
Qed.

Lemma coverLetterAccepted_iff (c : JsValue) :
  coverLetterAccepted c = true
  <-> exists text,
        c = Js.JsStr text
        /\ 50 <= Js.length (Js.trim text)
        /\ Js.length text <= 2000.
Proof.
  unfold coverLetterAccepted, coverLetterStopped. split.
  - intros H. apply andb_true_iff in H. destruct H as [H1 H2].
    apply negb_true_iff in H1.
    destruct c as [| |b|x|text|]; try discriminate.
    apply orb_false_iff in H1. destruct H1 as [_ H1].
    exists text. cbn [Js.textOf] in H2. apply negb_true_iff in H2.
    apply Z.ltb_ge in H1.
    rewrite Z.gtb_ltb in H2. apply Z.ltb_ge in H2.
    repeat split; [exact H1|exact H2].
  - intros (text & -> & Hmin & Hmax). cbn [Js.textOf].
    assert (Hlt : (Js.length (Js.trim text) <? 50) = false)
      by (apply Z.ltb_ge; exact Hmin).
    assert (Hgt : (Js.length text >? 2000) = false).
    { rewrite Z.gtb_ltb. apply Z.ltb_ge. exact Hmax. }
    rewrite Hlt, Hgt.
    destruct text as [|x rest]; [cbn in Hmin; lia|reflexivity].
Qed.

(** A value on which [trim] throws is stopped by the first guard, and
    is neither falsy nor a string. *)
Lemma coverLetterThrows_iff (c : JsValue) :
  coverLetterThrows c = true
  <-> Js.truthy c = true /\ forall text, c <> Js.JsStr text.
Proof.
  unfold coverLetterThrows. split.
  - intros H. destruct c as [| |b|x|text|]; try discriminate;
      (split; [exact H|intros text' E; discriminate E]).
  - intros [Ht Hns]. destruct c as [| |b|x|text|]; try exact Ht.
    exfalso. apply (Hns text). reflexivity.
Qed.

Lemma coverLetterThrows_stopped (c : JsValue) :
  coverLetterThrows c = true -> coverLetterStopped c = true.
Proof. destruct c; try discriminate; reflexivity. Qed.

Section CoverLetter.

Context {rt : JsRuntime}.

(** In the isolated world the request is turned away at the cover
    letter exactly when the answer is the 400 of one of the two guards
    or the 500 of the catch-all. *)
Lemma apply_validation_iff uid iid c s now :
  let r := applyToInternship uid iid (Json c) (quiet s now) in
  (applyOutcome (fst r) = ValidationError
   <-> coverLetterAccepted c = false /\ coverLetterThrows c = false)
  /\ (applyOutcome (fst r) = InternalError <-> coverLetterThrows c = true).
Proof.
  cbv zeta. rewrite applyToInternship_quiet. unfold coverLetterAccepted.
  destruct (coverLetterStopped c) eqn:Hstop.
  { destruct (coverLetterThrows c); cbn [fst applyOutcome negb andb];
      repeat split; try discriminate; try reflexivity.
    intros [_ H]. discriminate H. }
  assert (Hthrows : coverLetterThrows c = false).
  { destruct (coverLetterThrows c) eqn:E; [|reflexivity].
    rewrite (coverLetterThrows_stopped _ E) in Hstop. discriminate. }
  rewrite Hthrows.
  destruct (Js.length (Js.textOf c) >? 2000).
  { cbn [fst applyOutcome negb andb].
    repeat split; try discriminate; reflexivity. }
  cbn [negb andb].
  assert (Hout : forall o, o = ValidationError \/ o = InternalError ->
            applyOutcome
              (fst match Prisma.internship_findUnique iid s with
                   | Some (i, _, ca) =>
                       if negb (Internship.isActive i)
                       then (ApplyNotAccepting, quiet s now)
                       else if negb (CampaignStatus.eqb (Campaign.status ca)
                                       CampaignStatus.ACTIVE)
                       then (ApplyCampaignNotActive, quiet s now)
                       else if now >? Internship.deadline i
                       then (ApplyDeadlinePassed, quiet s now)
                       else
                         match Prisma.application_findUnique iid uid s with
                         | Some _ => (ApplyAlreadyApplied, quiet s now)
                         | None =>
                             match activePlan uid now s with
                             | Some plan =>
                                 if limitReached uid now s plan
                                 then (ApplyLimitReached (StudentPlan.name plan)
                                         (Prisma.application_count uid
                                            (startOfMonth now) s)
                                         (Prisma.orElse
                                            (StudentPlan.maxApplicationsPerMonth
                                               plan) 0),
                                       quiet s now)
                                 else (ApplySubmitted (submitted s now uid iid c),
                                       quiet (Prisma.withApplications s
                                                (applications s
                                                 ++ [submitted s now uid iid c]))
                                             now)
                             | None => (ApplySubscriptionRequired, quiet s now)
                             end
                         end
                   | None => (ApplyInternshipNotFound, quiet s now)
                   end) <> o).
  { intros o Ho.
    destruct (Prisma.internship_findUnique iid s) as [[[i co] ca]|];
      [|destruct Ho as [-> | ->]; discriminate].
    destruct (negb (Internship.isActive i));
      [destruct Ho as [-> | ->]; discriminate|].
    destruct (negb (CampaignStatus.eqb (Campaign.status ca) CampaignStatus.ACTIVE));
      [destruct Ho as [-> | ->]; discriminate|].
    destruct (now >? Internship.deadline i);
      [destruct Ho as [-> | ->]; discriminate|].
    destruct (Prisma.application_findUnique iid uid s);
      [destruct Ho as [-> | ->]; discriminate|].
    destruct (activePlan uid now s) as [plan|];
      [|destruct Ho as [-> | ->]; discriminate].
    destruct (limitReached uid now s plan);
      destruct Ho as [-> | ->]; discriminate. }
  split; split; intros H; try discriminate.
  - exfalso. exact (Hout ValidationError (or_introl eq_refl) H).
  - destruct H as [H _]. discriminate H.
  - exfalso. exact (Hout InternalError (or_intror eq_refl) H).
Qed.

(** A refusal at the cover letter, like every other refusal, leaves the
    world as it was. *)
Lemma apply_refusal_keeps_world uid iid c s now :
  let r := applyToInternship uid iid (Json c) (quiet s now) in
  applyOutcome (fst r) <> Success -> snd r = quiet s now.
Proof.
  cbv zeta. rewrite applyToInternship_quiet.
  destruct (coverLetterStopped c); [reflexivity|].
  destruct (Js.length (Js.textOf c) >? 2000); [reflexivity|].
  destruct (Prisma.internship_findUnique iid s) as [[[i co] ca]|];
    [|reflexivity].
  destruct (negb (Internship.isActive i)); [reflexivity|].
  destruct (negb (CampaignStatus.eqb (Campaign.status ca) CampaignStatus.ACTIVE));
    [reflexivity|].
  destruct (now >? Internship.deadline i); [reflexivity|].
  destruct (Prisma.application_findUnique iid uid s); [reflexivity|].
  destruct (activePlan uid now s) as [plan|]; [|reflexivity].
  destruct (limitReached uid now s plan); [reflexivity|].
  intros H. exfalso. apply H. reflexivity.
Qed.

(** C6, as the handler has it.  A cover letter passes the validation of
    the apply operation exactly when it is a string whose trimmed
    length is at least 50 and whose length before trimming is at most
    2000.  A request whose cover letter does not pass leaves the world
    as it was, so no application is created; its answer is a
    ValidationError when the cover letter is a string or a falsy value,
    and an InternalError (500) when it is any other value, on which
    [trim] throws.  In particular any 40-character cover letter and any
    2001-character cover letter are refused with a ValidationError, and
    a cover letter of exactly 50 characters with no surrounding white
    space passes the validation and, when every later precondition
    holds, is accepted.  A request whose body cannot be read (it is not
    JSON, or it is null) is an InternalError and leaves the world as it
    was. *)
Theorem cover_letter_is_validated_on_trimmed_minimum_and_raw_maximum :
  forall (s : Store) (now : DateTime) (uid iid : Id) (c : JsValue),
    let r := applyToInternship uid iid (Json c) (quiet s now) in
    let passes := exists text,
                    c = Js.JsStr text
                    /\ 50 <= Js.length (Js.trim text)
                    /\ Js.length text <= 2000 in
    (passes <-> applyOutcome (fst r) <> ValidationError
                /\ applyOutcome (fst r) <> InternalError)
    /\ (~ passes ->
        snd r = quiet s now
        /\ (Js.truthy c = false \/ (exists text, c = Js.JsStr text) ->
            applyOutcome (fst r) = ValidationError)
        /\ (Js.truthy c = true -> (forall text, c <> Js.JsStr text) ->
            applyOutcome (fst r) = InternalError
            /\ applyHttpStatus (fst r) = 500))
    /\ (forall text, c = Js.JsStr text -> Js.length text = 40 ->
        applyOutcome (fst r) = ValidationError)
    /\ (forall text, c = Js.JsStr text -> Js.length text = 50 -> Js.trim text = text ->
        passes
        /\ forall i co ca plan,
             Prisma.internship_findUnique iid s = Some (i, co, ca) ->
             Internship.isActive i = true ->
             Campaign.status ca = CampaignStatus.ACTIVE ->
             now <= Internship.deadline i ->
             Prisma.application_findUnique iid uid s = None ->
             activePlan uid now s = Some plan ->
             StudentPlan.maxApplicationsPerMonth plan = None
             \/ (exists cap,
                    StudentPlan.maxApplicationsPerMonth plan = Some cap
                    /\ cap <> 0
                    /\ Prisma.application_count uid (startOfMonth now) s < cap) ->
             applyOutcome (fst r) = Success
             /\ applications (store (snd r))
                = applications s ++ [submitted s now uid iid c])
    /\ (forall text, c = Js.JsStr text -> Js.length text = 2001 ->
        applyOutcome (fst r) = ValidationError)
    /\ (forall req : Body JsValue,
        (forall coverLetter, req <> Json coverLetter) ->
        applyOutcome (fst (applyToInternship uid iid req (quiet s now)))
        = InternalError
        /\ snd (applyToInternship uid iid req (quiet s now)) = quiet s now).
Proof.
  intros s now uid iid c r passes. subst r passes.
  destruct (apply_validation_iff uid iid c s now) as [Hv Hi].
  set (r := applyToInternship uid iid (Json c) (quiet s now)) in *.
  assert (Hno : forall text, c = Js.JsStr text ->
                  ~ (50 <= Js.length (Js.trim text) /\ Js.length text <= 2000) ->
                  applyOutcome (fst r) = ValidationError).
  { intros text Hc Hbad. apply Hv. split; [|subst c; reflexivity].
    destruct (coverLetterAccepted c) eqn:E; [|reflexivity].
    exfalso. apply Hbad. apply coverLetterAccepted_iff in E.
    destruct E as (t & Et & H1 & H2). rewrite Hc in Et.
    inversion Et; subst. split; assumption. }
  split; [|split; [|split; [|split; [|split]]]].
  6:{ intros req Hreq. rewrite (applyToInternship_unreadable _ _ _ _ Hreq).
      split; reflexivity. }
  - rewrite <- coverLetterAccepted_iff. split.
    + intros E. split; intros H.
      * apply Hv in H. destruct H as [H _]. congruence.
      * apply Hi in H. apply coverLetterThrows_stopped in H.
        unfold coverLetterAccepted in E. rewrite H in E. discriminate.
    + intros [H1 H2]. destruct (coverLetterAccepted c) eqn:E; [reflexivity|].
      exfalso. destruct (coverLetterThrows c) eqn:T.
      * apply H2. apply Hi. reflexivity.
      * apply H1. apply Hv. split; reflexivity.
  - intros Hnot.
    assert (E : coverLetterAccepted c = false).
    { destruct (coverLetterAccepted c) eqn:E; [|reflexivity].
      exfalso. apply Hnot. apply coverLetterAccepted_iff. exact E. }
    split; [|split].
    + apply apply_refusal_keeps_world. fold r. intros Hs.
      destruct (coverLetterThrows c) eqn:T.
      * assert (H : applyOutcome (fst r) = InternalError) by (apply Hi; reflexivity).
        congruence.
      * assert (H : applyOutcome (fst r) = ValidationError)
          by (apply Hv; split; [exact E|reflexivity]).
        congruence.
    + intros Hc. apply Hv. split; [exact E|].
      destruct Hc as [Hf|(text & ->)]; [|reflexivity].
      unfold coverLetterThrows. rewrite Hf. destruct c; reflexivity.
    + intros Ht Hns.
      assert (T : coverLetterThrows c = true)
        by (apply coverLetterThrows_iff; split; assumption).
      assert (H : applyOutcome (fst r) = InternalError) by (apply Hi; exact T).
      split; [exact H|].
      destruct (fst r); try discriminate H. reflexivity.
  - intros text Hc Hlen. apply (Hno text Hc).
    pose proof (trim_length text). lia.
  - intros text Hc Hlen Htrim.
    assert (Hp : exists text0, c = Js.JsStr text0
                               /\ 50 <= Js.length (Js.trim text0)
                               /\ Js.length text0 <= 2000).
    { exists text. rewrite Htrim. repeat split; [exact Hc|lia|lia]. }
    split; [exact Hp|].
    intros i co ca plan Hfound Hact Hst Hd Hnone Hplan Hcap.
    apply coverLetterAccepted_iff in Hp. unfold coverLetterAccepted in Hp.
    apply andb_true_iff in Hp. destruct Hp as [H1 H2].
    apply negb_true_iff in H1, H2.
    subst r. rewrite applyToInternship_quiet.
    rewrite H1, H2, Hfound, Hact, Hst, Hnone, Hplan.
    cbn [negb CampaignStatus.eqb].
    replace (now >? Internship.deadline i) with false
      by (symmetry; rewrite Z.gtb_ltb; apply Z.ltb_ge; exact Hd).
    replace (limitReached uid now s plan) with false; [split; reflexivity|].
    unfold limitReached.
    destruct Hcap as [->|(cap & -> & Hnz & Hlt)]; [reflexivity|].
    replace (_ >=? cap) with false
      by (symmetry; rewrite Z.geb_leb; apply Z.leb_gt; exact Hlt).
    symmetry. apply andb_false_r.
  - intros text Hc Hlen. apply (Hno text Hc). lia.
Qed.

End CoverLetter.

(** C6, as the specification words it, fails: sixty letters followed by
    1950 spaces trim to sixty characters, within [50, 2000], and every
    later precondition holds for this student and internship, yet the
    answer is a ValidationError. *)
Lemma padded_cover_letter_is_refused :
  let text := Sample.letter 60 1950 in
  (50 <= Js.length (Js.trim text) <= 2000)
  /\ applyOutcome
       (fst (applyToInternship (rt := Sample.runtime) 1%N 1%N (Json (Js.JsStr text))
               (quiet Sample.store Sample.now)))
     = ValidationError
  /\ applyOutcome
       (fst (applyToInternship (rt := Sample.runtime) 1%N 1%N
               (Json (Js.JsStr (Js.trim text))) (quiet Sample.store Sample.now)))
     = Success.
Proof. vm_compute. repeat split; discriminate. Qed.

(** ** The monthly limit *)

(** [orderBy: { createdAt: 'desc' }, take: 1] picks a row that no other
    row of the list was created after. *)
Lemma latest_is_most_recent l x :
  Prisma.latest l = Some x ->
  In x l
  /\ forall y, In y l ->
       StudentSubscription.createdAt (fst y)
       <= StudentSubscription.createdAt (fst x).
Proof.
  revert x. induction l as [|a l IH]; simpl; [discriminate|].
  intros x. destruct (Prisma.latest l) as [b|] eqn:E.
  - destruct (IH b eq_refl) as [Hin Hmax].
    destruct (StudentSubscription.createdAt (fst b)
              >? StudentSubscription.createdAt (fst a)) eqn:C;
      intros H; inversion H; subst.
    + apply Z.gtb_lt in C. split; [right; exact Hin|].
      intros y [<-|Hy]; [lia|apply Hmax; exact Hy].
    + assert (StudentSubscription.createdAt (fst b)
              <= StudentSubscription.createdAt (fst x)).
      { rewrite Z.gtb_ltb in C. apply Z.ltb_ge in C. exact C. }
      split; [left; reflexivity|].
      intros y [<-|Hy]; [lia|]. specialize (Hmax y Hy). lia.
  - intros H; inversion H; subst. destruct l as [|b l].
    + split; [left; reflexivity|]. intros y [<-|[]]. lia.
    + simpl in E. destruct (Prisma.latest l);
        [destruct (_ >? _)|]; discriminate.
Qed.

Section MonthlyLimit.

Context {rt : JsRuntime}.

(** X17. The limit where the handler enforces it: for a plan whose cap is
    neither null nor zero, the request is refused, with status 403 and
    with the plan name, the usage and the cap, exactly when the month's
    count has reached the cap. *)
Lemma nonzero_cap_is_enforced :
  forall (s : Store) (now : DateTime) (uid iid : Id) (c : JsValue)
         i co ca plan cap,
    coverLetterAccepted c = true ->
    Prisma.internship_findUnique iid s = Some (i, co, ca) ->
    Internship.isActive i = true ->
    Campaign.status ca = CampaignStatus.ACTIVE ->
    now <= Internship.deadline i ->
    Prisma.application_findUnique iid uid s = None ->
    activePlan uid now s = Some plan ->
    StudentPlan.maxApplicationsPerMonth plan = Some cap ->
    cap <> 0 ->
    let used := Prisma.application_count uid (startOfMonth now) s in
    let r := applyToInternship uid iid (Json c) (quiet s now) in
    (cap <= used ->
     fst r = ApplyLimitReached (StudentPlan.name plan) used cap
     /\ applyHttpStatus (fst r) = 403
     /\ applyOutcome (fst r) = QuotaExceeded
     /\ snd r = quiet s now)
    /\ (used < cap -> applyOutcome (fst r) = Success).
Proof.
  intros s now uid iid c i co ca plan cap Hc Hi Hact Hst Hd Ha Hp Hcap Hnz used r.
  subst r used. rewrite applyToInternship_quiet.
  unfold coverLetterAccepted in Hc. apply andb_true_iff in Hc.
  destruct Hc as [H1 H2]. apply negb_true_iff in H1, H2.
  rewrite H1, H2, Hi, Hact, Hst, Ha, Hp. cbn [negb CampaignStatus.eqb].
  replace (now >? Internship.deadline i) with false
    by (symmetry; rewrite Z.gtb_ltb; apply Z.ltb_ge; exact Hd).
  unfold limitReached. rewrite Hcap. cbn [Prisma.orElse].
  replace (cap =? 0) with false by (symmetry; apply Z.eqb_neq; exact Hnz).
  cbn [negb andb]. split; intros H.
  - replace (_ >=? cap) with true
      by (symmetry; rewrite Z.geb_leb; apply Z.leb_le; exact H).
    repeat split; reflexivity.
  - replace (_ >=? cap) with false
      by (symmetry; rewrite Z.geb_leb; apply Z.leb_gt; exact H).
    reflexivity.
Qed.

(** C4, where the handler departs from it.  The plan of the student's
    authoritative subscription has the cap 0, which is not null; the
    month's count is at least the cap, as any count is; every earlier
    precondition holds.  The claim asks for QuotaExceeded.  The handler
    tests the cap for truthiness, skips the count, and submits the
    application. *)
Theorem zero_cap_is_not_enforced :
  forall (s : Store) (now : DateTime) (uid iid : Id) (c : JsValue)
         i co ca plan,
    coverLetterAccepted c = true ->
    Prisma.internship_findUnique iid s = Some (i, co, ca) ->
    Internship.isActive i = true ->
    Campaign.status ca = CampaignStatus.ACTIVE ->
    now <= Internship.deadline i ->
    Prisma.application_findUnique iid uid s = None ->
    activePlan uid now s = Some plan ->
    StudentPlan.maxApplicationsPerMonth plan = Some 0 ->
    let r := applyToInternship uid iid (Json c) (quiet s now) in
    0 <= Prisma.application_count uid (startOfMonth now) s
    /\ applyOutcome (fst r) = Success
    /\ applyOutcome (fst r) <> QuotaExceeded
    /\ applications (store (snd r))
       = applications s ++ [submitted s now uid iid c].
Proof.
  intros s now uid iid c i co ca plan Hc Hi Hact Hst Hd Ha Hp Hcap r.
  subst r. rewrite applyToInternship_quiet.
  unfold coverLetterAccepted in Hc. apply andb_true_iff in Hc.
  destruct Hc as [H1 H2]. apply negb_true_iff in H1, H2.
  rewrite H1, H2, Hi, Hact, Hst, Ha, Hp. cbn [negb CampaignStatus.eqb].
  replace (now >? Internship.deadline i) with false
    by (symmetry; rewrite Z.gtb_ltb; apply Z.ltb_ge; exact Hd).
  unfold limitReached. rewrite Hcap. cbn.
  repeat split; try discriminate.
  unfold Prisma.application_count. lia.
Qed.

End MonthlyLimit.

(** The failing input of C4: student 3 holds one active subscription,
    to plan 2, whose cap is 0, and applies to the open internship 1
    with a 60-character cover letter. *)
Lemma zero_cap_is_not_enforced_witness :
  let r := applyToInternship (rt := Sample.runtime) 3%N 1%N
             (Json (Js.JsStr (Sample.letter 60 0)))
             (quiet Sample.store Sample.now) in
  option_map StudentPlan.maxApplicationsPerMonth
    (activePlan 3%N Sample.now Sample.store) = Some (Some 0)
  /\ 0 <= Prisma.application_count 3%N
            (startOfMonth (JsRuntime := Sample.runtime) Sample.now) Sample.store
  /\ applyOutcome (fst r) = Success
  /\ applyOutcome (fst r) <> QuotaExceeded
  /\ applications (store (snd r))
     = applications Sample.store
       ++ [submitted Sample.store Sample.now 3%N 1%N (Js.JsStr (Sample.letter 60 0))].
Proof.
  split; [reflexivity|].
  apply (zero_cap_is_not_enforced (rt := Sample.runtime) Sample.store Sample.now
           3%N 1%N (Js.JsStr (Sample.letter 60 0))
           (Sample.internship 1%N 1%N true) Sample.acme
           (Sample.campaign 1%N CampaignStatus.ACTIVE)
           (Sample.plan 2%N (Some 0)));
    try reflexivity.
  vm_compute. discriminate.
Defined.

(** ** A duplicate created by a racing request *)

Lemma filter_none {A} (p : A -> bool) (l : list A) :
  (forall x, In x l -> p x = false) -> filter p l = [].
Proof.
  induction l as [|a l IH]; simpl; [reflexivity|]. intros H.
  rewrite (H a (or_introl eq_refl)). apply IH. intros x Hx. apply H.
  right. exact Hx.
Qed.

Lemma unique_pair_one_row iid uid s dup :
  uniquePairs s ->
  Prisma.application_findUnique iid uid s = Some dup ->
  rowsOf iid uid s = [dup].
Proof.
  unfold uniquePairs, rowsOf, Prisma.application_findUnique.
  induction (applications s) as [|a l IH]; simpl; [discriminate|].
  intros Hnd. inversion Hnd as [|? ? Hnot Hrest]; subst.
  destruct (N.eqb (Application.internshipId a) iid
            && N.eqb (Application.userId a) uid) eqn:E.
  - intros H; inversion H; subst. f_equal. apply filter_none.
    intros x Hx.
    destruct (N.eqb (Application.internshipId x) iid
              && N.eqb (Application.userId x) uid) eqn:Ex; [|reflexivity].
    exfalso. apply Hnot.
    apply andb_true_iff in E, Ex. destruct E as [E1 E2], Ex as [X1 X2].
    apply N.eqb_eq in E1, E2, X1, X2.
    replace (Application.internshipId dup, Application.userId dup)
      with (Application.internshipId x, Application.userId x)
      by congruence.
    apply (in_map (fun a => (Application.internshipId a, Application.userId a))).
    exact Hx.
  - intros H. apply IH; assumption.
Qed.

Section Race.

Context {rt : JsRuntime} {db : Database}.

(** C7, where the handler departs from it.  The request passes its own
    duplicate check on the store [s]; before it goes on, a concurrent
    request commits [f], after which an application for the same
    (internship, student) pair exists; the subscription and limit
    checks pass on the store as it now is.  The create is rejected by
    the unique index.  The claim asks for DuplicateApplication; the
    handler's catch-all answers 500 "Failed to submit application"
    (InternalError).  The store is left as the concurrent request made
    it, so under the unique index the pair has exactly one row. *)
Theorem racing_duplicate_is_reported_as_internal_error :
  forall (s : Store) (now : DateTime) (uid iid : Id) (c : JsValue)
         (f : Store -> Store) i co ca plan dup,
    coverLetterAccepted c = true ->
    Prisma.internship_findUnique iid s = Some (i, co, ca) ->
    Internship.isActive i = true ->
    Campaign.status ca = CampaignStatus.ACTIVE ->
    now <= Internship.deadline i ->
    Prisma.application_findUnique iid uid s = None ->
    Prisma.application_findUnique iid uid (f s) = Some dup ->
    activePlan uid now (f s) = Some plan ->
    limitReached uid now (f s) plan = false ->
    let r := applyToInternship uid iid (Json c)
               (mkWorld s now [Quiet; Quiet; Commit f]) in
    fst r = ApplyFailed
    /\ applyHttpStatus (fst r) = 500
    /\ applyOutcome (fst r) = InternalError
    /\ applyOutcome (fst r) <> DuplicateApplication
    /\ store (snd r) = f s
    /\ (uniquePairs (f s) -> rowsOf iid uid (store (snd r)) = [dup]).
Proof.
  intros s now uid iid c f i co ca plan dup Hc Hi Hact Hst Hd Ha Hdup Hp Hl r.
  assert (E : r = (ApplyFailed, quiet (f s) now)).
  { subst r. unfold applyToInternship. rewrite readBody_json.
    unfold coverLetterAccepted in Hc. apply andb_true_iff in Hc.
    destruct Hc as [H1 H2]. apply negb_true_iff in H1, H2.
    unfold tryCatch. unfold bind at 1. rewrite coverLetterTooShort_run.
    rewrite (coverLetter_passed _ H1), H1, H2.
    unfold bind at 1. unfold await at 1, exec, query.
    cbn [env store clock]. rewrite Hi, Hact, Hst. cbn [negb CampaignStatus.eqb].
    unfold bind at 1, newDate at 1. cbn [clock].
    replace (now >? Internship.deadline i) with false
      by (symmetry; rewrite Z.gtb_ltb; apply Z.ltb_ge; exact Hd).
    unfold bind at 1. unfold await at 1, exec, query.
    cbn [env store clock]. rewrite Ha.
    unfold bind at 1, newDate at 1. cbn [clock].
    unfold bind at 1. unfold await at 1, exec, query. cbn [env store clock].
    unfold activePlan in Hp.
    destruct (Prisma.user_findUnique_subscriptions uid now (f s))
      as [[u [|[sub plan'] rest]]|]; try discriminate.
    inversion Hp; subst plan'.
    change (mkWorld (f s) now []) with (quiet (f s) now).
    unfold bind at 1. rewrite monthlyLimit_quiet, Hl.
    unfold bind at 1. rewrite (callTrim_run _ _ H1).
    unfold bind at 1. rewrite await_quiet.
    unfold Prisma.application_create. rewrite Hdup. reflexivity. }
  rewrite E. cbn [fst snd store quiet applyHttpStatus applyOutcome].
  repeat split; try reflexivity; try discriminate.
  intros Hu. apply unique_pair_one_row; assumption.
Qed.

(** X18. The sibling path: the student sign-up maps the same kind of
    rejection, a unique index hit after its own existence check has
    passed, to 409 Conflict. *)
Lemma signup_race_is_reported_as_conflict :
  forall (s : Store) (now : DateTime) secret name email password
         (f : Store -> Store) taken,
    name <> [] -> email <> [] -> password <> [] ->
    emailRegexTest email = true ->
    6 <= Js.length password ->
    Prisma.user_findUnique_email email s = None ->
    Prisma.user_findUnique_email email (f s) = Some taken ->
    let r := studentSignup secret
               (StudentSignupBody.mk (Some name) (Some email) (Some password))
               (mkWorld s now [Quiet; Commit f]) in
    fst r = SignupEmailTaken
    /\ signupHttpStatus (fst r) = 409
    /\ signupOutcome (fst r) = Conflict
    /\ store (snd r) = f s.
Proof.
  intros s now secret name email password f taken Hn He Hp Hre Hlen Hs Hf r.
  assert (E : r = (SignupEmailTaken, quiet (f s) now)).
  { subst r. unfold studentSignup.
    cbn [StudentSignupBody.name StudentSignupBody.email StudentSignupBody.password].
    destruct name as [|n0 name]; [contradiction|].
    destruct email as [|e0 email]; [contradiction|].
    destruct password as [|p0 password]; [contradiction|].
    rewrite Hre. cbn [negb].
    replace (Js.length (p0 :: password) <? 6) with false
      by (symmetry; apply Z.ltb_ge; exact Hlen).
    unfold tryCatch, bind at 1. unfold await at 1, exec, query.
    cbn [env store clock]. rewrite Hs.
    unfold bind at 1. unfold await at 1, exec. cbn [env store clock].
    unfold Prisma.user_create. rewrite Hf. reflexivity. }
  rewrite E. repeat split; reflexivity.
Qed.

End Race.

(** The failing input of C7: two apply requests of student 1 for
    internship 1.  The second runs to completion between the duplicate
    check and the create of the first. *)
Lemma racing_duplicate_is_reported_as_internal_error_witness :
  let letter := Js.JsStr (Sample.letter 60 0) in
  let other (s : Store) :=
    store (snd (applyToInternship (rt := Sample.runtime) 1%N 1%N (Json letter)
                  (quiet s Sample.now))) in
  let r := applyToInternship (rt := Sample.runtime) 1%N 1%N (Json letter)
             (mkWorld Sample.store Sample.now [Quiet; Quiet; Commit other]) in
  fst r = ApplyFailed
  /\ applyHttpStatus (fst r) = 500
  /\ applyOutcome (fst r) = InternalError
  /\ applyOutcome (fst r) <> DuplicateApplication
  /\ store (snd r) = other Sample.store
  /\ (uniquePairs (other Sample.store) ->
      rowsOf 1%N 1%N (store (snd r))
      = [submitted Sample.store Sample.now 1%N 1%N letter]).
Proof.
  cbv zeta.
  apply (racing_duplicate_is_reported_as_internal_error (rt := Sample.runtime)
           Sample.store Sample.now 1%N 1%N (Js.JsStr (Sample.letter 60 0)) _
           (Sample.internship 1%N 1%N true) Sample.acme
           (Sample.campaign 1%N CampaignStatus.ACTIVE)
           (Sample.plan 1%N (Some 5))
           (submitted Sample.store Sample.now 1%N 1%N (Js.JsStr (Sample.letter 60 0))));
    try reflexivity.
  vm_compute. discriminate.
Defined.

(** ** The campaign launch under any environment *)

Lemma await_cases {A} (op : DbOp A) (w : World) :
  await op w = (inl DbUnavailable, envStep w) \/ await op w = exec op (envStep w).
Proof.
  destruct w as [s t [|[| |f] es]]; cbn; auto.
Qed.




Lemma find_app_last {A} (p : A -> bool) (l : list A) (x : A) :
  find p l = None -> p x = true -> find p (l ++ [x]) = Some x.
Proof.
  induction l as [|a l IH]; simpl.
  - intros _ ->. reflexivity.
  - destruct (p a); [discriminate|]. exact IH.
Qed.

Lemma fresh_not_in (ids : list Id) : ~ In (Prisma.freshId ids) ids.
Proof.
  unfold Prisma.freshId. intros Hin.
  assert (Hle : forall l x, In x l -> (x <= fold_right N.max 0 l)%N).
  { induction l as [|y l IH]; simpl; [contradiction|].
    intros x [->|Hx]; [lia|]. specialize (IH x Hx). lia. }
  specialize (Hle _ _ Hin). lia.
Qed.

Lemma find_none_of_not_in {A} (key : A -> Id) (k : Id) (l : list A) :
  ~ In k (map key l) -> find (fun a => N.eqb (key a) k) l = None.
Proof.
  intros Hnot. destruct (find _ l) as [x|] eqn:E; [|reflexivity].
  exfalso. apply Hnot. pose proof (find_some_id key k l x E) as Hk.
  apply find_some in E. destruct E as [Hin _]. rewrite <- Hk.
  apply in_map. exact Hin.
Qed.

Lemma existsb_false_of_not_in {A} (key : A -> Id) (k : Id) (l : list A) :
  ~ In k (map key l) -> existsb (fun a => N.eqb (key a) k) l = false.
Proof.
  intros Hnot. destruct (existsb _ l) eqn:E; [|reflexivity].
  exfalso. apply Hnot. apply existsb_exists in E. destruct E as (x & Hin & Hk).
  apply N.eqb_eq in Hk. rewrite <- Hk. apply in_map. exact Hin.
Qed.

Lemma user_company_row uid s u company :
  Prisma.user_findUnique_company uid s = Some (u, Some company) ->
  Prisma.companyById s (Company.id company) = Some company.
Proof.
  unfold Prisma.user_findUnique_company.
  destruct (Prisma.userById s uid) as [u'|]; [|discriminate].
  destruct (User.companyId u') as [cid|]; [|discriminate].
  destruct (Prisma.companyById s cid) as [co|] eqn:E; [|discriminate].
  intros H; inversion H; subst.
  rewrite (find_some_id Company.id cid _ _ E). exact E.
Qed.

Section Launch.

Context {rt : JsRuntime}.

(** The launch in the isolated world, as one cascade. *)
Lemma launchCampaign_quiet uid body s now :
  launchCampaign uid (Json body) (quiet s now)
  = if negb (Js.truthy (LaunchBody.title body))
       || negb (Js.truthy (LaunchBody.budget body))
       || negb (Js.truthy (LaunchBody.endDate body))
       || negb (Js.truthy (LaunchBody.maxInternships body))
       || negb (Js.truthy (LaunchBody.paymentMethod body))
    then (LaunchMissingFields, quiet s now)
    else
      match Prisma.user_findUnique_company uid s with
      | Some (_, Some company) =>
          match Prisma.campaign_create
                  (LaunchBody.title body)
                  (LaunchBody.description body)
                  (parseFloat (LaunchBody.budget body))
                  (dateOf (LaunchBody.endDate body))
                  (parseInt (LaunchBody.maxInternships body))
                  (Company.id company) CampaignStatus.ACTIVE s now with
          | inl _ => (LaunchFailed, quiet s now)
          | inr (c, s1) =>
              match Prisma.campaignPayment_create (Campaign.id c)
                      (parseFloat (LaunchBody.budget body))
                      (LaunchBody.paymentMethod body)
                      (LaunchBody.transactionId body)
                      (paymentStatusFor (LaunchBody.transactionId body))
                      s1 now with
              | inl _ => (LaunchFailed, quiet s now)
              | inr (_, s2) => (LaunchLaunched c, quiet s2 now)
              end
          end
      | _ => (LaunchCompanyNotFound, quiet s now)
      end.
Proof.
  unfold launchCampaign. rewrite readBody_json.
  destruct (negb (Js.truthy (LaunchBody.title body))
            || negb (Js.truthy (LaunchBody.budget body))
            || negb (Js.truthy (LaunchBody.endDate body))
            || negb (Js.truthy (LaunchBody.maxInternships body))
            || negb (Js.truthy (LaunchBody.paymentMethod body)));
    [reflexivity|].
  unfold tryCatch, bind at 1. rewrite await_query_quiet.
  destruct (Prisma.user_findUnique_company uid s) as [[u [company|]]|];
    try reflexivity.
  unfold bind at 1, transaction. rewrite await_quiet. cbn [noop].
  unfold bind at 1. unfold bind at 1. rewrite awaitTx_quiet, await_quiet.
  destruct (Prisma.campaign_create _ _ _ _ _ _ _ s now) as [e|[c s1]];
    [reflexivity|].
  unfold bind at 1. unfold bind at 1. rewrite awaitTx_quiet, await_quiet.
  destruct (Prisma.campaignPayment_create _ _ _ _ _ s1 now) as [e|[p s2]];
    reflexivity.
Qed.

(** The two ways a launch with its required fields, by a user of a
    company, ends on a store whose campaigns and payments match. *)
Lemma launch_quiet_result uid body s now u company :
  paymentsMatch s ->
  Prisma.user_findUnique_company uid s = Some (u, Some company) ->
  negb (Js.truthy (LaunchBody.title body))
  || negb (Js.truthy (LaunchBody.budget body))
  || negb (Js.truthy (LaunchBody.endDate body))
  || negb (Js.truthy (LaunchBody.maxInternships body))
  || negb (Js.truthy (LaunchBody.paymentMethod body)) = false ->
  let r := launchCampaign uid (Json body) (quiet s now) in
  (r = (LaunchFailed, quiet s now)
   /\ ~ exists title description method tid d n,
          launchData body title description method tid d n)
  \/ (exists title description method tid d n,
         launchData body title description method tid d n
         /\ let c := Campaign.mk (Prisma.freshId (map Campaign.id (campaigns s)))
                       title description
                       (parseFloat (LaunchBody.budget body))
                       CampaignStatus.ACTIVE now d n now now
                       (Company.id company) in
            let p := CampaignPayment.mk
                       (Prisma.freshId (map CampaignPayment.id (campaignPayments s)))
                       (Campaign.id c) (parseFloat (LaunchBody.budget body))
                       method tid
                       (paymentStatusFor (LaunchBody.transactionId body))
                       None now in
            r = (LaunchLaunched c,
                 quiet (Prisma.withCampaignPayments
                          (Prisma.withCampaigns s (campaigns s ++ [c]))
                          (campaignPayments s ++ [p])) now)).
Proof.
  intros [Hnd Hperm] Hu Hreq r. subst r.
  rewrite launchCampaign_quiet, Hreq, Hu.
  unfold Prisma.campaign_create, Prisma.campaignPayment_create, launchData.
  destruct (Prisma.stringArg (LaunchBody.title body)) as [title|].
  2:{ left. split; [reflexivity|].
      intros (? & ? & ? & ? & ? & ? & H & _). discriminate. }
  destruct (Prisma.nullableStringArg (LaunchBody.description body))
    as [description|].
  2:{ left. split; [reflexivity|].
      intros (? & ? & ? & ? & ? & ? & _ & H & _). discriminate. }
  destruct (dateOf (LaunchBody.endDate body)) as [d|].
  2:{ left. split; [reflexivity|].
      intros (? & ? & ? & ? & ? & ? & _ & _ & _ & _ & H & _). discriminate. }
  destruct (parseInt (LaunchBody.maxInternships body)) as [n|].
  2:{ left. split; [reflexivity|].
      intros (? & ? & ? & ? & ? & ? & _ & _ & _ & _ & _ & H & _).
      discriminate. }
  destruct (Prisma.int32 n) eqn:Hn.
  2:{ left. split; [reflexivity|].
      intros (? & ? & ? & ? & ? & n' & _ & _ & _ & _ & _ & H & H').
      inversion H; subst. congruence. }
  rewrite (user_company_row _ _ _ _ Hu).
  destruct (Prisma.stringArg (LaunchBody.paymentMethod body)) as [method|].
  2:{ left. split; [reflexivity|].
      intros (? & ? & ? & ? & ? & ? & _ & _ & H & _). discriminate. }
  destruct (Prisma.nullableStringArg (LaunchBody.transactionId body))
    as [tid|].
  2:{ left. split; [reflexivity|].
      intros (? & ? & ? & ? & ? & ? & _ & _ & _ & H & _). discriminate. }
  right. exists title, description, method, tid, d, n.
  split; [repeat split; first [reflexivity|exact Hn]|].
  cbv beta iota zeta.
  cbn [campaignPayments Prisma.withCampaigns campaigns Campaign.id].
  pose proof (fresh_not_in (map Campaign.id (campaigns s))) as Hfresh.
  rewrite existsb_false_of_not_in.
  2:{ intros Hin. apply Hfresh.
      apply (Permutation_in _ (Permutation_sym Hperm)). exact Hin. }
  unfold Prisma.campaignById.
  cbn [campaigns Prisma.withCampaigns Campaign.id].
  rewrite (find_app_last _ _ _ (find_none_of_not_in Campaign.id _ _ Hfresh)).
  - reflexivity.
  - cbn. apply N.eqb_refl.
Qed.



End Launch.

(** ** The campaign edit *)

Lemma find_and_first {A} (p q : A -> bool) (l : list A) (x y : A) :
  find (fun a => p a && q a) l = Some x ->
  find p l = Some y ->
  q y = true ->
  x = y.
Proof.
  induction l as [|a l IH]; simpl; [discriminate|].
  destruct (p a); simpl.
  - intros Hx Hy Hq. inversion Hy; subst. rewrite Hq in Hx.
    inversion Hx. reflexivity.
  - exact IH.
Qed.

(** What the update of a campaign that exists does: it is rejected
    for an Invalid Date, a title that is not a string or a description
    that is neither a string nor null, and otherwise rewrites the row. *)
Lemma campaign_update_found cid data s now old :
  Prisma.campaignById s cid = Some old ->
  ((Prisma.set_endDate data = Some None
    \/ Prisma.checkedField Prisma.stringArg (Prisma.set_title data) = None
    \/ Prisma.checkedField Prisma.nullableStringArg (Prisma.set_description data)
       = None)
   /\ Prisma.campaign_update cid data s now = inl PrismaValidation)
  \/ (exists title description new,
         Prisma.set_endDate data <> Some None
         /\ Prisma.checkedField Prisma.stringArg (Prisma.set_title data)
            = Some title
         /\ Prisma.checkedField Prisma.nullableStringArg
              (Prisma.set_description data)
            = Some description
         /\ Prisma.campaign_update cid data s now
            = inr (new,
                   Prisma.withCampaigns s
                     (map (fun c => if N.eqb (Campaign.id c) cid then new else c)
                          (campaigns s)))
         /\ Campaign.id new = Campaign.id old
         /\ Campaign.budget new = Campaign.budget old
         /\ Campaign.startDate new = Campaign.startDate old
         /\ Campaign.maxInternships new = Campaign.maxInternships old
         /\ Campaign.createdAt new = Campaign.createdAt old
         /\ Campaign.companyId new = Campaign.companyId old
         /\ Campaign.updatedAt new
            = (if Prisma.noCampaignField data then Campaign.updatedAt old
               else now)
         /\ Campaign.status new
            = Prisma.orElse (Prisma.set_campaignStatus data) (Campaign.status old)
         /\ Campaign.title new = Prisma.orElse title (Campaign.title old)
         /\ Campaign.description new
            = Prisma.orElse description (Campaign.description old)
         /\ Campaign.endDate new
            = match Prisma.set_endDate data with
              | Some (Some d) => d
              | _ => Campaign.endDate old
              end).
Proof.
  intros Hrow. unfold Prisma.campaign_update.
  destruct (Prisma.set_endDate data) as [[d|]|];
    destruct (Prisma.checkedField Prisma.stringArg (Prisma.set_title data))
      as [title|];
    destruct (Prisma.checkedField Prisma.nullableStringArg
                (Prisma.set_description data)) as [description|];
    try (left; split; [auto|reflexivity]; fail);
    rewrite Hrow; right; exists title, description; eexists;
    (split; [discriminate|]);
    (split; [reflexivity|]); (split; [reflexivity|]);
    (split; [reflexivity|]);
    cbn [Campaign.id Campaign.budget Campaign.startDate Campaign.maxInternships
         Campaign.createdAt Campaign.companyId Campaign.updatedAt Campaign.status
         Campaign.title Campaign.description Campaign.endDate];
    repeat split; reflexivity.
Qed.


Section CampaignEdit.

Context {rt : JsRuntime}.

Lemma editCampaign_quiet uid cid body s now :
  editCampaign uid cid (Json body) (quiet s now)
  = match Prisma.user_findUnique_company uid s with
    | Some (_, Some company) =>
        match Prisma.campaign_findFirst cid (Company.id company) s with
        | None => (EditCampaignNotFound, quiet s now)
        | Some _ =>
            match Prisma.campaign_update cid (updateData body) s now with
            | inl _ => (EditCampaignFailed, quiet s now)
            | inr (c, s') => (EditCampaignUpdated c, quiet s' now)
            end
        end
    | _ => (EditCampaignCompanyNotFound, quiet s now)
    end.
Proof.
  unfold editCampaign. rewrite readBody_json.
  unfold tryCatch, bind at 1. rewrite await_query_quiet.
  destruct (Prisma.user_findUnique_company uid s) as [[u [company|]]|];
    try reflexivity.
  unfold bind at 1. rewrite await_query_quiet.
  destruct (Prisma.campaign_findFirst cid (Company.id company) s); [|reflexivity].
  unfold bind at 1. rewrite await_quiet.
  destruct (Prisma.campaign_update cid (updateData body) s now) as [e|[c s']];
    reflexivity.
Qed.


(** A truthy value is the value of a key. *)
Lemma given_truthy (v : JsValue) :
  Js.truthy v = true -> Prisma.given (Some v) = Some v.
Proof. destruct v; try reflexivity. discriminate. Qed.

(** The title the edit writes. *)
Lemma updateData_title (body : EditBody.t) :
  Prisma.given (Prisma.set_title (updateData body))
  = if Js.truthy (EditBody.title body) then Some (EditBody.title body)
    else None.
Proof.
  unfold updateData. cbn [Prisma.set_title].
  destruct (Js.truthy (EditBody.title body)) eqn:Ht; [|reflexivity].
  apply given_truthy. exact Ht.
Qed.

(** The description the edit writes. *)
Lemma updateData_description (body : EditBody.t) :
  Prisma.given (Prisma.set_description (updateData body))
  = match EditBody.description body with
    | Js.JsUndefined => None
    | description => Some description
    end.
Proof.
  unfold updateData. cbn [Prisma.set_description].
  destruct (EditBody.description body); reflexivity.
Qed.


(** The edits Prisma rejects. *)
Lemma updateData_rejected (body : EditBody.t) :
  Prisma.set_endDate (updateData body) = Some None
  \/ Prisma.checkedField Prisma.stringArg (Prisma.set_title (updateData body))
     = None
  \/ Prisma.checkedField Prisma.nullableStringArg
       (Prisma.set_description (updateData body)) = None
  <-> editRejected body = true.
Proof.
  unfold Prisma.checkedField, editRejected.
  rewrite updateData_title, updateData_description.
  unfold updateData. cbn [Prisma.set_endDate].
  destruct (Js.truthy (EditBody.endDate body));
    destruct (dateOf (EditBody.endDate body));
    destruct (Js.truthy (EditBody.title body));
    destruct (EditBody.title body);
    destruct (EditBody.description body);
    cbn [andb orb Prisma.stringArg Prisma.nullableStringArg option_map];
    split; intros H; try reflexivity; try discriminate H;
    try (destruct H as [H|[H|H]]; discriminate H);
    auto.
Qed.



End CampaignEdit.


(** ** The student-facing listing *)

Lemma firstn_incl {A} (n : nat) (l : list A) : incl (firstn n l) l.
Proof.
  intros x Hx. rewrite <- (firstn_skipn n l). apply in_or_app. left. exact Hx.
Qed.

Lemma skipn_incl {A} (n : nat) (l : list A) : incl (skipn n l) l.
Proof.
  intros x Hx. rewrite <- (firstn_skipn n l). apply in_or_app. right. exact Hx.
Qed.

(** Every row of a list is on one of its pages. *)
Lemma in_some_page {A} (x : A) (l : list A) (n : nat) :
  In x l -> (0 < n)%nat ->
  exists p, In x (firstn n (skipn (p * n) l)).
Proof.
  intros Hin Hn. apply In_nth_error in Hin. destruct Hin as [k Hk].
  exists (k / n)%nat. apply (nth_error_In _ (k mod n)).
  rewrite nth_error_firstn.
  assert (Hlt : (k mod n < n)%nat) by (apply Nat.mod_upper_bound; lia).
  apply Nat.ltb_lt in Hlt. rewrite Hlt, nth_error_skipn.
  replace (k / n * n + k mod n)%nat with k; [exact Hk|].
  rewrite (Nat.div_mod_eq k n) at 1. lia.
Qed.

Lemma paginate_incl {A} (sk tk : option Z) (l rows : list A) :
  paginate sk tk l = Some rows -> incl rows l.
Proof.
  unfold paginate. destruct sk as [sk|]; [|discriminate].
  destruct tk as [tk|]; [|discriminate].
  destruct (sk <? 0); [discriminate|].
  destruct (0 <=? tk); intros H; inversion H; subst; intros x Hx.
  - apply (skipn_incl (Z.to_nat sk)), (firstn_incl (Z.to_nat tk)). exact Hx.
  - apply in_rev in Hx. apply firstn_incl, skipn_incl in Hx.
    apply in_rev. exact Hx.
Qed.

Section Listing.

Context {rt : JsRuntime} {db : Database}.

Lemma joined_row s i co ca :
  In (i, co, ca) (joined s) ->
  In i (internships s)
  /\ Prisma.companyById s (Internship.companyId i) = Some co
  /\ Prisma.campaignById s (Internship.campaignId i) = Some ca.
Proof.
  unfold joined. intros H. apply in_flat_map in H. destruct H as (j & Hj & H).
  destruct (Prisma.companyById s (Internship.companyId j)) as [co'|] eqn:Eco;
    [|contradiction].
  destruct (Prisma.campaignById s (Internship.campaignId j)) as [ca'|] eqn:Eca;
    [|contradiction].
  destruct H as [H|[]]. inversion H; subst. repeat split; assumption.
Qed.

Lemma in_joined s i co ca :
  In i (internships s) ->
  Prisma.companyById s (Internship.companyId i) = Some co ->
  Prisma.campaignById s (Internship.campaignId i) = Some ca ->
  In (i, co, ca) (joined s).
Proof.
  intros Hi Hco Hca. unfold joined. apply in_flat_map. exists i.
  split; [exact Hi|]. rewrite Hco, Hca. left. reflexivity.
Qed.

(** Whatever the filters, a matching internship is visible. *)
Lemma matching_visible q now s i :
  In i (matching q now s) -> visible s now i.
Proof.
  unfold matching. intros H. apply in_map_iff in H.
  destruct H as ([[j co] ca] & Hj & H). cbn in Hj. subst j.
  apply filter_In in H. destruct H as [Hrow Hw].
  apply joined_row in Hrow. destruct Hrow as (Hin & _ & Hca).
  unfold whereClause in Hw.
  do 7 (apply andb_true_iff in Hw; destruct Hw as [Hw _]).
  apply andb_true_iff in Hw. destruct Hw as [Hw Hst].
  apply andb_true_iff in Hw. destruct Hw as [Hact Hd].
  split; [exact Hin|]. split; [exact Hact|]. split.
  - rewrite Z.geb_leb in Hd. apply Z.leb_le in Hd. exact Hd.
  - exists ca. split; [exact Hca|]. destruct (Campaign.status ca);
      try discriminate. reflexivity.
Qed.

(** Without optional filters the three conditions are the whole
    [whereClause]. *)
Lemma visible_matching q now s i co :
  unfiltered q ->
  visible s now i ->
  Prisma.companyById s (Internship.companyId i) = Some co ->
  In i (matching q now s).
Proof.
  intros (Ht & Hl & Hmin & Hmax & Hsk & Htg & Hse) (Hin & Hact & Hd & ca & Hca & Hst) Hco.
  unfold matching. apply in_map_iff. exists (i, co, ca). split; [reflexivity|].
  apply filter_In. split; [apply in_joined; assumption|].
  unfold whereClause, stipendBound.
  rewrite Ht, Hl, Hmin, Hmax, Hsk, Htg, Hse, Hact, Hst.
  cbn [Js.truthyStr boundHolds andb CampaignStatus.eqb].
  rewrite Z.geb_leb. apply Z.leb_le in Hd. rewrite Hd. reflexivity.
Qed.

Lemma unfiltered_valid q : unfiltered q -> whereClauseValid q = true.
Proof.
  intros (_ & _ & Hmin & Hmax & _). unfold whereClauseValid, stipendBound.
  rewrite Hmin, Hmax. reflexivity.
Qed.

(** The rows a successful listing shows are a page of the matching
    internships. *)
Lemma getInternships_listed uid q s now items cp tp total hn hp sk tg lo :
  fst (getInternships uid q (quiet s now))
  = Listed items cp tp total hn hp sk tg lo ->
  incl (map item items) (matching q now s).
Proof.
  unfold getInternships, tryCatch. cbv zeta.
  unfold bind at 1. rewrite await_quiet. unfold internship_count.
  destruct (whereClauseValid q) eqn:Hv; [|discriminate].
  unfold bind at 1. rewrite await_quiet. unfold internship_findMany. rewrite Hv.
  destruct (orderInternships _ _ (matching q now s)) as [sorted|] eqn:Ho;
    [|discriminate].
  destruct (paginate _ _ sorted) as [rows|] eqn:Hp; [|discriminate].
  unfold bind at 1. rewrite await_quiet. cbn [skill_findMany].
  unfold bind at 1. rewrite await_quiet. cbn [tag_findMany].
  unfold bind at 1. rewrite await_quiet. cbn [location_findMany].
  destruct (parseInt (Js.JsStr (orDefault (ListQuery.page q) (Js.lit "1"))));
    [|discriminate].
  destruct (parseInt (Js.JsStr (orDefault (ListQuery.limit q) (Js.lit "20"))));
    [|discriminate].
  cbn [ret fst]. intros H. inversion H; subst. clear H.
  rewrite map_map. cbn [item]. rewrite map_id.
  intros x Hx. apply (paginate_incl _ _ _ _ Hp) in Hx.
  apply (Permutation_in x (Permutation_sym (orderInternships_perm _ _ _ _ Ho))).
  exact Hx.
Qed.

(** C3. (1) Whatever the query, every internship a listing shows is
    active, has a deadline at or after the time of the request, and sits
    under a campaign whose status is ACTIVE.  (2) Conversely, an
    internship of the store for which the three conditions hold is
    shown by the listing without optional filters: for every page size
    it is on one of the pages.  (3) In particular no listing shows an
    internship whose campaign is PAUSED or COMPLETED. *)
Theorem listing_shows_exactly_the_visible_internships :
  forall (s : Store) (now : DateTime) (uid : Id),
    (forall q items cp tp total hn hp sk tg lo,
        fst (getInternships uid q (quiet s now))
        = Listed items cp tp total hn hp sk tg lo ->
        forall i, In i (map item items) -> visible s now i)
    /\ (forall q i co l sorted,
        unfiltered q ->
        visible s now i ->
        Prisma.companyById s (Internship.companyId i) = Some co ->
        parseInt (Js.JsStr (orDefault (ListQuery.limit q) (Js.lit "20"))) = Some l ->
        0 < l ->
        orderInternships (orDefault (ListQuery.sortBy q) (Js.lit "postedAt"))
          (orDefault (ListQuery.sortOrder q) (Js.lit "desc")) (matching q now s)
        = Some sorted ->
        exists p,
          1 <= p
          /\ forall page,
               parseInt (Js.JsStr (orDefault (Some page) (Js.lit "1"))) = Some p ->
               exists items tp total hn hp sk tg lo,
                 fst (getInternships uid (withPage q page) (quiet s now))
                 = Listed items p tp total hn hp sk tg lo
                 /\ In i (map item items))
    /\ (forall q items cp tp total hn hp sk tg lo,
        fst (getInternships uid q (quiet s now))
        = Listed items cp tp total hn hp sk tg lo ->
        forall i ca,
          In i (map item items) ->
          Prisma.campaignById s (Internship.campaignId i) = Some ca ->
          Campaign.status ca <> CampaignStatus.PAUSED
          /\ Campaign.status ca <> CampaignStatus.COMPLETED).
Proof.
  intros s now uid. split; [|split].
  - intros q items cp tp total hn hp sk tg lo H i Hi.
    apply (matching_visible q). exact (getInternships_listed _ _ _ _ _ _ _ _ _ _ _ _ _ H i Hi).
  - intros q i co l sorted Hq Hvis Hco Hl Hpos Ho.
    pose proof (visible_matching q now s i co Hq Hvis Hco) as Hm.
    assert (Hs : In i sorted)
      by (apply (Permutation_in i (orderInternships_perm _ _ _ _ Ho)); exact Hm).
    destruct (in_some_page i sorted (Z.to_nat l) Hs ltac:(lia)) as [k Hk].
    exists (Z.of_nat k + 1). split; [lia|].
    intros page Hpage.
    assert (Hmatch : matching (withPage q page) now s = matching q now s) by reflexivity.
    assert (Hvalid : whereClauseValid (withPage q page) = true).
    { apply unfiltered_valid. exact Hq. }
    unfold getInternships, tryCatch. cbv zeta.
    unfold bind at 1. rewrite await_quiet. unfold internship_count.
    rewrite Hvalid.
    unfold bind at 1. rewrite await_quiet. unfold internship_findMany.
    rewrite Hvalid, Hmatch.
    cbn [withPage ListQuery.page ListQuery.limit ListQuery.sortBy ListQuery.sortOrder].
    rewrite Ho, Hpage, Hl. unfold paginate.
    replace ((Z.of_nat k + 1 - 1) * l <? 0) with false
      by (symmetry; apply Z.ltb_ge; nia).
    replace (0 <=? l) with true by (symmetry; apply Z.leb_le; lia).
    unfold bind at 1. rewrite await_quiet. cbn [skill_findMany].
    unfold bind at 1. rewrite await_quiet. cbn [tag_findMany].
    unfold bind at 1. rewrite await_quiet. cbn [location_findMany].
    cbn [ret fst]. do 8 eexists. split; [reflexivity|].
    rewrite map_map. cbn [item]. rewrite map_id.
    replace (Z.to_nat ((Z.of_nat k + 1 - 1) * l)) with (k * Z.to_nat l)%nat by nia.
    exact Hk.
  - intros q items cp tp total hn hp sk tg lo H i ca Hi Hca.
    pose proof (getInternships_listed _ _ _ _ _ _ _ _ _ _ _ _ _ H i Hi) as Hm.
    apply matching_visible in Hm. destruct Hm as (_ & _ & _ & ca' & Hca' & Hst).
    rewrite Hca in Hca'. inversion Hca'; subst ca'.
    rewrite Hst. split; discriminate.
Qed.

End Listing.

(* ================================================================== *)
(** * The properties at concrete requests                              *)
(* ================================================================== *)

Ltac distinct_by_computation :=
  repeat constructor; intros H; vm_compute in H;
  repeat (destruct H as [H|H]; [discriminate H|]); exact H.

Lemma sample_application_ids : NoDup (applicationIds Sample.store).
Proof. distinct_by_computation. Qed.

Lemma sample_application_keys : applicationKeys Sample.store.
Proof. split; distinct_by_computation. Qed.

Lemma sample_emails : uniqueEmails Sample.store.
Proof. distinct_by_computation. Qed.

Lemma sample_payments : paymentsMatch Sample.store.
Proof. split; [distinct_by_computation|apply Permutation_refl]. Qed.

(** Student 1 applies to the open internship 1 with a cover letter of
    exactly 50 characters: every precondition holds and one PENDING
    application is appended. *)
Lemma apply_checks_preconditions_in_order_witness :
  let r := applyToInternship (rt := Sample.runtime) 1%N 1%N
             (Json (Js.JsStr (Sample.letter 50 0)))
             (quiet Sample.store Sample.now) in
  exists a,
    fst r = ApplySubmitted a
    /\ Application.status a = ApplicationStatus.PENDING
    /\ Application.internshipId a = 1%N
    /\ Application.userId a = 1%N
    /\ ~ In (Application.id a) (applicationIds Sample.store)
    /\ store (snd r)
       = Prisma.withApplications Sample.store
           (applications Sample.store ++ [a]).
Proof.
  cbv zeta.
  destruct (apply_checks_preconditions_in_order
              (rt := Sample.runtime) (db := Sample.database)
              Sample.store Sample.now 1%N 1%N (Js.JsStr (Sample.letter 50 0)))
    as (_ & _ & H & _).
  destruct (H _ eq_refl) as (_ & H0).
  destruct (H0 ltac:(vm_compute; discriminate) ltac:(vm_compute; discriminate))
    as (_ & H1).
  destruct (H1 _ _ _ eq_refl) as (_ & H2).
  destruct (H2 eq_refl) as (_ & H3).
  destruct (H3 eq_refl) as (_ & H4).
  destruct (H4 ltac:(vm_compute; discriminate)) as (_ & H5).
  destruct (H5 eq_refl) as (_ & H6).
  destruct (H6 _ eq_refl) as (_ & H7).
  apply H7. right. exists 5. split; [reflexivity|].
  split; [discriminate|vm_compute; reflexivity].
Defined.

(** The recruiter of the owning company asks to reject application 1,
    which is ACCEPTED. *)
Lemma accepted_application_is_immutable_witness :
  let r := updateApplicationStatus 2%N 1%N (Json (Js.JsStr (Js.lit "REJECTED")))
             (quiet Sample.store Sample.now) in
  fst r = StatusCannotChangeAccepted
  /\ statusOutcome (fst r) = InvalidTransition
  /\ snd r = quiet Sample.store Sample.now.
Proof.
  exact (proj1 (accepted_application_is_immutable Sample.store Sample.now)
           2%N 1%N Sample.recruiter Sample.acme
           (Sample.application 1%N 3%N ApplicationStatus.ACCEPTED)
           ApplicationStatus.REJECTED eq_refl eq_refl eq_refl
           (or_intror (or_intror (or_introl eq_refl)))).
Defined.

(** The same recruiter asks to accept application 1 again. *)
Lemma accepted_to_accepted_succeeds_witness :
  let r := updateApplicationStatus 2%N 1%N (Json (Js.JsStr (Js.lit "ACCEPTED")))
             (quiet Sample.store Sample.now) in
  Application.status (Sample.application 1%N 3%N ApplicationStatus.ACCEPTED)
  = ApplicationStatus.ACCEPTED
  /\ exists updated,
       fst r = StatusUpdated updated
       /\ statusOutcome (fst r) = Success
       /\ statusOutcome (fst r) <> InvalidTransition
       /\ Application.id updated = 1%N
       /\ Application.status updated = ApplicationStatus.ACCEPTED
       /\ Application.updatedAt updated = Sample.now
       /\ applications (store (snd r))
          = map (fun a => if N.eqb (Application.id a) 1%N then updated else a)
                (applications Sample.store).
Proof.
  split; [reflexivity|].
  exact (accepted_to_accepted_succeeds Sample.store Sample.now 2%N 1%N
           Sample.recruiter Sample.acme
           (Sample.application 1%N 3%N ApplicationStatus.ACCEPTED)
           eq_refl eq_refl eq_refl).
Defined.

(** Student 1 replaces the cover letter of the PENDING application 2
    by one of 2500 characters. *)
Lemma cover_letter_edit_has_no_upper_bound_witness :
  let text := Sample.letter 2500 0 in
  let r := updateApplication 1%N 2%N (Json (Js.JsStr text))
                                     (quiet Sample.store Sample.now) in
  2000 < Js.length (Js.trim text)
  /\ exists updated,
       fst r = EditUpdated updated
       /\ editOutcome (fst r) = Success
       /\ Application.id updated = 2%N
       /\ Application.coverLetter updated = Some (Js.trim text)
       /\ applications (store (snd r))
          = map (fun a => if N.eqb (Application.id a) 2%N then updated else a)
                (applications Sample.store).
Proof.
  cbv zeta. split; [vm_compute; reflexivity|].
  apply (cover_letter_edit_has_no_upper_bound Sample.store Sample.now 1%N 2%N
           (Sample.application 2%N 4%N ApplicationStatus.PENDING)
           (Sample.letter 2500 0) eq_refl eq_refl).
  vm_compute. discriminate.
Defined.

(** Student 1 applies to the open internship 1.  A cover letter of
    exactly 50 letters is accepted; the same letter cut to 40 is a
    ValidationError; the number 40 in place of the letter is an
    InternalError. *)
Lemma cover_letter_is_validated_on_trimmed_minimum_and_raw_maximum_witness :
  let outcome (c : JsValue) :=
    applyOutcome (fst (applyToInternship (rt := Sample.runtime) 1%N 1%N (Json c)
                         (quiet Sample.store Sample.now))) in
  outcome (Js.JsStr (Sample.letter 50 0)) = Success
  /\ outcome (Js.JsStr (Sample.letter 40 0)) = ValidationError
  /\ outcome (Js.JsNumber 40%float) = InternalError.
Proof.
  cbv zeta. split; [|split].
  - destruct (cover_letter_is_validated_on_trimmed_minimum_and_raw_maximum
                (rt := Sample.runtime) Sample.store Sample.now 1%N 1%N
                (Js.JsStr (Sample.letter 50 0))) as (_ & _ & _ & H & _).
    destruct (H (Sample.letter 50 0) eq_refl eq_refl eq_refl) as [_ H1].
    refine (proj1 (H1 _ _ _ (Sample.plan 1%N (Some 5)) eq_refl eq_refl eq_refl
                     _ eq_refl eq_refl _)).
    + vm_compute. discriminate.
    + right. exists 5. split; [reflexivity|].
      split; [discriminate|vm_compute; reflexivity].
  - destruct (cover_letter_is_validated_on_trimmed_minimum_and_raw_maximum
                (rt := Sample.runtime) Sample.store Sample.now 1%N 1%N
                (Js.JsStr (Sample.letter 40 0))) as (_ & _ & H & _).
    exact (H (Sample.letter 40 0) eq_refl eq_refl).
  - destruct (cover_letter_is_validated_on_trimmed_minimum_and_raw_maximum
                (rt := Sample.runtime) Sample.store Sample.now 1%N 1%N
                (Js.JsNumber 40%float)) as (_ & H & _).
    refine (proj1 (proj2 (proj2 (H _)) eq_refl _)).
    + intros (text & E & _). discriminate E.
    + intros text E. discriminate E.
Defined.


(** The default listing on the sample store: internship 1 is on one of
    its pages, and internship 2, active but under the paused campaign,
    is not on the page the request returns. *)
Lemma listing_shows_exactly_the_visible_internships_witness :
  let q := ListQuery.mk None None None None None None None None None None None in
  (exists p,
      1 <= p
      /\ forall page,
           parseInt (JsRuntime := Sample.runtime)
             (Js.JsStr (orDefault (Some page) (Js.lit "1"))) = Some p ->
           exists items tp total hn hp sk tg lo,
             fst (getInternships (rt := Sample.runtime) (db := Sample.database)
                    1%N (withPage q page) (quiet Sample.store Sample.now))
             = Listed items p tp total hn hp sk tg lo
             /\ In (Sample.internship 1%N 1%N true) (map item items))
  /\ match fst (getInternships (rt := Sample.runtime) (db := Sample.database)
                  1%N q (quiet Sample.store Sample.now)) with
     | Listed items _ _ _ _ _ _ _ _ =>
         ~ In (Sample.internship 2%N 2%N true) (map item items)
     | ListFailed => False
     end.
Proof.
  cbv zeta.
  destruct (listing_shows_exactly_the_visible_internships
              (rt := Sample.runtime) (db := Sample.database)
              Sample.store Sample.now 1%N) as (_ & Hshown & Hnever).
  split.
  - apply (Hshown
             (ListQuery.mk None None None None None None None None None None None)
             (Sample.internship 1%N 1%N true) Sample.acme 20
             (matching (rt := Sample.runtime) (db := Sample.database)
                (ListQuery.mk None None None None None None None None None None None)
                Sample.now Sample.store)).
    + repeat split; reflexivity.
    + split; [left; reflexivity|]. split; [reflexivity|].
      split; [vm_compute; discriminate|].
      exists (Sample.campaign 1%N CampaignStatus.ACTIVE). split; reflexivity.
    + reflexivity.
    + reflexivity.
    + reflexivity.
    + reflexivity.
  - destruct (fst (getInternships (rt := Sample.runtime) (db := Sample.database) 1%N
                     (ListQuery.mk None None None None None None None None None
                        None None)
                     (quiet Sample.store Sample.now)))
      as [items cp tp total hn hp sk tg lo|] eqn:E.
    + intros Hin.
      destruct (Hnever _ _ _ _ _ _ _ _ _ _ E
                  (Sample.internship 2%N 2%N true)
                  (Sample.campaign 2%N CampaignStatus.PAUSED) Hin eq_refl)
        as [Hp _].
      apply Hp. reflexivity.
    + vm_compute in E. discriminate.
Defined.


(** The same launch in the isolated world, without and with a
    transactionId: the campaign is ACTIVE and the last payment row is
    PENDING, respectively COMPLETED. *)
Example campaign_launch_examples :
  let body tid :=
    LaunchBody.mk (Js.JsStr (Js.lit "Winter")) Js.JsUndefined (Js.JsNumber 900%float)
      (Js.JsStr (Js.lit "2027-01-15T08:00:00.000Z")) (Js.JsStr (Js.lit "5"))
      (Js.JsStr (Js.lit "card")) tid in
  let r tid := launchCampaign (rt := Sample.runtime) 2%N (Json (body tid))
                 (quiet Sample.store Sample.now) in
  let lastPayment tid :=
    option_map CampaignPayment.status
      (last (map Some (campaignPayments (store (snd (r tid))))) None) in
  launchOutcome (fst (r Js.JsUndefined)) = Success
  /\ option_map Campaign.status
       (last (map Some (campaigns (store (snd (r Js.JsUndefined))))) None)
     = Some CampaignStatus.ACTIVE
  /\ lastPayment Js.JsUndefined = Some PaymentStatus.PENDING
  /\ lastPayment (Js.JsStr (Js.lit "tx-1")) = Some PaymentStatus.COMPLETED
  /\ lastPayment (Js.JsStr []) = Some PaymentStatus.PENDING.
Proof. vm_compute. repeat split; reflexivity. Qed.

(* ================================================================== *)
(** * Further properties of the handlers                               *)
(* ================================================================== *)

(** ** Applying, once more *)

Section ApplyFurther.

Context {rt : JsRuntime}.

(** What a submitted application tells about the request. *)
Lemma apply_success_inv uid iid c s now a :
  fst (applyToInternship uid iid (Json c) (quiet s now)) = ApplySubmitted a ->
  coverLetterAccepted c = true
  /\ (exists i co ca,
         Prisma.internship_findUnique iid s = Some (i, co, ca)
         /\ Internship.isActive i = true
         /\ Campaign.status ca = CampaignStatus.ACTIVE
         /\ now <= Internship.deadline i)
  /\ Prisma.application_findUnique iid uid s = None
  /\ (exists plan, activePlan uid now s = Some plan
                   /\ limitReached uid now s plan = false)
  /\ a = submitted s now uid iid c
  /\ snd (applyToInternship uid iid (Json c) (quiet s now))
     = quiet (Prisma.withApplications s (applications s ++ [a])) now.
Proof.
  rewrite applyToInternship_quiet. unfold coverLetterAccepted.
  destruct (coverLetterStopped c);
    [destruct (coverLetterThrows c); discriminate|].
  destruct (Js.length (Js.textOf c) >? 2000); [discriminate|].
  destruct (Prisma.internship_findUnique iid s) as [[[i co] ca]|];
    [|discriminate].
  destruct (Internship.isActive i) eqn:Hact; [|discriminate]. cbn [negb].
  destruct (Campaign.status ca) eqn:Hst; try discriminate.
  cbn [CampaignStatus.eqb negb].
  destruct (now >? Internship.deadline i) eqn:Hd; [discriminate|].
  destruct (Prisma.application_findUnique iid uid s); [discriminate|].
  destruct (activePlan uid now s) as [plan|]; [|discriminate].
  destruct (limitReached uid now s plan) eqn:Hl; [discriminate|].
  cbn [fst snd]. intros H. inversion H; subst a.
  rewrite Z.gtb_ltb in Hd. apply Z.ltb_ge in Hd.
  repeat split; try reflexivity.
  - exists i, co, ca. repeat split; try reflexivity; assumption.
  - exists plan. split; [reflexivity|exact Hl].
Qed.

(** X1. Applying twice.  After an application has been submitted, the
    same student applying to the same internship again, with any cover
    letter that passes validation and at any later time, is answered
    "You have already applied to this internship" while the deadline
    has not passed and "Application deadline has passed" after it; in
    both cases nothing is written. *)
Theorem second_apply_is_refused :
  forall (s : Store) (now : DateTime) (uid iid : Id) (c : JsValue) a,
    fst (applyToInternship uid iid (Json c) (quiet s now)) = ApplySubmitted a ->
    let s' := store (snd (applyToInternship uid iid (Json c) (quiet s now))) in
    forall (c' : JsValue) (now' : DateTime),
      coverLetterAccepted c' = true ->
      exists i co ca,
        Prisma.internship_findUnique iid s = Some (i, co, ca)
        /\ applyToInternship uid iid (Json c') (quiet s' now')
           = (if now' >? Internship.deadline i
              then ApplyDeadlinePassed else ApplyAlreadyApplied,
              quiet s' now').
Proof.
  intros s now uid iid c a H s' c' now' Hc'. subst s'.
  destruct (apply_success_inv _ _ _ _ _ _ H)
    as (_ & (i & co & ca & Hi & Hact & Hst & _) & Hnone & _ & Ha & Hs).
  rewrite Hs. cbn [store quiet]. exists i, co, ca. split; [exact Hi|].
  rewrite applyToInternship_quiet.
  unfold coverLetterAccepted in Hc'. apply andb_true_iff in Hc'.
  destruct Hc' as [H1 H2]. apply negb_true_iff in H1, H2. rewrite H1, H2.
  change (Prisma.internship_findUnique iid
            (Prisma.withApplications s (applications s ++ [a])))
    with (Prisma.internship_findUnique iid s).
  rewrite Hi, Hact, Hst. cbn [negb CampaignStatus.eqb].
  destruct (now' >? Internship.deadline i); [reflexivity|].
  unfold Prisma.application_findUnique at 1.
  cbn [applications Prisma.withApplications].
  rewrite (find_app_last _ _ a Hnone).
  - reflexivity.
  - subst a. cbn. rewrite !N.eqb_refl. reflexivity.
Qed.

(** X2. The monthly limit as a bound.  When a student whose plan has a
    cap other than 0 gets an application through, the number of their
    applications created since the start of the month, the new one
    included, is one more than before and does not exceed the cap. *)
Theorem submitted_application_stays_within_cap :
  forall (s : Store) (now : DateTime) (uid iid : Id) (c : JsValue)
         a plan cap,
    startOfMonth now <= now ->
    fst (applyToInternship uid iid (Json c) (quiet s now)) = ApplySubmitted a ->
    activePlan uid now s = Some plan ->
    StudentPlan.maxApplicationsPerMonth plan = Some cap ->
    cap <> 0 ->
    let s' := store (snd (applyToInternship uid iid (Json c) (quiet s now))) in
    Prisma.application_count uid (startOfMonth now) s'
    = Prisma.application_count uid (startOfMonth now) s + 1
    /\ Prisma.application_count uid (startOfMonth now) s' <= cap.
Proof.
  intros s now uid iid c a plan cap Hstart H Hp Hcap Hnz s'. subst s'.
  destruct (apply_success_inv _ _ _ _ _ _ H)
    as (_ & _ & _ & (plan' & Hp' & Hl) & Ha & Hs).
  rewrite Hp in Hp'. inversion Hp'; subst plan'.
  rewrite Hs. cbn [store quiet].
  unfold limitReached in Hl. rewrite Hcap in Hl.
  replace (cap =? 0) with false in Hl by (symmetry; apply Z.eqb_neq; exact Hnz).
  cbn [negb andb] in Hl. rewrite Z.geb_leb in Hl. apply Z.leb_gt in Hl.
  assert (E : Prisma.application_count uid (startOfMonth now)
                (Prisma.withApplications s (applications s ++ [a]))
              = Prisma.application_count uid (startOfMonth now) s + 1).
  { unfold Prisma.application_count. cbn [applications Prisma.withApplications].
    rewrite filter_app, length_app. subst a. cbn [filter submitted
      Application.userId Application.createdAt].
    rewrite N.eqb_refl.
    replace (now >=? startOfMonth now) with true
      by (symmetry; rewrite Z.geb_leb; apply Z.leb_le; exact Hstart).
    cbn. lia. }
  rewrite E. split; [reflexivity|lia].
Qed.

End ApplyFurther.

(** ** Handlers under any environment *)

Lemma commits_app (es1 es2 : list EnvStep) (s : Store) :
  commits (es1 ++ es2) s = commits es2 (commits es1 s).
Proof. unfold commits. apply fold_left_app. Qed.

Lemma firstn_succ_skipn {A} (k : nat) (l : list A) :
  firstn (S k) l = firstn k l ++ firstn 1 (skipn k l).
Proof.
  revert l. induction k as [|k IH]; intros l.
  - destruct l; reflexivity.
  - destruct l as [|x l]; [reflexivity|].
    change (firstn (S (S k)) (x :: l)) with (x :: firstn (S k) l).
    rewrite IH. reflexivity.
Qed.

(** After [k] moves of the environment the store holds the commits of
    the first [k] entries of the script, and the clock has not moved. *)
Lemma envStep_iter (k : nat) (w : World) :
  store (Nat.iter k envStep w) = commits (firstn k (env w)) (store w)
  /\ env (Nat.iter k envStep w) = skipn k (env w)
  /\ clock (Nat.iter k envStep w) = clock w.
Proof.
  induction k as [|k (IHs & IHe & IHc)].
  - repeat split; reflexivity.
  - rewrite Nat.iter_succ. remember (Nat.iter k envStep w) as w' eqn:Hw'.
    unfold envStep. cbn [store env clock].
    rewrite IHs, IHe, IHc. clear Hw'. repeat split.
    + rewrite (firstn_succ_skipn k (env w)), commits_app. reflexivity.
    + generalize (env w) as es. clear. intros es.
      revert es. induction k as [|k IH]; intros es.
      * destruct es; reflexivity.
      * destruct es as [|e es]; [reflexivity|]. apply IH.
Qed.

Lemma await_query_cases {A} (f : Store -> A) (w : World) :
  await (query f) w = (inl DbUnavailable, envStep w)
  \/ await (query f) w = (inr (f (store (envStep w))), envStep w).
Proof.
  destruct (await_cases (query f) w) as [E|E]; [left; exact E|].
  right. rewrite E. reflexivity.
Qed.

Section ApplyAnyEnvironment.

Context {rt : JsRuntime}.

Lemma monthlyLimit_cases uid plan (w : World) :
  exists k,
    (k <= 1)%nat
    /\ (monthlyLimit uid plan w = (inl DbUnavailable, Nat.iter k envStep w)
        \/ exists x,
             monthlyLimit uid plan w = (inr x, Nat.iter k envStep w)
             /\ forall resp, x = Some resp -> applyOutcome resp = QuotaExceeded).
Proof.
  unfold monthlyLimit.
  destruct (Js.truthyInt (StudentPlan.maxApplicationsPerMonth plan)).
  - exists 1%nat. split; [lia|]. change (Nat.iter 1 envStep w) with (envStep w).
    unfold bind, newDate.
    destruct (await_query_cases
                (Prisma.application_count uid (startOfMonth (clock w))) w)
      as [E|E]; rewrite E; [left; reflexivity|].
    right. cbv beta iota.
    destruct (StudentPlan.maxApplicationsPerMonth plan) as [limit|].
    + match goal with
      | |- context [if ?b then _ else _] => destruct b
      end; eexists; (split; [reflexivity|]);
        intros resp Hx; inversion Hx; reflexivity.
    + eexists. split; [reflexivity|]. discriminate.
  - exists 0%nat. split; [lia|]. right. eexists. split; [reflexivity|].
    discriminate.
Qed.

(** X3. An apply writes on success only, whatever the environment
    does (outages at any store call, commits of concurrent requests).
    Either the answer is not a success and the store is exactly what
    the concurrent commits made of it, or the answer is a success and
    the store is that store with one PENDING application of the caller
    for the internship appended, for a pair that had no row. *)
Theorem apply_writes_on_success_only :
  forall (uid iid : Id) (req : Body JsValue) (w : World),
    let r := applyToInternship uid iid req w in
    exists n,
      let before := commits (firstn n (env w)) (store w) in
      (applyOutcome (fst r) <> Success /\ store (snd r) = before)
      \/ (exists a,
             fst r = ApplySubmitted a
             /\ Application.status a = ApplicationStatus.PENDING
             /\ Application.internshipId a = iid
             /\ Application.userId a = uid
             /\ Prisma.application_findUnique iid uid before = None
             /\ store (snd r)
                = Prisma.withApplications before (applications before ++ [a])).
Proof.
  intros uid iid req w r.
  destruct req as [| |c];
    try (exists 0%nat; left; split; [discriminate|reflexivity]).
  destruct (applyToInternship uid iid (Json c) w) as [resp w'] eqn:Hr. subst r.
  cbn [fst snd]. unfold applyToInternship in Hr. rewrite readBody_json in Hr.
  unfold tryCatch in Hr.
  assert (Hstop : forall k resp0,
             applyOutcome resp0 <> Success ->
             (resp0, Nat.iter k envStep w) = (resp, w') ->
             exists n,
               let before := commits (firstn n (env w)) (store w) in
               (applyOutcome resp <> Success /\ store w' = before)
               \/ (exists a,
                      resp = ApplySubmitted a
                      /\ Application.status a = ApplicationStatus.PENDING
                      /\ Application.internshipId a = iid
                      /\ Application.userId a = uid
                      /\ Prisma.application_findUnique iid uid before = None
                      /\ store w'
                         = Prisma.withApplications before
                             (applications before ++ [a]))).
  { intros k resp0 Hne E. inversion E; subst resp w'. exists k. left.
    split; [exact Hne|]. apply envStep_iter. }
  unfold bind at 1 in Hr. rewrite coverLetterTooShort_run in Hr.
  destruct (coverLetterThrows c).
  { apply (Hstop 0%nat ApplyFailed); [discriminate|exact Hr]. }
  destruct (coverLetterStopped c) eqn:Hpassed.
  { apply (Hstop 0%nat ApplyTooShort); [discriminate|exact Hr]. }
  destruct (Js.length (Js.textOf c) >? 2000).
  { apply (Hstop 0%nat ApplyTooLong); [discriminate|exact Hr]. }
  unfold bind at 1 in Hr.
  destruct (await_query_cases (Prisma.internship_findUnique iid) w) as [E|E];
    rewrite E in Hr.
  { apply (Hstop 1%nat ApplyFailed); [discriminate|exact Hr]. }
  set (w1 := envStep w) in *.
  destruct (Prisma.internship_findUnique iid (store w1)) as [[[i co] ca]|].
  2:{ apply (Hstop 1%nat ApplyInternshipNotFound); [discriminate|exact Hr]. }
  destruct (negb (Internship.isActive i)).
  { apply (Hstop 1%nat ApplyNotAccepting); [discriminate|exact Hr]. }
  destruct (negb (CampaignStatus.eqb (Campaign.status ca) CampaignStatus.ACTIVE)).
  { apply (Hstop 1%nat ApplyCampaignNotActive); [discriminate|exact Hr]. }
  unfold bind at 1, newDate at 1 in Hr.
  destruct (clock w1 >? Internship.deadline i).
  { apply (Hstop 1%nat ApplyDeadlinePassed); [discriminate|exact Hr]. }
  unfold bind at 1 in Hr.
  destruct (await_query_cases (Prisma.application_findUnique iid uid) w1)
    as [E1|E1]; rewrite E1 in Hr.
  { apply (Hstop 2%nat ApplyFailed); [discriminate|exact Hr]. }
  set (w2 := envStep w1) in *.
  destruct (Prisma.application_findUnique iid uid (store w2)).
  { apply (Hstop 2%nat ApplyAlreadyApplied); [discriminate|exact Hr]. }
  unfold bind at 1, newDate at 1 in Hr. unfold bind at 1 in Hr.
  destruct (await_query_cases
              (Prisma.user_findUnique_subscriptions uid (clock w2)) w2)
    as [E2|E2]; rewrite E2 in Hr.
  { apply (Hstop 3%nat ApplyFailed); [discriminate|exact Hr]. }
  set (w3 := envStep w2) in *.
  destruct (Prisma.user_findUnique_subscriptions uid (clock w2) (store w3))
    as [[u [|[sub plan] rest]]|];
    try (apply (Hstop 3%nat ApplySubscriptionRequired); [discriminate|exact Hr]).
  unfold bind at 1 in Hr.
  destruct (monthlyLimit_cases uid plan w3) as (k & Hk & [E3|(x & E3 & Hx)]);
    rewrite E3 in Hr.
  { apply (Hstop (k + 3)%nat ApplyFailed); [discriminate|].
    rewrite Nat.iter_add. exact Hr. }
  set (w4 := Nat.iter k envStep w3) in *.
  assert (Hw4 : w4 = Nat.iter (k + 3) envStep w)
    by (subst w4 w3 w2 w1; rewrite Nat.iter_add; reflexivity).
  destruct x as [stop|].
  { apply (Hstop (k + 3)%nat stop).
    - rewrite (Hx stop eq_refl). discriminate.
    - rewrite <- Hw4. exact Hr. }
  unfold bind at 1 in Hr. rewrite (callTrim_run _ _ Hpassed) in Hr.
  unfold bind at 1 in Hr.
  match type of Hr with
  | context [await ?op w4] => destruct (await_cases op w4) as [E4|E4]
  end; rewrite E4 in Hr.
  { apply (Hstop (S (k + 3)) ApplyFailed); [discriminate|].
    rewrite Nat.iter_succ, <- Hw4. exact Hr. }
  unfold exec in Hr.
  assert (Hw5 : store (envStep w4)
                = commits (firstn (S (k + 3)) (env w)) (store w)).
  { rewrite Hw4, <- Nat.iter_succ. apply (envStep_iter (S (k + 3)) w). }
  unfold Prisma.application_create in Hr.
  destruct (Prisma.application_findUnique iid uid (store (envStep w4)))
    eqn:Hnone.
  { inversion Hr; subst resp w'. exists (S (k + 3)). left.
    split; [discriminate|]. exact Hw5. }
  destruct (Prisma.internshipById (store (envStep w4)) iid);
    [destruct (Prisma.userById (store (envStep w4)) uid)|];
    try (inversion Hr; subst resp w'; exists (S (k + 3)); left;
         split; [discriminate|exact Hw5]).
  unfold ret in Hr. inversion Hr; subst resp w'. clear Hr.
  exists (S (k + 3)). right. cbv zeta. rewrite <- Hw5.
  eexists. repeat split; try reflexivity. exact Hnone.
Qed.

End ApplyAnyEnvironment.

(** ** Invariants of the store *)

Lemma preserves_refl (I : Store -> Prop) s : preserves I s s.
Proof. intros H. exact H. Qed.

Lemma preserves_trans (I : Store -> Prop) a b c :
  preserves I a b -> preserves I b c -> preserves I a c.
Proof. unfold preserves. auto. Qed.

Ltac frame_op_with db refl :=
  first [ apply opKeeps_query; exact refl
        | apply opKeeps_noop; exact refl
        | solve [auto with db] ].

Ltac frame_walk_with db refl trans :=
  repeat first
    [ apply keeps_ret; exact refl
    | apply keeps_throw; exact refl
    | apply keeps_newDate; exact refl
    | apply keeps_bind; frame_side refl trans; [|intros]
    | apply keeps_transaction; frame_side refl trans
    | apply keeps_await; frame_side refl trans;
      first [ apply opKeeps_query; exact refl
            | apply opKeeps_noop; exact refl
            | solve [auto with db] ]
    | apply keeps_awaitTx; frame_side refl trans;
      first [ apply opKeeps_query; exact refl
            | apply opKeeps_noop; exact refl
            | solve [auto with db] ]
    | match goal with
      | |- keeps _ (match ?x with _ => _ end) => destruct x
      | |- keeps _ (if ?b then _ else _) => destruct b
      | |- keeps _ (let _ := _ in _) => cbv zeta
      | |- keeps _ (monthlyLimit _ _) => unfold monthlyLimit
      | |- keeps _ (coverLetterTooShort _) => unfold coverLetterTooShort
      | |- keeps _ (callTrim _) => unfold callTrim
      | |- keeps _ (readBody _) => unfold readBody
      end ].

Lemma nodup_snoc {A} (l : list A) (x : A) :
  NoDup l -> ~ In x l -> NoDup (l ++ [x]).
Proof.
  intros Hl Hx. induction l as [|a l IH]; simpl.
  - constructor; [intros []|constructor].
  - inversion Hl; subst. constructor.
    + intros Hin. apply in_app_or in Hin. destruct Hin as [Hin|[->|[]]].
      * contradiction.
      * apply Hx. left. reflexivity.
    + apply IH; [assumption|]. intros Hin. apply Hx. right. exact Hin.
Qed.

Lemma findUnique_none_pair iid uid s :
  Prisma.application_findUnique iid uid s = None ->
  ~ In (iid, uid) (applicationPairs s).
Proof.
  unfold Prisma.application_findUnique, applicationPairs. intros Hnone Hin.
  apply in_map_iff in Hin. destruct Hin as (a & Ha & Hin).
  apply (find_none _ _ Hnone) in Hin. inversion Ha; subst.
  rewrite !N.eqb_refl in Hin. discriminate.
Qed.

(** Replacing the rows keyed [k] by one that agrees with the first of
    them on [f] keeps [f] along the table, when keys are unique. *)
Lemma map_replace_same {A B} (key : A -> Id) (f : A -> B) (k : Id)
  (old new : A) (l : list A) :
  NoDup (map key l) ->
  find (fun a => N.eqb (key a) k) l = Some old ->
  f new = f old ->
  map f (map (fun a => if N.eqb (key a) k then new else a) l) = map f l.
Proof.
  intros Hnd Hold Hf. rewrite map_map. apply map_ext_in. intros a Ha.
  destruct (N.eqb (key a) k) eqn:E; [|reflexivity].
  apply N.eqb_eq in E. pose proof Hold as Hin. apply find_some in Hin.
  destruct Hin as [Hin Hk]. apply N.eqb_eq in Hk.
  rewrite (nodup_key_inj key l a old Hnd Ha Hin); congruence.
Qed.

Create HintDb keysdb.
Create HintDb emailsdb.

Lemma application_create_keys iid uid c st :
  opKeeps (preserves applicationKeys) (Prisma.application_create iid uid c st).
Proof.
  unfold Prisma.application_create. op_cases.
  intros [Hid Hpairs]. unfold applicationKeys, uniquePairs, applicationIds.
  cbn [applications Prisma.withApplications]. rewrite !map_app. cbn [map].
  split.
  - apply nodup_snoc; [exact Hid|]. cbn. apply fresh_not_in.
  - apply nodup_snoc; [exact Hpairs|]. cbn.
    apply findUnique_none_pair. assumption.
Qed.

Lemma application_update_keys aid data :
  opKeeps (preserves applicationKeys) (Prisma.application_update aid data).
Proof.
  intros s now a s'. unfold Prisma.application_update.
  destruct (find _ (applications s)) as [old|] eqn:Hold; [|discriminate].
  intros H; inversion H; subst; clear H.
  intros [Hid Hpairs]. unfold applicationKeys, uniquePairs, applicationIds.
  cbn [applications Prisma.withApplications]. split.
  - rewrite map_replace_key; [exact Hid|].
    cbn. exact (find_some_id Application.id aid _ _ Hold).
  - rewrite (map_replace_same Application.id _ aid old); [exact Hpairs| | |];
      [exact Hid|exact Hold|reflexivity].
Qed.

Lemma unchanged_applications_keys {A} (op : DbOp A) :
  opKeeps (fun s s' => applications s' = applications s) op ->
  opKeeps (preserves applicationKeys) op.
Proof.
  intros Hop s now a s' H. specialize (Hop s now a s' H).
  unfold preserves, applicationKeys, uniquePairs, applicationIds.
  rewrite Hop. auto.
Qed.

Lemma campaign_update_apps cid data :
  opKeeps (fun s s' => applications s' = applications s)
    (Prisma.campaign_update cid data).
Proof. unfold Prisma.campaign_update. op_cases; reflexivity. Qed.

Lemma campaign_create_apps t d b e m c st :
  opKeeps (fun s s' => applications s' = applications s)
    (Prisma.campaign_create t d b e m c st).
Proof. unfold Prisma.campaign_create. op_cases; reflexivity. Qed.

Lemma campaignPayment_create_apps c a m t st :
  opKeeps (fun s s' => applications s' = applications s)
    (Prisma.campaignPayment_create c a m t st).
Proof. unfold Prisma.campaignPayment_create. op_cases; reflexivity. Qed.

Lemma user_create_apps n e p r c :
  opKeeps (fun s s' => applications s' = applications s)
    (Prisma.user_create n e p r c).
Proof. unfold Prisma.user_create. op_cases; reflexivity. Qed.

Lemma company_create_apps n w d l :
  opKeeps (fun s s' => applications s' = applications s)
    (Prisma.company_create n w d l).
Proof. unfold Prisma.company_create. op_cases; reflexivity. Qed.

#[local] Hint Resolve application_create_keys application_update_keys : keysdb.
#[local] Hint Extern 2 (opKeeps (preserves applicationKeys) _) =>
  apply unchanged_applications_keys;
  first [ apply campaign_update_apps | apply campaign_create_apps
        | apply campaignPayment_create_apps | apply user_create_apps
        | apply company_create_apps ] : keysdb.

Section StoreInvariants.

Context {rt : JsRuntime} {db : Database}.

Lemma listing_ops_unchanged q u p l :
  opKeeps (fun s s' => s' = s) (internship_count q)
  /\ opKeeps (fun s s' => s' = s) (internship_findMany q u p l)
  /\ opKeeps (fun s s' => s' = s) (skill_findMany q)
  /\ opKeeps (fun s s' => s' = s) (tag_findMany q)
  /\ opKeeps (fun s s' => s' = s) (location_findMany q).
Proof.
  repeat split.
  - unfold internship_count. op_cases; reflexivity.
  - unfold internship_findMany. op_cases; reflexivity.
  - unfold skill_findMany. op_cases; reflexivity.
  - unfold tag_findMany. op_cases; reflexivity.
  - unfold location_findMany. op_cases; reflexivity.
Qed.

Lemma unchanged_preserves {A} (I : Store -> Prop) (op : DbOp A) :
  opKeeps (fun s s' => s' = s) op -> opKeeps (preserves I) op.
Proof.
  intros Hop s now a s' H. rewrite (Hop s now a s' H). apply preserves_refl.
Qed.

(** The listing leaves the store as it found it. *)
Lemma getInternships_keeps (I : Store -> Prop) uid q :
  forall s now,
    exists s', snd (getInternships uid q (quiet s now)) = quiet s' now
               /\ preserves I s s'.
Proof.
  pose proof (preserves_refl I) as refl.
  pose proof (preserves_trans I) as trans.
  unfold getInternships. apply keeps_tryCatch. cbv zeta.
  destruct (listing_ops_unchanged q uid
              (parseInt (Js.JsStr (orDefault (ListQuery.page q) (Js.lit "1"))))
              (parseInt (Js.JsStr (orDefault (ListQuery.limit q) (Js.lit "20")))))
    as (H1 & H2 & H3 & H4 & H5).
  repeat (apply keeps_bind; frame_side refl trans;
          [apply keeps_await; frame_side refl trans;
           apply unchanged_preserves; assumption|intros]).
  frame_walk refl trans.
Qed.

(** X4. The keys of the application table.  Run in isolation on a
    store in which application ids are distinct and no (internship,
    student) pair has two rows, every operation ends on such a store. *)
Theorem operations_keep_application_keys :
  forall (op : Operation) (s : Store) (now : DateTime),
    applicationKeys s ->
    applicationKeys (store (perform op (quiet s now))).
Proof.
  intros op s now.
  pose proof (preserves_refl applicationKeys) as refl.
  pose proof (preserves_trans applicationKeys) as trans.
  assert (Hk : exists s', perform op (quiet s now) = quiet s' now
                          /\ preserves applicationKeys s s');
    [|destruct Hk as (s' & -> & Hs); exact Hs].
  destruct op as [u i c|u a st|u a c|u b|u c b|u q|k b|k b]; cbn [perform].
  - unfold applyToInternship. apply keeps_tryCatch.
    frame_walk_with keysdb refl trans.
  - unfold updateApplicationStatus. apply keeps_tryCatch.
    frame_walk_with keysdb refl trans.
  - unfold updateApplication. apply keeps_tryCatch.
    frame_walk_with keysdb refl trans.
  - unfold launchCampaign. apply keeps_tryCatch.
    frame_walk_with keysdb refl trans.
  - unfold editCampaign. apply keeps_tryCatch.
    frame_walk_with keysdb refl trans.
  - apply getInternships_keeps.
  - unfold studentSignup. apply keeps_tryCatch.
    frame_walk_with keysdb refl trans.
  - unfold companySignup. apply keeps_tryCatch.
    frame_walk_with keysdb refl trans.
Qed.

End StoreInvariants.

(** ** The tables an operation can touch *)

Lemma onlyApplications_refl s : onlyApplications s s.
Proof. repeat split. Qed.

Lemma onlyApplications_trans a b c :
  onlyApplications a b -> onlyApplications b c -> onlyApplications a c.
Proof. unfold onlyApplications. intuition congruence. Qed.

Lemma onlyCampaigns_refl s : onlyCampaigns s s.
Proof. repeat split. Qed.

Lemma onlyCampaigns_trans a b c :
  onlyCampaigns a b -> onlyCampaigns b c -> onlyCampaigns a c.
Proof. unfold onlyCampaigns. intuition congruence. Qed.

Lemma onlyUsers_refl s : onlyUsers s s.
Proof. repeat split. Qed.

Lemma onlyUsers_trans a b c :
  onlyUsers a b -> onlyUsers b c -> onlyUsers a c.
Proof. unfold onlyUsers. intuition congruence. Qed.

Lemma application_create_only iid uid c st :
  opKeeps onlyApplications (Prisma.application_create iid uid c st).
Proof. unfold Prisma.application_create. op_cases; repeat split. Qed.

Lemma application_update_only aid data :
  opKeeps onlyApplications (Prisma.application_update aid data).
Proof. unfold Prisma.application_update. op_cases; repeat split. Qed.

Lemma campaign_update_only cid data :
  opKeeps onlyCampaigns (Prisma.campaign_update cid data).
Proof. unfold Prisma.campaign_update. op_cases; repeat split. Qed.

Lemma campaign_create_only t d b e m c st :
  opKeeps onlyCampaigns (Prisma.campaign_create t d b e m c st).
Proof. unfold Prisma.campaign_create. op_cases; repeat split. Qed.

Lemma campaignPayment_create_only c a m t st :
  opKeeps onlyCampaigns (Prisma.campaignPayment_create c a m t st).
Proof. unfold Prisma.campaignPayment_create. op_cases; repeat split. Qed.

Lemma user_create_only n e p r c :
  opKeeps onlyUsers (Prisma.user_create n e p r c).
Proof. unfold Prisma.user_create. op_cases; repeat split. Qed.

Lemma company_create_only n w d l :
  opKeeps onlyUsers (Prisma.company_create n w d l).
Proof. unfold Prisma.company_create. op_cases; repeat split. Qed.

Create HintDb footprint.
#[local] Hint Resolve application_create_only application_update_only
  campaign_update_only campaign_create_only campaignPayment_create_only
  user_create_only company_create_only : footprint.

Section Footprint.

Context {rt : JsRuntime} {db : Database}.

(** X5. The tables each operation can touch, in isolation.  The apply,
    the status update and the cover-letter edit change at most the
    application table; the launch and the campaign edit at most the
    campaign and campaign payment tables; the sign-ups at most the user
    and company tables; the listing changes nothing.  No operation
    changes an internship, a subscription or a plan. *)
Theorem operations_touch_their_own_tables :
  forall (op : Operation) (s : Store) (now : DateTime),
    let s' := store (perform op (quiet s now)) in
    match op with
    | OpApply _ _ _ | OpUpdateApplicationStatus _ _ _
    | OpUpdateApplication _ _ _ => onlyApplications s s'
    | OpLaunchCampaign _ _ | OpEditCampaign _ _ _ => onlyCampaigns s s'
    | OpStudentSignup _ _ | OpCompanySignup _ _ => onlyUsers s s'
    | OpGetInternships _ _ => s' = s
    end.
Proof.
  intros op s now s'. subst s'.
  destruct op as [u i c|u a st|u a c|u b|u c b|u q|k b|k b]; cbn [perform];
    match goal with
    | |- ?R s (store (snd (?h _))) =>
        let refl := fresh "refl" in
        let trans := fresh "trans" in
        assert (refl : forall x, R x x)
          by first [ exact onlyApplications_refl | exact onlyCampaigns_refl
                   | exact onlyUsers_refl ];
        assert (trans : forall x y z, R x y -> R y z -> R x z)
          by first [ exact onlyApplications_trans | exact onlyCampaigns_trans
                   | exact onlyUsers_trans ];
        assert (Hk : exists s', snd (h (quiet s now)) = quiet s' now /\ R s s');
        [|destruct Hk as (s' & -> & Hs); exact Hs]
    | |- store (snd (getInternships ?u ?q _)) = s =>
        destruct (getInternships_keeps (fun x => x = s) u q s now)
          as (s' & -> & Hs); exact (Hs eq_refl)
    end.
  - unfold applyToInternship. apply keeps_tryCatch.
    frame_walk_with footprint refl trans.
  - unfold updateApplicationStatus. apply keeps_tryCatch.
    frame_walk_with footprint refl trans.
  - unfold updateApplication. apply keeps_tryCatch.
    frame_walk_with footprint refl trans.
  - unfold launchCampaign. apply keeps_tryCatch.
    frame_walk_with footprint refl trans.
  - unfold editCampaign. apply keeps_tryCatch.
    frame_walk_with footprint refl trans.
  - unfold studentSignup. apply keeps_tryCatch.
    frame_walk_with footprint refl trans.
  - unfold companySignup. apply keeps_tryCatch.
    frame_walk_with footprint refl trans.
Qed.

End Footprint.

Lemma user_create_emails n e p r c :
  opKeeps (preserves uniqueEmails) (Prisma.user_create n e p r c).
Proof.
  assert (Hnew : forall s, Prisma.user_findUnique_email e s = None ->
                           ~ In e (map User.email (users s))).
  { intros s Hnone Hin. apply in_map_iff in Hin. destruct Hin as (u & Hu & Hin).
    apply (find_none _ _ Hnone) in Hin. cbn in Hin. rewrite Hu in Hin.
    assert (Js.eqb e e = true) by (apply Js_eqb_eq; reflexivity). congruence. }
  unfold Prisma.user_create. op_cases; intros Hinv;
    unfold uniqueEmails; cbn [users Prisma.withUsers]; rewrite map_app;
    apply nodup_snoc; try exact Hinv; cbn; apply Hnew; assumption.
Qed.

Lemma onlyApplications_emails {A} (op : DbOp A) :
  opKeeps onlyApplications op -> opKeeps (preserves uniqueEmails) op.
Proof.
  intros Hop s now a s' H. destruct (Hop s now a s' H) as (Hu & _).
  unfold preserves, uniqueEmails. rewrite Hu. auto.
Qed.

Lemma onlyCampaigns_emails {A} (op : DbOp A) :
  opKeeps onlyCampaigns op -> opKeeps (preserves uniqueEmails) op.
Proof.
  intros Hop s now a s' H. destruct (Hop s now a s' H) as (Hu & _).
  unfold preserves, uniqueEmails. rewrite Hu. auto.
Qed.

Lemma company_create_emails n w d l :
  opKeeps (preserves uniqueEmails) (Prisma.company_create n w d l).
Proof. unfold Prisma.company_create. op_cases. intros H. exact H. Qed.

#[local] Hint Resolve user_create_emails company_create_emails : emailsdb.
#[local] Hint Extern 2 (opKeeps (preserves uniqueEmails) _) =>
  first [ apply onlyApplications_emails; solve [auto with footprint]
        | apply onlyCampaigns_emails; solve [auto with footprint] ] : emailsdb.

Section MoreInvariants.

Context {rt : JsRuntime} {db : Database}.

(** X6. The unique index on the email of a user.  Run in isolation on
    a store in which emails are distinct, every operation, the two
    sign-ups included, ends on such a store. *)
Theorem operations_keep_emails_unique :
  forall (op : Operation) (s : Store) (now : DateTime),
    uniqueEmails s ->
    uniqueEmails (store (perform op (quiet s now))).
Proof.
  intros op s now.
  pose proof (preserves_refl uniqueEmails) as refl.
  pose proof (preserves_trans uniqueEmails) as trans.
  assert (Hk : exists s', perform op (quiet s now) = quiet s' now
                          /\ preserves uniqueEmails s s');
    [|destruct Hk as (s' & -> & Hs); exact Hs].
  destruct op as [u i c|u a st|u a c|u b|u c b|u q|k b|k b]; cbn [perform].
  - unfold applyToInternship. apply keeps_tryCatch.
    frame_walk_with emailsdb refl trans.
  - unfold updateApplicationStatus. apply keeps_tryCatch.
    frame_walk_with emailsdb refl trans.
  - unfold updateApplication. apply keeps_tryCatch.
    frame_walk_with emailsdb refl trans.
  - unfold launchCampaign. apply keeps_tryCatch.
    frame_walk_with emailsdb refl trans.
  - unfold editCampaign. apply keeps_tryCatch.
    frame_walk_with emailsdb refl trans.
  - apply getInternships_keeps.
  - unfold studentSignup. apply keeps_tryCatch.
    frame_walk_with emailsdb refl trans.
  - unfold companySignup. apply keeps_tryCatch.
    frame_walk_with emailsdb refl trans.
Qed.

End MoreInvariants.

Section LaunchInIsolation.

Context {rt : JsRuntime}.


End LaunchInIsolation.

(** ** Campaigns and their payments; stored cover letters *)

Create HintDb paydb.
Create HintDb lettersdb.

Lemma onlyApplications_payments {A} (op : DbOp A) :
  opKeeps onlyApplications op -> opKeeps (preserves paymentsMatch) op.
Proof.
  intros Hop s now a s' H. destruct (Hop s now a s' H) as (_ & _ & Hc & Hp & _).
  unfold preserves, paymentsMatch. rewrite Hc, Hp. auto.
Qed.

Lemma onlyUsers_payments {A} (op : DbOp A) :
  opKeeps onlyUsers op -> opKeeps (preserves paymentsMatch) op.
Proof.
  intros Hop s now a s' H. destruct (Hop s now a s' H) as (Hc & Hp & _).
  unfold preserves, paymentsMatch. rewrite Hc, Hp. auto.
Qed.

Lemma campaign_update_payments cid data :
  opKeeps (preserves paymentsMatch) (Prisma.campaign_update cid data).
Proof.
  intros s now a s' H.
  assert (Hids : map Campaign.id (campaigns s') = map Campaign.id (campaigns s)
                 /\ campaignPayments s' = campaignPayments s).
  { revert H. unfold Prisma.campaign_update.
    destruct (Prisma.campaignById s cid) as [old|] eqn:Hold.
    - repeat match goal with
             | |- context [match ?x with _ => _ end] => destruct x eqn:?
             | |- context [if ?b then _ else _] => destruct b eqn:?
             end;
        intros H; try discriminate H; inversion H; subst; clear H;
        cbn [campaigns campaignPayments Prisma.withCampaigns];
        (split; [|reflexivity]);
        apply map_replace_key; cbn;
        exact (find_some_id Campaign.id cid _ _ Hold).
    - repeat match goal with
             | |- context [match ?x with _ => _ end] => destruct x eqn:?
             | |- context [if ?b then _ else _] => destruct b eqn:?
             end; intros H; discriminate H. }
  destruct Hids as [Hc Hp]. unfold preserves, paymentsMatch.
  rewrite Hc, Hp. auto.
Qed.

#[local] Hint Resolve campaign_update_payments : paydb.
#[local] Hint Extern 2 (opKeeps (preserves paymentsMatch) _) =>
  first [ apply onlyApplications_payments; solve [auto with footprint]
        | apply onlyUsers_payments; solve [auto with footprint] ] : paydb.

Lemma unchanged_applications_letters {A} (op : DbOp A) :
  opKeeps (fun s s' => applications s' = applications s) op ->
  opKeeps (preserves lettersOk) op.
Proof.
  intros Hop s now a s' H. specialize (Hop s now a s' H).
  unfold preserves, lettersOk. rewrite Hop. auto.
Qed.

(** An update that sets no cover letter, or one of at least 50
    characters, keeps every cover letter at 50 characters or more. *)
Lemma application_update_letters aid data :
  (forall c, Prisma.set_coverLetter data = Some c -> 50 <= Js.length c) ->
  opKeeps (preserves lettersOk) (Prisma.application_update aid data).
Proof.
  intros Hdata s now a s'. unfold Prisma.application_update.
  destruct (find _ (applications s)) as [old|] eqn:Hold; [|discriminate].
  intros H; inversion H; subst; clear H. intros Hok x Hx.
  cbn [applications Prisma.withApplications] in Hx.
  apply in_map_iff in Hx. destruct Hx as (y & Hy & Hin).
  destruct (N.eqb (Application.id y) aid); [|subst x; apply Hok; exact Hin].
  subst x. cbn [Application.coverLetter].
  destruct (Prisma.set_coverLetter data) as [c|] eqn:Hc.
  - exists c. split; [reflexivity|]. apply Hdata. reflexivity.
  - apply Hok. apply find_some in Hold. apply Hold.
Qed.

Lemma application_update_status_letters aid st up :
  opKeeps (preserves lettersOk)
    (Prisma.application_update aid (Prisma.mkApplicationUpdateInput st None up)).
Proof. apply application_update_letters. discriminate. Qed.

#[local] Hint Resolve application_update_status_letters : lettersdb.
#[local] Hint Extern 2 (opKeeps (preserves lettersOk) _) =>
  apply unchanged_applications_letters;
  first [ apply campaign_update_apps | apply campaign_create_apps
        | apply campaignPayment_create_apps | apply user_create_apps
        | apply company_create_apps ] : lettersdb.

Section MoreInvariants2.

Context {rt : JsRuntime} {db : Database}.

Lemma not_too_short c :
  coverLetterStopped c = false ->
  50 <= Js.length (Js.trim (Js.textOf c)).
Proof.
  destruct c as [| |b|x|text|]; try discriminate.
  cbn [coverLetterStopped Js.textOf]. intros H. apply orb_false_iff in H.
  destruct H as [_ H]. apply Z.ltb_ge in H. exact H.
Qed.

(** X8. Campaigns and payments.  Run in isolation on a store in which
    campaign ids are distinct and the campaigns and the payments are in
    one-to-one correspondence, every operation ends on such a store: a
    launch leaves no campaign without its payment and no payment without
    its campaign, whether it succeeds or fails, and no other operation
    creates or removes either. *)
Theorem operations_keep_campaigns_and_payments_matched :
  forall (op : Operation) (s : Store) (now : DateTime),
    paymentsMatch s ->
    paymentsMatch (store (perform op (quiet s now))).
Proof.
  intros op s now Hm.
  pose proof (preserves_refl paymentsMatch) as refl.
  pose proof (preserves_trans paymentsMatch) as trans.
  destruct op as [u i c|u a st|u a c|u b|u c b|u q|k b|k b]; cbn [perform].
  4:{ destruct b as [| |b]; try exact Hm.
      destruct (negb (Js.truthy (LaunchBody.title b))
                || negb (Js.truthy (LaunchBody.budget b))
                || negb (Js.truthy (LaunchBody.endDate b))
                || negb (Js.truthy (LaunchBody.maxInternships b))
                || negb (Js.truthy (LaunchBody.paymentMethod b))) eqn:Hreq.
      { rewrite launchCampaign_quiet, Hreq. exact Hm. }
      destruct (Prisma.user_findUnique_company u s) as [[usr [company|]]|] eqn:Hu;
        try (rewrite launchCampaign_quiet, Hreq, Hu; exact Hm).
      destruct (launch_quiet_result u b s now usr company Hm Hu Hreq)
        as [[E _]|(? & ? & ? & ? & d & n & _ & E)]; cbv zeta in E; rewrite E;
        cbn [snd store quiet]; [exact Hm|].
      destruct Hm as [Hnd Hperm]. unfold paymentsMatch.
      cbn [campaigns campaignPayments Prisma.withCampaigns
           Prisma.withCampaignPayments]. rewrite !map_app. cbn [map].
      cbn [Campaign.id CampaignPayment.campaignId]. split.
      - apply nodup_snoc; [exact Hnd|apply fresh_not_in].
      - apply Permutation_app; [exact Hperm|apply Permutation_refl]. }
  all: match goal with
       | |- paymentsMatch (store (snd (?h _))) =>
           assert (Hk : exists s', snd (h (quiet s now)) = quiet s' now
                                   /\ preserves paymentsMatch s s');
           [|destruct Hk as (s' & -> & Hs); exact (Hs Hm)]
       end.
  - unfold applyToInternship. apply keeps_tryCatch.
    frame_walk_with paydb refl trans.
  - unfold updateApplicationStatus. apply keeps_tryCatch.
    frame_walk_with paydb refl trans.
  - unfold updateApplication. apply keeps_tryCatch.
    frame_walk_with paydb refl trans.
  - unfold editCampaign. apply keeps_tryCatch.
    frame_walk_with paydb refl trans.
  - apply getInternships_keeps.
  - unfold studentSignup. apply keeps_tryCatch.
    frame_walk_with paydb refl trans.
  - unfold companySignup. apply keeps_tryCatch.
    frame_walk_with paydb refl trans.
Qed.

(** X9. Stored cover letters.  Run in isolation on a store in which
    every application carries a cover letter of at least 50 characters,
    every operation ends on such a store: the apply and the cover-letter
    edit store the trimmed text they validated, and nothing else writes
    a cover letter. *)
Theorem operations_keep_cover_letters_long_enough :
  forall (op : Operation) (s : Store) (now : DateTime),
    lettersOk s ->
    lettersOk (store (perform op (quiet s now))).
Proof.
  intros op s now Hm.
  pose proof (preserves_refl lettersOk) as refl.
  pose proof (preserves_trans lettersOk) as trans.
  destruct op as [u i c|u a st|u a c|u b|u c b|u q|k b|k b]; cbn [perform].
  1:{ destruct c as [| |c]; try exact Hm.
      rewrite applyToInternship_quiet.
      destruct (coverLetterStopped c) eqn:Hshort; [exact Hm|].
      repeat match goal with
             | |- context [match ?x with _ => _ end] => destruct x
             | |- context [if ?b then _ else _] => destruct b
             end; try exact Hm.
      cbn [snd store quiet]. intros x Hx.
      cbn [applications Prisma.withApplications] in Hx.
      apply in_app_or in Hx. destruct Hx as [Hx|[<-|[]]]; [apply Hm; exact Hx|].
      eexists. split; [reflexivity|]. apply not_too_short. exact Hshort. }
  2:{ destruct c as [| |c]; try exact Hm.
      rewrite updateApplication_quiet.
      destruct (coverLetterStopped c) eqn:Hshort; [exact Hm|].
      destruct (Prisma.application_findFirst_ofUser a u s); [|exact Hm].
      destruct (negb _); [exact Hm|].
      destruct (Prisma.application_update _ _ s now) as [e|[x s']] eqn:E;
        [exact Hm|].
      refine (application_update_letters _ _ _ s now x s' E Hm).
      cbn. intros c' H. inversion H; subst. apply not_too_short. exact Hshort. }
  all: match goal with
       | |- lettersOk (store (snd (?h _))) =>
           assert (Hk : exists s', snd (h (quiet s now)) = quiet s' now
                                   /\ preserves lettersOk s s');
           [|destruct Hk as (s' & -> & Hs); exact (Hs Hm)]
       end.
  - unfold updateApplicationStatus. apply keeps_tryCatch.
    frame_walk_with lettersdb refl trans.
  - unfold launchCampaign. apply keeps_tryCatch.
    frame_walk_with lettersdb refl trans.
  - unfold editCampaign. apply keeps_tryCatch.
    frame_walk_with lettersdb refl trans.
  - apply getInternships_keeps.
  - unfold studentSignup. apply keeps_tryCatch.
    frame_walk_with lettersdb refl trans.
  - unfold companySignup. apply keeps_tryCatch.
    frame_walk_with lettersdb refl trans.
Qed.

End MoreInvariants2.

(** ** How far the two application updates reach *)

(** Under a primary key, an update rewrites the one row with the id
    and leaves every other row in place. *)
Lemma application_update_reach aid data s now new s' :
  NoDup (applicationIds s) ->
  Prisma.application_update aid data s now = inr (new, s') ->
  exists old,
    In old (applications s)
    /\ Application.id old = aid
    /\ find (fun a => N.eqb (Application.id a) aid) (applications s) = Some old
    /\ s' = Prisma.withApplications s
              (map (fun a => if N.eqb (Application.id a) aid then new else a)
                   (applications s))
    /\ (forall a, In a (applications s) -> a <> old -> In a (applications s'))
    /\ (forall B (f : Application.t -> B),
          f new = f old -> map f (applications s') = map f (applications s))
    /\ Application.id new = aid
    /\ Application.status new
       = Prisma.orElse (Prisma.set_status data) (Application.status old)
    /\ Application.coverLetter new
       = match Prisma.set_coverLetter data with
         | Some c => Some c
         | None => Application.coverLetter old
         end
    /\ Application.createdAt new = Application.createdAt old
    /\ Application.internshipId new = Application.internshipId old
    /\ Application.userId new = Application.userId old.
Proof.
  intros Hnd Hupd.
  destruct (find (fun a => N.eqb (Application.id a) aid) (applications s))
    as [old|] eqn:Hold.
  2:{ unfold Prisma.application_update in Hupd. rewrite Hold in Hupd.
      discriminate. }
  destruct (application_update_found aid data s now old Hold)
    as (new' & E & Hnid & Hst & _ & Hcl & Hcr & Hii & Hui).
  rewrite E in Hupd. inversion Hupd; subst new' s'. clear Hupd.
  pose proof (find_some_id Application.id aid _ _ Hold) as Hid.
  pose proof Hold as Hin. apply find_some in Hin. destruct Hin as [Hin _].
  exists old. repeat (split; [first [assumption|reflexivity]|]).
  cbn [applications Prisma.withApplications]. split; [|split].
  - intros a Ha Hne. apply in_map_replace_other; [exact Ha|].
    intros Hk. apply Hne.
    apply (nodup_key_inj Application.id (applications s)); try assumption.
    congruence.
  - intros B f Hf.
    apply (map_replace_same Application.id f aid old new); assumption.
  - repeat split; assumption.
Qed.

(** X10. How far the student's cover-letter edit reaches.  On a store
    with a primary key on applications, whatever the request: an
    application with another id, of another student, or that is not
    PENDING is still there, unchanged, afterwards; no application
    changes its status, its student, its internship or its creation
    date, none is created or removed; and a request that does not
    succeed leaves the world as it was. *)
Theorem cover_letter_edit_reaches_only_the_callers_pending_application :
  forall (s : Store) (now : DateTime) (uid aid : Id) (req : Body JsValue),
    NoDup (applicationIds s) ->
    let r := updateApplication uid aid req (quiet s now) in
    let s' := store (snd r) in
    (forall a, In a (applications s) ->
       Application.id a <> aid \/ Application.userId a <> uid
       \/ Application.status a <> ApplicationStatus.PENDING ->
       In a (applications s'))
    /\ map Application.status (applications s')
       = map Application.status (applications s)
    /\ map Application.createdAt (applications s')
       = map Application.createdAt (applications s)
    /\ applicationIds s' = applicationIds s
    /\ applicationPairs s' = applicationPairs s
    /\ (editOutcome (fst r) <> Success -> snd r = quiet s now).
Proof.
  intros s now uid aid req Hnd r s'. subst s' r.
  destruct req as [| |c];
    try (cbn [fst snd store quiet]; repeat split; auto; fail).
  rewrite updateApplication_quiet.
  assert (Hsame :
    (forall a, In a (applications s) ->
       Application.id a <> aid \/ Application.userId a <> uid
       \/ Application.status a <> ApplicationStatus.PENDING ->
       In a (applications s))
    /\ map Application.status (applications s)
       = map Application.status (applications s)
    /\ map Application.createdAt (applications s)
       = map Application.createdAt (applications s)
    /\ applicationIds s = applicationIds s
    /\ applicationPairs s = applicationPairs s).
  { repeat split; auto. }
  destruct Hsame as (S1 & S2 & S3 & S4 & S5).
  destruct (coverLetterStopped c);
    [cbn [fst snd store quiet]; repeat split; auto|].
  destruct (Prisma.application_findFirst_ofUser aid uid s) as [app|] eqn:Hfound;
    [|cbn [fst snd store quiet]; repeat split; auto].
  destruct (negb (ApplicationStatus.eqb (Application.status app)
                    ApplicationStatus.PENDING)) eqn:Hpending;
    [cbn [fst snd store quiet]; repeat split; auto|].
  destruct (Prisma.application_update aid _ s now) as [e|[new s']] eqn:Hupd;
    [cbn [fst snd store quiet]; repeat split; auto|].
  cbn [fst snd store quiet editOutcome].
  destruct (application_update_reach _ _ _ _ _ _ Hnd Hupd)
    as (old & Hin & Hid & Hold & Hs' & Hothers & Hmaps
        & Hnid & Hst & _ & Hcr & Hii & Hui).
  cbn [Prisma.set_status Prisma.orElse] in Hst.
  assert (Happ : app = old).
  { pose proof Hfound as H. apply find_some in H. destruct H as [Hin' Hk].
    apply andb_true_iff in Hk. destruct Hk as [Hk _]. apply N.eqb_eq in Hk.
    apply (nodup_key_inj Application.id (applications s)); try assumption.
    congruence. }
  subst app.
  assert (Huid : Application.userId old = uid).
  { apply find_some in Hfound. destruct Hfound as [_ Hk].
    apply andb_true_iff in Hk. destruct Hk as [_ Hk]. apply N.eqb_eq in Hk.
    exact Hk. }
  assert (Hpend : Application.status old = ApplicationStatus.PENDING).
  { destruct (Application.status old); try discriminate. reflexivity. }
  split; [|split; [|split; [|split; [|split]]]].
  - intros a Ha Hcase. apply Hothers; [exact Ha|]. intros ->.
    destruct Hcase as [H|[H|H]]; contradiction.
  - apply Hmaps. exact Hst.
  - apply Hmaps. exact Hcr.
  - apply (Hmaps _ Application.id). congruence.
  - apply (Hmaps _ (fun a => (Application.internshipId a, Application.userId a))).
    congruence.
  - intros H. exfalso. apply H. reflexivity.
Qed.

(** X11. How far the company's status update reaches.  On a store with
    a primary key on applications, whatever the request: an application
    with another id, or for an internship the caller's company did not
    post, is still there, unchanged, afterwards; no application changes
    its cover letter, its student, its internship or its creation date,
    none is created or removed; and a request that does not succeed
    leaves the world as it was. *)
Theorem status_update_reaches_only_the_companys_applications :
  forall (s : Store) (now : DateTime) (uid aid : Id) (req : Body JsValue),
    NoDup (applicationIds s) ->
    let r := updateApplicationStatus uid aid req (quiet s now) in
    let s' := store (snd r) in
    (forall a, In a (applications s) ->
       Application.id a <> aid
       \/ (forall u company,
             Prisma.user_findUnique_company uid s = Some (u, Some company) ->
             ~ postedBy s (Company.id company) a) ->
       In a (applications s'))
    /\ map Application.coverLetter (applications s')
       = map Application.coverLetter (applications s)
    /\ map Application.createdAt (applications s')
       = map Application.createdAt (applications s)
    /\ applicationIds s' = applicationIds s
    /\ applicationPairs s' = applicationPairs s
    /\ (statusOutcome (fst r) <> Success -> snd r = quiet s now).
Proof.
  intros s now uid aid req Hnd r s'. subst s' r.
  destruct req as [| |status];
    try (cbn [fst snd store quiet]; repeat split; auto; fail).
  rewrite updateApplicationStatus_quiet.
  destruct (negb (Js.truthy status)
            || negb (Js.includesValue validStatuses status));
    [cbn [fst snd store quiet]; repeat split; auto|].
  destruct (Prisma.user_findUnique_company uid s) as [[u [company|]]|] eqn:Hu;
    try (cbn [fst snd store quiet]; repeat split; auto; fail).
  destruct (Prisma.application_findFirst_ofCompany aid (Company.id company) s)
    as [app|] eqn:Hfound; [|cbn [fst snd store quiet]; repeat split; auto].
  destruct (applicationStatusOf (Js.textOf status)) as [target|];
    [|cbn [fst snd store quiet]; repeat split; auto].
  destruct (ApplicationStatus.eqb (Application.status app)
              ApplicationStatus.ACCEPTED
            && negb (ApplicationStatus.eqb target ApplicationStatus.ACCEPTED));
    [cbn [fst snd store quiet]; repeat split; auto|].
  destruct (Prisma.application_update aid _ s now) as [e|[new s']] eqn:Hupd;
    [cbn [fst snd store quiet]; repeat split; auto|].
  cbn [fst snd store quiet statusOutcome].
  destruct (application_update_reach _ _ _ _ _ _ Hnd Hupd)
    as (old & Hin & Hid & Hold & Hs' & Hothers & Hmaps
        & Hnid & _ & Hcl & Hcr & Hii & Hui).
  cbn [Prisma.set_coverLetter] in Hcl.
  assert (Happ : app = old /\ postedBy s (Company.id company) old).
  { pose proof Hfound as H. apply find_some in H. destruct H as [Hin' Hk].
    apply andb_true_iff in Hk. destruct Hk as [Hk Hposted].
    apply N.eqb_eq in Hk.
    assert (app = old).
    { apply (nodup_key_inj Application.id (applications s)); try assumption.
      congruence. }
    subst app. split; [reflexivity|].
    apply existsb_exists in Hposted. destruct Hposted as (i & Hi & Hk').
    apply andb_true_iff in Hk'. destruct Hk' as [Hk' _].
    apply andb_true_iff in Hk'. destruct Hk' as [Hk1 Hk2].
    apply N.eqb_eq in Hk1, Hk2. exists i. repeat split; assumption. }
  destruct Happ as [-> Hposted].
  split; [|split; [|split; [|split; [|split]]]].
  - intros a Ha Hcase. apply Hothers; [exact Ha|]. intros ->.
    destruct Hcase as [H|H]; [contradiction|].
    exact (H u company eq_refl Hposted).
  - apply Hmaps. exact Hcl.
  - apply Hmaps. exact Hcr.
  - apply (Hmaps _ Application.id). congruence.
  - apply (Hmaps _ (fun a => (Application.internshipId a, Application.userId a))).
    congruence.
  - intros H. exfalso. apply H. reflexivity.
Qed.


(** ** The campaign edit and the listing *)

Lemma find_map_replace {A} (key : A -> Id) (k : Id) (new old : A) (l : list A) :
  find (fun a => N.eqb (key a) k) l = Some old ->
  key new = k ->
  find (fun a => N.eqb (key a) k)
       (map (fun a => if N.eqb (key a) k then new else a) l) = Some new.
Proof.
  intros Hold Hk. induction l as [|a l IH]; simpl in *; [discriminate|].
  destruct (N.eqb (key a) k) eqn:E.
  - rewrite Hk, N.eqb_refl. reflexivity.
  - rewrite E. apply IH. exact Hold.
Qed.

Section EditAndListing.

Context {rt : JsRuntime} {db : Database}.

(** A settable status the request carries is the one the edit writes. *)
Lemma updateData_settable (body : EditBody.t) (st : CampaignStatus.t) :
  In st [CampaignStatus.ACTIVE; CampaignStatus.PAUSED; CampaignStatus.COMPLETED] ->
  EditBody.status body = Js.JsStr (CampaignStatus.toString st) ->
  Prisma.set_campaignStatus (updateData body) = Some st.
Proof.
  intros Hin Hbody. unfold updateData. cbn [Prisma.set_campaignStatus].
  rewrite Hbody. destruct Hin as [<-|[<-|[<-|[]]]]; reflexivity.
Qed.

(** What a successful edit did. *)
Lemma editCampaign_updated uid cid body s now new w' :
  editCampaign uid cid (Json body) (quiet s now) = (EditCampaignUpdated new, w') ->
  exists row,
    Prisma.campaignById s cid = Some row
    /\ Campaign.status new
       = Prisma.orElse (Prisma.set_campaignStatus (updateData body))
           (Campaign.status row)
    /\ w' = quiet (Prisma.withCampaigns s
                     (map (fun c => if N.eqb (Campaign.id c) cid then new else c)
                          (campaigns s))) now
    /\ Prisma.campaignById (store w') cid = Some new.
Proof.
  rewrite editCampaign_quiet.
  destruct (Prisma.user_findUnique_company uid s) as [[u [company|]]|];
    try discriminate.
  destruct (Prisma.campaign_findFirst cid (Company.id company) s) as [old|] eqn:Hf;
    [|discriminate].
  destruct (find_and_left _ _ _ _ Hf) as [row Hrow].
  change (find (fun c => N.eqb (Campaign.id c) cid) (campaigns s))
    with (Prisma.campaignById s cid) in Hrow.
  destruct (campaign_update_found cid (updateData body) s now row Hrow)
    as [[_ E]
       |(title & description & new' & _ & _ & _ & E & Hid & _ & _ & _ & _ & _
         & _ & Hst & _)];
    rewrite E; [discriminate|].
  intros H. inversion H; subst new' w'. clear H.
  exists row. split; [exact Hrow|]. split; [exact Hst|]. split; [reflexivity|].
  cbn [store quiet]. unfold Prisma.campaignById.
  cbn [campaigns Prisma.withCampaigns].
  apply (find_map_replace Campaign.id cid new row); [exact Hrow|].
  rewrite Hid. exact (find_some_id Campaign.id cid _ _ Hrow).
Qed.

(** X12. Pausing or completing a campaign takes its internships out of
    the listing.  After an edit that carries the status PAUSED or
    COMPLETED has succeeded, the campaign has that status, no internship
    row has changed, and no listing, by any student, with any query and
    at any later time, shows an internship of the campaign. *)
Theorem pausing_a_campaign_hides_its_internships :
  forall (s : Store) (now later : DateTime) (uid cid : Id) (body : EditBody.t)
         (st : CampaignStatus.t) new,
    In st [CampaignStatus.PAUSED; CampaignStatus.COMPLETED] ->
    EditBody.status body = Js.JsStr (CampaignStatus.toString st) ->
    fst (editCampaign uid cid (Json body)
                              (quiet s now)) = EditCampaignUpdated new ->
    let s' := store (snd (editCampaign uid cid (Json body) (quiet s now))) in
    Campaign.status new = st
    /\ Prisma.campaignById s' cid = Some new
    /\ internships s' = internships s
    /\ forall viewer q items cp tp total hn hp sk tg lo,
         fst (getInternships viewer q (quiet s' later))
         = Listed items cp tp total hn hp sk tg lo ->
         forall i, In i (map item items) -> Internship.campaignId i <> cid.
Proof.
  intros s now later uid cid body st new Hst Hbody.
  destruct (editCampaign uid cid (Json body) (quiet s now)) as [resp w'] eqn:Hr.
  cbn [fst snd]. intros ->.
  destruct (editCampaign_updated _ _ _ _ _ _ _ Hr) as (row & Hrow & Hnew & Hw & Hby).
  assert (Hset : Prisma.set_campaignStatus (updateData body) = Some st).
  { apply updateData_settable; [|exact Hbody].
    destruct Hst as [<-|[<-|[]]]; simpl; auto. }
  rewrite Hset in Hnew. cbn [Prisma.orElse] in Hnew.
  split; [exact Hnew|]. split; [exact Hby|].
  split; [rewrite Hw; reflexivity|].
  intros viewer q items cp tp total hn hp sk tg lo Hl i Hi Hcid.
  pose proof (getInternships_listed _ _ _ _ _ _ _ _ _ _ _ _ _ Hl i Hi) as Hm.
  apply matching_visible in Hm. destruct Hm as (_ & _ & _ & ca & Hca & Hact).
  rewrite Hcid, Hby in Hca. inversion Hca; subst ca.
  rewrite Hnew in Hact. destruct Hst as [<-|[<-|[]]]; discriminate.
Qed.

(** X13. An edit brings a campaign back to ACTIVE whatever its state.
    An edit by the owning company that carries the status ACTIVE, no
    end date, and no title or description that Prisma rejects, succeeds
    on a campaign of any status, EXPIRED and COMPLETED included, and
    with any end date, one in the past included: the campaign is ACTIVE
    afterwards with the end date it had, and each of its internships
    that is active and not past its deadline meets the three conditions
    of the listing again. *)
Theorem edit_reactivates_a_campaign_whatever_its_state :
  forall (s : Store) (now later : DateTime) (uid cid : Id) (body : EditBody.t)
         u company old,
    Prisma.user_findUnique_company uid s = Some (u, Some company) ->
    Prisma.campaign_findFirst cid (Company.id company) s = Some old ->
    NoDup (map Campaign.id (campaigns s)) ->
    EditBody.status body
    = Js.JsStr (CampaignStatus.toString CampaignStatus.ACTIVE) ->
    Js.truthy (EditBody.endDate body) = false ->
    editRejected body = false ->
    let r := editCampaign uid cid (Json body) (quiet s now) in
    exists new,
      fst r = EditCampaignUpdated new
      /\ Campaign.status new = CampaignStatus.ACTIVE
      /\ Campaign.endDate new = Campaign.endDate old
      /\ forall i,
           In i (internships s) ->
           Internship.campaignId i = cid ->
           Internship.isActive i = true ->
           later <= Internship.deadline i ->
           visible (store (snd r)) later i.
Proof.
  intros s now later uid cid body u company old Hu Hfound Hnd Hbody Hend
         Hvalid r.
  subst r.
  destruct (editCampaign uid cid (Json body) (quiet s now)) as [resp w'] eqn:Hr.
  cbn [fst snd].
  assert (Hset : Prisma.set_campaignStatus (updateData body)
                 = Some CampaignStatus.ACTIVE).
  { apply updateData_settable; [simpl; auto|exact Hbody]. }
  assert (Hdate : Prisma.set_endDate (updateData body) = None).
  { unfold updateData. cbn [Prisma.set_endDate]. rewrite Hend. reflexivity. }
  destruct (find_and_left _ _ _ _ Hfound) as [row Hrow].
  assert (Hsame : old = row).
  { pose proof Hfound as H1. apply find_some in H1. destruct H1 as [Hin1 Hk1].
    pose proof Hrow as H2. apply find_some in H2. destruct H2 as [Hin2 Hk2].
    apply andb_true_iff in Hk1. destruct Hk1 as [Hk1 _].
    apply N.eqb_eq in Hk1, Hk2.
    apply (nodup_key_inj Campaign.id (campaigns s)); try assumption. congruence. }
  subst row.
  change (find (fun c => N.eqb (Campaign.id c) cid) (campaigns s))
    with (Prisma.campaignById s cid) in Hrow.
  assert (Hupd : exists new,
             Prisma.campaign_update cid (updateData body) s now
             = inr (new, Prisma.withCampaigns s
                           (map (fun c => if N.eqb (Campaign.id c) cid
                                          then new else c) (campaigns s)))
             /\ Campaign.status new = CampaignStatus.ACTIVE
             /\ Campaign.endDate new = Campaign.endDate old).
  { destruct (campaign_update_found cid (updateData body) s now old Hrow)
      as [[Hbad _]
         |(title & description & new & _ & _ & _ & E & _ & _ & _ & _ & _ & _
           & _ & Hst & _ & _ & Hed)].
    - apply updateData_rejected in Hbad. congruence.
    - exists new. split; [exact E|].
      rewrite Hst, Hset, Hed, Hdate. split; reflexivity. }
  destruct Hupd as (new & Hupd & Hact & Hed).
  pose proof Hr as Hr'.
  rewrite editCampaign_quiet, Hu, Hfound, Hupd in Hr'.
  inversion Hr'; subst resp w'. clear Hr'.
  destruct (editCampaign_updated _ _ _ _ _ _ _ Hr) as (_ & _ & _ & _ & Hby).
  exists new. split; [reflexivity|]. split; [exact Hact|]. split; [exact Hed|].
  intros i Hi Hcid Hopen Hdl.
  split; [exact Hi|]. split; [exact Hopen|]. split; [exact Hdl|].
  exists new. rewrite Hcid. split; [exact Hby|exact Hact].
Qed.

End EditAndListing.

(** ** The pages of the listing *)

Section ListingPages.

Context {rt : JsRuntime} {db : Database}.

(** What a successful listing computed. *)
Lemma getInternships_inv uid q s now items cp tp total hn hp sk tg lo :
  fst (getInternships uid q (quiet s now)) = Listed items cp tp total hn hp sk tg lo ->
  exists l sorted rows,
    parseInt (Js.JsStr (orDefault (ListQuery.page q) (Js.lit "1"))) = Some cp
    /\ parseInt (Js.JsStr (orDefault (ListQuery.limit q) (Js.lit "20"))) = Some l
    /\ orderInternships (orDefault (ListQuery.sortBy q) (Js.lit "postedAt"))
         (orDefault (ListQuery.sortOrder q) (Js.lit "desc")) (matching q now s)
       = Some sorted
    /\ paginate (Some ((cp - 1) * l)) (Some l) sorted = Some rows
    /\ items = map (listItemOf s uid) rows
    /\ total = Z.of_nat (List.length (matching q now s))
    /\ tp = (if l =? 0 then None else Some (- ((- total) / l)))
    /\ hn = (cp * l <? total)
    /\ hp = (cp >? 1).
Proof.
  unfold getInternships, tryCatch. cbv zeta.
  unfold bind at 1. rewrite await_quiet. unfold internship_count.
  destruct (whereClauseValid q) eqn:Hv; [|discriminate].
  unfold bind at 1. rewrite await_quiet. unfold internship_findMany. rewrite Hv.
  destruct (orderInternships _ _ (matching q now s)) as [sorted|] eqn:Ho;
    [|discriminate].
  destruct (parseInt (Js.JsStr (orDefault (ListQuery.page q) (Js.lit "1"))))
    as [p|]; [|discriminate].
  destruct (parseInt (Js.JsStr (orDefault (ListQuery.limit q) (Js.lit "20"))))
    as [l|]; [|discriminate].
  destruct (paginate _ _ sorted) as [rows|] eqn:Hp; [|discriminate].
  unfold bind at 1. rewrite await_quiet. cbn [skill_findMany].
  unfold bind at 1. rewrite await_quiet. cbn [tag_findMany].
  unfold bind at 1. rewrite await_quiet. cbn [location_findMany].
  cbn [ret fst]. intros H. inversion H; subst. clear H.
  exists l, sorted, rows. repeat split; try reflexivity. exact Hp.
Qed.

(** X15. The pages of the listing are consistent.  When a listing with
    a positive page size succeeds: the page number is at least 1; the
    total is the number of internships that match; the page has at most
    [limit] entries; totalPages is the least number of pages that hold
    the total; hasNext says that the current page is before the last
    one, and then the page is full; hasPrev says that it is after the
    first. *)
Theorem listing_pagination_is_consistent :
  forall (s : Store) (now : DateTime) (uid : Id) (q : ListQuery.t)
         items cp tp total hn hp sk tg lo l,
    fst (getInternships uid q (quiet s now)) = Listed items cp tp total hn hp sk tg lo ->
    parseInt (Js.JsStr (orDefault (ListQuery.limit q) (Js.lit "20"))) = Some l ->
    0 < l ->
    1 <= cp
    /\ total = Z.of_nat (List.length (matching q now s))
    /\ Z.of_nat (List.length items) <= l
    /\ (exists pages,
          tp = Some pages
          /\ (pages - 1) * l < total <= pages * l
          /\ (hn = true <-> cp < pages))
    /\ (hn = true -> Z.of_nat (List.length items) = l)
    /\ (hp = true <-> 1 < cp).
Proof.
  intros s now uid q items cp tp total hn hp sk tg lo l Hl Hlim Hpos.
  destruct (getInternships_inv _ _ _ _ _ _ _ _ _ _ _ _ _ Hl)
    as (l' & sorted & rows & Hcp & Hl' & Ho & Hpg & Hitems & Htotal & Htp & Hhn & Hhp).
  rewrite Hlim in Hl'. inversion Hl'; subst l'. clear Hl'.
  pose proof (Permutation_length (orderInternships_perm _ _ _ _ Ho)) as Hlen.
  unfold paginate in Hpg.
  destruct ((cp - 1) * l <? 0) eqn:Hskip; [discriminate|].
  apply Z.ltb_ge in Hskip.
  replace (0 <=? l) with true in Hpg by (symmetry; apply Z.leb_le; lia).
  inversion Hpg; subst rows. clear Hpg.
  assert (Hcp1 : 1 <= cp) by nia.
  assert (Hrows : List.length items
                  = Nat.min (Z.to_nat l)
                      (List.length sorted - Z.to_nat ((cp - 1) * l))).
  { rewrite Hitems, length_map, length_firstn, length_skipn. reflexivity. }
  split; [exact Hcp1|]. split; [exact Htotal|].
  split; [rewrite Hrows; lia|].
  split; [|split].
  - replace (l =? 0) with false in Htp by (symmetry; apply Z.eqb_neq; lia).
    exists (- ((- total) / l)). split; [exact Htp|].
    pose proof (Z.div_mod (- total) l ltac:(lia)) as Hdm.
    pose proof (Z.mod_pos_bound (- total) l Hpos) as Hmod.
    split; [nia|].
    rewrite Hhn. rewrite Z.ltb_lt. nia.
  - rewrite Hhn, Z.ltb_lt. intros Hmore. rewrite Hrows.
    rewrite <- Hlen, <- Nat2Z.inj_iff in *. lia.
  - rewrite Hhp, Z.gtb_ltb, Z.ltb_lt. reflexivity.
Qed.

(** X16. The listing after an application.  Once a student's
    application to an internship has gone through, the listing matches
    the same internships as before, and on every page it shows, for
    that internship, one application more than before and, to that
    student, [hasApplied]; every other entry, and [hasApplied] as other
    students see it, is as it would have been. *)
Theorem listing_reflects_a_submitted_application :
  forall (s : Store) (now later : DateTime) (uid iid : Id)
         (c : JsValue) a,
    fst (applyToInternship uid iid (Json c) (quiet s now)) = ApplySubmitted a ->
    let s' := store (snd (applyToInternship uid iid (Json c) (quiet s now))) in
    forall viewer q,
      matching q later s' = matching q later s
      /\ forall items cp tp total hn hp sk tg lo,
           fst (getInternships viewer q (quiet s' later))
           = Listed items cp tp total hn hp sk tg lo ->
           forall it, In it items ->
             let before := listItemOf s viewer (item it) in
             (Internship.id (item it) = iid ->
              applicationCount it = applicationCount before + 1
              /\ hasApplied it = (N.eqb uid viewer || hasApplied before))
             /\ (Internship.id (item it) <> iid -> it = before).
Proof.
  intros s now later uid iid c a Hsub s'.
  destruct (apply_success_inv _ _ _ _ _ _ Hsub) as (_ & _ & _ & _ & Ha & Hw).
  assert (Hs' : s' = Prisma.withApplications s
                       (applications s ++ [submitted s now uid iid c])).
  { subst s'. rewrite Hw, Ha. reflexivity. }
  clearbody s'. subst s'.
  intros viewer q. split; [reflexivity|].
  intros items cp tp total hn hp sk tg lo Hl it Hit before.
  destruct (getInternships_inv _ _ _ _ _ _ _ _ _ _ _ _ _ Hl)
    as (l & sorted & rows & _ & _ & _ & _ & Hitems & _).
  rewrite Hitems in Hit. apply in_map_iff in Hit.
  destruct Hit as (i & <- & _). subst before.
  unfold listItemOf.
  cbn [item applicationCount hasApplied applications Prisma.withApplications].
  rewrite filter_app. cbn [filter submitted Application.internshipId].
  split.
  - intros ->. rewrite N.eqb_refl, length_app, existsb_app.
    cbn [List.length existsb Application.userId].
    split; [lia|].
    rewrite orb_false_r, orb_comm. reflexivity.
  - intros Hne. apply N.eqb_neq in Hne. rewrite N.eqb_sym in Hne.
    rewrite Hne, app_nil_r. reflexivity.
Qed.

End ListingPages.

(** ** The auth guards *)

Section GuardProperties.

Context {cr : Credentials}.

Lemma withStudentAuth_handled {R} (handler : TokenPayload.t -> World -> R * World)
  token secret w r w' :
  withStudentAuth handler token secret w = (Handled r, w') ->
  exists user,
    Js.truthyStr token = true
    /\ Js.truthyStr secret = true
    /\ jwtVerify (Prisma.orElse token []) (Prisma.orElse secret []) (clock w)
       = Some user
    /\ TokenPayload.role user = Js.lit "STUDENT"
    /\ handler user w = (r, w').
Proof.
  unfold withStudentAuth.
  destruct (Js.truthyStr token); [|discriminate].
  destruct (Js.truthyStr secret); [|discriminate]. cbn [negb].
  destruct (jwtVerify _ _ _) as [user|]; [|discriminate].
  destruct (Js.eqb (TokenPayload.role user) (Js.lit "STUDENT")) eqn:Hrole;
    [|discriminate].
  cbn [negb]. destruct (handler user w) as [r0 w0] eqn:Hh.
  intros H. inversion H; subst. exists user.
  split; [reflexivity|]. split; [reflexivity|]. split; [reflexivity|].
  split; [apply Js_eqb_eq; exact Hrole|exact Hh].
Qed.

Lemma withStudentAuth_refused {R} (handler : TokenPayload.t -> World -> R * World)
  token secret w g w' :
  withStudentAuth handler token secret w = (g, w') ->
  (forall r, g <> Handled r) ->
  w' = w.
Proof.
  unfold withStudentAuth.
  destruct (negb (Js.truthyStr token)); [intros H; inversion H; reflexivity|].
  destruct (negb (Js.truthyStr secret)); [intros H; inversion H; reflexivity|].
  destruct (jwtVerify _ _ _) as [user|]; [|intros H; inversion H; reflexivity].
  destruct (negb _); [intros H; inversion H; reflexivity|].
  destruct (handler user w) as [r0 w0].
  intros H Hno. inversion H; subst. exfalso. exact (Hno r0 eq_refl).
Qed.

Lemma withCompanyAuth_handled {R} (handler : TokenPayload.t -> World -> R * World)
  token secret w r w' :
  withCompanyAuth handler token secret w = (Handled r, w') ->
  exists user,
    Js.truthyStr token = true
    /\ Js.truthyStr secret = true
    /\ jwtVerify (Prisma.orElse token []) (Prisma.orElse secret []) (clock w)
       = Some user
    /\ TokenPayload.role user = Js.lit "COMPANY"
    /\ handler user w = (r, w').
Proof.
  unfold withCompanyAuth.
  destruct (Js.truthyStr token); [|discriminate].
  destruct (Js.truthyStr secret); [|discriminate]. cbn [negb].
  destruct (jwtVerify _ _ _) as [user|]; [|discriminate].
  destruct (Js.eqb (TokenPayload.role user) (Js.lit "COMPANY")) eqn:Hrole;
    [|discriminate].
  cbn [negb]. destruct (handler user w) as [r0 w0] eqn:Hh.
  intros H. inversion H; subst. exists user.
  split; [reflexivity|]. split; [reflexivity|]. split; [reflexivity|].
  split; [apply Js_eqb_eq; exact Hrole|exact Hh].
Qed.

Lemma withCompanyAuth_refused {R} (handler : TokenPayload.t -> World -> R * World)
  token secret w g w' :
  withCompanyAuth handler token secret w = (g, w') ->
  (forall r, g <> Handled r) ->
  w' = w.
Proof.
  unfold withCompanyAuth.
  destruct (negb (Js.truthyStr token)); [intros H; inversion H; reflexivity|].
  destruct (negb (Js.truthyStr secret)); [intros H; inversion H; reflexivity|].
  destruct (jwtVerify _ _ _) as [user|]; [|intros H; inversion H; reflexivity].
  destruct (negb _); [intros H; inversion H; reflexivity|].
  destruct (handler user w) as [r0 w0].
  intros H Hno. inversion H; subst. exfalso. exact (Hno r0 eq_refl).
Qed.

Lemma withPaidStudentAuth_served {R}
  (handler : TokenPayload.t -> World -> R * World) token secret w r w' :
  withPaidStudentAuth handler token secret w = (Handled (PaidServed r), w') ->
  exists user,
    Js.truthyStr token = true
    /\ Js.truthyStr secret = true
    /\ jwtVerify (Prisma.orElse token []) (Prisma.orElse secret []) (clock w)
       = Some user
    /\ TokenPayload.role user = Js.lit "STUDENT"
    /\ TokenPayload.hasActiveSubscription user = true
    /\ handler user w = (r, w').
Proof.
  unfold withPaidStudentAuth. intros H.
  apply withStudentAuth_handled in H.
  destruct H as (user & Ht & Hs & Hv & Hr & Hh).
  exists user. destruct (TokenPayload.hasActiveSubscription user);
    cbn [negb] in Hh; [|discriminate].
  destruct (handler user w) as [r0 w0]. inversion Hh; subst.
  repeat split; assumption.
Qed.

Lemma withPaidStudentAuth_refused {R}
  (handler : TokenPayload.t -> World -> R * World) token secret w g w' :
  withPaidStudentAuth handler token secret w = (g, w') ->
  (forall r, g <> Handled (PaidServed r)) ->
  w' = w.
Proof.
  unfold withPaidStudentAuth. intros H Hno.
  destruct g as [| | | |[|r]];
    try (apply (withStudentAuth_refused _ _ _ _ _ _ H); discriminate).
  - apply withStudentAuth_handled in H.
    destruct H as (user & _ & _ & _ & _ & Hh).
    destruct (negb (TokenPayload.hasActiveSubscription user));
      [inversion Hh; reflexivity|].
    destruct (handler user w). discriminate.
  - exfalso. exact (Hno r eq_refl).
Qed.

(** X19. The guards.  Behind each of the three guards the handler runs
    only on the payload of a token that verifies against a configured
    secret at the time of the request and carries the guard's role
    (and, for the paid guard, the subscription flag), and the answer
    and the world are then the handler's; on every other answer the
    world is untouched.  A token that one of the student guards lets
    through is answered "Access denied" by the company guard, and the
    other way round. *)
Theorem guards_run_the_handler_only_on_a_verified_token :
  forall (R : Type) (handler : TokenPayload.t -> World -> R * World)
         (token secret : option JsString) (w : World),
    let verified (role : JsString) (paid : bool) r w' :=
      exists user,
        Js.truthyStr token = true
        /\ Js.truthyStr secret = true
        /\ jwtVerify (Prisma.orElse token []) (Prisma.orElse secret []) (clock w)
           = Some user
        /\ TokenPayload.role user = role
        /\ (paid = true -> TokenPayload.hasActiveSubscription user = true)
        /\ handler user w = (r, w') in
    (forall r,
        fst (withStudentAuth handler token secret w) = Handled r ->
        verified (Js.lit "STUDENT") false r
          (snd (withStudentAuth handler token secret w)))
    /\ ((forall r, fst (withStudentAuth handler token secret w) <> Handled r) ->
        snd (withStudentAuth handler token secret w) = w)
    /\ (forall r,
        fst (withCompanyAuth handler token secret w) = Handled r ->
        verified (Js.lit "COMPANY") false r
          (snd (withCompanyAuth handler token secret w)))
    /\ ((forall r, fst (withCompanyAuth handler token secret w) <> Handled r) ->
        snd (withCompanyAuth handler token secret w) = w)
    /\ (forall r,
        fst (withPaidStudentAuth handler token secret w) = Handled (PaidServed r) ->
        verified (Js.lit "STUDENT") true r
          (snd (withPaidStudentAuth handler token secret w)))
    /\ ((forall r, fst (withPaidStudentAuth handler token secret w)
                   <> Handled (PaidServed r)) ->
        snd (withPaidStudentAuth handler token secret w) = w)
    /\ (forall r (other : TokenPayload.t -> World -> R * World),
        fst (withStudentAuth handler token secret w) = Handled r ->
        withCompanyAuth other token secret w = (AccessDenied, w))
    /\ (forall r (other : TokenPayload.t -> World -> R * World),
        fst (withCompanyAuth handler token secret w) = Handled r ->
        withStudentAuth other token secret w = (AccessDenied, w)
        /\ withPaidStudentAuth other token secret w = (AccessDenied, w)).
Proof.
  intros R handler token secret w verified. subst verified. cbv beta.
  repeat split.
  - intros r H.
    destruct (withStudentAuth handler token secret w) as [g w'] eqn:E.
    cbn [fst snd] in *. subst g.
    destruct (withStudentAuth_handled _ _ _ _ _ _ E) as (u & H1 & H2 & H3 & H4 & H5).
    exists u. repeat split; try assumption. discriminate.
  - intros H.
    destruct (withStudentAuth handler token secret w) as [g w'] eqn:E.
    cbn [fst snd] in *. exact (withStudentAuth_refused _ _ _ _ _ _ E H).
  - intros r H.
    destruct (withCompanyAuth handler token secret w) as [g w'] eqn:E.
    cbn [fst snd] in *. subst g.
    destruct (withCompanyAuth_handled _ _ _ _ _ _ E) as (u & H1 & H2 & H3 & H4 & H5).
    exists u. repeat split; try assumption. discriminate.
  - intros H.
    destruct (withCompanyAuth handler token secret w) as [g w'] eqn:E.
    cbn [fst snd] in *. exact (withCompanyAuth_refused _ _ _ _ _ _ E H).
  - intros r H.
    destruct (withPaidStudentAuth handler token secret w) as [g w'] eqn:E.
    cbn [fst snd] in *. subst g.
    destruct (withPaidStudentAuth_served _ _ _ _ _ _ E)
      as (u & H1 & H2 & H3 & H4 & H5 & H6).
    exists u. repeat split; try assumption. intros _. exact H5.
  - intros H.
    destruct (withPaidStudentAuth handler token secret w) as [g w'] eqn:E.
    cbn [fst snd] in *. exact (withPaidStudentAuth_refused _ _ _ _ _ _ E H).
  - intros r other H.
    destruct (withStudentAuth handler token secret w) as [g w'] eqn:E.
    cbn [fst] in H. subst g.
    destruct (withStudentAuth_handled _ _ _ _ _ _ E) as (u & H1 & H2 & H3 & H4 & _).
    unfold withCompanyAuth. rewrite H1, H2, H3, H4. reflexivity.
  - destruct (withCompanyAuth handler token secret w) as [g w'] eqn:E.
    cbn [fst] in H. subst g.
    destruct (withCompanyAuth_handled _ _ _ _ _ _ E) as (u & H1 & H2 & H3 & H4 & _).
    unfold withStudentAuth. rewrite H1, H2, H3, H4. reflexivity.
  - destruct (withCompanyAuth handler token secret w) as [g w'] eqn:E.
    cbn [fst] in H. subst g.
    destruct (withCompanyAuth_handled _ _ _ _ _ _ E) as (u & H1 & H2 & H3 & H4 & _).
    unfold withPaidStudentAuth, withStudentAuth. rewrite H1, H2, H3, H4.
    reflexivity.
Qed.

End GuardProperties.

Section GuardedApply.

Context {rt : JsRuntime} {cr : Credentials}.

Lemma apply_refusal_writes_nothing uid iid c s now :
  (forall a,
      fst (applyToInternship uid iid (Json c) (quiet s now))
      <> ApplySubmitted a) ->
  snd (applyToInternship uid iid (Json c) (quiet s now)) = quiet s now.
Proof.
  rewrite applyToInternship_quiet.
  repeat match goal with
         | |- context [match ?x with _ => _ end] => destruct x
         | |- context [if ?b then _ else _] => destruct b
         end; try reflexivity.
  intros H. exfalso. exact (H _ eq_refl).
Qed.

(** X20. The apply route behind its guard.  Whatever the request, in
    isolation the route writes to the store only when it answers with
    success, and then the token verified against the configured secret
    as that of a STUDENT carrying the subscription flag, that student
    holds a subscription that is active in the store at the time of the
    request, and the one row that was appended is an application of
    that student to the internship of the request. *)
Theorem application_is_created_only_for_the_verified_subscriber :
  forall (token secret : option JsString) (iid : Id) (req : Body JsValue)
         (s : Store) (now : DateTime),
    let route :=
      withPaidStudentAuth
        (fun user => applyToInternship (TokenPayload.userId user) iid req) in
    let r := route token secret (quiet s now) in
    (forall a, fst r <> Handled (PaidServed (ApplySubmitted a))) /\ snd r = quiet s now
    \/ exists user a,
         jwtVerify (Prisma.orElse token []) (Prisma.orElse secret []) now
         = Some user
         /\ TokenPayload.role user = Js.lit "STUDENT"
         /\ TokenPayload.hasActiveSubscription user = true
         /\ activePlan (TokenPayload.userId user) now s <> None
         /\ fst r = Handled (PaidServed (ApplySubmitted a))
         /\ Application.userId a = TokenPayload.userId user
         /\ Application.internshipId a = iid
         /\ snd r = quiet (Prisma.withApplications s (applications s ++ [a])) now.
Proof.
  intros token secret iid req s now route r. subst r route.
  destruct (withPaidStudentAuth
              (fun user => applyToInternship (TokenPayload.userId user) iid req)
              token secret (quiet s now)) as [g w'] eqn:E.
  cbn [fst snd].
  destruct g as [| | | |[|resp]];
    try (left; split; [intros a; discriminate|];
         apply (withPaidStudentAuth_refused _ _ _ _ _ _ E); discriminate).
  destruct (withPaidStudentAuth_served _ _ _ _ _ _ E)
    as (user & _ & _ & Hv & Hrole & Hflag & Hh).
  cbn [clock quiet] in Hv.
  destruct req as [| |c];
    try (left; rewrite applyToInternship_unreadable in Hh
           by (intros; discriminate);
         inversion Hh; subst; split; [intros a; discriminate|reflexivity]).
  destruct resp as [| | | | | | | |? ? ?|application|];
    try (left; split; [intros a; discriminate|];
         pose proof (apply_refusal_writes_nothing (TokenPayload.userId user)
                       iid c s now) as Hn;
         rewrite Hh in Hn; apply Hn; intros a; discriminate).
  right.
  assert (Hfst : fst (applyToInternship (TokenPayload.userId user) iid (Json c)
                        (quiet s now)) = ApplySubmitted application)
    by (rewrite Hh; reflexivity).
  destruct (apply_success_inv _ _ _ _ _ _ Hfst)
    as (_ & _ & _ & (plan & Hplan & _) & Ha & Hw).
  rewrite Hh in Hw. cbn [snd] in Hw.
  exists user, application. repeat split; try assumption.
  - rewrite Hplan. discriminate.
  - rewrite Ha. reflexivity.
  - rewrite Ha. reflexivity.
Qed.

End GuardedApply.

(** ** The logins *)

Lemma find_app_found {A} (p : A -> bool) (l l' : list A) (x : A) :
  find p l = Some x -> find p (l ++ l') = Some x.
Proof.
  induction l as [|a l IH]; simpl; [discriminate|].
  destruct (p a); [intros H; exact H|exact IH].
Qed.

Lemma find_app_none {A} (p : A -> bool) (l l' : list A) :
  find p l = None -> find p (l ++ l') = find p l'.
Proof.
  induction l as [|a l IH]; simpl; [reflexivity|].
  destruct (p a); [discriminate|exact IH].
Qed.

Lemma find_weaken {A} (p q : A -> bool) (l : list A) :
  find p l = None -> find (fun a => p a && q a) l = None.
Proof.
  induction l as [|a l IH]; simpl; [reflexivity|].
  destruct (p a); [discriminate|exact IH].
Qed.

Section LoginProperties.

Context {rt : JsRuntime} {cr : Credentials}.

(** The student login in the isolated world, as one cascade. *)
Lemma studentLogin_quiet secret e0 email p0 password s now :
  studentLogin secret
    (LoginBody.mk (Some (e0 :: email)) (Some (p0 :: password))) (quiet s now)
  = (match user_findFirst_role (e0 :: email) UserRole.STUDENT s with
     | None => StudentLoginInvalid
     | Some u =>
         if negb (bcryptCompare (p0 :: password) (User.password u))
         then StudentLoginInvalid
         else
           match secret with
           | Some (c :: k) =>
               let sub := studentSubscription_findFirst (User.id u) now s in
               StudentLoggedIn u sub
                 (jwtSign (User.id u) (User.email u) (User.role u) (isSome sub)
                    (c :: k))
           | _ => StudentLoginMisconfigured
           end
     end, quiet s now).
Proof.
  unfold studentLogin. cbn [LoginBody.email LoginBody.password].
  unfold tryCatch, bind at 1. rewrite await_query_quiet.
  destruct (user_findFirst_role (e0 :: email) UserRole.STUDENT s) as [u|];
    [|reflexivity].
  destruct (negb (bcryptCompare (p0 :: password) (User.password u)));
    [reflexivity|].
  unfold bind at 1, newDate at 1. cbn [clock quiet].
  unfold bind at 1. rewrite await_query_quiet.
  destruct secret as [[|c k]|]; reflexivity.
Qed.

(** The company login in the isolated world, as one cascade. *)
Lemma companyLogin_quiet secret e0 email p0 password s now :
  companyLogin secret
    (LoginBody.mk (Some (e0 :: email)) (Some (p0 :: password))) (quiet s now)
  = (match user_findFirst_campaigns (e0 :: email) now s with
     | Some (u, Some (company, running)) =>
         if negb (bcryptCompare (p0 :: password) (User.password u))
         then CompanyLoginInvalid
         else
           match secret with
           | Some (c :: k) =>
               let paid := filter (fun x => paymentCompleted (snd x)) running in
               CompanyLoggedIn u company (Z.of_nat (List.length paid))
                 (Z.of_nat (List.length running))
                 (jwtSign (User.id u) (User.email u) (User.role u)
                    (Z.of_nat (List.length paid) >? 0) (c :: k))
           | _ => CompanyLoginMisconfigured
           end
     | _ => CompanyLoginInvalid
     end, quiet s now).
Proof.
  unfold companyLogin. cbn [LoginBody.email LoginBody.password].
  unfold tryCatch, bind at 1, newDate at 1. cbn [clock quiet].
  unfold bind at 1. rewrite await_query_quiet.
  destruct (user_findFirst_campaigns (e0 :: email) now s)
    as [[u [[company running]|]]|]; try reflexivity.
  destruct (negb (bcryptCompare (p0 :: password) (User.password u)));
    [reflexivity|].
  destruct secret as [[|c k]|]; reflexivity.
Qed.

(** The student sign-up in the isolated world, as one cascade. *)
Lemma studentSignup_quiet secret n0 name e0 email p0 password s now :
  studentSignup secret
    (StudentSignupBody.mk (Some (n0 :: name)) (Some (e0 :: email))
       (Some (p0 :: password))) (quiet s now)
  = if negb (emailRegexTest (e0 :: email)) then (SignupBadEmail, quiet s now)
    else if Js.length (p0 :: password) <? 6 then (SignupShortPassword, quiet s now)
    else
      match Prisma.user_findUnique_email (e0 :: email) s with
      | Some _ => (SignupEmailTaken, quiet s now)
      | None =>
          let u := User.mk (Prisma.freshId (map User.id (users s))) (e0 :: email)
                     (bcryptHash (p0 :: password)) (n0 :: name) UserRole.STUDENT
                     now now None in
          (match secret with
           | Some (c :: k) =>
               SignupRegistered u
                 (jwtSign (User.id u) (User.email u) (User.role u) false (c :: k))
           | _ => SignupMisconfigured
           end, quiet (Prisma.withUsers s (users s ++ [u])) now)
      end.
Proof.
  unfold studentSignup.
  cbn [StudentSignupBody.name StudentSignupBody.email StudentSignupBody.password].
  destruct (negb (emailRegexTest (e0 :: email))); [reflexivity|].
  destruct (Js.length (p0 :: password) <? 6); [reflexivity|].
  unfold tryCatch, bind at 1. rewrite await_query_quiet.
  destruct (Prisma.user_findUnique_email (e0 :: email) s) eqn:Hnew;
    [reflexivity|].
  unfold bind at 1. rewrite await_quiet. unfold Prisma.user_create.
  rewrite Hnew. destruct secret as [[|c k]|]; reflexivity.
Qed.

(** What a successful student sign-up did. *)
Lemma studentSignup_registered secret body s now u token :
  fst (studentSignup secret body (quiet s now)) = SignupRegistered u token ->
  exists name email password,
    body = StudentSignupBody.mk (Some name) (Some email) (Some password)
    /\ email <> [] /\ password <> []
    /\ Prisma.user_findUnique_email email s = None
    /\ u = User.mk (Prisma.freshId (map User.id (users s))) email
             (bcryptHash password) name UserRole.STUDENT now now None
    /\ snd (studentSignup secret body (quiet s now))
       = quiet (Prisma.withUsers s (users s ++ [u])) now
    /\ Js.truthyStr secret = true
    /\ token = jwtSign (User.id u) email UserRole.STUDENT false
                 (Prisma.orElse secret []).
Proof.
  destruct body as [[[|n0 name]|] [[|e0 email]|] [[|p0 password]|]];
    try (cbn; discriminate).
  rewrite studentSignup_quiet.
  destruct (negb (emailRegexTest (e0 :: email))); [cbn; discriminate|].
  destruct (Js.length (p0 :: password) <? 6); [cbn; discriminate|].
  destruct (Prisma.user_findUnique_email (e0 :: email) s) eqn:Hnew;
    [cbn; discriminate|].
  destruct secret as [[|c k]|]; try (cbn; discriminate).
  cbv zeta. cbn [fst snd]. intros H. inversion H; subst. clear H.
  exists (n0 :: name), (e0 :: email), (p0 :: password).
  repeat split; try reflexivity; try discriminate. exact Hnew.
Qed.

(** X21. Signing up, then logging in.  After a student sign-up has
    succeeded, a login with the same email and password, at any later
    time and on a server with a JWT secret, finds that account and
    answers with its token, provided bcrypt accepts the password
    against its own hash; a login with a password that bcrypt does not
    accept against that hash is answered "Invalid email or password".
    The login writes nothing. *)
Theorem student_logs_in_after_signing_up :
  forall (s : Store) (now later : DateTime) (secret secret' : option JsString)
         (name email password : JsString) u token,
    bcryptCompare password (bcryptHash password) = true ->
    Js.truthyStr secret' = true ->
    fst (studentSignup secret
           (StudentSignupBody.mk (Some name) (Some email) (Some password))
           (quiet s now)) = SignupRegistered u token ->
    let s' := store (snd (studentSignup secret
                            (StudentSignupBody.mk (Some name) (Some email)
                               (Some password)) (quiet s now))) in
    let login p := studentLogin secret' (LoginBody.mk (Some email) (Some p))
                     (quiet s' later) in
    (exists sub,
        fst (login password)
        = StudentLoggedIn u sub
            (jwtSign (User.id u) email UserRole.STUDENT (isSome sub)
               (Prisma.orElse secret' [])))
    /\ (forall wrong,
           bcryptCompare wrong (bcryptHash password) = false ->
           fst (login wrong) <> StudentLoginMissingFields ->
           fst (login wrong) = StudentLoginInvalid)
    /\ (forall p, snd (login p) = quiet s' later).
Proof.
  intros s now later secret secret' name email password u token
         Hbc Hsec Hreg s' login.
  destruct (studentSignup_registered _ _ _ _ _ _ Hreg)
    as (n & e & p & Hbody & He & Hp & Hnew & Hu & Hw & _ & _).
  inversion Hbody; subst n e p. clear Hbody.
  assert (Hs' : s' = Prisma.withUsers s (users s ++ [u]))
    by (subst s'; rewrite Hw; reflexivity).
  clearbody s'. subst s'.
  assert (Hfind : user_findFirst_role email UserRole.STUDENT
                    (Prisma.withUsers s (users s ++ [u])) = Some u).
  { unfold user_findFirst_role. cbn [users Prisma.withUsers].
    apply find_app_last.
    - apply find_weaken. exact Hnew.
    - rewrite Hu. cbn [User.email User.role roleEqb].
      rewrite andb_true_r. apply Js_eqb_eq. reflexivity. }
  destruct email as [|e0 email]; [contradiction|].
  destruct password as [|p0 password]; [contradiction|].
  destruct secret' as [[|c k]|]; try discriminate.
  subst login. cbv beta. split; [|split].
  - rewrite studentLogin_quiet, Hfind.
    replace (User.password u) with (bcryptHash (p0 :: password))
      by (rewrite Hu; reflexivity).
    rewrite Hbc. cbn [negb fst]. eexists.
    replace (User.email u) with (e0 :: email) by (rewrite Hu; reflexivity).
    replace (User.role u) with UserRole.STUDENT by (rewrite Hu; reflexivity).
    reflexivity.
  - intros wrong Hwrong Hfields.
    destruct wrong as [|w0 wrong]; [exfalso; apply Hfields; reflexivity|].
    rewrite studentLogin_quiet, Hfind.
    replace (User.password u) with (bcryptHash (p0 :: password))
      by (rewrite Hu; reflexivity).
    rewrite Hwrong. reflexivity.
  - intros p. destruct p as [|q0 p]; [reflexivity|].
    rewrite studentLogin_quiet. reflexivity.
Qed.

Lemma latest_some l :
  l <> [] -> exists x, Prisma.latest l = Some x.
Proof.
  destruct l as [|a l]; [contradiction|]. intros _. simpl.
  destruct (Prisma.latest l) as [y|]; [|eexists; reflexivity].
  destruct (_ >? _); eexists; reflexivity.
Qed.

Lemma latest_none l : Prisma.latest l = None -> l = [].
Proof.
  destruct l as [|a l]; [reflexivity|]. intros H.
  destruct (latest_some (a :: l)) as [x Hx]; [discriminate|]. congruence.
Qed.

(** What a successful student login found. *)
Lemma studentLogin_loggedIn secret body s now u sub token :
  fst (studentLogin secret body (quiet s now)) = StudentLoggedIn u sub token ->
  exists email password,
    body = LoginBody.mk (Some email) (Some password)
    /\ user_findFirst_role email UserRole.STUDENT s = Some u
    /\ bcryptCompare password (User.password u) = true
    /\ sub = studentSubscription_findFirst (User.id u) now s
    /\ Js.truthyStr secret = true
    /\ token = jwtSign (User.id u) (User.email u) (User.role u) (isSome sub)
                 (Prisma.orElse secret []).
Proof.
  destruct body as [[[|e0 email]|] [[|p0 password]|]]; try (cbn; discriminate).
  rewrite studentLogin_quiet. cbn [fst].
  destruct (user_findFirst_role (e0 :: email) UserRole.STUDENT s) as [u'|] eqn:Hf;
    [|discriminate].
  destruct (bcryptCompare (p0 :: password) (User.password u')) eqn:Hbc;
    [|discriminate].
  cbn [negb]. destruct secret as [[|c k]|]; try discriminate.
  intros H. inversion H; subst. clear H.
  exists (e0 :: email), (p0 :: password).
  repeat split; try reflexivity; assumption.
Qed.

(** X22. The subscription flag of a login and the subscription check
    of the apply.  The flag a student login puts in the token is true
    only if, at the same instant, the apply handler finds an active
    subscription of that student; the two disagree, the flag false and
    the apply's check passing, only when a subscription of the student
    ends at that very instant: the login asks for [endsAt] after now,
    the apply for [endsAt] at or after now. *)
Theorem login_flag_agrees_with_the_apply_check_up_to_the_boundary :
  forall (s : Store) (now : DateTime) (secret : option JsString)
         (body : LoginBody.t) u sub token,
    fst (studentLogin secret body (quiet s now)) = StudentLoggedIn u sub token ->
    token = jwtSign (User.id u) (User.email u) (User.role u) (isSome sub)
              (Prisma.orElse secret [])
    /\ (isSome sub = true -> activePlan (User.id u) now s <> None)
    /\ (isSome sub = false ->
        activePlan (User.id u) now s <> None ->
        exists x,
          In x (studentSubscriptions s)
          /\ StudentSubscription.userId x = User.id u
          /\ StudentSubscription.status x = SubscriptionStatus.ACTIVE
          /\ StudentSubscription.endsAt x = now)
    /\ snd (studentLogin secret body (quiet s now)) = quiet s now.
Proof.
  intros s now secret body u sub token Hlog.
  destruct (studentLogin_loggedIn _ _ _ _ _ _ _ Hlog)
    as (email & password & Hbody & Hu & _ & Hsub & _ & Htok).
  split; [exact Htok|].
  assert (Huser : exists u', Prisma.userById s (User.id u) = Some u').
  { unfold user_findFirst_role in Hu. apply find_some in Hu.
    destruct Hu as [Hin _]. unfold Prisma.userById.
    destruct (find (fun x => N.eqb (User.id x) (User.id u)) (users s)) as [u'|] eqn:E;
      [exists u'; reflexivity|].
    exfalso. apply (find_none _ _ E) in Hin. rewrite N.eqb_refl in Hin.
    discriminate. }
  destruct Huser as [u' Hu'].
  split; [|split].
  - intros Hflag. unfold activePlan, Prisma.user_findUnique_subscriptions.
    rewrite Hu'.
    destruct (Prisma.latest (Prisma.activeSubscriptions (User.id u) now s))
      as [[x p]|] eqn:Hl; [discriminate|].
    exfalso. apply latest_none in Hl.
    rewrite Hsub in Hflag. unfold studentSubscription_findFirst in Hflag.
    unfold Prisma.activeSubscriptions in Hl.
    induction (studentSubscriptions s) as [|x l IH]; [discriminate|].
    cbn [flat_map] in Hflag, Hl. apply app_eq_nil in Hl. destruct Hl as [Hx Hl].
    destruct (N.eqb (StudentSubscription.userId x) (User.id u)
              && SubscriptionStatus.eqb (StudentSubscription.status x)
                   SubscriptionStatus.ACTIVE) eqn:Hc; cbn [andb] in *.
    + destruct (StudentSubscription.endsAt x >? now) eqn:Hgt.
      * assert (Hge : (StudentSubscription.endsAt x >=? now) = true).
        { rewrite Z.geb_leb. apply Z.leb_le. rewrite Z.gtb_ltb in Hgt.
          apply Z.ltb_lt in Hgt. lia. }
        rewrite Hge in Hx.
        destruct (Prisma.planById s (StudentSubscription.planId x));
          [discriminate|]. cbn [app] in Hflag. apply IH; assumption.
      * cbn [app] in Hflag. apply IH; assumption.
    + cbn [app] in Hflag. apply IH; assumption.
  - intros Hflag Hplan. unfold activePlan, Prisma.user_findUnique_subscriptions in Hplan.
    rewrite Hu' in Hplan.
    destruct (Prisma.latest (Prisma.activeSubscriptions (User.id u) now s))
      as [[x p]|] eqn:Hl; [|exfalso; apply Hplan; reflexivity].
    apply latest_is_most_recent in Hl. destruct Hl as [Hin _].
    unfold Prisma.activeSubscriptions in Hin. apply in_flat_map in Hin.
    destruct Hin as (y & Hy & Hin).
    destruct (N.eqb (StudentSubscription.userId y) (User.id u)
              && SubscriptionStatus.eqb (StudentSubscription.status y)
                   SubscriptionStatus.ACTIVE
              && (StudentSubscription.endsAt y >=? now)) eqn:Hc; [|contradiction].
    destruct (Prisma.planById s (StudentSubscription.planId y)) as [p'|] eqn:Hp;
      [|contradiction].
    apply andb_true_iff in Hc. destruct Hc as [Hc Hge].
    pose proof Hc as Hc'. apply andb_true_iff in Hc'. destruct Hc' as [Hid Hst].
    apply N.eqb_eq in Hid.
    exists y. split; [exact Hy|]. split; [exact Hid|].
    split; [destruct (StudentSubscription.status y); try discriminate; reflexivity|].
    rewrite Z.geb_leb in Hge. apply Z.leb_le in Hge.
    destruct (Z.eq_dec (StudentSubscription.endsAt y) now) as [E|Hne]; [exact E|].
    exfalso. rewrite Hsub in Hflag. unfold studentSubscription_findFirst in Hflag.
    assert (Hne' : flat_map
             (fun sub0 =>
                if N.eqb (StudentSubscription.userId sub0) (User.id u)
                   && SubscriptionStatus.eqb (StudentSubscription.status sub0)
                        SubscriptionStatus.ACTIVE
                   && (StudentSubscription.endsAt sub0 >? now)
                then match Prisma.planById s (StudentSubscription.planId sub0) with
                     | Some p0 => [(sub0, p0)]
                     | None => []
                     end
                else []) (studentSubscriptions s) <> []).
    { intros Hnil.
      assert (Hmem : In (y, p')
                (flat_map
                   (fun sub0 =>
                      if N.eqb (StudentSubscription.userId sub0) (User.id u)
                         && SubscriptionStatus.eqb (StudentSubscription.status sub0)
                              SubscriptionStatus.ACTIVE
                         && (StudentSubscription.endsAt sub0 >? now)
                      then match Prisma.planById s (StudentSubscription.planId sub0) with
                           | Some p0 => [(sub0, p0)]
                           | None => []
                           end
                      else []) (studentSubscriptions s))).
      { apply in_flat_map. exists y. split; [exact Hy|].
        rewrite Hc, Hp.
        replace (StudentSubscription.endsAt y >? now) with true
          by (symmetry; rewrite Z.gtb_ltb; apply Z.ltb_lt; lia).
        left. reflexivity. }
      rewrite Hnil in Hmem. contradiction. }
    destruct (flat_map _ (studentSubscriptions s)); [contradiction|discriminate].
  - destruct body as [[[|e0 e]|] [[|p0 p]|]]; try reflexivity.
    rewrite studentLogin_quiet. reflexivity.
Qed.

End LoginProperties.

(** ** Signing up on a server without a JWT secret *)

Section SignupWithoutSecret.

Context {rt : JsRuntime} {db : Database}.

(** The company sign-up in the isolated world, as one cascade. *)
Lemma companySignup_quiet secret n0 name e0 email p0 password c0 companyName
  website description logo s now :
  companySignup secret
    (CompanySignupBody.mk (Some (n0 :: name)) (Some (e0 :: email))
       (Some (p0 :: password)) (Some (c0 :: companyName))
       website description logo) (quiet s now)
  = if negb (emailRegexTest (e0 :: email)) then (SignupBadEmail, quiet s now)
    else if Js.length (p0 :: password) <? 6 then (SignupShortPassword, quiet s now)
    else if Js.truthyStr website && negb (urlRegexTest (Prisma.orElse website []))
    then (SignupBadWebsite, quiet s now)
    else
      match Prisma.user_findUnique_email (e0 :: email) s with
      | Some _ => (SignupEmailTaken, quiet s now)
      | None =>
          match company_findFirst_name (c0 :: companyName) s with
          | Some _ => (SignupCompanyNameTaken, quiet s now)
          | None =>
              let co := Company.mk (Prisma.freshId (map Company.id (companies s)))
                          (c0 :: companyName) (orNull website) (orNull logo)
                          (orNull description) now now in
              let u := User.mk (Prisma.freshId (map User.id (users s)))
                         (e0 :: email) (bcryptHash (p0 :: password)) (n0 :: name)
                         UserRole.COMPANY now now (Some (Company.id co)) in
              (match secret with
               | Some (c :: k) =>
                   SignupRegistered u
                     (jwtSign (User.id u) (User.email u) (User.role u) false
                        (c :: k))
               | _ => SignupMisconfigured
               end,
               quiet (Prisma.withUsers
                        (Prisma.withCompanies s (companies s ++ [co]))
                        (users s ++ [u])) now)
          end
      end.
Proof.
  unfold companySignup.
  cbn [CompanySignupBody.name CompanySignupBody.email CompanySignupBody.password
       CompanySignupBody.companyName CompanySignupBody.companyWebsite
       CompanySignupBody.companyDescription CompanySignupBody.companyLogo].
  destruct (negb (emailRegexTest (e0 :: email))); [reflexivity|].
  destruct (Js.length (p0 :: password) <? 6); [reflexivity|].
  destruct (Js.truthyStr website && negb (urlRegexTest (Prisma.orElse website [])));
    [reflexivity|].
  unfold tryCatch, bind at 1. rewrite await_query_quiet.
  destruct (Prisma.user_findUnique_email (e0 :: email) s) eqn:Hnew;
    [reflexivity|].
  unfold bind at 1. rewrite await_query_quiet.
  destruct (company_findFirst_name (c0 :: companyName) s); [reflexivity|].
  unfold bind at 1, transaction. rewrite await_quiet. cbn [noop].
  unfold bind at 1. unfold bind at 1. rewrite awaitTx_quiet, await_quiet.
  unfold Prisma.company_create.
  unfold bind at 1. rewrite awaitTx_quiet, await_quiet.
  unfold Prisma.user_create.
  change (Prisma.user_findUnique_email (e0 :: email)
            (Prisma.withCompanies s
               (companies s ++
                [Company.mk (Prisma.freshId (map Company.id (companies s)))
                   (c0 :: companyName) (orNull website) (orNull logo)
                   (orNull description) now now])))
    with (Prisma.user_findUnique_email (e0 :: email) s).
  rewrite Hnew. unfold Prisma.companyById.
  cbn [companies Prisma.withCompanies Company.id].
  rewrite (find_app_last _ _ _
             (find_none_of_not_in Company.id _ _
                (fresh_not_in (map Company.id (companies s)))))
    by (cbn; apply N.eqb_refl).
  destruct secret as [[|c k]|]; reflexivity.
Qed.

(** X14. Both sign-ups check the JWT secret after they have written.
    On a server whose JWT_SECRET is unset or empty, a valid student
    sign-up with a new email answers 500 "Server configuration error",
    yet the account exists afterwards, a STUDENT with the hashed
    password; a valid company sign-up with a new email and a new
    company name answers 500 as well, and the company and its user,
    linked to it, exist afterwards.  Signing up again with the same
    email, whatever the secret then, answers 409. *)
Theorem sign_ups_check_the_jwt_secret_after_writing :
  forall (s : Store) (now : DateTime) (secret : option JsString)
         (name email password : JsString),
    secret = None \/ secret = Some [] ->
    name <> [] -> email <> [] -> password <> [] ->
    emailRegexTest email = true ->
    6 <= Js.length password ->
    Prisma.user_findUnique_email email s = None ->
    (let body := StudentSignupBody.mk (Some name) (Some email) (Some password) in
     let r := studentSignup secret body (quiet s now) in
     fst r = SignupMisconfigured
     /\ signupHttpStatus (fst r) = 500
     /\ (exists u,
           store (snd r) = Prisma.withUsers s (users s ++ [u])
           /\ User.email u = email
           /\ User.role u = UserRole.STUDENT
           /\ User.password u = bcryptHash password
           /\ User.companyId u = None)
     /\ forall secret' now',
          fst (studentSignup secret' body (quiet (store (snd r)) now'))
          = SignupEmailTaken)
    /\ (forall companyName website description logo,
          companyName <> [] ->
          Js.truthyStr website && negb (urlRegexTest (Prisma.orElse website []))
          = false ->
          company_findFirst_name companyName s = None ->
          let body := CompanySignupBody.mk (Some name) (Some email) (Some password)
                        (Some companyName) website description logo in
          let r := companySignup secret body (quiet s now) in
          fst r = SignupMisconfigured
          /\ signupHttpStatus (fst r) = 500
          /\ (exists co u,
                store (snd r)
                = Prisma.withUsers (Prisma.withCompanies s (companies s ++ [co]))
                    (users s ++ [u])
                /\ Company.name co = companyName
                /\ ~ In (Company.id co) (map Company.id (companies s))
                /\ User.email u = email
                /\ User.role u = UserRole.COMPANY
                /\ User.password u = bcryptHash password
                /\ User.companyId u = Some (Company.id co))
          /\ forall secret' now',
               fst (companySignup secret' body (quiet (store (snd r)) now'))
               = SignupEmailTaken).
Proof.
  intros s now secret name email password Hsec Hn He Hp Hre Hlen Hnew.
  destruct name as [|n0 name]; [contradiction|].
  destruct email as [|e0 email]; [contradiction|].
  destruct password as [|p0 password]; [contradiction|].
  assert (Hshort : (Js.length (p0 :: password) <? 6) = false)
    by (apply Z.ltb_ge; exact Hlen).
  assert (Hself : Js.eqb (e0 :: email) (e0 :: email) = true)
    by (apply Js_eqb_eq; reflexivity).
  split.
  - cbv zeta. rewrite studentSignup_quiet, Hre, Hshort, Hnew.
    cbn [negb]. cbv zeta.
    replace (match secret with
             | Some (c :: k) => _
             | _ => SignupMisconfigured
             end) with SignupMisconfigured
      by (destruct Hsec as [->| ->]; reflexivity).
    cbn [fst snd store quiet signupHttpStatus].
    split; [reflexivity|]. split; [reflexivity|]. split.
    + eexists. split; [reflexivity|]. repeat split; reflexivity.
    + intros secret' now'. rewrite studentSignup_quiet, Hre, Hshort.
      cbn [negb].
      unfold Prisma.user_findUnique_email at 1. cbn [users Prisma.withUsers].
      rewrite (find_app_last _ _ _ Hnew); [reflexivity|exact Hself].
  - intros companyName website description logo Hc Hweb Hco.
    destruct companyName as [|c0 companyName]; [contradiction|].
    cbv zeta. rewrite companySignup_quiet, Hre, Hshort, Hweb, Hnew, Hco.
    cbn [negb]. cbv zeta.
    replace (match secret with
             | Some (c :: k) => _
             | _ => SignupMisconfigured
             end) with SignupMisconfigured
      by (destruct Hsec as [->| ->]; reflexivity).
    cbn [fst snd store quiet signupHttpStatus].
    split; [reflexivity|]. split; [reflexivity|]. split.
    + do 2 eexists. split; [reflexivity|].
      cbn [Company.name Company.id User.email User.role User.password
           User.companyId].
      split; [reflexivity|]. split; [apply fresh_not_in|].
      repeat split; reflexivity.
    + intros secret' now'. rewrite companySignup_quiet, Hre, Hshort, Hweb.
      cbn [negb].
      unfold Prisma.user_findUnique_email at 1.
      cbn [users Prisma.withUsers Prisma.withCompanies].
      rewrite (find_app_last _ _ _ Hnew); [reflexivity|exact Hself].
Qed.

End SignupWithoutSecret.

Section CompanyLoginProperties.

Context {rt : JsRuntime} {cr : Credentials}.

(** What a successful launch wrote, on a store whose campaigns and
    payments match. *)
Lemma launch_launched uid body s now c :
  paymentsMatch s ->
  fst (launchCampaign uid (Json body) (quiet s now)) = LaunchLaunched c ->
  exists p,
    snd (launchCampaign uid (Json body) (quiet s now))
    = quiet (Prisma.withCampaignPayments
               (Prisma.withCampaigns s (campaigns s ++ [c]))
               (campaignPayments s ++ [p])) now
    /\ ~ In (Campaign.id c) (map Campaign.id (campaigns s))
    /\ Campaign.status c = CampaignStatus.ACTIVE
    /\ CampaignPayment.campaignId p = Campaign.id c
    /\ CampaignPayment.status p = paymentStatusFor (LaunchBody.transactionId body).
Proof.
  intros Hm.
  destruct (negb (Js.truthy (LaunchBody.title body))
            || negb (Js.truthy (LaunchBody.budget body))
            || negb (Js.truthy (LaunchBody.endDate body))
            || negb (Js.truthy (LaunchBody.maxInternships body))
            || negb (Js.truthy (LaunchBody.paymentMethod body))) eqn:Hreq.
  { rewrite launchCampaign_quiet, Hreq. discriminate. }
  destruct (Prisma.user_findUnique_company uid s) as [[u [company|]]|] eqn:Hu;
    try (rewrite launchCampaign_quiet, Hreq, Hu; discriminate).
  destruct (launch_quiet_result uid body s now u company Hm Hu Hreq)
    as [[E _]|(t0 & de0 & m0 & ti0 & d & n & _ & E)]; cbv zeta in E; rewrite E;
    cbn [fst snd]; [discriminate|].
  intros H. inversion H; subst c. clear H.
  eexists. split; [reflexivity|].
  cbn [Campaign.id Campaign.status CampaignPayment.campaignId
       CampaignPayment.status].
  split; [apply fresh_not_in|]. repeat split; reflexivity.
Qed.

(** X23. A launched campaign at the company login.  After a launch has
    succeeded, on a store whose campaigns and payments matched, a login
    that succeeded before the launch succeeds after it for the same
    user and company, and its counts differ by the new campaign alone:
    [totalCampaigns] is one more when the campaign is of that company
    and ends after the time of the login, and [activeCampaigns], on
    which the token's [hasActiveCampaigns] rests, is one more only if
    in addition the launch carried a transaction id.  The login writes
    nothing. *)
Theorem launched_campaign_counts_at_login_only_when_paid :
  forall (s : Store) (now later : DateTime) (uid : Id) (body : LaunchBody.t) c
         (secret : option JsString) (login : LoginBody.t)
         u company active total token,
    paymentsMatch s ->
    fst (launchCampaign uid (Json body) (quiet s now)) = LaunchLaunched c ->
    fst (companyLogin secret login (quiet s later))
    = CompanyLoggedIn u company active total token ->
    let s' := store (snd (launchCampaign uid (Json body) (quiet s now))) in
    let running := N.eqb (Campaign.companyId c) (Company.id company)
                   && (Campaign.endDate c >? later) in
    let paid := running && Js.truthy (LaunchBody.transactionId body) in
    let active' := active + (if paid then 1 else 0) in
    companyLogin secret login (quiet s' later)
    = (CompanyLoggedIn u company active' (total + (if running then 1 else 0))
         (jwtSign (User.id u) (User.email u) (User.role u) (active' >? 0)
            (Prisma.orElse secret [])),
       quiet s' later).
Proof.
  intros s now later uid body c secret login u company active total token
         Hm Hlaunch Hlogin s' running paid active'.
  destruct (launch_launched _ _ _ _ _ Hm Hlaunch)
    as (p & Hw & Hfresh & Hact & Hpc & Hps).
  assert (Hs' : s' = Prisma.withCampaignPayments
                       (Prisma.withCampaigns s (campaigns s ++ [c]))
                       (campaignPayments s ++ [p]))
    by (subst s'; rewrite Hw; reflexivity).
  clearbody s'. subst s'.
  destruct Hm as [Hnd Hperm].
  assert (Hold : forall c0, In c0 (campaigns s) ->
            campaign_payment
              (Prisma.withCampaignPayments
                 (Prisma.withCampaigns s (campaigns s ++ [c]))
                 (campaignPayments s ++ [p])) c0
            = campaign_payment s c0).
  { intros c0 Hin. unfold campaign_payment.
    cbn [campaignPayments Prisma.withCampaignPayments].
    destruct (find (fun x => N.eqb (CampaignPayment.campaignId x) (Campaign.id c0))
                (campaignPayments s)) as [p0|] eqn:E.
    - apply find_app_found. exact E.
    - exfalso.
      assert (Hin' : In (Campaign.id c0)
                       (map CampaignPayment.campaignId (campaignPayments s))).
      { apply (Permutation_in _ Hperm). apply in_map. exact Hin. }
      apply in_map_iff in Hin'. destruct Hin' as (p0 & Hp0 & Hin0).
      apply (find_none _ _ E) in Hin0. rewrite Hp0, N.eqb_refl in Hin0.
      discriminate. }
  assert (Hnewp : campaign_payment
                    (Prisma.withCampaignPayments
                       (Prisma.withCampaigns s (campaigns s ++ [c]))
                       (campaignPayments s ++ [p])) c = Some p).
  { unfold campaign_payment. cbn [campaignPayments Prisma.withCampaignPayments].
    apply find_app_last; [|rewrite Hpc; apply N.eqb_refl].
    apply find_none_of_not_in. intros Hin. apply Hfresh.
    apply (Permutation_in _ (Permutation_sym Hperm)). exact Hin. }
  assert (Hrun : forall co,
            company_campaigns_running co later
              (Prisma.withCampaignPayments
                 (Prisma.withCampaigns s (campaigns s ++ [c]))
                 (campaignPayments s ++ [p]))
            = company_campaigns_running co later s
              ++ (if N.eqb (Campaign.companyId c) co && (Campaign.endDate c >? later)
                  then [(c, Some p)] else [])).
  { intros co. unfold company_campaigns_running.
    cbn [campaigns Prisma.withCampaignPayments Prisma.withCampaigns].
    rewrite filter_app, map_app. f_equal.
    - apply map_ext_in. intros c0 Hc0. apply filter_In in Hc0.
      destruct Hc0 as [Hc0 _]. rewrite (Hold c0 Hc0). reflexivity.
    - cbn [filter]. rewrite Hact. cbn [CampaignStatus.eqb].
      rewrite andb_true_r.
      destruct (N.eqb (Campaign.companyId c) co && (Campaign.endDate c >? later));
        [cbn [map]; rewrite Hnewp; reflexivity|reflexivity]. }
  destruct login as [[[|e0 email]|] [[|p0 password]|]];
    try (cbn in Hlogin; discriminate).
  rewrite companyLogin_quiet in Hlogin. rewrite companyLogin_quiet.
  cbn [fst] in *. f_equal.
  unfold user_findFirst_campaigns in *.
  change (user_findFirst_role (e0 :: email) UserRole.COMPANY
            (Prisma.withCampaignPayments
               (Prisma.withCampaigns s (campaigns s ++ [c]))
               (campaignPayments s ++ [p])))
    with (user_findFirst_role (e0 :: email) UserRole.COMPANY s).
  destruct (user_findFirst_role (e0 :: email) UserRole.COMPANY s) as [u0|];
    [|discriminate].
  destruct (User.companyId u0) as [cid|]; [|discriminate].
  change (Prisma.companyById
            (Prisma.withCampaignPayments
               (Prisma.withCampaigns s (campaigns s ++ [c]))
               (campaignPayments s ++ [p])) cid)
    with (Prisma.companyById s cid).
  destruct (Prisma.companyById s cid) as [co|]; [|discriminate].
  destruct (negb (bcryptCompare (p0 :: password) (User.password u0)));
    [discriminate|].
  destruct secret as [[|k0 k]|]; try discriminate.
  cbv zeta in Hlogin. inversion Hlogin; subst. clear Hlogin.
  cbv zeta. rewrite Hrun, filter_app, !length_app.
  subst active' paid running. cbn [Prisma.orElse].
  destruct (N.eqb (Campaign.companyId c) (Company.id company)
            && (Campaign.endDate c >? later)); cbn [andb filter snd List.length].
  - unfold paymentCompleted. rewrite Hps. unfold paymentStatusFor.
    destruct (Js.truthy (LaunchBody.transactionId body));
      cbn [List.length]; rewrite !Nat2Z.inj_add; reflexivity.
  - rewrite !Nat.add_0_r, !Z.add_0_r. reflexivity.
Qed.

End CompanyLoginProperties.

(** ** The details of an internship *)

Lemma filter_length_pos {A} (p : A -> bool) (l : list A) :
  (Z.of_nat (List.length (filter p l)) >? 0) = existsb p l.
Proof.
  induction l as [|a l IH]; [reflexivity|]. simpl.
  destruct (p a); [|exact IH]. simpl.
  rewrite Z.gtb_ltb. apply Z.ltb_lt. lia.
Qed.

Lemma find_nodup_in {A} (key : A -> Id) (l : list A) (x : A) :
  NoDup (map key l) -> In x l ->
  find (fun a => N.eqb (key a) (key x)) l = Some x.
Proof.
  intros Hnd Hin.
  destruct (find (fun a => N.eqb (key a) (key x)) l) as [y|] eqn:E.
  - pose proof (find_some_id key (key x) l y E) as Hk.
    apply find_some in E. destruct E as [Hy _].
    rewrite (nodup_key_inj key l y x Hnd Hy Hin Hk). reflexivity.
  - apply (find_none _ _ E) in Hin. rewrite N.eqb_refl in Hin. discriminate.
Qed.

Section DetailsProperties.

Context {rt : JsRuntime} {db : Database}.

(** The details in the isolated world, as one cascade. *)
Lemma getInternshipDetails_quiet uid iid s now :
  getInternshipDetails uid iid (quiet s now)
  = (match internship_findUnique_open iid uid now s with
     | None => DetailsNotFound
     | Some (i, co, ca, mine, count) =>
         if negb (CampaignStatus.eqb (Campaign.status ca) CampaignStatus.ACTIVE)
         then DetailsNotAccepting
         else
           match internship_findMany_similar iid i s now with
           | inl _ => DetailsFailed
           | inr (similar, _) =>
               DetailsShown
                 (Details.mk i co ca count (hd_error mine)
                    (Z.of_nat (List.length mine) >? 0)
                    ((Z.of_nat (List.length mine) =? 0)
                     && (now <? Internship.deadline i))
                    similar)
           end
     end, quiet s now).
Proof.
  unfold getInternshipDetails, tryCatch.
  unfold bind at 1, newDate at 1. cbn [clock quiet].
  unfold bind at 1. rewrite await_query_quiet.
  destruct (internship_findUnique_open iid uid now s)
    as [[[[[i co] ca] mine] count]|]; [|reflexivity].
  destruct (negb (CampaignStatus.eqb (Campaign.status ca) CampaignStatus.ACTIVE));
    [reflexivity|].
  unfold bind at 1. rewrite await_quiet.
  unfold internship_findMany_similar.
  destruct (orderInternships _ _ _) as [sorted|]; reflexivity.
Qed.

(** What the details show when they show something. *)
Lemma getInternshipDetails_shown uid iid s now d :
  fst (getInternshipDetails uid iid (quiet s now)) = DetailsShown d ->
  let i := Details.internship d in
  let mine := filter (fun a => N.eqb (Application.userId a) uid)
                (filter (fun a => N.eqb (Application.internshipId a)
                                    (Internship.id i)) (applications s)) in
  Prisma.internship_findUnique iid s
  = Some (i, Details.company d, Details.campaign d)
  /\ Internship.id i = iid
  /\ Internship.isActive i = true
  /\ now <= Internship.deadline i
  /\ Campaign.status (Details.campaign d) = CampaignStatus.ACTIVE
  /\ Details.hasApplied d = (Z.of_nat (List.length mine) >? 0)
  /\ Details.canApply d
     = ((Z.of_nat (List.length mine) =? 0) && (now <? Internship.deadline i))
  /\ Details.applicationCount d
     = Z.of_nat (List.length
                   (filter (fun a => N.eqb (Application.internshipId a)
                                       (Internship.id i)) (applications s)))
  /\ Details.userApplication d = hd_error mine
  /\ exists sorted,
       orderInternships (Js.lit "postedAt") (Js.lit "desc")
         (filter (similarTo iid i now) (internships s)) = Some sorted
       /\ Details.similarInternships d
          = firstn 5
              (flat_map (fun j =>
                           match Prisma.companyById s (Internship.companyId j) with
                           | Some co => [(j, co)]
                           | None => []
                           end) sorted).
Proof.
  rewrite getInternshipDetails_quiet. cbn [fst].
  unfold internship_findUnique_open.
  destruct (Prisma.internship_findUnique iid s) as [[[i co] ca]|] eqn:Hf;
    [|discriminate].
  destruct (Internship.isActive i && (Internship.deadline i >=? now)) eqn:Hopen;
    [|discriminate].
  destruct (CampaignStatus.eqb (Campaign.status ca) CampaignStatus.ACTIVE) eqn:Hst;
    [|discriminate].
  cbn [negb]. unfold internship_findMany_similar.
  destruct (orderInternships _ _ _) as [sorted|] eqn:Ho; [|discriminate].
  intros H. inversion H; subst d. clear H.
  cbn [Details.internship Details.company Details.campaign Details.hasApplied
       Details.canApply Details.applicationCount Details.userApplication
       Details.similarInternships].
  apply andb_true_iff in Hopen. destruct Hopen as [Hact Hdl].
  rewrite Z.geb_leb in Hdl. apply Z.leb_le in Hdl.
  split; [reflexivity|].
  split.
  { apply internship_findUnique_row in Hf.
    exact (find_some_id Internship.id iid _ _ Hf). }
  split; [exact Hact|]. split; [exact Hdl|].
  split; [destruct (Campaign.status ca); try discriminate; reflexivity|].
  repeat (split; [reflexivity|]).
  exists sorted. split; [exact Ho|reflexivity].
Qed.

(** X24. The details and the listing show the same internships.  When
    the database orders by [postedAt] and internship ids are distinct:
    the details of an internship are shown exactly when it is in the
    store with its company and meets the three conditions of the
    listing (active, deadline not passed, campaign ACTIVE); and for
    every entry of a listing the details of that internship, asked by
    the same student at the same time, are shown with the same
    internship, the same [applicationCount] and the same
    [hasApplied]. *)
Theorem details_are_shown_for_the_internships_of_the_listing :
  forall (s : Store) (now : DateTime) (uid : Id),
    (forall l, orderInternships (Js.lit "postedAt") (Js.lit "desc") l <> None) ->
    NoDup (map Internship.id (internships s)) ->
    (forall iid,
        (exists d, fst (getInternshipDetails uid iid (quiet s now)) = DetailsShown d)
        <-> exists i co,
              Internship.id i = iid
              /\ visible s now i
              /\ Prisma.companyById s (Internship.companyId i) = Some co)
    /\ (forall q items cp tp total hn hp sk tg lo,
           fst (getInternships uid q (quiet s now))
           = Listed items cp tp total hn hp sk tg lo ->
           forall it, In it items ->
             exists d,
               fst (getInternshipDetails uid (Internship.id (item it)) (quiet s now))
               = DetailsShown d
               /\ Details.internship d = item it
               /\ Details.applicationCount d = applicationCount it
               /\ Details.hasApplied d = hasApplied it).
Proof.
  intros s now uid Horder Hnd.
  assert (Hshow : forall i co,
            visible s now i ->
            Prisma.companyById s (Internship.companyId i) = Some co ->
            exists d,
              fst (getInternshipDetails uid (Internship.id i) (quiet s now))
              = DetailsShown d
              /\ Details.internship d = i
              /\ Details.applicationCount d = applicationCount (listItemOf s uid i)
              /\ Details.hasApplied d = hasApplied (listItemOf s uid i)).
  { intros i co (Hin & Hact & Hdl & ca & Hca & Hst) Hco.
    assert (Hopen : internship_findUnique_open (Internship.id i) uid now s
                    = Some (i, co, ca,
                            filter (fun a => N.eqb (Application.userId a) uid)
                              (filter (fun a => N.eqb (Application.internshipId a)
                                                  (Internship.id i))
                                 (applications s)),
                            Z.of_nat
                              (List.length
                                 (filter (fun a => N.eqb (Application.internshipId a)
                                                     (Internship.id i))
                                    (applications s))))).
    { unfold internship_findUnique_open, Prisma.internship_findUnique,
        Prisma.internshipById.
      rewrite (find_nodup_in Internship.id _ _ Hnd Hin), Hco, Hca, Hact.
      replace (Internship.deadline i >=? now) with true
        by (symmetry; rewrite Z.geb_leb; apply Z.leb_le; exact Hdl).
      reflexivity. }
    rewrite getInternshipDetails_quiet, Hopen, Hst. cbn [fst].
    cbn [negb CampaignStatus.eqb].
    unfold internship_findMany_similar.
    destruct (orderInternships (Js.lit "postedAt") (Js.lit "desc")
                (filter (similarTo (Internship.id i) i now) (internships s)))
      as [sorted|] eqn:Ho;
      [|exfalso; exact (Horder _ Ho)].
    eexists. split; [reflexivity|].
    cbn [Details.internship Details.applicationCount Details.hasApplied
         listItemOf applicationCount hasApplied].
    split; [reflexivity|]. split; [reflexivity|].
    apply filter_length_pos. }
  split.
  - intros iid. split.
    + intros [d Hd].
      destruct (getInternshipDetails_shown _ _ _ _ _ Hd)
        as (Hf & Hid & Hact & Hdl & Hst & _).
      exists (Details.internship d), (Details.company d).
      split; [exact Hid|].
      pose proof (internship_findUnique_row _ _ _ _ _ Hf) as Hrow.
      unfold Prisma.internship_findUnique in Hf. rewrite Hrow in Hf.
      destruct (Prisma.companyById s (Internship.companyId (Details.internship d)))
        as [co|] eqn:Hco; [|discriminate].
      destruct (Prisma.campaignById s (Internship.campaignId (Details.internship d)))
        as [ca|] eqn:Hca; [|discriminate].
      injection Hf as Hco' Hca'. split; [|rewrite Hco'; reflexivity].
      split; [apply find_some in Hrow; apply Hrow|].
      split; [exact Hact|]. split; [exact Hdl|].
      exists ca. split; [exact Hca|]. rewrite Hca'. exact Hst.
    + intros (i & co & Hid & Hvis & Hco).
      destruct (Hshow i co Hvis Hco) as (d & Hd & _).
      exists d. rewrite <- Hid. exact Hd.
  - intros q items cp tp total hn hp sk tg lo Hl it Hit.
    pose proof (getInternships_listed _ _ _ _ _ _ _ _ _ _ _ _ _ Hl (item it)
                  (in_map item _ _ Hit)) as Hm.
    destruct (getInternships_inv _ _ _ _ _ _ _ _ _ _ _ _ _ Hl)
      as (l & sorted & rows & _ & _ & _ & _ & Hitems & _).
    assert (Hitem : it = listItemOf s uid (item it)).
    { rewrite Hitems in Hit. apply in_map_iff in Hit.
      destruct Hit as (i & <- & _). reflexivity. }
    pose proof (matching_visible _ _ _ _ Hm) as Hvis.
    assert (Hco : exists co,
              Prisma.companyById s (Internship.companyId (item it)) = Some co).
    { unfold matching in Hm. apply in_map_iff in Hm.
      destruct Hm as ([[j co] ca] & Hj & Hrow). cbn in Hj. subst j.
      apply filter_In in Hrow. destruct Hrow as [Hrow _].
      apply joined_row in Hrow. destruct Hrow as (_ & Hco & _).
      exists co. exact Hco. }
    destruct Hco as [co Hco].
    destruct (Hshow (item it) co Hvis Hco) as (d & Hd & Hi & Hc & Hh).
    exists d. rewrite Hitem at 3 4. repeat split; assumption.
Qed.

(** X25. The details and the apply.  When the details of an internship
    are shown to a student: [hasApplied] is true exactly when the store
    holds an application of that student to it; when [canApply] is
    true, an apply by that student at that time with a valid cover
    letter is stopped, if at all, by the subscription check or the
    monthly limit only; and [canApply] is false without an application
    only at the very instant of the deadline, when the apply is still
    not refused for the deadline, the details comparing with [<] and
    the apply with [>].  The details write nothing. *)
Theorem details_and_apply_agree_up_to_the_deadline_instant :
  forall (s : Store) (now : DateTime) (uid iid : Id) d,
    fst (getInternshipDetails uid iid (quiet s now)) = DetailsShown d ->
    let applies c :=
      In (applyOutcome (fst (applyToInternship uid iid (Json c) (quiet s now))))
         [Success; SubscriptionRequired; QuotaExceeded] in
    (Details.hasApplied d = true
     <-> Prisma.application_findUnique iid uid s <> None)
    /\ (Details.canApply d = true ->
        forall c, coverLetterAccepted c = true -> applies c)
    /\ (Details.hasApplied d = false ->
        Details.canApply d = false ->
        Internship.deadline (Details.internship d) = now
        /\ forall c, coverLetterAccepted c = true -> applies c)
    /\ snd (getInternshipDetails uid iid (quiet s now)) = quiet s now.
Proof.
  intros s now uid iid d Hd applies.
  destruct (getInternshipDetails_shown _ _ _ _ _ Hd)
    as (Hf & Hid & Hact & Hdl & Hst & Hhas & Hcan & _).
  cbv zeta in Hhas, Hcan. rewrite Hid in Hhas, Hcan.
  assert (Hmine : forall l : list Application.t,
            existsb (fun a => N.eqb (Application.userId a) uid)
              (filter (fun a => N.eqb (Application.internshipId a) iid) l)
            = isSome (find (fun a => N.eqb (Application.internshipId a) iid
                                     && N.eqb (Application.userId a) uid) l)).
  { induction l as [|a l IH]; [reflexivity|]. simpl.
    destruct (N.eqb (Application.internshipId a) iid); simpl; [|exact IH].
    destruct (N.eqb (Application.userId a) uid); simpl; [reflexivity|exact IH]. }
  rewrite filter_length_pos, Hmine in Hhas.
  assert (Hzero : (Z.of_nat (List.length
                     (filter (fun a => N.eqb (Application.userId a) uid)
                        (filter (fun a => N.eqb (Application.internshipId a) iid)
                           (applications s)))) =? 0)
                  = negb (Details.hasApplied d)).
  { rewrite Hhas, <- Hmine, <- filter_length_pos.
    destruct (List.length _); reflexivity. }
  rewrite Hzero in Hcan.
  assert (Hgo : Prisma.application_findUnique iid uid s = None ->
                forall c, coverLetterAccepted c = true -> applies c).
  { intros Hnone c Hc. subst applies. cbv beta.
    rewrite applyToInternship_quiet.
    unfold coverLetterAccepted in Hc. apply andb_true_iff in Hc.
    destruct Hc as [Hc1 Hc2].
    apply negb_true_iff in Hc1, Hc2. rewrite Hc1, Hc2, Hf, Hact, Hst, Hnone.
    cbn [negb CampaignStatus.eqb].
    replace (now >? Internship.deadline (Details.internship d)) with false
      by (symmetry; rewrite Z.gtb_ltb; apply Z.ltb_ge; exact Hdl).
    destruct (activePlan uid now s) as [plan|]; [|cbn; auto].
    destruct (limitReached uid now s plan); cbn; auto. }
  unfold Prisma.application_findUnique in *.
  split; [|split; [|split]]; [| | |rewrite getInternshipDetails_quiet; reflexivity].
  - rewrite Hhas.
    destruct (find _ (applications s)); cbn [isSome];
      split; try discriminate; try reflexivity.
    intros H. exfalso. apply H. reflexivity.
  - intros Hyes. rewrite Hyes in Hcan. symmetry in Hcan.
    apply andb_true_iff in Hcan. destruct Hcan as [Hno _].
    apply negb_true_iff in Hno. rewrite Hhas in Hno.
    apply Hgo. destruct (find _ (applications s)); [discriminate|reflexivity].
  - intros Hno Hcannot. rewrite Hno, Hcannot in Hcan. cbn [negb andb] in Hcan.
    symmetry in Hcan. apply Z.ltb_ge in Hcan. split; [lia|].
    apply Hgo. rewrite Hhas in Hno.
    destruct (find _ (applications s)); [discriminate|reflexivity].
Qed.

(** X26. The similar internships.  When the details are shown, the
    similar internships are at most five, each of them another
    internship of the store, active, not past its deadline, of the same
    company or sharing a skill with the one shown.  The status of the
    campaign is not looked at: when no more than five internships meet
    these conditions, each of them whose company is in the store is
    among the similar ones, whatever campaign it sits under. *)
Theorem similar_internships_ignore_the_campaign :
  forall (s : Store) (now : DateTime) (uid iid : Id) d,
    fst (getInternshipDetails uid iid (quiet s now)) = DetailsShown d ->
    let i := Details.internship d in
    (List.length (Details.similarInternships d) <= 5)%nat
    /\ (forall j co,
           In (j, co) (Details.similarInternships d) ->
           In j (internships s)
           /\ Internship.id j <> Internship.id i
           /\ Internship.isActive j = true
           /\ now <= Internship.deadline j
           /\ (Internship.companyId j = Internship.companyId i
               \/ exists name, In name (Internship.skills j)
                               /\ In name (Internship.skills i))
           /\ Prisma.companyById s (Internship.companyId j) = Some co)
    /\ ((List.length (filter (similarTo iid i now) (internships s)) <= 5)%nat ->
        forall j co,
          In j (internships s) ->
          similarTo iid i now j = true ->
          Prisma.companyById s (Internship.companyId j) = Some co ->
          In (j, co) (Details.similarInternships d)).
Proof.
  intros s now uid iid d Hd i.
  destruct (getInternshipDetails_shown _ _ _ _ _ Hd)
    as (_ & Hid & _ & _ & _ & _ & _ & _ & _ & sorted & Ho & Hsim).
  fold i in Ho, Hsim, Hid.
  pose proof (orderInternships_perm _ _ _ _ Ho) as Hperm.
  set (rows := flat_map
                 (fun j => match Prisma.companyById s (Internship.companyId j) with
                           | Some co => [(j, co)]
                           | None => []
                           end) sorted) in *.
  assert (Hrows : forall j co,
            In (j, co) rows
            <-> In j sorted
                /\ Prisma.companyById s (Internship.companyId j) = Some co).
  { intros j co. subst rows. rewrite in_flat_map. split.
    - intros (x & Hx & Hin).
      destruct (Prisma.companyById s (Internship.companyId x)) as [co'|] eqn:E;
        [|contradiction].
      destruct Hin as [Hin|[]]. inversion Hin; subst. split; assumption.
    - intros [Hj Hco]. exists j. split; [exact Hj|]. rewrite Hco. left. reflexivity. }
  assert (Hlen : (List.length rows <= List.length sorted)%nat).
  { subst rows. clear. induction sorted as [|x l IH]; [apply le_n|].
    cbn [flat_map]. rewrite length_app. cbn [List.length].
    destruct (Prisma.companyById s (Internship.companyId x)); cbn [List.length]; lia. }
  rewrite Hsim. split; [|split].
  - rewrite length_firstn. apply Nat.le_min_l.
  - intros j co Hin. apply firstn_incl in Hin. apply Hrows in Hin.
    destruct Hin as [Hj Hco].
    apply (Permutation_in _ (Permutation_sym Hperm)) in Hj.
    apply filter_In in Hj. destruct Hj as [Hj Hs].
    unfold similarTo in Hs.
    apply andb_true_iff in Hs. destruct Hs as [Hs Hrel].
    apply andb_true_iff in Hs. destruct Hs as [Hs Hdl].
    apply andb_true_iff in Hs. destruct Hs as [Hne Hact].
    split; [exact Hj|].
    split; [apply negb_true_iff, N.eqb_neq in Hne; rewrite Hid; exact Hne|].
    split; [exact Hact|].
    split; [rewrite Z.geb_leb in Hdl; apply Z.leb_le in Hdl; exact Hdl|].
    split; [|exact Hco].
    apply orb_true_iff in Hrel. destruct Hrel as [Hc|Hsk].
    + left. apply N.eqb_eq in Hc. exact Hc.
    + right. apply existsb_exists in Hsk. destruct Hsk as (name & Hn & Hex).
      apply existsb_exists in Hex. destruct Hex as (name' & Hn' & He).
      apply Js_eqb_eq in He. subst name'. exists name. split; assumption.
  - intros Hfew j co Hj Hs Hco.
    rewrite firstn_all2.
    + apply Hrows. split; [|exact Hco].
      apply (Permutation_in _ Hperm). apply filter_In. split; assumption.
    + rewrite (Permutation_length Hperm) in Hfew. lia.
Qed.

End DetailsProperties.

(** ** The details of an application *)

Section ApplicationDetails.

Context {rt : JsRuntime}.

Lemma studentDetails_quiet uid aid s now :
  StudentApplication.getApplicationDetails uid aid (quiet s now)
  = (match StudentApplication.application_findFirst aid uid s with
     | None => ApplicationDetailsNotFound
     | Some row => ApplicationDetailsShown row None
     end, quiet s now).
Proof.
  unfold StudentApplication.getApplicationDetails, tryCatch, bind at 1.
  rewrite await_query_quiet.
  destruct (StudentApplication.application_findFirst aid uid s); reflexivity.
Qed.

Lemma companyDetails_quiet uid aid s now :
  CompanyApplication.getApplicationDetails uid aid (quiet s now)
  = (match Prisma.user_findUnique_company uid s with
     | Some (_, Some company) =>
         match CompanyApplication.application_findFirst aid (Company.id company) s with
         | None => ApplicationDetailsNotFound
         | Some (row, student) => ApplicationDetailsShown row (Some student)
         end
     | _ => ApplicationDetailsCompanyNotFound
     end, quiet s now).
Proof.
  unfold CompanyApplication.getApplicationDetails, tryCatch, bind at 1.
  rewrite await_query_quiet.
  destruct (Prisma.user_findUnique_company uid s) as [[u [company|]]|];
    try reflexivity.
  unfold bind at 1. rewrite await_query_quiet.
  destruct (CompanyApplication.application_findFirst aid (Company.id company) s)
    as [[row student]|]; reflexivity.
Qed.

(** X27. Who is shown a submitted application.  After an application
    has gone through, on a store with distinct internship ids, at any
    later time: the student route shows it, with the internship, its
    company and its campaign, to the student who applied, and answers
    "Application not found" to every other student; the company route
    shows it, with the student, to the users of the company that posted
    the internship, and answers "Application not found" to the users of
    every other company.  Neither route writes. *)
Theorem submitted_application_is_shown_to_its_student_and_its_company :
  forall (s : Store) (now later : DateTime) (uid iid : Id)
         (c : JsValue) a,
    NoDup (map Internship.id (internships s)) ->
    fst (applyToInternship uid iid (Json c) (quiet s now)) = ApplySubmitted a ->
    let s' := store (snd (applyToInternship uid iid (Json c) (quiet s now))) in
    exists i co ca student,
      Prisma.internship_findUnique iid s = Some (i, co, ca)
      /\ Prisma.userById s uid = Some student
      /\ (forall viewer,
             fst (StudentApplication.getApplicationDetails viewer
                    (Application.id a) (quiet s' later))
             = if N.eqb viewer uid
               then ApplicationDetailsShown (a, (i, co, ca)) None
               else ApplicationDetailsNotFound)
      /\ (forall rid r company,
             Prisma.user_findUnique_company rid s = Some (r, Some company) ->
             fst (CompanyApplication.getApplicationDetails rid
                    (Application.id a) (quiet s' later))
             = if N.eqb (Company.id company) (Company.id co)
               then ApplicationDetailsShown (a, (i, co, ca)) (Some student)
               else ApplicationDetailsNotFound)
      /\ (forall viewer aid,
             snd (StudentApplication.getApplicationDetails viewer aid
                    (quiet s' later)) = quiet s' later
             /\ snd (CompanyApplication.getApplicationDetails viewer aid
                       (quiet s' later)) = quiet s' later).
Proof.
  intros s now later uid iid c a Hnd Hsub s'.
  destruct (apply_success_inv _ _ _ _ _ _ Hsub)
    as (_ & (i & co & ca & Hf & _) & _ & (plan & Hplan & _) & Ha & Hw).
  destruct (activePlan_user _ _ _ _ Hplan) as (student & sub & Hstudent & _).
  assert (Hs' : s' = Prisma.withApplications s (applications s ++ [a]))
    by (subst s'; rewrite Hw; reflexivity).
  clearbody s'. subst s'.
  exists i, co, ca, student. split; [exact Hf|]. split; [exact Hstudent|].
  assert (Hid : Application.id a = Prisma.freshId (applicationIds s))
    by (rewrite Ha; reflexivity).
  assert (Huid : Application.userId a = uid) by (rewrite Ha; reflexivity).
  assert (Hiid : Application.internshipId a = iid) by (rewrite Ha; reflexivity).
  assert (Hold : find (fun x => N.eqb (Application.id x) (Application.id a))
                   (applications s) = None).
  { apply find_none_of_not_in. rewrite Hid. apply fresh_not_in. }
  pose proof (internship_findUnique_row _ _ _ _ _ Hf) as Hrow.
  pose proof (find_some_id Internship.id iid _ _ Hrow) as Hi.
  assert (Hco : Company.id co = Internship.companyId i
                /\ In co (companies s) /\ In i (internships s)).
  { unfold Prisma.internship_findUnique in Hf. rewrite Hrow in Hf.
    destruct (Prisma.companyById s (Internship.companyId i)) as [co'|] eqn:E;
      [|discriminate].
    destruct (Prisma.campaignById s (Internship.campaignId i)); [|discriminate].
    inversion Hf; subst co'. split.
    - exact (find_some_id Company.id _ _ _ E).
    - split; [apply find_some in E; apply E|apply find_some in Hrow; apply Hrow]. }
  destruct Hco as (Hcoid & Hcoin & Hiin).
  split; [|split];
    [| |intros viewer aid; rewrite studentDetails_quiet, companyDetails_quiet;
        split; reflexivity].
  - intros viewer. rewrite studentDetails_quiet. cbn [fst].
    unfold StudentApplication.application_findFirst,
      Prisma.application_findFirst_ofUser.
    cbn [applications Prisma.withApplications].
    rewrite find_app_none by (apply find_weaken; exact Hold).
    cbn [find]. rewrite N.eqb_refl, Huid. cbn [andb].
    rewrite (N.eqb_sym uid viewer).
    destruct (N.eqb viewer uid); [|reflexivity].
    unfold withInternship. rewrite Hiid.
    change (Prisma.internship_findUnique iid
              (Prisma.withApplications s (applications s ++ [a])))
      with (Prisma.internship_findUnique iid s).
    rewrite Hf. reflexivity.
  - intros rid r company Hr. rewrite companyDetails_quiet. cbn [fst].
    change (Prisma.user_findUnique_company rid
              (Prisma.withApplications s (applications s ++ [a])))
      with (Prisma.user_findUnique_company rid s).
    rewrite Hr.
    unfold CompanyApplication.application_findFirst,
      Prisma.application_findFirst_ofCompany.
    cbn [applications internships companies Prisma.withApplications].
    rewrite find_app_none by (apply find_weaken; exact Hold).
    cbn [find]. rewrite N.eqb_refl, Hiid. cbn [andb].
    destruct (N.eqb (Company.id company) (Company.id co)) eqn:Hown.
    + apply N.eqb_eq in Hown.
      replace (existsb _ (internships s)) with true.
      * unfold withInternship. rewrite Hiid, Huid.
        change (Prisma.internship_findUnique iid
                  (Prisma.withApplications s (applications s ++ [a])))
          with (Prisma.internship_findUnique iid s).
        change (Prisma.userById
                  (Prisma.withApplications s (applications s ++ [a])) uid)
          with (Prisma.userById s uid).
        rewrite Hf, Hstudent. reflexivity.
      * symmetry. apply existsb_exists. exists i. split; [exact Hiin|].
        rewrite Hi, N.eqb_refl, Hown, Hcoid, N.eqb_refl. cbn [andb].
        apply existsb_exists. exists co. split; [exact Hcoin|].
        rewrite Hcoid. apply N.eqb_refl.
    + replace (existsb _ (internships s)) with false; [reflexivity|].
      symmetry. apply not_true_iff_false. intros Hex.
      apply existsb_exists in Hex. destruct Hex as (j & Hj & Hc).
      apply andb_true_iff in Hc. destruct Hc as [Hc _].
      apply andb_true_iff in Hc. destruct Hc as [Hjid Hjco].
      apply N.eqb_eq in Hjid, Hjco.
      assert (j = i).
      { apply (nodup_key_inj Internship.id (internships s)); try assumption.
        congruence. }
      subst j. apply N.eqb_neq in Hown. apply Hown. congruence.
Qed.

End ApplicationDetails.

(** ** The two lists of applications *)

Lemma filter_length_ext {A} (p q : A -> bool) (l : list A) :
  (forall a, In a l -> p a = q a) ->
  List.length (filter p l) = List.length (filter q l).
Proof.
  intros H. rewrite (filter_ext_in p q l H). reflexivity.
Qed.

Lemma filter_length_imp {A} (p q : A -> bool) (l : list A) :
  (forall a, p a = true -> q a = true) ->
  (List.length (filter p l) <= List.length (filter q l))%nat.
Proof.
  intros H. induction l as [|a l IH]; [apply le_n|]. simpl.
  destruct (p a) eqn:Hp.
  - rewrite (H a Hp). simpl. lia.
  - destruct (q a); simpl; lia.
Qed.

(** The four counts of a summary add up to the rows it is about. *)
Lemma groupBy_status_total (clause : Application.t -> bool) (s : Store) :
  let g := application_groupBy_status clause s in
  pending g + shortlisted g + accepted g + rejected g
  = Z.of_nat (List.length (filter clause (applications s))).
Proof.
  unfold application_groupBy_status. cbn [pending shortlisted accepted rejected].
  induction (applications s) as [|a l IH]; [reflexivity|].
  cbn [filter]. destruct (clause a); cbn [andb]; [|exact IH].
  cbn [List.length]. rewrite Nat2Z.inj_succ, <- IH.
  destruct (Application.status a); cbn [ApplicationStatus.eqb List.length];
    rewrite ?Nat2Z.inj_succ; lia.
Qed.

Lemma status_toString_inj (a b : ApplicationStatus.t) :
  Js.eqb (ApplicationStatus.toString a) (ApplicationStatus.toString b)
  = ApplicationStatus.eqb a b.
Proof. destruct a, b; reflexivity. Qed.

Lemma in_flat_map_option {A B} (f : A -> option B) (l : list A) (b : B) :
  In b (flat_map (fun a => match f a with Some r => [r] | None => [] end) l)
  <-> exists a, In a l /\ f a = Some b.
Proof.
  rewrite in_flat_map. split.
  - intros (a & Ha & Hin). exists a. split; [exact Ha|].
    destruct (f a) as [r|]; [|contradiction].
    destruct Hin as [->|[]]. reflexivity.
  - intros (a & Ha & Hf). exists a. split; [exact Ha|]. rewrite Hf.
    left. reflexivity.
Qed.

Section ApplicationListProperties.

Context {rt : JsRuntime} {ord : Ordering}.

(** The rows a successful [findMany] returns. *)
Lemma application_findMany_rows {Row} (clause : Application.t -> bool)
  (joinOf : Store -> Application.t -> option Row) q page limit s now rows s' :
  application_findMany clause joinOf q page limit s now = inr (rows, s') ->
  s' = s
  /\ forall row, In row rows ->
       exists a, In a (applications s) /\ clause a = true
                 /\ joinOf s a = Some row.
Proof.
  unfold application_findMany.
  destruct (orderApplications _ _ _) as [sorted|] eqn:Ho; [|discriminate].
  destruct (paginate _ _ sorted) as [pg|] eqn:Hp; [|discriminate].
  intros H. inversion H; subst. clear H. split; [reflexivity|].
  intros row Hrow. apply in_flat_map_option in Hrow.
  destruct Hrow as (a & Ha & Hj). exists a.
  apply (paginate_incl _ _ _ _ Hp) in Ha.
  apply (Permutation_in _ (Permutation_sym (orderApplications_perm _ _ _ _ Ho))) in Ha.
  apply filter_In in Ha. destruct Ha as [Ha Hc].
  apply andb_true_iff in Hc. destruct Hc as [Hc _].
  repeat split; assumption.
Qed.

(** What a successful [getMyApplications] computed. *)
Lemma getMyApplications_inv uid q s now rows cp tp total hn hp summary :
  fst (getMyApplications uid q (quiet s now))
  = ApplicationsListed rows cp tp total hn hp summary ->
  (forall row, In row rows ->
     exists a, In a (applications s) /\ myWhereClause uid q a = true
               /\ withInternship s a = Some row)
  /\ total = application_count_where (myWhereClause uid q) s
  /\ summary = application_groupBy_status
                 (fun a => N.eqb (Application.userId a) uid) s.
Proof.
  unfold getMyApplications, tryCatch. cbv zeta.
  unfold bind at 1. rewrite await_query_quiet.
  unfold bind at 1. rewrite await_quiet.
  destruct (application_findMany _ _ _ _ _ s now) as [e|[rows' s']] eqn:Hfm;
    [discriminate|].
  destruct (application_findMany_rows _ _ _ _ _ _ _ _ _ Hfm) as [-> Hrows].
  unfold bind at 1. rewrite await_query_quiet.
  destruct (parseInt (Js.JsStr (orDefault (ApplicationsQuery.page q) (Js.lit "1"))));
    [|discriminate].
  destruct (parseInt (Js.JsStr (orDefault (ApplicationsQuery.limit q) (Js.lit "20"))));
    [|discriminate].
  cbn [ret fst]. intros H. inversion H; subst. clear H.
  repeat split. exact Hrows.
Qed.

(** X28. The student's list of applications.  When the list is shown:
    every row is an application of the caller, with the internship it
    is for; the four counts of the summary add up to the number of the
    caller's applications, whatever the filter; [total] is the number
    of rows the filter keeps, so with a status of the four it is the
    count of that status and every row has that status, and with any
    other status value, or none, the filter is ignored and it is the
    number of the caller's applications.  Nothing is written. *)
Theorem my_applications_are_the_callers :
  forall (s : Store) (now : DateTime) (uid : Id) (q : ApplicationsQuery.t)
         rows cp tp total hn hp summary,
    fst (getMyApplications uid q (quiet s now))
    = ApplicationsListed rows cp tp total hn hp summary ->
    let mine := filter (fun a => N.eqb (Application.userId a) uid)
                  (applications s) in
    (forall a row,
        In (a, row) rows ->
        In a (applications s)
        /\ Application.userId a = uid
        /\ Prisma.internship_findUnique (Application.internshipId a) s = Some row)
    /\ pending summary + shortlisted summary + accepted summary + rejected summary
       = Z.of_nat (List.length mine)
    /\ (forall st,
           ApplicationsQuery.status q = Some (ApplicationStatus.toString st) ->
           total = match st with
                   | ApplicationStatus.PENDING => pending summary
                   | ApplicationStatus.SHORTLISTED => shortlisted summary
                   | ApplicationStatus.ACCEPTED => accepted summary
                   | ApplicationStatus.REJECTED => rejected summary
                   end
           /\ forall a row, In (a, row) rows -> Application.status a = st)
    /\ (Js.includes validStatuses (Prisma.orElse (ApplicationsQuery.status q) [])
        = false ->
        total = Z.of_nat (List.length mine))
    /\ snd (getMyApplications uid q (quiet s now)) = quiet s now.
Proof.
  intros s now uid q rows cp tp total hn hp summary Hl mine.
  destruct (getMyApplications_inv _ _ _ _ _ _ _ _ _ _ _ Hl)
    as (Hrows & Htotal & Hsum).
  assert (Hrow : forall a row,
            In (a, row) rows ->
            In a (applications s) /\ myWhereClause uid q a = true
            /\ Prisma.internship_findUnique (Application.internshipId a) s
               = Some row).
  { intros a row Hin. destruct (Hrows _ Hin) as (a' & Ha' & Hc & Hj).
    unfold withInternship in Hj.
    destruct (Prisma.internship_findUnique (Application.internshipId a') s)
      as [r|] eqn:E; [|discriminate].
    inversion Hj; subst. repeat split; assumption. }
  split; [|split; [|split; [|split]]].
  - intros a row Hin. destruct (Hrow a row Hin) as (Ha & Hc & Hj).
    split; [exact Ha|]. split; [|exact Hj].
    unfold myWhereClause in Hc. apply andb_true_iff in Hc.
    destruct Hc as [Hc _]. apply N.eqb_eq in Hc. exact Hc.
  - rewrite Hsum. apply groupBy_status_total.
  - intros st Hst.
    assert (Hclause : forall a,
              myWhereClause uid q a
              = N.eqb (Application.userId a) uid
                && ApplicationStatus.eqb (Application.status a) st).
    { intros a. unfold myWhereClause. rewrite Hst. cbn [Prisma.orElse].
      rewrite truthyStr_toString, validStatuses_toString, status_toString_inj.
      reflexivity. }
    split.
    + rewrite Htotal, Hsum. unfold application_count_where,
        application_groupBy_status.
      rewrite (filter_length_ext _ _ _ (fun a _ => Hclause a)).
      destruct st; reflexivity.
    + intros a row Hin. destruct (Hrow a row Hin) as (_ & Hc & _).
      rewrite Hclause in Hc. apply andb_true_iff in Hc. destruct Hc as [_ Hc].
      destruct (Application.status a), st; try discriminate; reflexivity.
  - intros Hinv. rewrite Htotal. unfold application_count_where. subst mine.
    f_equal. apply filter_length_ext. intros a _. unfold myWhereClause.
    rewrite Hinv, andb_false_r, andb_true_r. reflexivity.
  - unfold getMyApplications, tryCatch. cbv zeta.
    unfold bind at 1. rewrite await_query_quiet.
    unfold bind at 1. rewrite await_quiet.
    destruct (application_findMany _ _ _ _ _ s now) as [e|[rows' s']] eqn:Hfm;
      [reflexivity|].
    destruct (application_findMany_rows _ _ _ _ _ _ _ _ _ Hfm) as [-> _].
    unfold bind at 1. rewrite await_query_quiet.
    destruct (parseInt _); [|reflexivity].
    destruct (parseInt _); reflexivity.
Qed.

End ApplicationListProperties.

Lemma find_none_of_existsb_map {A B} (p : B -> bool) (f : A -> B) (l : list A) :
  existsb p (map f l) = false -> find (fun a => p (f a)) l = None.
Proof.
  induction l as [|a l IH]; [reflexivity|]. simpl.
  destruct (p (f a)); [discriminate|exact IH].
Qed.

Lemma applicationStatusOf_invalid (x : JsString) :
  Js.includes validStatuses x = false -> applicationStatusOf x = None.
Proof.
  intros H. unfold applicationStatusOf.
  apply (find_none_of_existsb_map (Js.eqb x) ApplicationStatus.toString).
  exact H.
Qed.

Section CampaignApplicationProperties.

Context {rt : JsRuntime} {ord : Ordering}.

(** The company's list in the isolated world, once the company and the
    campaign have been found. *)
Lemma getCampaignApplications_quiet uid cid q s now :
  getCampaignApplications uid cid q (quiet s now)
  = (match Prisma.user_findUnique_company uid s with
     | Some (_, Some company) =>
         match Prisma.campaign_findFirst cid (Company.id company) s with
         | None => ApplicationsCampaignNotFound
         | Some _ =>
             if campaignWhereClauseValid q then
               match application_findMany (campaignWhereClause s cid q) withStudent q
                       (parseInt (Js.JsStr (orDefault (ApplicationsQuery.page q)
                                              (Js.lit "1"))))
                       (parseInt (Js.JsStr (orDefault (ApplicationsQuery.limit q)
                                              (Js.lit "20")))) s now with
               | inl _ => ApplicationsFailed
               | inr (rows, _) =>
                   match parseInt (Js.JsStr (orDefault (ApplicationsQuery.page q)
                                               (Js.lit "1"))),
                         parseInt (Js.JsStr (orDefault (ApplicationsQuery.limit q)
                                               (Js.lit "20"))) with
                   | Some p, Some l =>
                       let total := application_count_where
                                      (campaignWhereClause s cid q) s in
                       ApplicationsListed rows p
                         (if l =? 0 then None else Some (- ((- total) / l)))
                         total (p * l <? total) (p >? 1)
                         (application_groupBy_status (ofCampaign s cid) s)
                   | _, _ => ApplicationsFailed
                   end
               end
             else ApplicationsFailed
         end
     | _ => ApplicationsCompanyNotFound
     end, quiet s now).
Proof.
  unfold getCampaignApplications, tryCatch. cbv zeta.
  unfold bind at 1. rewrite await_query_quiet.
  destruct (Prisma.user_findUnique_company uid s) as [[u [company|]]|];
    try reflexivity.
  unfold bind at 1. rewrite await_query_quiet.
  destruct (Prisma.campaign_findFirst cid (Company.id company) s); [|reflexivity].
  unfold bind at 1. rewrite await_quiet.
  destruct (campaignWhereClauseValid q); [|reflexivity].
  unfold bind at 1. rewrite await_quiet.
  destruct (application_findMany _ _ _ _ _ s now) as [e|[rows s']] eqn:Hfm;
    [reflexivity|].
  destruct (application_findMany_rows _ _ _ _ _ _ _ _ _ Hfm) as [-> _].
  unfold bind at 1. rewrite await_query_quiet.
  destruct (parseInt (Js.JsStr (orDefault (ApplicationsQuery.page q) (Js.lit "1"))));
    [|reflexivity].
  destruct (parseInt (Js.JsStr (orDefault (ApplicationsQuery.limit q) (Js.lit "20"))));
    reflexivity.
Qed.

(** X29. The company's list of the applications to a campaign.  When
    the list is shown, the caller is a user of a company and the
    campaign is one of that company; every row is an application of the
    store to an internship of that campaign, with its student and its
    internship; the four counts of the summary add up to the number of
    applications to the campaign, whatever the filters, and [total] is
    at most that number.  A [status] parameter that is set and is not
    one of the four statuses is not ignored here: the request is
    answered 500.  Nothing is written. *)
Theorem campaign_applications_are_the_campaigns :
  forall (s : Store) (now : DateTime) (uid cid : Id) (q : ApplicationsQuery.t),
    let r := getCampaignApplications uid cid q (quiet s now) in
    let ofIt := filter (ofCampaign s cid) (applications s) in
    (forall rows cp tp total hn hp summary,
        fst r = ApplicationsListed rows cp tp total hn hp summary ->
        (exists u company campaign,
            Prisma.user_findUnique_company uid s = Some (u, Some company)
            /\ Prisma.campaign_findFirst cid (Company.id company) s = Some campaign)
        /\ (forall a student i,
               In (a, student, i) rows ->
               In a ofIt
               /\ Prisma.userById s (Application.userId a) = Some student
               /\ Prisma.internshipById s (Application.internshipId a) = Some i
               /\ (NoDup (map Internship.id (internships s)) ->
                   Internship.campaignId i = cid))
        /\ pending summary + shortlisted summary + accepted summary
           + rejected summary = Z.of_nat (List.length ofIt)
        /\ total <= Z.of_nat (List.length ofIt))
    /\ (Js.truthyStr (ApplicationsQuery.status q) = true ->
        Js.includes validStatuses (Prisma.orElse (ApplicationsQuery.status q) [])
        = false ->
        forall u company campaign,
          Prisma.user_findUnique_company uid s = Some (u, Some company) ->
          Prisma.campaign_findFirst cid (Company.id company) s = Some campaign ->
          fst r = ApplicationsFailed)
    /\ snd r = quiet s now.
Proof.
  intros s now uid cid q r ofIt. subst r.
  rewrite getCampaignApplications_quiet. cbn [fst snd].
  split; [|split; [|reflexivity]].
  - intros rows cp tp total hn hp summary.
    destruct (Prisma.user_findUnique_company uid s) as [[u [company|]]|] eqn:Hu;
      try discriminate.
    destruct (Prisma.campaign_findFirst cid (Company.id company) s) as [campaign|]
      eqn:Hcamp; [|discriminate].
    destruct (campaignWhereClauseValid q); [|discriminate].
    destruct (application_findMany _ _ _ _ _ s now) as [e|[rows' s']] eqn:Hfm;
      [discriminate|].
    destruct (application_findMany_rows _ _ _ _ _ _ _ _ _ Hfm) as [_ Hrows].
    destruct (parseInt (Js.JsStr (orDefault (ApplicationsQuery.page q) (Js.lit "1"))));
      [|discriminate].
    destruct (parseInt (Js.JsStr (orDefault (ApplicationsQuery.limit q) (Js.lit "20"))));
      [|discriminate].
    cbv zeta. intros H. inversion H; subst. clear H.
    split; [exists u, company, campaign; split; [reflexivity|exact Hcamp]|].
    split; [|split].
    + intros a student i Hin. destruct (Hrows _ Hin) as (a' & Ha' & Hc & Hj).
      unfold withStudent in Hj.
      destruct (Prisma.userById s (Application.userId a')) as [u'|] eqn:Eu;
        [|discriminate].
      destruct (Prisma.internshipById s (Application.internshipId a')) as [i'|] eqn:Ei;
        [|discriminate].
      inversion Hj; subst a' u' i'. clear Hj.
      unfold campaignWhereClause in Hc.
      apply andb_true_iff in Hc. destruct Hc as [Hc _].
      apply andb_true_iff in Hc. destruct Hc as [Hc _].
      split; [subst ofIt; apply filter_In; split; assumption|].
      split; [exact Eu|]. split; [exact Ei|].
      intros Hnd. unfold ofCampaign in Hc. apply existsb_exists in Hc.
      destruct Hc as (j & Hj & Hk). apply andb_true_iff in Hk.
      destruct Hk as [Hk1 Hk2]. apply N.eqb_eq in Hk1, Hk2.
      pose proof (find_some_id Internship.id _ _ _ Ei) as Hi.
      apply find_some in Ei. destruct Ei as [Hiin _].
      rewrite (nodup_key_inj Internship.id (internships s) i j Hnd Hiin Hj);
        [exact Hk2|congruence].
    + apply groupBy_status_total.
    + unfold application_count_where. subst ofIt. apply inj_le.
      apply filter_length_imp. intros a Hc. unfold campaignWhereClause in Hc.
      apply andb_true_iff in Hc. destruct Hc as [Hc _].
      apply andb_true_iff in Hc. destruct Hc as [Hc _]. exact Hc.
  - intros Hset Hinv u company campaign Hu Hc. rewrite Hu, Hc.
    unfold campaignWhereClauseValid.
    rewrite Hset, (applicationStatusOf_invalid _ Hinv). reflexivity.
Qed.

End CampaignApplicationProperties.

(** ** The campaigns of a company *)

Section CampaignViews.

Context {rt : JsRuntime} {ord : Ordering}.

Lemma getCampaigns_quiet uid s now :
  getCampaigns uid (quiet s now)
  = (match Prisma.user_findUnique_company uid s with
     | Some (_, Some company) =>
         CampaignsListed (campaign_findMany (Company.id company) s)
     | _ => CampaignsCompanyNotFound
     end, quiet s now).
Proof.
  unfold getCampaigns, tryCatch, bind at 1. rewrite await_query_quiet.
  destruct (Prisma.user_findUnique_company uid s) as [[u [company|]]|];
    reflexivity.
Qed.

Lemma getCampaign_quiet uid cid s now :
  getCampaign uid cid (quiet s now)
  = (match Prisma.user_findUnique_company uid s with
     | Some (_, Some company) =>
         match Prisma.campaign_findFirst cid (Company.id company) s with
         | Some c => CampaignShown (campaignView s c)
         | None => CampaignNotFound
         end
     | _ => CampaignCompanyNotFound
     end, quiet s now).
Proof.
  unfold getCampaign, tryCatch, bind at 1. rewrite await_query_quiet.
  destruct (Prisma.user_findUnique_company uid s) as [[u [company|]]|];
    try reflexivity.
  unfold bind at 1. rewrite await_query_quiet.
  destruct (Prisma.campaign_findFirst cid (Company.id company) s); reflexivity.
Qed.

(** The company a launched campaign belongs to. *)
Lemma launch_launched_company uid body s now c u company :
  paymentsMatch s ->
  Prisma.user_findUnique_company uid s = Some (u, Some company) ->
  fst (launchCampaign uid (Json body) (quiet s now)) = LaunchLaunched c ->
  Campaign.companyId c = Company.id company.
Proof.
  intros Hm Hu.
  destruct (negb (Js.truthy (LaunchBody.title body))
            || negb (Js.truthy (LaunchBody.budget body))
            || negb (Js.truthy (LaunchBody.endDate body))
            || negb (Js.truthy (LaunchBody.maxInternships body))
            || negb (Js.truthy (LaunchBody.paymentMethod body))) eqn:Hreq.
  { rewrite launchCampaign_quiet, Hreq. discriminate. }
  destruct (launch_quiet_result uid body s now u company Hm Hu Hreq)
    as [[E _]|(t0 & de0 & m0 & ti0 & d & n & _ & E)]; cbv zeta in E; rewrite E;
    cbn [fst]; [discriminate|].
  intros H. inversion H. reflexivity.
Qed.

(** X30. The campaigns a company is shown.  For a user of a company,
    [getCampaigns] lists exactly the campaigns of the store that belong
    to that company, each with its payment and with the internships of
    the store that sit under it, [currentInternships] being their
    number; [getCampaign] shows a campaign of that company with the id
    asked for, and answers "Campaign not found" only if no campaign
    with that id belongs to the company.  Neither writes.  After a
    launch by that user has succeeded, on a store whose campaigns and
    payments matched, both show the new campaign with its payment. *)
Theorem company_is_shown_exactly_its_campaigns :
  forall (s : Store) (now : DateTime) (uid : Id) u company,
    Prisma.user_findUnique_company uid s = Some (u, Some company) ->
    (exists l,
        getCampaigns uid (quiet s now) = (CampaignsListed l, quiet s now)
        /\ (forall c, In c (map CampaignSummary.campaign l)
                      <-> In c (campaigns s)
                          /\ Campaign.companyId c = Company.id company)
        /\ (forall v, In v l ->
              CampaignSummary.payment v
              = campaign_payment s (CampaignSummary.campaign v)
              /\ CampaignSummary.currentInternships v
                 = Z.of_nat (List.length (CampaignSummary.internships v))
              /\ forall i, In i (CampaignSummary.internships v)
                           <-> In i (internships s)
                               /\ Internship.campaignId i
                                  = Campaign.id (CampaignSummary.campaign v)))
    /\ (forall cid,
           snd (getCampaign uid cid (quiet s now)) = quiet s now
           /\ ((exists c,
                   fst (getCampaign uid cid (quiet s now))
                   = CampaignShown (campaignView s c)
                   /\ In c (campaigns s)
                   /\ Campaign.id c = cid
                   /\ Campaign.companyId c = Company.id company)
               \/ (fst (getCampaign uid cid (quiet s now)) = CampaignNotFound
                   /\ forall c, In c (campaigns s) -> Campaign.id c = cid ->
                                Campaign.companyId c <> Company.id company)))
    /\ (forall body c later,
           paymentsMatch s ->
           fst (launchCampaign uid (Json body) (quiet s now)) = LaunchLaunched c ->
           let s' := store (snd (launchCampaign uid (Json body) (quiet s now))) in
           (exists l, fst (getCampaigns uid (quiet s' later)) = CampaignsListed l
                      /\ In c (map CampaignSummary.campaign l))
           /\ exists p,
                fst (getCampaign uid (Campaign.id c) (quiet s' later))
                = CampaignShown (campaignView s' c)
                /\ CampaignView.payment (campaignView s' c) = Some p
                /\ CampaignPayment.campaignId p = Campaign.id c
                /\ CampaignPayment.status p
                   = paymentStatusFor (LaunchBody.transactionId body)).
Proof.
  intros s now uid u company Hu.
  assert (Hlisted : forall st c,
            In c (map CampaignSummary.campaign
                    (campaign_findMany (Company.id company) st))
            <-> In c (campaigns st) /\ Campaign.companyId c = Company.id company).
  { intros st c. unfold campaign_findMany. rewrite map_map.
    cbn [campaignSummary CampaignSummary.campaign]. rewrite map_id. split.
    - intros Hin.
      apply (Permutation_in _ (Permutation_sym (orderCampaigns_perm _))) in Hin.
      apply filter_In in Hin. destruct Hin as [Hin Hc]. apply N.eqb_eq in Hc.
      split; assumption.
    - intros [Hin Hc]. apply (Permutation_in _ (orderCampaigns_perm _)).
      apply filter_In. split; [exact Hin|]. apply N.eqb_eq. exact Hc. }
  split; [|split].
  - exists (campaign_findMany (Company.id company) s).
    rewrite getCampaigns_quiet, Hu. split; [reflexivity|].
    split; [apply Hlisted|].
    intros v Hv. unfold campaign_findMany in Hv. apply in_map_iff in Hv.
    destruct Hv as (c & <- & _).
    cbn [campaignSummary CampaignSummary.payment CampaignSummary.campaign
         CampaignSummary.currentInternships CampaignSummary.internships].
    split; [reflexivity|]. split; [reflexivity|].
    intros i. unfold internshipsOf. rewrite filter_In, N.eqb_eq. reflexivity.
  - intros cid. rewrite getCampaign_quiet, Hu. cbn [fst snd].
    split; [reflexivity|].
    destruct (Prisma.campaign_findFirst cid (Company.id company) s) as [c|] eqn:Hf.
    + left. exists c. split; [reflexivity|].
      apply find_some in Hf. destruct Hf as [Hin Hk].
      apply andb_true_iff in Hk. destruct Hk as [Hk1 Hk2].
      apply N.eqb_eq in Hk1, Hk2. repeat split; assumption.
    + right. split; [reflexivity|]. intros c Hin Hid Hco.
      apply (find_none _ _ Hf) in Hin.
      rewrite Hid, Hco, !N.eqb_refl in Hin. discriminate.
  - intros body c later Hm Hlaunch s'.
    destruct (launch_launched _ _ _ _ _ Hm Hlaunch)
      as (p & Hw & Hfresh & _ & Hpc & Hps).
    pose proof (launch_launched_company _ _ _ _ _ _ _ Hm Hu Hlaunch) as Hco.
    assert (Hs' : s' = Prisma.withCampaignPayments
                         (Prisma.withCampaigns s (campaigns s ++ [c]))
                         (campaignPayments s ++ [p]))
      by (subst s'; rewrite Hw; reflexivity).
    clearbody s'.
    assert (Hu' : Prisma.user_findUnique_company uid s' = Some (u, Some company))
      by (rewrite Hs'; exact Hu).
    split.
    + exists (campaign_findMany (Company.id company) s').
      rewrite getCampaigns_quiet, Hu'. split; [reflexivity|].
      apply Hlisted. split; [|exact Hco].
      rewrite Hs'. cbn [campaigns Prisma.withCampaignPayments Prisma.withCampaigns].
      apply in_or_app. right. left. reflexivity.
    + exists p. rewrite getCampaign_quiet, Hu'. cbn [fst].
      assert (Hf : Prisma.campaign_findFirst (Campaign.id c) (Company.id company) s'
                   = Some c).
      { rewrite Hs'. unfold Prisma.campaign_findFirst.
        cbn [campaigns Prisma.withCampaignPayments Prisma.withCampaigns].
        apply find_app_last.
        - apply find_weaken. apply find_none_of_not_in. exact Hfresh.
        - rewrite Hco, !N.eqb_refl. reflexivity. }
      rewrite Hf. split; [reflexivity|].
      split; [|split; assumption].
      cbn [campaignView CampaignView.payment]. rewrite Hs'.
      unfold campaign_payment.
      cbn [campaignPayments Prisma.withCampaignPayments].
      apply find_app_last; [|rewrite Hpc; apply N.eqb_refl].
      apply find_none_of_not_in. intros Hin. apply Hfresh.
      destruct Hm as [_ Hperm].
      apply (Permutation_in _ (Permutation_sym Hperm)). exact Hin.
Qed.

End CampaignViews.

(* ================================================================== *)
(** * The further properties at concrete requests                      *)
(* ================================================================== *)

Lemma seeded_letters : lettersOk Seeded.store.
Proof.
  intros a Ha. vm_compute in Ha.
  repeat (destruct Ha as [Ha|Ha]; [subst a; eexists; split;
                                    [reflexivity|vm_compute; discriminate]|]).
  contradiction.
Qed.

(** Student 1 gets an application to internship 1 through and tries
    again after the deadline. *)
Lemma second_apply_is_refused_witness :
  let c := Js.JsStr (Sample.letter 50 0) in
  let s' := store (snd (applyToInternship (rt := Sample.runtime) 1%N 1%N (Json c)
                          (quiet Sample.store Sample.now))) in
  exists i co ca,
    Prisma.internship_findUnique 1%N Sample.store = Some (i, co, ca)
    /\ applyToInternship (rt := Sample.runtime) 1%N 1%N (Json c)
         (quiet s' (Sample.later + 1))
       = (if Sample.later + 1 >? Internship.deadline i
          then ApplyDeadlinePassed else ApplyAlreadyApplied,
          quiet s' (Sample.later + 1)).
Proof.
  cbv zeta.
  refine (second_apply_is_refused (rt := Sample.runtime) Sample.store Sample.now
            1%N 1%N (Js.JsStr (Sample.letter 50 0)) _ _
            (Js.JsStr (Sample.letter 50 0)) (Sample.later + 1) _).
  - vm_compute. reflexivity.
  - vm_compute. reflexivity.
Defined.

(** Student 1, on a plan with a cap of 5, gets an application through. *)
Lemma submitted_application_stays_within_cap_witness :
  let c := Js.JsStr (Sample.letter 50 0) in
  let s' := store (snd (applyToInternship (rt := Sample.runtime) 1%N 1%N (Json c)
                          (quiet Sample.store Sample.now))) in
  Prisma.application_count 1%N (Sample.utcStartOfMonth Sample.now) s'
  = Prisma.application_count 1%N (Sample.utcStartOfMonth Sample.now) Sample.store + 1
  /\ Prisma.application_count 1%N (Sample.utcStartOfMonth Sample.now) s' <= 5.
Proof.
  cbv zeta.
  refine (submitted_application_stays_within_cap (rt := Sample.runtime)
            Sample.store Sample.now 1%N 1%N (Js.JsStr (Sample.letter 50 0))
            _ (Sample.plan 1%N (Some 5)) 5 _ _ _ _ _).
  - apply Z.leb_le. vm_compute. reflexivity.
  - vm_compute. reflexivity.
  - vm_compute. reflexivity.
  - reflexivity.
  - discriminate.
Defined.

Lemma operations_keep_application_keys_witness :
  applicationKeys
    (store (perform (rt := Sample.runtime) (db := Sample.database)
              (OpApply 1%N 1%N (Json (Js.JsStr (Sample.letter 50 0))))
              (quiet Sample.store Sample.now))).
Proof.
  apply (operations_keep_application_keys (rt := Sample.runtime)
           (db := Sample.database)).
  exact sample_application_keys.
Defined.

Lemma operations_keep_emails_unique_witness :
  uniqueEmails
    (store (perform (rt := Sample.runtime) (db := Sample.database)
              (OpStudentSignup (Some (Js.lit "secret"))
                 (StudentSignupBody.mk (Some (Js.lit "Eva"))
                    (Some (Js.lit "eva@example.org"))
                    (Some (Js.lit "hunter22"))))
              (quiet Sample.store Sample.now))).
Proof.
  apply (operations_keep_emails_unique (rt := Sample.runtime)
           (db := Sample.database)).
  exact sample_emails.
Defined.


Lemma operations_keep_campaigns_and_payments_matched_witness :
  paymentsMatch
    (store (perform (rt := Sample.runtime) (db := Sample.database)
              (OpLaunchCampaign 2%N
                 (Json (LaunchBody.mk (Js.JsStr (Js.lit "Winter")) Js.JsUndefined
                    (Js.JsNumber 900%float)
                    (Js.JsStr (Js.lit "2027-01-15T08:00:00.000Z"))
                    (Js.JsStr (Js.lit "5"))
                    (Js.JsStr (Js.lit "card")) Js.JsUndefined)))
              (quiet Sample.store Sample.now))).
Proof.
  apply (operations_keep_campaigns_and_payments_matched (rt := Sample.runtime)
           (db := Sample.database)).
  exact sample_payments.
Defined.

Lemma operations_keep_cover_letters_long_enough_witness :
  lettersOk
    (store (perform (rt := Sample.runtime) (db := Sample.database)
              (OpUpdateApplication 1%N 2%N (Json (Js.JsStr (Sample.letter 70 3))))
              (quiet Seeded.store Sample.now))).
Proof.
  apply (operations_keep_cover_letters_long_enough (rt := Sample.runtime)
           (db := Sample.database)).
  exact seeded_letters.
Defined.

(** Student 1 rewrites the cover letter of the PENDING application 2:
    the ACCEPTED application 1 stays as it is. *)
Lemma cover_letter_edit_reaches_only_the_callers_pending_application_witness :
  let r := updateApplication 1%N 2%N
             (Json (Js.JsStr (Sample.letter 70 3)))
             (quiet Sample.store Sample.now) in
  In (Sample.application 1%N 3%N ApplicationStatus.ACCEPTED)
     (applications (store (snd r)))
  /\ map Application.status (applications (store (snd r)))
     = map Application.status (applications Sample.store).
Proof.
  cbv zeta.
  destruct (cover_letter_edit_reaches_only_the_callers_pending_application
              Sample.store Sample.now 1%N 2%N
              (Json (Js.JsStr (Sample.letter 70 3))) sample_application_ids)
    as (Hothers & Hst & _).
  split; [|exact Hst].
  apply Hothers; [left; reflexivity|left; discriminate].
Defined.

(** The recruiter of company 1 shortlists application 2: application 1
    stays as it is and no cover letter changes. *)
Lemma status_update_reaches_only_the_companys_applications_witness :
  let r := updateApplicationStatus 2%N 2%N
             (Json (Js.JsStr (Js.lit "SHORTLISTED")))
             (quiet Sample.store Sample.now) in
  In (Sample.application 1%N 3%N ApplicationStatus.ACCEPTED)
     (applications (store (snd r)))
  /\ map Application.coverLetter (applications (store (snd r)))
     = map Application.coverLetter (applications Sample.store).
Proof.
  cbv zeta.
  destruct (status_update_reaches_only_the_companys_applications
              Sample.store Sample.now 2%N 2%N
              (Json (Js.JsStr (Js.lit "SHORTLISTED"))) sample_application_ids)
    as (Hothers & Hcl & _).
  split; [|exact Hcl].
  apply Hothers; [left; reflexivity|left; discriminate].
Defined.

Lemma sample_campaign_ids : NoDup (map Campaign.id (campaigns Sample.store)).
Proof. distinct_by_computation. Qed.

(** The recruiter of company 1 pauses campaign 1. *)
Lemma pausing_a_campaign_hides_its_internships_witness :
  let body := EditBody.mk Js.JsUndefined Js.JsUndefined Js.JsUndefined
                  (Js.JsStr (Js.lit "PAUSED")) in
  let s' := store (snd (editCampaign (rt := Sample.runtime) 2%N 1%N (Json body)
                          (quiet Sample.store Sample.now))) in
  internships s' = internships Sample.store
  /\ forall viewer q items cp tp total hn hp sk tg lo,
       fst (getInternships (rt := Sample.runtime) (db := Sample.database)
              viewer q (quiet s' Sample.later))
       = Listed items cp tp total hn hp sk tg lo ->
       forall i, In i (map item items) -> Internship.campaignId i <> 1%N.
Proof.
  cbv zeta.
  pose proof (fun new =>
    pausing_a_campaign_hides_its_internships (rt := Sample.runtime)
      (db := Sample.database) Sample.store Sample.now Sample.later 2%N 1%N
      (EditBody.mk Js.JsUndefined Js.JsUndefined Js.JsUndefined
          (Js.JsStr (Js.lit "PAUSED")))
      CampaignStatus.PAUSED new (or_introl eq_refl) eq_refl) as T.
  edestruct T as (_ & _ & Hi & Hl); [vm_compute; reflexivity|].
  split; assumption.
Defined.

(** The recruiter of company 1 sets the EXPIRED campaign 3 to ACTIVE. *)
Lemma edit_reactivates_a_campaign_whatever_its_state_witness :
  let body := EditBody.mk Js.JsUndefined Js.JsUndefined Js.JsUndefined
                  (Js.JsStr (Js.lit "ACTIVE")) in
  let r := editCampaign (rt := Sample.runtime) 2%N 3%N (Json body)
             (quiet Sample.store Sample.now) in
  Campaign.status (Sample.campaign 3%N CampaignStatus.EXPIRED)
  = CampaignStatus.EXPIRED
  /\ exists new,
       fst r = EditCampaignUpdated new
       /\ Campaign.status new = CampaignStatus.ACTIVE.
Proof.
  cbv zeta. split; [reflexivity|].
  destruct (edit_reactivates_a_campaign_whatever_its_state (rt := Sample.runtime)
              Sample.store Sample.now Sample.later 2%N 3%N
              (EditBody.mk Js.JsUndefined Js.JsUndefined Js.JsUndefined
                  (Js.JsStr (Js.lit "ACTIVE")))
              Sample.recruiter Sample.acme
              (Sample.campaign 3%N CampaignStatus.EXPIRED)
              eq_refl eq_refl sample_campaign_ids eq_refl eq_refl eq_refl)
    as (new & H1 & H2 & _).
  exists new. split; assumption.
Defined.

Lemma sign_ups_check_the_jwt_secret_after_writing_witness :
  let r := companySignup (rt := Sample.runtime) (db := Sample.database) None
             (CompanySignupBody.mk (Some (Js.lit "Eva"))
                (Some (Js.lit "eva@globex.example")) (Some (Js.lit "hunter22"))
                (Some (Js.lit "Globex")) None None None)
             (quiet Sample.store Sample.now) in
  fst r = SignupMisconfigured
  /\ List.length (companies (store (snd r))) = 2%nat
  /\ List.length (users (store (snd r))) = 4%nat.
Proof.
  cbv zeta.
  destruct (sign_ups_check_the_jwt_secret_after_writing
              (rt := Sample.runtime) (db := Sample.database)
              Sample.store Sample.now None
              (Js.lit "Eva") (Js.lit "eva@globex.example") (Js.lit "hunter22"))
    as (_ & Hcompany);
    try (vm_compute; discriminate); try (vm_compute; reflexivity).
  - left. reflexivity.
  - destruct (Hcompany (Js.lit "Globex") None None None) as (H1 & _);
      try (vm_compute; discriminate); try (vm_compute; reflexivity).
    split; [exact H1|]. vm_compute. split; reflexivity.
Defined.

(** The first page of the listing without filters, 20 to the page. *)
Lemma listing_pagination_is_consistent_witness :
  let q := ListQuery.mk None None None None None None None None None None None in
  exists items cp tp total hn hp sk tg lo,
    fst (getInternships (rt := Sample.runtime) (db := Sample.database) 1%N q
           (quiet Sample.store Sample.now))
    = Listed items cp tp total hn hp sk tg lo
    /\ 1 <= cp
    /\ Z.of_nat (List.length items) <= 20.
Proof.
  cbv zeta.
  pose proof (fun items cp tp total hn hp sk tg lo H =>
    listing_pagination_is_consistent (rt := Sample.runtime)
      (db := Sample.database) Sample.store Sample.now 1%N
      (ListQuery.mk None None None None None None None None None None None)
      items cp tp total hn hp sk tg lo 20 H eq_refl eq_refl) as T.
  do 9 eexists. split; [vm_compute; reflexivity|].
  edestruct T as (H1 & _ & H3 & _); [vm_compute; reflexivity|].
  split; [exact H1|exact H3].
Defined.

(** Student 1 applies to internship 1; student 3 then looks at the
    listing. *)
Lemma listing_reflects_a_submitted_application_witness :
  let c := Js.JsStr (Sample.letter 50 0) in
  let s' := store (snd (applyToInternship (rt := Sample.runtime) 1%N 1%N (Json c)
                          (quiet Sample.store Sample.now))) in
  let q := ListQuery.mk None None None None None None None None None None None in
  matching (rt := Sample.runtime) (db := Sample.database) q Sample.now s'
  = matching (rt := Sample.runtime) (db := Sample.database) q Sample.now
      Sample.store.
Proof.
  cbv zeta.
  pose proof (fun a H =>
    listing_reflects_a_submitted_application (rt := Sample.runtime)
      (db := Sample.database) Sample.store Sample.now Sample.now 1%N 1%N
      (Js.JsStr (Sample.letter 50 0)) a H 3%N
      (ListQuery.mk None None None None None None None None None None None))
    as T.
  edestruct T as (H1 & _); [vm_compute; reflexivity|].
  exact H1.
Defined.

(** Student 1, on a plan with a cap of 5 and no application this month,
    applies to internship 1. *)
Lemma nonzero_cap_is_enforced_witness :
  applyOutcome
    (fst (applyToInternship (rt := Sample.runtime) 1%N 1%N
            (Json (Js.JsStr (Sample.letter 50 0))) (quiet Sample.store Sample.now)))
  = Success.
Proof.
  refine (proj2 (nonzero_cap_is_enforced (rt := Sample.runtime) Sample.store
                   Sample.now 1%N 1%N (Js.JsStr (Sample.letter 50 0))
                   (Sample.internship 1%N 1%N true) Sample.acme
                   (Sample.campaign 1%N CampaignStatus.ACTIVE)
                   (Sample.plan 1%N (Some 5)) 5 _ eq_refl eq_refl eq_refl _
                   eq_refl _ eq_refl _) _).
  - vm_compute. reflexivity.
  - vm_compute. discriminate.
  - vm_compute. reflexivity.
  - discriminate.
  - vm_compute. reflexivity.
Defined.

(** While Eva signs up, a concurrent request commits an account with
    her email. *)
Lemma signup_race_is_reported_as_conflict_witness :
  let eva := User.mk 9%N (Js.lit "eva@example.org") (Js.lit "hash")
               (Js.lit "Eve") UserRole.STUDENT Sample.now Sample.now None in
  let f := fun s => Prisma.withUsers s (users s ++ [eva]) in
  let r := studentSignup (rt := Sample.runtime) (Some (Js.lit "secret"))
             (StudentSignupBody.mk (Some (Js.lit "Eva"))
                (Some (Js.lit "eva@example.org")) (Some (Js.lit "hunter22")))
             (mkWorld Sample.store Sample.now [Quiet; Commit f]) in
  fst r = SignupEmailTaken /\ store (snd r) = f Sample.store.
Proof.
  cbv zeta.
  destruct (signup_race_is_reported_as_conflict (rt := Sample.runtime)
              Sample.store Sample.now (Some (Js.lit "secret"))
              (Js.lit "Eva") (Js.lit "eva@example.org") (Js.lit "hunter22")
              (fun s => Prisma.withUsers s
                          (users s ++
                           [User.mk 9%N (Js.lit "eva@example.org") (Js.lit "hash")
                              (Js.lit "Eve") UserRole.STUDENT Sample.now
                              Sample.now None]))
              (User.mk 9%N (Js.lit "eva@example.org") (Js.lit "hash")
                 (Js.lit "Eve") UserRole.STUDENT Sample.now Sample.now None))
    as (H1 & _ & _ & H2);
    try (vm_compute; discriminate); try (vm_compute; reflexivity).
  split; assumption.
Defined.

Lemma sample_internship_ids : NoDup (map Internship.id (internships Sample.store)).
Proof. distinct_by_computation. Qed.

(** Eva signs up and logs in. *)
Lemma student_logs_in_after_signing_up_witness :
  let body := StudentSignupBody.mk (Some (Js.lit "Eva"))
                (Some (Js.lit "eva@example.org")) (Some (Js.lit "hunter22")) in
  let s' := store (snd (studentSignup (rt := Platform.runtime)
                          (Some Platform.secret) body
                          (quiet Sample.store Sample.now))) in
  exists u sub token,
    fst (studentLogin (rt := Platform.runtime) (cr := Platform.credentials)
           (Some Platform.secret)
           (LoginBody.mk (Some (Js.lit "eva@example.org"))
              (Some (Js.lit "hunter22")))
           (quiet s' Sample.later))
    = StudentLoggedIn u sub token.
Proof.
  cbv zeta.
  pose proof (fun u token H =>
    student_logs_in_after_signing_up (rt := Platform.runtime)
      (cr := Platform.credentials) Sample.store Sample.now Sample.later
      (Some Platform.secret) (Some Platform.secret)
      (Js.lit "Eva") (Js.lit "eva@example.org") (Js.lit "hunter22") u token
      eq_refl eq_refl H) as T.
  edestruct T as ((sub & Hlogin) & _); [vm_compute; reflexivity|].
  do 3 eexists. exact Hlogin.
Defined.

(** Student 1, whose subscription runs until [Sample.later], logs in. *)
Lemma login_flag_agrees_with_the_apply_check_up_to_the_boundary_witness :
  activePlan 1%N Sample.now Platform.store <> None.
Proof.
  pose proof (fun u sub token H =>
    login_flag_agrees_with_the_apply_check_up_to_the_boundary
      (rt := Platform.runtime) (cr := Platform.credentials)
      Platform.store Sample.now (Some Platform.secret)
      (LoginBody.mk (Some (Js.lit "ana@example.org")) (Some (Js.lit "hunter22")))
      u sub token H) as T.
  edestruct T as (_ & Hflag & _); [vm_compute; reflexivity|].
  apply Hflag. reflexivity.
Defined.

(** The recruiter of company 1 launches a paid campaign and logs in. *)
Lemma launched_campaign_counts_at_login_only_when_paid_witness :
  let body := LaunchBody.mk (Js.JsStr (Js.lit "Winter")) Js.JsUndefined
                (Js.JsNumber 900%float)
                (Js.JsStr (Js.lit "2027-01-15T08:00:00.000Z")) (Js.JsStr (Js.lit "5"))
                (Js.JsStr (Js.lit "card")) (Js.JsStr (Js.lit "tx-1")) in
  let s' := store (snd (launchCampaign (rt := Platform.runtime) 2%N (Json body)
                          (quiet Platform.store Sample.now))) in
  exists u company token,
    fst (companyLogin (rt := Platform.runtime) (cr := Platform.credentials)
           (Some Platform.secret)
           (LoginBody.mk (Some (Js.lit "hr@acme.example"))
              (Some (Js.lit "hunter22")))
           (quiet s' Sample.now))
    = CompanyLoggedIn u company 1 2 token.
Proof.
  cbv zeta.
  pose proof (fun c u company active total token H1 H2 =>
    launched_campaign_counts_at_login_only_when_paid (rt := Platform.runtime)
      (cr := Platform.credentials) Platform.store Sample.now Sample.now 2%N
      (LaunchBody.mk (Js.JsStr (Js.lit "Winter")) Js.JsUndefined (Js.JsNumber 900%float)
         (Js.JsStr (Js.lit "2027-01-15T08:00:00.000Z")) (Js.JsStr (Js.lit "5"))
         (Js.JsStr (Js.lit "card")) (Js.JsStr (Js.lit "tx-1")))
      c (Some Platform.secret)
      (LoginBody.mk (Some (Js.lit "hr@acme.example")) (Some (Js.lit "hunter22")))
      u company active total token sample_payments H1 H2) as T.
  cbv zeta in T. do 3 eexists.
  erewrite T; [|vm_compute; reflexivity|vm_compute; reflexivity].
  vm_compute. reflexivity.
Defined.

Lemma sample_internship_visible :
  visible Sample.store Sample.now (Sample.internship 1%N 1%N true).
Proof.
  split; [left; reflexivity|]. split; [reflexivity|].
  split; [vm_compute; discriminate|].
  exists (Sample.campaign 1%N CampaignStatus.ACTIVE). split; reflexivity.
Qed.

(** Student 1 opens internship 1. *)
Lemma details_are_shown_for_the_internships_of_the_listing_witness :
  exists d,
    fst (getInternshipDetails (db := Sample.database) 1%N 1%N
           (quiet Sample.store Sample.now))
    = DetailsShown d.
Proof.
  apply (proj1 (details_are_shown_for_the_internships_of_the_listing
                  (rt := Sample.runtime) (db := Sample.database)
                  Sample.store Sample.now 1%N
                  ltac:(intros l H; discriminate H) sample_internship_ids) 1%N).
  exists (Sample.internship 1%N 1%N true), Sample.acme.
  split; [reflexivity|]. split; [exact sample_internship_visible|reflexivity].
Defined.

Lemma details_and_apply_agree_up_to_the_deadline_instant_witness :
  In (applyOutcome
        (fst (applyToInternship (rt := Sample.runtime) 1%N 1%N
                (Json (Js.JsStr (Sample.letter 50 0)))
                (quiet Sample.store Sample.now))))
     [Success; SubscriptionRequired; QuotaExceeded].
Proof.
  pose proof (fun d H =>
    details_and_apply_agree_up_to_the_deadline_instant (rt := Sample.runtime)
      (db := Sample.database) Sample.store Sample.now 1%N 1%N d H) as T.
  edestruct T as (_ & Hcan & _ & _); [vm_compute; reflexivity|].
  apply Hcan; vm_compute; reflexivity.
Defined.

(** Internship 2 sits under the PAUSED campaign 2 and is shown as
    similar to internship 1. *)
Lemma similar_internships_ignore_the_campaign_witness :
  exists d,
    fst (getInternshipDetails (db := Sample.database) 1%N 1%N
           (quiet Sample.store Sample.now))
    = DetailsShown d
    /\ In (Sample.internship 2%N 2%N true, Sample.acme)
          (Details.similarInternships d).
Proof.
  pose proof (fun d H =>
    similar_internships_ignore_the_campaign (db := Sample.database)
      Sample.store Sample.now 1%N 1%N d H) as T.
  eexists. split; [vm_compute; reflexivity|].
  edestruct T as (_ & _ & Hall); [vm_compute; reflexivity|].
  apply Hall.
  - vm_compute. lia.
  - right. left. reflexivity.
  - vm_compute. reflexivity.
  - reflexivity.
Defined.

(** Student 1 applies to internship 1; student 3 asks for the new
    application. *)
Lemma submitted_application_is_shown_to_its_student_and_its_company_witness :
  let s' := store (snd (applyToInternship (rt := Sample.runtime) 1%N 1%N
                          (Json (Js.JsStr (Sample.letter 50 0)))
                          (quiet Sample.store Sample.now))) in
  fst (StudentApplication.getApplicationDetails 3%N 3%N (quiet s' Sample.later))
  = ApplicationDetailsNotFound.
Proof.
  cbv zeta.
  pose proof (fun a H =>
    submitted_application_is_shown_to_its_student_and_its_company
      (rt := Sample.runtime) Sample.store Sample.now Sample.later 1%N 1%N
      (Js.JsStr (Sample.letter 50 0)) a sample_internship_ids H) as T.
  edestruct T as (i & co & ca & student & _ & _ & Hstudent & _ & _);
    [vm_compute; reflexivity|].
  exact (Hstudent 3%N).
Defined.

(** Student 1 lists their two applications. *)
Lemma my_applications_are_the_callers_witness :
  exists rows cp tp total hn hp summary,
    fst (getMyApplications (rt := Sample.runtime) (ord := Platform.ordering) 1%N
           (ApplicationsQuery.mk None None None None None None)
           (quiet Sample.store Sample.now))
    = ApplicationsListed rows cp tp total hn hp summary
    /\ pending summary + shortlisted summary + accepted summary + rejected summary
       = 2.
Proof.
  pose proof (fun rows cp tp total hn hp summary H =>
    my_applications_are_the_callers (rt := Sample.runtime)
      (ord := Platform.ordering) Sample.store Sample.now 1%N
      (ApplicationsQuery.mk None None None None None None)
      rows cp tp total hn hp summary H) as T.
  do 7 eexists. split; [vm_compute; reflexivity|].
  edestruct T as (_ & Hsum & _); [vm_compute; reflexivity|].
  exact Hsum.
Defined.

(** The recruiter of company 1 lists its three campaigns. *)
Lemma company_is_shown_exactly_its_campaigns_witness :
  exists l,
    getCampaigns (ord := Platform.ordering) 2%N (quiet Sample.store Sample.now)
    = (CampaignsListed l, quiet Sample.store Sample.now)
    /\ List.length l = 3%nat.
Proof.
  destruct (company_is_shown_exactly_its_campaigns (rt := Sample.runtime)
              (ord := Platform.ordering) Sample.store Sample.now 2%N
              Sample.recruiter Sample.acme eq_refl) as ((l & Hl & _) & _).
  exists l. split; [exact Hl|].
  vm_compute in Hl. inversion Hl. reflexivity.
Defined.
